(** * Smart study planner: the rule-based scheduling engine

    A shallow embedding of [app/controllers/study_planner_controller.py]
    (class [StudyPlannerController]) and of the pydantic records of
    [app/models/study_plan.py] it works on, followed by the properties of the
    engine stated in the specification.

    Modelling conventions.
    - Python [float] hours are rationals ([Q]): arithmetic is exact, the
      thresholds 0.01, 0.1 and 0.5 are the rationals 1/100, 1/10 and 1/2, and
      [Qeq] ([==]) is equality of values.  NaN and infinities are outside the
      model, and with them the [ValueError] Python's clock arithmetic raises
      on NaN.  Where the engine's floating-point hours can part from the
      exact ones at a threshold, a property that recomputes hours from the
      response is stated with the tolerance of the specification, 0.01h.
    - A [datetime.date] is its proleptic Gregorian ordinal
      ([date.toordinal()], 1 for 0001-01-01 up to 3652059 for 9999-12-31); date
      arithmetic that leaves this range raises [OverflowError], as in Python.
    - A [datetime.time] is the number of microseconds since midnight; a
      [datetime] is the number of microseconds since ordinal 0.  The anchor
      [datetime.today()] is a parameter [today] of the functions that read it.
    - The dicts the engine builds per subject and per topic are records; the
      engine mutates them in place through references held in filtered lists,
      which is modelled by positions in [subject_data] and write-back.
    - Code that can raise returns a [result]; [generate_study_plan_raises]
      shows that of the four exceptions of the model only [OverflowError] is
      ever raised.
    - Two components are ghosts, written and never read: the field
      [break_after] of a session (the break put on the clock after it) and the
      [revision_log] carried by the day loop (the calls to the revision
      allocator).  They let the properties speak of breaks and of calls. *)

From Stdlib Require Import ZArith QArith Qminmax List String Bool Lia Lqa.
Import ListNotations.

Open Scope Q_scope.

(** ** Exceptions *)

Inductive exn : Type :=
| OverflowError   (* date, timedelta or datetime out of range *)
| TypeError       (* arithmetic on None *)
| IndexError      (* a list position that does not exist *)
| ZeroDivisionError.

Inductive result (A : Type) : Type :=
| Ok (a : A)
| Raise (e : exn).

Arguments Ok {A} a.
Arguments Raise {A} e.

Definition bind {A B : Type} (c : result A) (k : A -> result B) : result B :=
  match c with
  | Ok a => k a
  | Raise e => Raise e
  end.

Notation "x <- c ;; k" := (bind c (fun x => k))
  (at level 61, c at next level, right associativity).
Notation "' pat <- c ;; k" := (bind c (fun x => match x with pat => k end))
  (at level 61, pat pattern, c at next level, right associativity).

(** ** Floats as rationals *)

Definition Qlt_bool (a b : Q) : bool := negb (Qle_bool b a).

(** Python's [min(a, b, c)]. *)
Definition min3 (a b c : Q) : Q := Qmin (Qmin a b) c.

(** Python's [a / b] on floats. *)
Definition float_div (a b : Q) : result Q :=
  if Qeq_bool b 0 then Raise ZeroDivisionError else Ok (a / b).

(** Round to the nearest integer, ties to even. *)
Definition round_half_even (q : Q) : Z :=
  let n := Qnum q in
  let d := Zpos (Qden q) in
  let fl := (n / d)%Z in
  let r := (n mod d)%Z in
  match (2 * r ?= d)%Z with
  | Lt => fl
  | Gt => (fl + 1)%Z
  | Eq => if Z.even fl then fl else (fl + 1)%Z
  end.

(** Python's [round(x, 1)]. *)
Definition round1 (q : Q) : Q := inject_Z (round_half_even (q * 10)) / 10.

(** ** Dates and clock times *)

Definition date : Type := Z.
Definition time : Type := Z.
Definition datetime : Type := Z.

Definition MINORDINAL : Z := 1.
Definition MAXORDINAL : Z := 3652059.
Definition US_PER_HOUR : Z := 3600000000.
Definition US_PER_DAY : Z := 86400000000.
Definition MAX_DELTA_DAYS : Z := 999999999.

(** [date.weekday()]: Monday is 0, Sunday is 6. *)
Definition weekday (d : date) : Z := ((d + 6) mod 7)%Z.

(** [d + timedelta(days=n)]. *)
Definition date_plus_days (d : date) (n : Z) : result date :=
  if (MAX_DELTA_DAYS <? Z.abs n)%Z then Raise OverflowError
  else if ((MINORDINAL <=? d + n) && (d + n <=? MAXORDINAL))%Z then Ok (d + n)%Z
  else Raise OverflowError.

(** [d - timedelta(days=n)]. *)
Definition date_minus_days (d : date) (n : Z) : result date :=
  date_plus_days d (- n).

(** [time(9, 0)]. *)
Definition nine_am : time := (9 * US_PER_HOUR)%Z.

(** [timedelta(hours=h)], in microseconds. *)
Definition timedelta_hours (h : Q) : result Z :=
  let us := round_half_even (h * inject_Z US_PER_HOUR) in
  if (MAX_DELTA_DAYS <? Z.abs (us / US_PER_DAY))%Z then Raise OverflowError
  else Ok us.

(** [datetime.combine(datetime.today(), t)]. *)
Definition datetime_combine (today : date) (t : time) : datetime :=
  (today * US_PER_DAY + t)%Z.

(** [dt + timedelta(hours=h)]. *)
Definition datetime_plus_hours (dt : datetime) (h : Q) : result datetime :=
  us <- timedelta_hours h ;;
  let r := (dt + us)%Z in
  if ((MINORDINAL * US_PER_DAY <=? r) && (r <? (MAXORDINAL + 1) * US_PER_DAY))%Z
  then Ok r else Raise OverflowError.

(** [dt.time()]. *)
Definition datetime_time (dt : datetime) : time := (dt mod US_PER_DAY)%Z.

(** ** The pydantic records *)

Inductive Importance : Type := High | Medium | Low.

Inductive SessionType : Type := regular | revision.

Definition Importance_eqb (a b : Importance) : bool :=
  match a, b with
  | High, High | Medium, Medium | Low, Low => true
  | _, _ => false
  end.

Definition SessionType_eqb (a b : SessionType) : bool :=
  match a, b with
  | regular, regular | revision, revision => true
  | _, _ => false
  end.

Record Topic : Type := {
  topic_name : string;
  estimated_hours : Q;
  topic_difficulty : option Z;
  topic_completed : option bool
}.

Record Subject : Type := {
  subject_id : option Z;
  subject_name : string;
  subject_topics : list Topic;
  exam_date : option date;
  importance : Importance;
  subject_difficulty : option Z
}.

(** [break_after] is a ghost field: the gap the allocator put on the clock
    right after this session (0 when it put none).  No function reads it; it
    only lets the day-budget property speak about breaks. *)
Record StudySession : Type := {
  session_subject : string;
  session_topic : string;
  session_date : date;
  start_time : time;
  end_time : time;
  duration_hours : Q;
  session_type : SessionType;
  break_after : Q
}.

Record StudyDay : Type := {
  day_date : date;
  sessions : list StudySession
}.

(** The fields of [StudyPreferences] the controller reads ([time_blocks],
    [study_style] and [session_length] are never read), and [weekly_revision],
    declared and unused. *)
Record StudyPreferences : Type := {
  weekday_hours : Q;
  weekend_hours : Q;
  break_duration : Q;
  session_duration : Q;
  revision_days_before : Z;
  weekly_revision : bool;
  break_days : option (list date)
}.

Record StudyPlanRequest : Type := {
  subjects : list Subject;
  start_date : date;
  end_date : date;
  preferences : StudyPreferences
}.

Record Unallocated : Type := {
  un_subject : string;
  un_topic : string;
  hours_remaining : Q
}.

Record StudyPlanResponse : Type := {
  days : list StudyDay;
  total_study_hours : Q;
  subjects_distribution : list (string * Q);
  insufficient_time : bool;
  total_hours_needed : Q;
  available_hours : Q;
  unallocated_topics : list Unallocated
}.

(** ** The engine's working dicts *)

Record TopicData : Type := {
  t_name : string;
  hours_needed : Q;
  remaining_hours : Q;
  t_difficulty : option Z;
  completed : bool
}.

Record SubjectData : Type := {
  s_name : string;
  s_exam_date : option date;
  s_importance : Importance;
  topics : list TopicData;
  current_topic_index : nat;
  needs_revision : bool;
  revision_completed : bool;
  subject_completed : bool
}.

Definition set_remaining_hours (t : TopicData) (h : Q) : TopicData :=
  {| t_name := t_name t; hours_needed := hours_needed t; remaining_hours := h;
     t_difficulty := t_difficulty t; completed := completed t |}.

Definition set_completed (t : TopicData) (b : bool) : TopicData :=
  {| t_name := t_name t; hours_needed := hours_needed t;
     remaining_hours := remaining_hours t;
     t_difficulty := t_difficulty t; completed := b |}.

Definition set_topics (s : SubjectData) (ts : list TopicData) : SubjectData :=
  {| s_name := s_name s; s_exam_date := s_exam_date s;
     s_importance := s_importance s; topics := ts;
     current_topic_index := current_topic_index s;
     needs_revision := needs_revision s;
     revision_completed := revision_completed s;
     subject_completed := subject_completed s |}.

Definition set_current_topic_index (s : SubjectData) (i : nat) : SubjectData :=
  {| s_name := s_name s; s_exam_date := s_exam_date s;
     s_importance := s_importance s; topics := topics s;
     current_topic_index := i;
     needs_revision := needs_revision s;
     revision_completed := revision_completed s;
     subject_completed := subject_completed s |}.

Definition set_revision_completed (s : SubjectData) (b : bool) : SubjectData :=
  {| s_name := s_name s; s_exam_date := s_exam_date s;
     s_importance := s_importance s; topics := topics s;
     current_topic_index := current_topic_index s;
     needs_revision := needs_revision s;
     revision_completed := b;
     subject_completed := subject_completed s |}.

Definition set_subject_completed (s : SubjectData) (b : bool) : SubjectData :=
  {| s_name := s_name s; s_exam_date := s_exam_date s;
     s_importance := s_importance s; topics := topics s;
     current_topic_index := current_topic_index s;
     needs_revision := needs_revision s;
     revision_completed := revision_completed s;
     subject_completed := b |}.

(** [l[i] = x] for a position that exists (the engine never writes elsewhere). *)
Fixpoint update_nth {A : Type} (i : nat) (x : A) (l : list A) : list A :=
  match l, i with
  | [], _ => []
  | _ :: l', O => x :: l'
  | y :: l', S i' => y :: update_nth i' x l'
  end.

(** What an allocator leaves behind: the subject's dict and [day_sessions]
    (both mutated in place) and the pair it returns, hours used and clock. *)
Definition Allocation : Type := SubjectData * list StudySession * Q * time.

Definition res_subject (r : Allocation) : SubjectData := fst (fst (fst r)).
Definition res_sessions (r : Allocation) : list StudySession := snd (fst (fst r)).
Definition res_used (r : Allocation) : Q := snd (fst r).
Definition res_time (r : Allocation) : time := snd r.

(** ** [_add_regular_session] *)

(** The test of line 355: the topic needs no more work. *)
Definition topic_done (t : TopicData) : bool :=
  Qle_bool (remaining_hours t) (1 # 100) || completed t.

(** The [while]/[continue] of lines 352-358 over the topics from the cursor
    on: the cursor after skipping finished topics, and the topic found there
    ([None] when the cursor ran past the last topic). *)
Fixpoint advance_cursor (rest : list TopicData) (idx : nat)
  : nat * option TopicData :=
  match rest with
  | [] => (idx, None)
  | t :: rest' =>
      if topic_done t then advance_cursor rest' (S idx) else (idx, Some t)
  end.

Definition _add_regular_session (today : date)
    (subject : SubjectData) (current_date : date) (current_time : time)
    (available_hours max_session_duration break_duration : Q)
    (day_sessions : list StudySession)
  : result Allocation :=
  if subject_completed subject then Ok (subject, day_sessions, 0, current_time)
  else
    match advance_cursor (skipn (current_topic_index subject) (topics subject))
                         (current_topic_index subject) with
    | (idx, None) =>
        (* all topics are complete *)
        Ok (set_subject_completed (set_current_topic_index subject idx) true,
            day_sessions, 0, current_time)
    | (idx, Some topic) =>
        let session_duration :=
          min3 max_session_duration available_hours (remaining_hours topic) in
        end_time_dt <- datetime_plus_hours
                         (datetime_combine today current_time) session_duration ;;
        let end_time := datetime_time end_time_dt in
        let take_break :=
          Qlt_bool (1 # 100) (available_hours - session_duration) in
        let session :=
          {| session_subject := s_name subject;
             session_topic := t_name topic;
             session_date := current_date;
             start_time := current_time;
             end_time := end_time;
             duration_hours := session_duration;
             session_type := regular;
             break_after := if take_break then break_duration else 0 |} in
        let topic1 :=
          set_remaining_hours topic (remaining_hours topic - session_duration) in
        let finished := Qle_bool (remaining_hours topic1) (1 # 100) in
        let topic2 := if finished then set_completed topic1 true else topic1 in
        let subject1 :=
          set_current_topic_index
            (set_topics subject (update_nth idx topic2 (topics subject)))
            (if finished then S idx else idx) in
        if take_break then
          break_end_dt <- datetime_plus_hours end_time_dt break_duration ;;
          Ok (subject1, day_sessions ++ [session],
              session_duration + break_duration, datetime_time break_end_dt)
        else
          Ok (subject1, day_sessions ++ [session], session_duration, end_time)
    end.

(** ** [_add_revision_session] *)

Definition revision_label (name : string) : string :=
  ("Revision: " ++ name)%string.

(** The loop state of lines 432-479. *)
Record RevisionLoop : Type := {
  topics_revised : nat;
  remaining_time : Q;
  hours_used : Q;
  current_session_time : time;
  rl_sessions : list StudySession
}.

(** The [while] of line 435, one topic of [rest] per iteration
    ([topic_index] is the position of the head of [rest]). *)
Fixpoint revision_loop (today : date) (name : string) (current_date : date)
    (max_session_duration break_duration time_per_topic : Q)
    (topics_to_revise : nat) (rest : list TopicData) (st : RevisionLoop)
  : result RevisionLoop :=
  match rest with
  | [] => Ok st
  | topic :: rest' =>
      if (topics_revised st <? topics_to_revise)%nat
         && Qlt_bool (1 # 10) (remaining_time st) then
        let session_duration :=
          min3 max_session_duration (remaining_time st) time_per_topic in
        if Qlt_bool session_duration (1 # 10) then
          (* skip if less than 6 minutes *)
          revision_loop today name current_date max_session_duration
            break_duration time_per_topic topics_to_revise rest' st
        else
          end_time_dt <- datetime_plus_hours
                           (datetime_combine today (current_session_time st))
                           session_duration ;;
          let end_time := datetime_time end_time_dt in
          let remaining1 := remaining_time st - session_duration in
          let take_break := Qlt_bool (1 # 10) remaining1 in
          let session :=
            {| session_subject := name;
               session_topic := revision_label (t_name topic);
               session_date := current_date;
               start_time := current_session_time st;
               end_time := end_time;
               duration_hours := session_duration;
               session_type := revision;
               break_after := if take_break then break_duration else 0 |} in
          st1 <- (if take_break then
                    break_end_dt <- datetime_plus_hours end_time_dt break_duration ;;
                    Ok {| topics_revised := S (topics_revised st);
                          remaining_time := remaining1 - break_duration;
                          hours_used :=
                            hours_used st + session_duration + break_duration;
                          current_session_time := datetime_time break_end_dt;
                          rl_sessions := rl_sessions st ++ [session] |}
                  else
                    Ok {| topics_revised := S (topics_revised st);
                          remaining_time := remaining1;
                          hours_used := hours_used st + session_duration;
                          current_session_time := end_time;
                          rl_sessions := rl_sessions st ++ [session] |}) ;;
          revision_loop today name current_date max_session_duration
            break_duration time_per_topic topics_to_revise rest' st1
      else Ok st
  end.

(** Line 423: the topics not flagged completed. *)
Definition total_topics (subject : SubjectData) : nat :=
  List.length (filter (fun t => negb (completed t)) (topics subject)).

Definition _add_revision_session (today : date)
    (subject : SubjectData) (current_date : date) (current_time : time)
    (available_hours max_session_duration break_duration : Q)
    (day_sessions : list StudySession)
  : result Allocation :=
  if revision_completed subject || subject_completed subject
  then Ok (subject, day_sessions, 0, current_time)
  else
    let topics_to_revise := Nat.min (total_topics subject) 5 in
    if (topics_to_revise =? 0)%nat then Ok (subject, day_sessions, 0, current_time)
    else
      per_topic <- float_div available_hours
                     (inject_Z (Z.of_nat topics_to_revise)) ;;
      let time_per_topic := Qmin (1 # 2) per_topic in
      st <- revision_loop today (s_name subject) current_date
              max_session_duration break_duration time_per_topic
              topics_to_revise (topics subject)
              {| topics_revised := 0; remaining_time := available_hours;
                 hours_used := 0; current_session_time := current_time;
                 rl_sessions := day_sessions |} ;;
      let subject1 :=
        if (Nat.min 3 (total_topics subject) <=? topics_revised st)%nat
        then set_revision_completed subject true else subject in
      Ok (subject1, rl_sessions st, hours_used st, current_session_time st).

(** ** [_generate_rule_based_schedule] *)

(** Lines 113-133: the working dicts, built fresh from the request. *)
Definition prepare_topic (topic : Topic) : TopicData :=
  {| t_name := topic_name topic;
     hours_needed := estimated_hours topic;
     remaining_hours := estimated_hours topic;
     t_difficulty := topic_difficulty topic;
     completed := false |}.

Definition prepare_subject (subject : Subject) : SubjectData :=
  {| s_name := subject_name subject;
     s_exam_date := exam_date subject;
     s_importance := importance subject;
     topics := map prepare_topic (subject_topics subject);
     current_topic_index := 0;
     needs_revision := match exam_date subject with Some _ => true | None => false end;
     revision_completed := false;
     subject_completed := false |}.

(** The local variables of one iteration of the day loop.
    [high_importance_coverage] is the set stored under the key [current_date]
    (no other key is read).  [revision_log] is a ghost variable: the positions
    of the subjects handed to [_add_revision_session] so far in the plan,
    latest first; no function reads it. *)
Record DayState : Type := {
  subject_data : list SubjectData;
  hours_left : Q;
  current_time : time;
  day_sessions : list StudySession;
  high_importance_coverage : list string;
  revision_log : list nat
}.

Definition is_weekend (d : date) : bool := (5 <=? weekday d)%Z.

Definition is_break_day (preferences : StudyPreferences) (d : date) : bool :=
  match break_days preferences with
  | None => false
  | Some l => existsb (Z.eqb d) l
  end.

Definition day_budget (preferences : StudyPreferences) (d : date) : Q :=
  if is_weekend d then weekend_hours preferences else weekday_hours preferences.

(** The positions in [subject_data] of the dicts a list comprehension keeps. *)
Definition positions_where (p : SubjectData -> bool) (sd : list SubjectData)
  : list nat :=
  map fst (filter (fun x => p (snd x)) (combine (seq 0 (List.length sd)) sd)).

Definition covered (name : string) (coverage : list string) : bool :=
  existsb (String.eqb name) coverage.

Section Day.

Variable today : date.
Variable preferences : StudyPreferences.
Variable current_date : date.

(** The call pattern of lines 182-187 (and 221-226, 256-261, 288-293):
    delegate to the revision allocator, charge the hours, and set the
    subject's [revision_completed]. *)
Definition revise (i : nat) (subject : SubjectData) (budget : Q)
    (st : DayState) : result DayState :=
  '(subject', sessions', used, time') <-
    _add_revision_session today subject current_date (current_time st) budget
      (session_duration preferences) (break_duration preferences)
      (day_sessions st) ;;
  Ok {| subject_data :=
          update_nth i (set_revision_completed subject' true) (subject_data st);
        hours_left := hours_left st - used;
        current_time := time';
        day_sessions := sessions';
        high_importance_coverage := high_importance_coverage st;
        revision_log := i :: revision_log st |}.

(** The call pattern of lines 190-194 (and 230-234, 265-269, 297-301). *)
Definition study (i : nat) (subject : SubjectData) (budget : Q)
    (st : DayState) : result DayState :=
  '(subject', sessions', used, time') <-
    _add_regular_session today subject current_date (current_time st) budget
      (session_duration preferences) (break_duration preferences)
      (day_sessions st) ;;
  Ok {| subject_data := update_nth i subject' (subject_data st);
        hours_left := hours_left st - used;
        current_time := time';
        day_sessions := sessions';
        high_importance_coverage := high_importance_coverage st;
        revision_log := revision_log st |}.

Definition mark_covered (name : string) (st : DayState) : DayState :=
  {| subject_data := subject_data st;
     hours_left := hours_left st;
     current_time := current_time st;
     day_sessions := day_sessions st;
     high_importance_coverage := name :: high_importance_coverage st;
     revision_log := revision_log st |}.

(** [current_date == revision_day and not subject["revision_completed"]]. *)
Definition needs_revision_today (subject : SubjectData) (revision_day : date)
  : bool :=
  (current_date =? revision_day)%Z && negb (revision_completed subject).

(** A [for subject in ...] loop over the kept positions; every such loop
    opens with [if hours_left < 0.5: break]. *)
Fixpoint for_subjects (body : nat -> SubjectData -> DayState -> result DayState)
    (l : list nat) (st : DayState) : result DayState :=
  match l with
  | [] => Ok st
  | i :: l' =>
      if Qlt_bool (hours_left st) (1 # 2) then Ok st
      else
        match nth_error (subject_data st) i with
        | None => Raise IndexError
        | Some subject =>
            st' <- body i subject st ;;
            for_subjects body l' st'
        end
  end.

(** Step 1 (lines 163-198). *)
Definition is_urgent (s : SubjectData) : bool :=
  match s_exam_date s with
  | Some e =>
      negb (subject_completed s) && (e - current_date <? 5)%Z
      && (current_date <=? e)%Z
  | None => false
  end.

Definition urgent_body (i : nat) (subject : SubjectData) (st : DayState)
  : result DayState :=
  let target_hours := Qmin 2 (hours_left st) in
  match s_exam_date subject with
  | None => Raise TypeError
  | Some e =>
      revision_day <- date_minus_days e (revision_days_before preferences) ;;
      st' <- (if needs_revision_today subject revision_day
              then revise i subject target_hours st
              else study i subject target_hours st) ;;
      Ok (match s_importance subject with
          | High => mark_covered (s_name subject) st'
          | _ => st'
          end)
  end.

(** Step 2 (lines 201-237). *)
Definition is_high_uncovered (coverage : list string) (s : SubjectData) : bool :=
  Importance_eqb (s_importance s) High && negb (subject_completed s)
  && negb (covered (s_name s) coverage).

Definition regular_high (i : nat) (subject : SubjectData) (target_hours : Q)
    (st : DayState) : result DayState :=
  st' <- study i subject target_hours st ;;
  Ok (mark_covered (s_name subject) st').

Definition high_body (i : nat) (subject : SubjectData) (st : DayState)
  : result DayState :=
  let target_hours := Qmin 1 (hours_left st) in
  match s_exam_date subject with
  | Some e =>
      revision_day <- date_minus_days e (revision_days_before preferences) ;;
      if needs_revision_today subject revision_day
      then revise i subject target_hours st
      else regular_high i subject target_hours st
  | None => regular_high i subject target_hours st
  end.

(** Steps 3 and 4 (lines 240-301): the same body for Medium and Low. *)
Definition has_importance (imp : Importance) (s : SubjectData) : bool :=
  Importance_eqb (s_importance s) imp && negb (subject_completed s).

Definition tier_body (i : nat) (subject : SubjectData) (st : DayState)
  : result DayState :=
  match s_exam_date subject with
  | Some e =>
      revision_day <- date_minus_days e (revision_days_before preferences) ;;
      if needs_revision_today subject revision_day
      then revise i subject (hours_left st) st
      else study i subject (hours_left st) st
  | None => study i subject (hours_left st) st
  end.

(** Lines 146-160: the locals of a schedulable day. *)
Definition start_of_day (sd : list SubjectData) (log : list nat) : DayState :=
  {| subject_data := sd;
     hours_left := day_budget preferences current_date;
     current_time := nine_am;
     day_sessions := [];
     high_importance_coverage := [];
     revision_log := log |}.

(** Lines 162-301: the four passes. *)
Definition run_passes (st0 : DayState) : result DayState :=
  st1 <- for_subjects urgent_body
           (positions_where is_urgent (subject_data st0)) st0 ;;
  st2 <- for_subjects high_body
           (positions_where
              (is_high_uncovered (high_importance_coverage st1))
              (subject_data st1)) st1 ;;
  st3 <- for_subjects tier_body
           (positions_where (has_importance Medium) (subject_data st2)) st2 ;;
  for_subjects tier_body
    (positions_where (has_importance Low) (subject_data st3)) st3.

End Day.

(** Lines 311-333: the completion check run after the date has advanced. *)
Definition all_topics_done (subject : SubjectData) : bool :=
  forallb topic_done (topics subject).

Definition exam_passed (subject : SubjectData) (d : date) : bool :=
  match s_exam_date subject with
  | Some e => (e <? d)%Z
  | None => false
  end.

Definition should_complete (subject : SubjectData) (d : date) : bool :=
  exam_passed subject d
  || (all_topics_done subject
      && (revision_completed subject || negb (needs_revision subject))).

Definition left_over (t : TopicData) : bool :=
  Qlt_bool (1 # 100) (remaining_hours t) && negb (completed t).

Definition unallocated_entry (subject : SubjectData) (t : TopicData) : Unallocated :=
  {| un_subject := s_name subject;
     un_topic := t_name t;
     hours_remaining := round1 (remaining_hours t) |}.

Definition check_subject (d : date) (subject : SubjectData)
  : SubjectData * list Unallocated :=
  if subject_completed subject then (subject, [])
  else if should_complete subject d then
    (set_subject_completed subject true,
     map (unallocated_entry subject) (filter left_over (topics subject)))
  else (subject, []).

Fixpoint check_completed (d : date) (sd : list SubjectData)
  : list SubjectData * list Unallocated :=
  match sd with
  | [] => ([], [])
  | subject :: sd' =>
      let '(subject', un) := check_subject d subject in
      let '(sd'', un') := check_completed d sd' in
      (subject' :: sd'', un ++ un')
  end.

(** What the day loop carries from one day to the next. *)
Record Plan : Type := {
  plan_subject_data : list SubjectData;
  plan_days : list StudyDay;
  plan_unallocated : list Unallocated;
  plan_revision_log : list nat
}.

(** Lines 304-333: record the day if it has sessions, then run the completion
    check against the advanced date [next]. *)
Definition end_of_day (current_date next : date) (p : Plan) (st : DayState)
  : Plan :=
  let days1 :=
    match day_sessions st with
    | [] => plan_days p
    | _ :: _ =>
        plan_days p ++ [{| day_date := current_date;
                           sessions := day_sessions st |}]
    end in
  let '(sd', un) := check_completed next (subject_data st) in
  {| plan_subject_data := sd';
     plan_days := days1;
     plan_unallocated := plan_unallocated p ++ un;
     plan_revision_log := revision_log st |}.

(** Lines 140-333, one iteration per calendar day: [n] is the number of dates
    from [current_date] to [end_date], so the guard
    [current_date <= end_date] holds exactly while [n] is not 0. *)
Fixpoint day_loop (today : date) (preferences : StudyPreferences)
    (n : nat) (current_date : date) (p : Plan) : result Plan :=
  match n with
  | O => Ok p
  | S n' =>
      if is_break_day preferences current_date then
        next <- date_plus_days current_date 1 ;;
        day_loop today preferences n' next p
      else
        st <- run_passes today preferences current_date
                (start_of_day preferences current_date
                   (plan_subject_data p) (plan_revision_log p)) ;;
        next <- date_plus_days current_date 1 ;;
        day_loop today preferences n' next (end_of_day current_date next p st)
  end.

(** The number of dates in the inclusive range (0 when it is inverted). *)
Definition day_count (start_date end_date : date) : nat :=
  Z.to_nat (end_date - start_date + 1).

Definition initial_plan (subjects : list Subject) : Plan :=
  {| plan_subject_data := map prepare_subject subjects;
     plan_days := [];
     plan_unallocated := [];
     plan_revision_log := [] |}.

Definition schedule (today : date) (subjects : list Subject)
    (start_date end_date : date) (preferences : StudyPreferences)
  : result Plan :=
  day_loop today preferences (day_count start_date end_date) start_date
    (initial_plan subjects).

Definition _generate_rule_based_schedule (today : date) (subjects : list Subject)
    (start_date end_date : date) (preferences : StudyPreferences)
  : result (list StudyDay * list Unallocated) :=
  p <- schedule today subjects start_date end_date preferences ;;
  Ok (plan_days p, plan_unallocated p).

(** ** [generate_study_plan] *)

(** Lines 29-39. *)
Definition subject_hours (subject : Subject) : Q :=
  let h := fold_left (fun acc topic => acc + estimated_hours topic)
             (subject_topics subject) 0 in
  match exam_date subject with
  | Some _ => h + h * (1 # 2)
  | None => h
  end.

Definition total_study_hours_needed (subjects : list Subject) : Q :=
  fold_left (fun acc subject => acc + subject_hours subject) subjects 0.

(** Lines 42-60. *)
Fixpoint available_loop (preferences : StudyPreferences) (n : nat)
    (current_date : date) (available_study_hours : Q) : result Q :=
  match n with
  | O => Ok available_study_hours
  | S n' =>
      if is_break_day preferences current_date then
        next <- date_plus_days current_date 1 ;;
        available_loop preferences n' next available_study_hours
      else
        let available1 :=
          available_study_hours + day_budget preferences current_date in
        next <- date_plus_days current_date 1 ;;
        available_loop preferences n' next available1
  end.

Definition available_study_hours (start_date end_date : date)
    (preferences : StudyPreferences) : result Q :=
  available_loop preferences (day_count start_date end_date) start_date 0.

Definition all_sessions (ds : list StudyDay) : list StudySession :=
  flat_map sessions ds.

(** Lines 77-82: the dict keeps insertion order. *)
Fixpoint distribution_add (name : string) (h : Q) (dist : list (string * Q))
  : list (string * Q) :=
  match dist with
  | [] => [(name, 0 + h)]
  | (k, v) :: dist' =>
      if String.eqb k name then (k, v + h) :: dist'
      else (k, v) :: distribution_add name h dist'
  end.

Definition generate_study_plan (today : date) (plan_request : StudyPlanRequest)
  : result StudyPlanResponse :=
  let subjects := subjects plan_request in
  let start_date := start_date plan_request in
  let end_date := end_date plan_request in
  let preferences := preferences plan_request in
  let needed := total_study_hours_needed subjects in
  available <- available_study_hours start_date end_date preferences ;;
  let insufficient := Qlt_bool available needed in
  '(days, unallocated) <-
    _generate_rule_based_schedule today subjects start_date end_date preferences ;;
  Ok {| days := days;
        total_study_hours :=
          fold_left (fun acc s => acc + duration_hours s) (all_sessions days) 0;
        subjects_distribution :=
          fold_left (fun dist s =>
                       distribution_add (session_subject s) (duration_hours s) dist)
                    (all_sessions days) [];
        insufficient_time := insufficient;
        total_hours_needed := needed;
        available_hours := available;
        unallocated_topics := unallocated |}.


(** * The vocabulary of the properties *)

(** ** The outcomes of the regular allocator *)

(** The dict of a topic after a regular session of [dur] hours on it. *)
Definition worked_topic (topic : TopicData) (dur : Q) : TopicData :=
  {| t_name := t_name topic;
     hours_needed := hours_needed topic;
     remaining_hours := remaining_hours topic - dur;
     t_difficulty := t_difficulty topic;
     completed := Qle_bool (remaining_hours topic - dur) (1 # 100) |}.

(** The three ways a call to [_add_regular_session] can end, with what it
    leaves in the subject's dict, in [day_sessions] and in the hours it
    returns: nothing to do on a completed subject; the cursor run past the
    last topic; one session on the topic under the cursor. *)
Inductive regular_outcome (subject : SubjectData) (d : date) (t0 : time)
    (avail max brk : Q) (ds : list StudySession)
  : SubjectData -> list StudySession -> Q -> Prop :=
| RegularIdle :
    subject_completed subject = true ->
    regular_outcome subject d t0 avail max brk ds subject ds 0
| RegularExhausted (idx : nat) :
    subject_completed subject = false ->
    (current_topic_index subject <= idx)%nat ->
    (List.length (topics subject) <= idx)%nat ->
    (forall k t, (current_topic_index subject <= k)%nat ->
                 nth_error (topics subject) k = Some t -> topic_done t = true) ->
    regular_outcome subject d t0 avail max brk ds
      (set_subject_completed (set_current_topic_index subject idx) true) ds 0
| RegularSession (idx : nat) (topic : TopicData) (t_end : time) (used : Q) :
    subject_completed subject = false ->
    (current_topic_index subject <= idx)%nat ->
    nth_error (topics subject) idx = Some topic ->
    topic_done topic = false ->
    let dur := min3 max avail (remaining_hours topic) in
    let gap := if Qlt_bool (1 # 100) (avail - dur) then brk else 0 in
    used == dur + gap ->
    regular_outcome subject d t0 avail max brk ds
      (set_current_topic_index
         (set_topics subject
            (update_nth idx (worked_topic topic dur) (topics subject)))
         (if completed (worked_topic topic dur) then S idx else idx))
      (ds ++ [{| session_subject := s_name subject;
                 session_topic := t_name topic;
                 session_date := d;
                 start_time := t0;
                 end_time := t_end;
                 duration_hours := dur;
                 session_type := regular;
                 break_after := gap |}])
      used.

(** What the response shows of a regular session on [topic]. *)
Record regular_session (subject : SubjectData) (d : date) (avail max : Q)
    (topic : TopicData) (s : StudySession) : Prop := {
  rs_subject : session_subject s = s_name subject;
  rs_topic : session_topic s = t_name topic;
  rs_date : session_date s = d;
  rs_type : session_type s = regular;
  rs_duration : duration_hours s = min3 max avail (remaining_hours topic)
}.

(** ** Time on the clock *)

(** Hours a list of sessions takes on the clock, trailing break included. *)
Definition clock_used (l : list StudySession) : Q :=
  fold_right (fun s acc => duration_hours s + break_after s + acc) 0 l.

(** The sessions of a day and the breaks between them: as [clock_used], the
    break after the last session left out. *)
Fixpoint day_load (l : list StudySession) : Q :=
  match l with
  | [] => 0
  | s :: l' =>
      match l' with
      | [] => duration_hours s
      | _ :: _ => duration_hours s + break_after s + day_load l'
      end
  end.

(** [timedelta(hours=h)] in microseconds. *)
Definition gap_us (h : Q) : Z := round_half_even (h * inject_Z US_PER_HOUR).

(** The clock once a session and the break recorded after it are over. *)
Definition clock_past (s : StudySession) : time :=
  ((end_time s + gap_us (break_after s)) mod US_PER_DAY)%Z.

(** Sessions that follow one another on the clock from [t] on: each starts
    where the one before it ended, moved by the break recorded after that
    one.  This is what ties the ghost field [break_after] to the times the
    response shows. *)
Fixpoint clock_chained (t : time) (l : list StudySession) : Prop :=
  match l with
  | [] => True
  | s :: l' => start_time s = t /\ clock_chained (clock_past s) l'
  end.

(** The clock after the sessions [l], started at [t]. *)
Fixpoint clock_after (t : time) (l : list StudySession) : time :=
  match l with
  | [] => t
  | s :: l' => clock_after (clock_past s) l'
  end.

(** ** The outcomes of the revision allocator *)

(** A revision session of the subject [name] on the date [d]. *)
Definition revision_session_of (name : string) (d : date) (s : StudySession)
  : Prop :=
  session_subject s = name /\ session_date s = d /\ session_type s = revision.

(** The slices of a revision batch against the budget [rem] still open when
    the batch starts: each session takes
    [min(session_duration, remaining budget, time_per_topic)], is at least six
    minutes long, and is followed by a break exactly when more than six
    minutes of budget remain after it. *)
Fixpoint revision_slices (max brk tpt rem : Q) (batch : list StudySession)
  : Prop :=
  match batch with
  | [] => True
  | s :: batch' =>
      1 # 10 < rem /\
      duration_hours s == min3 max rem tpt /\
      1 # 10 <= duration_hours s /\
      break_after s
        == (if Qlt_bool (1 # 10) (rem - duration_hours s) then brk else 0) /\
      revision_slices max brk tpt
        (rem - duration_hours s - break_after s) batch'
  end.

(** The labels of the revision sessions of the topics [ts]. *)
Definition revision_labels (ts : list TopicData) : list string :=
  map (fun t => revision_label (t_name t)) ts.

(** What a run of the revision loop from [st] to [st'] over the topics
    [rest] adds: the sessions [batch]. *)
Record revision_batch (name : string) (d : date) (max brk tpt : Q) (n : nat)
    (rest : list TopicData) (st st' : RevisionLoop)
    (batch : list StudySession) : Prop := {
  rb_sessions : rl_sessions st' = rl_sessions st ++ batch;
  rb_revised :
    topics_revised st' = (topics_revised st + List.length batch)%nat;
  rb_quota : (topics_revised st <= n)%nat -> (topics_revised st' <= n)%nat;
  rb_used : hours_used st' == hours_used st + clock_used batch;
  rb_remaining : remaining_time st' == remaining_time st - clock_used batch;
  rb_slices : revision_slices max brk tpt (remaining_time st) batch;
  rb_kind : Forall (revision_session_of name d) batch;
  rb_labels :
    map session_topic batch = revision_labels (firstn (List.length batch) rest);
  rb_stop :
    List.length batch = List.length rest
    \/ (n <= topics_revised st')%nat
    \/ remaining_time st' <= 1 # 10
    \/ (batch = [] /\ Qmin max tpt < 1 # 10)
}.

(** The two ways a call to [_add_revision_session] can end: an early return,
    or a batch of sessions on the first topics of the list. *)
Inductive revision_outcome (subject : SubjectData) (d : date)
    (avail max brk : Q) (ds : list StudySession)
  : SubjectData -> list StudySession -> Q -> Prop :=
| RevisionIdle :
    revision_completed subject = true \/ subject_completed subject = true
    \/ total_topics subject = 0%nat ->
    revision_outcome subject d avail max brk ds subject ds 0
| RevisionBatch (batch : list StudySession) (used : Q) :
    revision_completed subject = false ->
    subject_completed subject = false ->
    let n := Nat.min (total_topics subject) 5 in
    let tpt := Qmin (1 # 2) (avail / inject_Z (Z.of_nat n)) in
    (0 < n)%nat ->
    (List.length batch <= n)%nat ->
    used == clock_used batch ->
    revision_slices max brk tpt avail batch ->
    Forall (revision_session_of (s_name subject) d) batch ->
    map session_topic batch
      = revision_labels (firstn (List.length batch) (topics subject)) ->
    (List.length batch = n
     \/ avail - used <= 1 # 10
     \/ (batch = [] /\ Qmin max tpt < 1 # 10)) ->
    revision_outcome subject d avail max brk ds
      (if (Nat.min 3 (total_topics subject) <=? List.length batch)%nat
       then set_revision_completed subject true else subject)
      (ds ++ batch) used.

(** ** Invariants of the engine *)

(** A loop body keeps [I] on the states a pass can be in. *)
Definition body_keeps (I : DayState -> Prop)
    (body : nat -> SubjectData -> DayState -> result DayState) : Prop :=
  forall i subject st st',
    I st -> nth_error (subject_data st) i = Some subject ->
    1 # 2 <= hours_left st -> body i subject st = Ok st' -> I st'.

(** The bounds on a session's length. *)
Definition duration_ok (preferences : StudyPreferences) (s : StudySession) : Prop :=
  duration_hours s <= session_duration preferences
  /\ (0 < session_duration preferences -> 0 < duration_hours s).

(** The parts of a topic's dict and of a subject's dict that no code path
    writes. *)
Definition topic_key (t : TopicData) : string * Q := (t_name t, hours_needed t).

Definition subject_key (s : SubjectData)
  : string * option date * Importance * bool * list (string * Q) :=
  (s_name s, s_exam_date s, s_importance s, needs_revision s,
   map topic_key (topics s)).

Definition same_key (a b : SubjectData) : Prop := subject_key a = subject_key b.

(** A topic flagged completed has no work left, and the hours left on a topic
    estimated at no less than zero never go below zero. *)
Definition topic_ok (t : TopicData) : Prop :=
  (completed t = true -> remaining_hours t <= 1 # 100)
  /\ (0 <= hours_needed t -> 0 <= remaining_hours t).

Definition topics_ok (s : SubjectData) : Prop := Forall topic_ok (topics s).

(** A revision session carries the name of a subject that has an exam date,
    and is dated [exam_date - revision_days_before]. *)
Definition revision_dated (sd0 : list SubjectData) (rdb : Z) (s : StudySession)
  : Prop :=
  session_type s = revision ->
  exists a e,
    In a sd0 /\ s_name a = session_subject s /\ s_exam_date a = Some e
    /\ session_date s = (e - rdb)%Z.

(** The revision log lists no subject twice, and every subject it lists has
    [revision_completed] set. *)
Definition log_ok (sd : list SubjectData) (log : list nat) : Prop :=
  NoDup log
  /\ forall i, In i log ->
       exists s, nth_error sd i = Some s /\ revision_completed s = true.

Definition is_revision_of (name : string) (s : StudySession) : bool :=
  SessionType_eqb (session_type s) revision && String.eqb (session_subject s) name.

(** The revision sessions carrying a subject's name, in plan order. *)
Definition revision_sessions_of (name : string) (l : list StudySession)
  : list StudySession :=
  filter (is_revision_of name) l.

(** The revision sessions carrying the name of a subject are not there
    before the subject's revision is marked completed, and they are one
    session for each of its first [k] topics, [k <= 5]. *)
Definition batches_ok (sd0 sd : list SubjectData) (all : list StudySession)
  : Prop :=
  forall i a s,
    nth_error sd0 i = Some a -> nth_error sd i = Some s ->
    (revision_completed s = false -> revision_sessions_of (s_name a) all = [])
    /\ exists k,
         (k <= 5)%nat
         /\ map session_topic (revision_sessions_of (s_name a) all)
            = revision_labels (firstn k (topics a)).

(** ** Demand, supply and the ledger of regular hours *)

(** The sum of a list of hours. *)
Fixpoint Qsum (l : list Q) : Q :=
  match l with
  | [] => 0
  | x :: l' => x + Qsum l'
  end.

(** 1.5 for a subject with an exam date, 1 otherwise. *)
Definition revision_factor (subject : Subject) : Q :=
  match exam_date subject with
  | Some _ => 3 # 2
  | None => 1
  end.

(** The demand as the specification words it. *)
Definition demand (subjects : list Subject) : Q :=
  Qsum (map (fun subject =>
               revision_factor subject
               * Qsum (map estimated_hours (subject_topics subject)))
            subjects).

(** The dates from [start_date] to [end_date], both included. *)
Definition date_range (start_date end_date : date) : list date :=
  map (fun k => (start_date + Z.of_nat k)%Z) (seq 0 (day_count start_date end_date)).

(** The supply as the specification words it: the budget of every date of
    the range that is not a break day. *)
Definition supply (start_date end_date : date) (preferences : StudyPreferences)
  : Q :=
  Qsum (map (day_budget preferences)
          (filter (fun d => negb (is_break_day preferences d))
                  (date_range start_date end_date))).

Definition is_regular_for (name tname : string) (s : StudySession) : bool :=
  SessionType_eqb (session_type s) regular
  && String.eqb (session_subject s) name
  && String.eqb (session_topic s) tname.

(** The hours of the regular sessions labelled with a subject and a topic. *)
Definition regular_hours (name tname : string) (l : list StudySession) : Q :=
  Qsum (map duration_hours (filter (is_regular_for name tname) l)).

(** The regular hours emitted for a topic are the hours taken off its
    [remaining_hours]. *)
Definition ledger_ok (sd : list SubjectData) (all : list StudySession) : Prop :=
  forall i s j t,
    nth_error sd i = Some s -> nth_error (topics s) j = Some t ->
    regular_hours (s_name s) (t_name t) all
    == hours_needed t - remaining_hours t.

(** * Concrete requests *)

Open Scope string_scope.

(** 2024-01-01, a Monday. *)
Definition monday : date := 738886%Z.

Definition today0 : date := 739000%Z.

Definition mk_topic (name : string) (h : Q) : Topic :=
  {| topic_name := name; estimated_hours := h;
     topic_difficulty := Some 3%Z; topic_completed := Some false |}.

Definition mk_subject (name : string) (ts : list Topic) (exam : option date)
    (imp : Importance) : Subject :=
  {| subject_id := None; subject_name := name; subject_topics := ts;
     exam_date := exam; importance := imp; subject_difficulty := Some 3%Z |}.

Definition mk_preferences (weekday weekend brk dur : Q) (rdb : Z)
  : StudyPreferences :=
  {| weekday_hours := weekday; weekend_hours := weekend;
     break_duration := brk; session_duration := dur;
     revision_days_before := rdb; weekly_revision := false;
     break_days := None |}.

Definition empty_response : StudyPlanResponse :=
  {| days := []; total_study_hours := 0; subjects_distribution := [];
     insufficient_time := false; total_hours_needed := 0;
     available_hours := 0; unallocated_topics := [] |}.

Definition response_of (r : result StudyPlanResponse) : StudyPlanResponse :=
  match r with
  | Ok resp => resp
  | Raise _ => empty_response
  end.

(** The scenario of the specification: Math, topics A (3h) and B (2h), exam
    ten days after the start, High, two hours on weekdays, fourteen days. *)
Definition req_math : StudyPlanRequest :=
  {| subjects :=
       [mk_subject "Math" [mk_topic "A" 3; mk_topic "B" 2]
          (Some (monday + 10)%Z) High];
     start_date := monday;
     end_date := (monday + 13)%Z;
     preferences := mk_preferences 2 5 (1 # 4) (3 # 2) 2 |}.

Definition resp_math : StudyPlanResponse :=
  Eval vm_compute in response_of (generate_study_plan today0 req_math).

(** A single day with sessions of length zero allowed. *)
Definition req_zero_length : StudyPlanRequest :=
  {| subjects := [mk_subject "Math" [mk_topic "A" 1] None Medium];
     start_date := monday;
     end_date := monday;
     preferences := mk_preferences 1 5 (1 # 4) 0 2 |}.

Definition resp_zero_length : StudyPlanResponse :=
  Eval vm_compute in response_of (generate_study_plan today0 req_zero_length).

(** A dict on its revision day: the first topic is already completed, two
    are not. *)
Definition sd_chemistry : SubjectData :=
  {| s_name := "Chemistry";
     s_exam_date := Some (monday + 2)%Z;
     s_importance := Medium;
     topics :=
       [{| t_name := "Atoms"; hours_needed := 1; remaining_hours := 0;
           t_difficulty := Some 3%Z; completed := true |};
        {| t_name := "Bonds"; hours_needed := 1; remaining_hours := 1;
           t_difficulty := Some 3%Z; completed := false |};
        {| t_name := "Acids"; hours_needed := 2; remaining_hours := 2;
           t_difficulty := Some 3%Z; completed := false |}];
     current_topic_index := 1;
     needs_revision := true;
     revision_completed := false;
     subject_completed := false |}.

Definition empty_allocation : Allocation := (sd_chemistry, [], 0, nine_am).

Definition allocation_of (r : result Allocation) : Allocation :=
  match r with
  | Ok a => a
  | Raise _ => empty_allocation
  end.

Definition chemistry_revised : Allocation :=
  Eval vm_compute in
    allocation_of
      (_add_revision_session today0 sd_chemistry monday nine_am 2 (3 # 2)
         (1 # 4) []).

Definition chemistry_studied : Allocation :=
  Eval vm_compute in
    allocation_of
      (_add_regular_session today0 sd_chemistry monday nine_am 2 (3 # 2)
         (1 # 4) []).

(** Four topics, the exam two days after the start, half an hour a day: the
    start date is the revision day and the budget allows two slices. *)
Definition physics : Subject :=
  mk_subject "Physics"
    [mk_topic "Waves" 1; mk_topic "Optics" 1; mk_topic "Heat" 1;
     mk_topic "Fields" 1]
    (Some (monday + 2)%Z) Medium.

Definition prefs_half_hour : StudyPreferences :=
  mk_preferences (1 # 2) (1 # 2) (1 # 4) (3 # 2) 2.

Definition req_physics : StudyPlanRequest :=
  {| subjects := [physics]; start_date := monday; end_date := monday;
     preferences := prefs_half_hour |}.

Definition empty_day_state : DayState :=
  start_of_day prefs_half_hour monday [] [].

Definition day_state_of (r : result DayState) : DayState :=
  match r with
  | Ok st => st
  | Raise _ => empty_day_state
  end.

Definition plan_of (r : result Plan) : Plan :=
  match r with
  | Ok p => p
  | Raise _ => initial_plan []
  end.

Definition physics_allocated : Allocation :=
  Eval vm_compute in
    allocation_of
      (_add_revision_session today0 (prepare_subject physics) monday nine_am
         (1 # 2) (3 # 2) (1 # 4) []).

Definition physics_day : DayState :=
  Eval vm_compute in
    day_state_of
      (run_passes today0 prefs_half_hour monday
         (start_of_day prefs_half_hour monday [prepare_subject physics] [])).

(** A negative session length, and negative daily budgets. *)
Definition req_negative_length : StudyPlanRequest :=
  {| subjects := [mk_subject "Math" [mk_topic "A" 1] None Medium];
     start_date := monday;
     end_date := monday;
     preferences := mk_preferences 1 5 (1 # 4) (- (1)) 2 |}.

Definition resp_negative_length : StudyPlanResponse :=
  Eval vm_compute in
    response_of (generate_study_plan today0 req_negative_length).

Definition req_negative_budget : StudyPlanRequest :=
  {| subjects := [mk_subject "Math" [mk_topic "A" 1] None Medium];
     start_date := monday;
     end_date := (monday + 6)%Z;
     preferences := mk_preferences (- (2)) (- (3)) (1 # 4) (3 # 2) 2 |}.

(** Physics on its revision day, with a budget that lets the revision go
    through. *)
Definition req_physics_revised : StudyPlanRequest :=
  {| subjects := [physics]; start_date := monday; end_date := (monday + 3)%Z;
     preferences := mk_preferences 4 5 (1 # 4) (3 # 2) 2 |}.

Definition resp_physics_revised : StudyPlanResponse :=
  Eval vm_compute in
    response_of (generate_study_plan today0 req_physics_revised).

(** One session of 45 minutes in a one-hour day, with half-hour breaks. *)
Definition req_long_break : StudyPlanRequest :=
  {| subjects := [mk_subject "Math" [mk_topic "A" (3 # 4)] None Medium];
     start_date := monday;
     end_date := monday;
     preferences := mk_preferences 1 5 (1 # 2) (3 # 2) 2 |}.

Definition resp_long_break : StudyPlanResponse :=
  Eval vm_compute in response_of (generate_study_plan today0 req_long_break).

Close Scope string_scope.

(** * The endpoint, and the vocabulary of the further properties *)

From Stdlib Require Import Sorted Qabs.

(** ** [app/routes/api.py]: [POST /v1/study-plan] *)

Module Api.

(** [fastapi.HTTPException], as the route builds it. *)
Record HTTPException : Type := {
  status_code : Z;
  detail : string
}.

Section Route.

(** [str(e)]: the message of an exception, which the model of the exceptions
    does not carry. *)
Variable str : exn -> string.

(** Lines 24-33: the controller's plan, or any exception of the controller
    turned into a status 500. *)
Definition generate_study_plan (today : date) (plan_request : StudyPlanRequest)
  : StudyPlanResponse + HTTPException :=
  match generate_study_plan today plan_request with
  | Ok study_plan => inl study_plan
  | Raise e =>
      inr {| status_code := 500;
             detail := ("Error generating study plan: " ++ str e)%string |}
  end.

End Route.

End Api.

(** ** Requests the engine can serve *)

(** A request on which no date and no clock leaves its range: the plan
    starts on a date and ends before 9999-12-31, every exam date and its
    revision day are dates, the daily budgets and the break fit in a day, and
    no length is negative.
    [today] is the anchor [datetime.today()] of the clock arithmetic. *)
Record servable (today : date) (req : StudyPlanRequest) : Prop := {
  sv_today : (MINORDINAL <= today <= MAXORDINAL - 2)%Z;
  sv_start : (MINORDINAL <= start_date req <= MAXORDINAL)%Z;
  sv_end : (end_date req < MAXORDINAL)%Z;
  sv_weekday : weekday_hours (preferences req) <= 24;
  sv_weekend : weekend_hours (preferences req) <= 24;
  sv_session : 0 <= session_duration (preferences req);
  sv_break : 0 <= break_duration (preferences req) <= 24;
  sv_exams :
    forall subject e,
      In subject (subjects req) -> exam_date subject = Some e ->
      (MINORDINAL <= e <= MAXORDINAL)%Z
      /\ (MINORDINAL <= e - revision_days_before (preferences req)
          <= MAXORDINAL)%Z
}.

(** What the passes keep on such a request: the clock is a time of day, no
    more than a day of budget is left, and the dicts are those of [sd0] up to
    what the engine writes. *)
Definition fits (sd0 : list SubjectData) (st : DayState) : Prop :=
  (0 <= current_time st < US_PER_DAY)%Z
  /\ hours_left st <= 24
  /\ Forall2 same_key sd0 (subject_data st).

(** ** Inputs the engine never reads *)

Definition erase_topic (topic : Topic) : Topic :=
  {| topic_name := topic_name topic;
     estimated_hours := estimated_hours topic;
     topic_difficulty := topic_difficulty topic;
     topic_completed := None |}.

Definition erase_subject (subject : Subject) : Subject :=
  {| subject_id := None;
     subject_name := subject_name subject;
     subject_topics := map erase_topic (subject_topics subject);
     exam_date := exam_date subject;
     importance := importance subject;
     subject_difficulty := None |}.

Definition erase_preferences (preferences : StudyPreferences)
  : StudyPreferences :=
  {| weekday_hours := weekday_hours preferences;
     weekend_hours := weekend_hours preferences;
     break_duration := break_duration preferences;
     session_duration := session_duration preferences;
     revision_days_before := revision_days_before preferences;
     weekly_revision := false;
     break_days := break_days preferences |}.

(** The request without [Topic.completed], [Subject.id],
    [Subject.difficulty] and [StudyPreferences.weekly_revision]. *)
Definition erase_request (req : StudyPlanRequest) : StudyPlanRequest :=
  {| subjects := map erase_subject (subjects req);
     start_date := start_date req;
     end_date := end_date req;
     preferences := erase_preferences (preferences req) |}.

(** ** The days and the sessions of a plan *)

(** What holds of a day of the plan once the day loop has reached [d]. *)
Definition day_recorded (preferences : StudyPreferences) (start_date d : date)
    (day : StudyDay) : Prop :=
  (start_date <= day_date day < d)%Z
  /\ is_break_day preferences (day_date day) = false
  /\ 1 # 2 <= day_budget preferences (day_date day)
  /\ sessions day <> []
  /\ Forall (fun s => session_date s = day_date day) (sessions day).

(** The bounds on a session's length by its type. *)
Definition session_length_ok (preferences : StudyPreferences) (s : StudySession)
  : Prop :=
  (session_type s = revision ->
   1 # 10 <= duration_hours s /\ duration_hours s <= 1 # 2)
  /\ (session_type s = regular -> 1 # 100 < session_duration preferences ->
      1 # 100 < duration_hours s).

(** The hours of the sessions that carry the name of a subject. *)
Definition hours_of (name : string) (l : list StudySession) : Q :=
  Qsum (map duration_hours
          (filter (fun s => String.eqb (session_subject s) name) l)).

(** What [subjects_distribution] holds once the sessions [l] are counted. *)
Definition distribution_of (l : list StudySession) (dist : list (string * Q))
  : Prop :=
  NoDup (map fst dist)
  /\ (forall name,
        In name (map fst dist) <-> exists s, In s l /\ session_subject s = name)
  /\ (forall name h, In (name, h) dist -> h == hours_of name l)
  /\ Qsum (map snd dist) == Qsum (map duration_hours l).

(** Sessions that follow one another on the clock: each starts when the one
    before it ends, or one break of [brk] hours later. *)
Fixpoint follow_on (brk : Q) (l : list StudySession) : Prop :=
  match l with
  | [] => True
  | s :: l' =>
      match l' with
      | [] => True
      | s' :: _ =>
          (start_time s' = end_time s
           \/ start_time s' = ((end_time s + gap_us brk) mod US_PER_DAY)%Z)
          /\ follow_on brk l'
      end
  end.

(** The end of a session on the clock: its start plus its length, to the
    microsecond, around midnight. *)
Definition ends_on_time (s : StudySession) : Prop :=
  end_time s
  = ((start_time s + gap_us (duration_hours s)) mod US_PER_DAY)%Z.

(** A session ends on time, and the break recorded after it is none or the
    break of the preferences. *)
Definition timed (preferences : StudyPreferences) (s : StudySession) : Prop :=
  ends_on_time s
  /\ (break_after s = 0 \/ break_after s = break_duration preferences).

(** Two loop bodies that give the same state whenever both succeed. *)
Definition same_body
    (body1 body2 : nat -> SubjectData -> DayState -> result DayState) : Prop :=
  forall i subject st st1 st2,
    body1 i subject st = Ok st1 -> body2 i subject st = Ok st2 -> st1 = st2.

(** ** The topics reported unallocated *)

(** The entry [u] reports a topic of a subject of [sd0] whose exam is before
    [d]. *)
Definition reported (sd0 : list SubjectData) (d : date) (u : Unallocated)
  : Prop :=
  exists a t e,
    In a sd0 /\ In t (topics a)
    /\ un_subject u = s_name a /\ un_topic u = t_name t
    /\ s_exam_date a = Some e /\ (e < d)%Z.

(** The entry [u] is the one of a topic with work left, in a subject of [sd]
    that is completed. *)
Definition entry_of (sd : list SubjectData) (u : Unallocated) : Prop :=
  exists i s j t,
    nth_error sd i = Some s /\ nth_error (topics s) j = Some t
    /\ subject_completed s = true /\ left_over t = true
    /\ u = unallocated_entry s t.

(** ** Sessions and exam dates *)

(** Every date of the plan before [d] that is not a break day is before
    [e]. *)
Definition open_until (preferences : StudyPreferences) (start_date d e : date)
  : Prop :=
  forall d0, (start_date <= d0 < d)%Z ->
             is_break_day preferences d0 = false -> (d0 < e)%Z.

(** The session carries the name of a subject of [sd0] whose exam, if it has
    one, was still to come on every earlier date of the plan that is not a
    break day. *)
Definition in_time (preferences : StudyPreferences) (start_date : date)
    (sd0 : list SubjectData) (s : StudySession) : Prop :=
  exists a,
    In a sd0 /\ s_name a = session_subject s
    /\ forall e, s_exam_date a = Some e ->
                 open_until preferences start_date (session_date s) e.

(** The subjects that are not completed have their exam still to come in
    this sense. *)
Definition exams_open (preferences : StudyPreferences) (start_date d : date)
    (sd : list SubjectData) : Prop :=
  forall s e, In s sd -> subject_completed s = false ->
              s_exam_date s = Some e ->
              open_until preferences start_date d e.

(** ** The order of the topics *)

(** The topics before the cursor need no more work. *)
Definition cursor_ok (s : SubjectData) : Prop :=
  forall k t, (k < current_topic_index s)%nat ->
              nth_error (topics s) k = Some t -> topic_done t = true.

(** When a regular session on a topic is emitted, every earlier topic of the
    subject has been scheduled for its estimated hours, up to 0.01h. *)
Definition in_order (sd0 : list SubjectData) (all : list StudySession) : Prop :=
  forall pre s post a j t k t',
    all = pre ++ s :: post -> session_type s = regular ->
    In a sd0 -> s_name a = session_subject s ->
    nth_error (topics a) j = Some t -> t_name t = session_topic s ->
    (k < j)%nat -> nth_error (topics a) k = Some t' ->
    hours_needed t' - regular_hours (s_name a) (t_name t') pre <= 1 # 100.

(** ** The hours offered to a High subject *)

(** The exam of the subject is on [d] or on one of the four days after it
    (the test of line 166). *)
Definition exam_near (d : date) (s : SubjectData) : Prop :=
  exists e, s_exam_date s = Some e /\ (d <= e)%Z /\ (e - d < 5)%Z.

(** A regular session of a High subject lasts at most two hours, and at most
    one when the exam is not near. *)
Definition high_capped (sd0 : list SubjectData) (s : StudySession) : Prop :=
  session_type s = regular ->
  forall a,
    In a sd0 -> s_name a = session_subject s -> s_importance a = High ->
    duration_hours s <= 2
    /\ (~ exam_near (session_date s) a -> duration_hours s <= 1).

(** ** The budget left when a session starts *)

(** Every session of [l] starts with more than 0.1h of [budget] left on the
    clock, and every regular one with at least 0.5h. *)
Definition starts_ok (budget : Q) (l : list StudySession) : Prop :=
  forall pre s post,
    l = pre ++ s :: post ->
    clock_used pre + (1 # 10) < budget
    /\ (session_type s = regular -> clock_used pre + (1 # 2) <= budget).

(** ** Days left empty *)

(** Nothing is left to schedule for the subject: it is completed, or none of
    its topics needs more work. *)
Definition finished (s : SubjectData) : Prop :=
  subject_completed s = true \/ all_topics_done s = true.

(** The topics of the completed subjects need no more work or are reported
    unallocated. *)
Definition accounted (sd : list SubjectData) (un : list Unallocated) : Prop :=
  forall s t,
    In s sd -> subject_completed s = true -> In t (topics s) ->
    topic_done t = true \/ In (unallocated_entry s t) un.

(** One of the dates of the plan before [d] that is not a break day and has
    a budget of half an hour or more has no day in the plan. *)
Definition idle_before (preferences : StudyPreferences) (start_date d : date)
    (ds : list StudyDay) : Prop :=
  exists d0,
    (start_date <= d0 < d)%Z
    /\ is_break_day preferences d0 = false
    /\ 1 # 2 <= day_budget preferences d0
    /\ ~ In d0 (map day_date ds).

(** The dict at a position keeps what never changes, and neither a completed
    nor a finished subject reopens. *)
Definition moves_on (a b : SubjectData) : Prop :=
  same_key a b
  /\ (subject_completed a = true -> subject_completed b = true)
  /\ (finished a -> finished b).

(** The subject at the position [i] is finished. *)
Definition finished_at (i : nat) (sd : list SubjectData) : Prop :=
  exists s, nth_error sd i = Some s /\ finished s.

(** ** Sessions of a subject in a day *)

Definition is_regular_of (name : string) (s : StudySession) : bool :=
  SessionType_eqb (session_type s) regular
  && String.eqb (session_subject s) name.

(** The number of regular sessions carrying the name of a subject. *)
Definition regular_count (name : string) (l : list StudySession) : nat :=
  List.length (filter (is_regular_of name) l).

(** ** Hours up to rounding *)

(** The engine computes on binary floating-point hours, the model on exact
    rationals: at a threshold (0.01h, 0.1h, 0.5h) the two can part by a
    rounding error.  The statements that compare hours recomputed from the
    response with such a threshold are given with the tolerance of the
    specification, 0.01h. *)
Definition tolerance : Q := 1 # 100.

(** The slices of a revision batch, up to [tolerance], against the budget
    [rem] still open when the batch starts: more than 0.1h of budget is open
    when a session starts; the session lasts
    [min(session_duration, remaining budget, time_per_topic)], and six
    minutes or more; a break follows it when more than 0.1h of budget is
    left after it, and only then. *)
Fixpoint revision_slices_within (max brk tpt rem : Q)
    (batch : list StudySession) : Prop :=
  match batch with
  | [] => True
  | s :: batch' =>
      (1 # 10) - tolerance < rem /\
      Qabs (duration_hours s - min3 max rem tpt) <= tolerance /\
      1 # 10 <= duration_hours s /\
      duration_hours s <= max /\
      duration_hours s <= 1 # 2 /\
      (break_after s == 0 \/ break_after s == brk) /\
      ((1 # 10) + tolerance < rem - duration_hours s -> break_after s == brk) /\
      (rem - duration_hours s < (1 # 10) - tolerance -> break_after s == 0) /\
      revision_slices_within max brk tpt
        (rem - duration_hours s - break_after s) batch'
  end.

(** The hours the demand adds up, sign left out: what a rounding error of
    the sum is relative to. *)
Definition gross_demand (subjects : list Subject) : Q :=
  Qsum (map (fun subject =>
               revision_factor subject
               * Qsum (map (fun topic => Qabs (estimated_hours topic))
                         (subject_topics subject)))
            subjects).

Definition gross_supply (start_date end_date : date)
    (preferences : StudyPreferences) : Q :=
  Qsum (map (fun d => Qabs (day_budget preferences d))
          (filter (fun d => negb (is_break_day preferences d))
                  (date_range start_date end_date))).

(** The relative rounding error allowed to a sum of hours. *)
Definition rounding : Q := 1 # 1000000.

(** ** Further concrete requests *)

Open Scope string_scope.

(** A plan for the last day of the calendar, 9999-12-31. *)
Definition req_last_day : StudyPlanRequest :=
  {| subjects := [mk_subject "Math" [mk_topic "A" 1] None Medium];
     start_date := MAXORDINAL;
     end_date := MAXORDINAL;
     preferences := mk_preferences 3 5 (1 # 4) (3 # 2) 2 |}.

(** The scenario of the specification with the topics flagged completed, an
    id and the weekly revision asked for. *)
Definition req_math_flagged : StudyPlanRequest :=
  {| subjects :=
       [{| subject_id := Some 7%Z; subject_name := "Math";
           subject_topics :=
             [{| topic_name := "A"; estimated_hours := 3;
                 topic_difficulty := Some 3%Z; topic_completed := Some true |};
              {| topic_name := "B"; estimated_hours := 2;
                 topic_difficulty := Some 3%Z; topic_completed := Some true |}];
           exam_date := Some (monday + 10)%Z; importance := High;
           subject_difficulty := Some 5%Z |}];
     start_date := monday;
     end_date := (monday + 13)%Z;
     preferences :=
       {| weekday_hours := 2; weekend_hours := 5; break_duration := 1 # 4;
          session_duration := 3 # 2; revision_days_before := 2;
          weekly_revision := true; break_days := None |} |}.

(** Two subjects, one hour a day for a week with the Wednesday off: the exam
    of the first passes with work left. *)
Definition req_two_subjects : StudyPlanRequest :=
  {| subjects :=
       [mk_subject "Physics" [mk_topic "Waves" 4; mk_topic "Optics" 2]
          (Some (monday + 3)%Z) High;
        mk_subject "History" [mk_topic "Rome" 1; mk_topic "Greece" 1]
          None Low];
     start_date := monday;
     end_date := (monday + 6)%Z;
     preferences :=
       {| weekday_hours := 1; weekend_hours := 2; break_duration := 1 # 4;
          session_duration := 3 # 2; revision_days_before := 2;
          weekly_revision := false; break_days := Some [(monday + 2)%Z] |} |}.

Definition resp_two_subjects : StudyPlanResponse :=
  Eval vm_compute in response_of (generate_study_plan today0 req_two_subjects).

(** The scenario of the specification after its first five days, and the
    state the passes leave on the Saturday that follows. *)
Definition math_after_friday : Plan :=
  Eval vm_compute in
    plan_of (day_loop today0 (preferences req_math) 5 monday
               (initial_plan (subjects req_math))).

Definition math_saturday : DayState :=
  Eval vm_compute in
    day_state_of
      (run_passes today0 (preferences req_math) (monday + 5)%Z
         (start_of_day (preferences req_math) (monday + 5)%Z
            (plan_subject_data math_after_friday)
            (plan_revision_log math_after_friday))).

(** Two subjects from a Friday to the Sunday: two hours on the weekday,
    three a day on the weekend, sessions of an hour at most and breaks of a
    quarter of an hour. *)
Definition req_weekend : StudyPlanRequest :=
  {| subjects :=
       [mk_subject "Biology" [mk_topic "Cells" 5] None Medium;
        mk_subject "Music" [mk_topic "Scales" 5] None Low];
     start_date := (monday + 4)%Z;
     end_date := (monday + 6)%Z;
     preferences := mk_preferences 2 3 (1 # 4) 1 2 |}.

Definition resp_weekend : StudyPlanResponse :=
  Eval vm_compute in response_of (generate_study_plan today0 req_weekend).

Close Scope string_scope.
(** * Properties *)

(** ** Comparisons, minima and the error monad *)

Lemma Qlt_bool_true (a b : Q) : Qlt_bool a b = true <-> a < b.
Proof.
  unfold Qlt_bool. rewrite negb_true_iff.
  split; intro H.
  - apply Qnot_le_lt. intro Hle. apply Qle_bool_iff in Hle. congruence.
  - destruct (Qle_bool b a) eqn:E; [ | reflexivity ].
    apply Qle_bool_iff in E. apply Qle_not_lt in E. contradiction.
Qed.

Lemma Qlt_bool_false (a b : Q) : Qlt_bool a b = false <-> b <= a.
Proof.
  unfold Qlt_bool. rewrite negb_false_iff. apply Qle_bool_iff.
Qed.

Lemma Qle_bool_false (a b : Q) : Qle_bool a b = false <-> b < a.
Proof.
  rewrite <- Qlt_bool_true. unfold Qlt_bool.
  destruct (Qle_bool a b); simpl; split; congruence.
Qed.

Lemma Qmin_cases (a b : Q) :
  (a <= b /\ Qmin a b == a) \/ (b <= a /\ Qmin a b == b).
Proof.
  destruct (Q.min_spec a b) as [[H E] | [H E]].
  - left. split; [ apply Qlt_le_weak; exact H | exact E ].
  - right. split; assumption.
Qed.

Lemma min3_le_1 (a b c : Q) : min3 a b c <= a.
Proof.
  unfold min3.
  destruct (Qmin_cases (Qmin a b) c) as [[H0 E] | [H0 E]];
    destruct (Qmin_cases a b) as [[H1 E1] | [H1 E1]]; lra.
Qed.

Lemma min3_le_2 (a b c : Q) : min3 a b c <= b.
Proof.
  unfold min3.
  destruct (Qmin_cases (Qmin a b) c) as [[H0 E] | [H0 E]];
    destruct (Qmin_cases a b) as [[H1 E1] | [H1 E1]]; lra.
Qed.

Lemma min3_le_3 (a b c : Q) : min3 a b c <= c.
Proof.
  unfold min3.
  destruct (Qmin_cases (Qmin a b) c) as [[H0 E] | [H0 E]];
    destruct (Qmin_cases a b) as [[H1 E1] | [H1 E1]]; lra.
Qed.

Lemma min3_glb (a b c m : Q) : m <= a -> m <= b -> m <= c -> m <= min3 a b c.
Proof.
  intros Ha Hb Hc. unfold min3.
  destruct (Qmin_cases (Qmin a b) c) as [[H0 E] | [H0 E]];
    destruct (Qmin_cases a b) as [[H1 E1] | [H1 E1]]; lra.
Qed.

Lemma min3_pos (a b c : Q) : 0 < a -> 0 < b -> 0 < c -> 0 < min3 a b c.
Proof.
  intros Ha Hb Hc. unfold min3.
  destruct (Qmin_cases (Qmin a b) c) as [[H0 E] | [H0 E]];
    destruct (Qmin_cases a b) as [[H1 E1] | [H1 E1]]; lra.
Qed.

Lemma bind_Ok {A B : Type} (c : result A) (k : A -> result B) (b : B) :
  bind c k = Ok b -> exists a, c = Ok a /\ k a = Ok b.
Proof.
  destruct c as [a | e]; simpl; intro H; [ exists a; auto | discriminate ].
Qed.

(** Open the next [bind] of a hypothesis [H : ... = Ok _]. *)
Ltac bind_inv H :=
  let a := fresh "a" in
  let E := fresh "E" in
  apply bind_Ok in H; destruct H as [a [E H]].

(** ** Lists updated in place *)

Lemma update_nth_length {A : Type} (i : nat) (x : A) (l : list A) :
  List.length (update_nth i x l) = List.length l.
Proof.
  revert i; induction l as [ | y l IH]; intros [ | i]; simpl; auto.
Qed.

Lemma nth_error_update_nth_eq {A : Type} (i : nat) (x : A) (l : list A) :
  (i < List.length l)%nat -> nth_error (update_nth i x l) i = Some x.
Proof.
  revert i; induction l as [ | y l IH]; intros [ | i] H; simpl in *;
    try lia; auto.
  apply IH. lia.
Qed.

Lemma nth_error_update_nth_neq {A : Type} (i j : nat) (x : A) (l : list A) :
  i <> j -> nth_error (update_nth i x l) j = nth_error l j.
Proof.
  revert i j; induction l as [ | y l IH]; intros [ | i] [ | j] H; simpl;
    try congruence; auto.
Qed.

Lemma nth_error_update_nth {A : Type} (i j : nat) (x y : A) (l : list A) :
  nth_error (update_nth i x l) j = Some y ->
  (i = j /\ y = x) \/ (i <> j /\ nth_error l j = Some y).
Proof.
  intro H. destruct (Nat.eq_dec i j) as [-> | Hne].
  - left. split; [ reflexivity | ].
    assert (Hlt : (j < List.length l)%nat).
    { rewrite <- (update_nth_length j x l). apply nth_error_Some. congruence. }
    rewrite nth_error_update_nth_eq in H by exact Hlt. congruence.
  - right. rewrite nth_error_update_nth_neq in H by exact Hne. auto.
Qed.

Lemma In_update_nth {A : Type} (i : nat) (x y : A) (l : list A) :
  In y (update_nth i x l) -> y = x \/ In y l.
Proof.
  revert i; induction l as [ | z l IH]; intros [ | i]; simpl; auto.
  - intros [H | H]; auto.
  - intros [H | H]; auto. destruct (IH _ H); auto.
Qed.

Lemma map_update_nth_same {A B : Type} (f : A -> B) (i : nat) (x y : A)
    (l : list A) :
  nth_error l i = Some y -> f x = f y ->
  map f (update_nth i x l) = map f l.
Proof.
  revert i; induction l as [ | z l IH]; intros [ | i] H E; simpl in *;
    try discriminate.
  - injection H as ->. now rewrite E.
  - f_equal. now apply IH.
Qed.

(** ** The regular allocator, case by case *)

Lemma skipn_cons_nth {A : Type} (c : nat) (ts : list A) (t : A) (rest : list A) :
  skipn c ts = t :: rest -> nth_error ts c = Some t /\ skipn (S c) ts = rest.
Proof.
  revert ts; induction c as [ | c IH]; intros [ | x ts] H; simpl in *;
    try discriminate.
  - injection H as -> ->. auto.
  - apply IH. exact H.
Qed.

Lemma skipn_nil_length {A : Type} (c : nat) (ts : list A) :
  skipn c ts = [] -> (List.length ts <= c)%nat.
Proof.
  revert ts; induction c as [ | c IH]; intros [ | x ts] H; simpl in *;
    try discriminate; try lia.
  apply IH in H. lia.
Qed.

Lemma advance_cursor_spec (ts : list TopicData) :
  forall (rest : list TopicData) (c idx : nat) (r : option TopicData),
    skipn c ts = rest ->
    advance_cursor rest c = (idx, r) ->
    (c <= idx)%nat /\
    (forall k t, (c <= k < idx)%nat -> nth_error ts k = Some t ->
                 topic_done t = true) /\
    match r with
    | Some t => nth_error ts idx = Some t /\ topic_done t = false
    | None => (List.length ts <= idx)%nat
    end.
Proof.
  induction rest as [ | a rest IH]; intros c idx r Hs H; simpl in H.
  - injection H as <- <-. split; [ lia | ]. split; [ intros; lia | ].
    now apply skipn_nil_length.
  - destruct (skipn_cons_nth _ _ _ _ Hs) as [Hn Hs'].
    destruct (topic_done a) eqn:D.
    + destruct (IH _ _ _ Hs' H) as [Hle [Hdone Hr]].
      split; [ lia | ]. split; [ | exact Hr ].
      intros k t Hk Ht. destruct (Nat.eq_dec k c) as [-> | Hne].
      * congruence.
      * apply (Hdone k t); [ lia | exact Ht ].
    + injection H as <- <-. split; [ lia | ]. split; [ intros; lia | ]. auto.
Qed.

Lemma add_regular_session_outcome (today : date) (subject : SubjectData)
    (d : date) (t0 : time) (avail max brk : Q) (ds : list StudySession)
    (subject' : SubjectData) (ds' : list StudySession) (used : Q) (t1 : time) :
  _add_regular_session today subject d t0 avail max brk ds
    = Ok (subject', ds', used, t1) ->
  regular_outcome subject d t0 avail max brk ds subject' ds' used.
Proof.
  unfold _add_regular_session. intro H.
  destruct (subject_completed subject) eqn:Hc.
  - injection H as <- <- <- <-. now constructor.
  - destruct (advance_cursor _ _) as [idx r] eqn:Hadv.
    destruct (advance_cursor_spec (topics subject) _ _ _ _ eq_refl Hadv)
      as [Hle [Hdone Hr]].
    destruct r as [topic | ].
    + destruct Hr as [Hn Hnd].
      bind_inv H.
      assert (Hw : (if Qle_bool (remaining_hours topic
                                - min3 max avail (remaining_hours topic)) (1 # 100)
                    then set_completed
                           (set_remaining_hours topic
                              (remaining_hours topic
                               - min3 max avail (remaining_hours topic))) true
                    else set_remaining_hours topic
                           (remaining_hours topic
                            - min3 max avail (remaining_hours topic)))
                   = worked_topic topic (min3 max avail (remaining_hours topic))).
      { unfold worked_topic, set_completed, set_remaining_hours. simpl.
        destruct (Qle_bool _ _) eqn:Hf; simpl; [ reflexivity | ].
        unfold topic_done in Hnd. apply orb_false_iff in Hnd.
        destruct Hnd as [_ ->]. reflexivity. }
      simpl in H. rewrite Hw in H.
      destruct (Qlt_bool (1 # 100) (avail - min3 max avail (remaining_hours topic)))
        eqn:Hb.
      * bind_inv H. injection H as <- <- <- <-.
        pose proof (RegularSession subject d t0 avail max brk ds idx topic
                      (datetime_time a)
                      (min3 max avail (remaining_hours topic) + brk)
                      Hc Hle Hn Hnd) as R.
        simpl in R. rewrite Hb in R. apply R. reflexivity.
      * injection H as <- <- <- <-.
        pose proof (RegularSession subject d t0 avail max brk ds idx topic
                      (datetime_time a)
                      (min3 max avail (remaining_hours topic))
                      Hc Hle Hn Hnd) as R.
        simpl in R. rewrite Hb in R. apply R. lra.
    + injection H as <- <- <- <-.
      apply RegularExhausted; auto.
      intros k t Hk Ht.
      destruct (Nat.lt_ge_cases k idx) as [Hlt | Hge].
      * apply (Hdone k t); [ lia | exact Ht ].
      * assert (nth_error (topics subject) k <> None) by congruence.
        apply nth_error_Some in H. lia.
Qed.

(** ** Time on the clock *)

Lemma clock_used_app (a b : list StudySession) :
  clock_used (a ++ b) == clock_used a + clock_used b.
Proof.
  induction a as [ | s a IH]; simpl; [ lra | ].
  fold (clock_used (a ++ b)). fold (clock_used a). lra.
Qed.

Lemma day_load_app (a b : list StudySession) :
  b <> [] -> day_load (a ++ b) == clock_used a + day_load b.
Proof.
  intro Hb. induction a as [ | s a IH]; [ simpl; lra | ].
  change ((s :: a) ++ b) with (s :: (a ++ b)).
  assert (E : day_load (s :: a ++ b)
              = duration_hours s + break_after s + day_load (a ++ b)).
  { simpl. destruct (a ++ b) eqn:Eab; [ | reflexivity ].
    apply app_eq_nil in Eab. destruct Eab. contradiction. }
  rewrite E, IH. simpl. fold (clock_used a). lra.
Qed.

Lemma day_load_snoc (l : list StudySession) (s : StudySession) :
  day_load (l ++ [s]) == clock_used l + duration_hours s.
Proof.
  rewrite day_load_app by discriminate. simpl. lra.
Qed.

(** ** The revision allocator, slice by slice *)

Lemma min3_wd (a b c b' : Q) : b == b' -> min3 a b c == min3 a b' c.
Proof.
  intro E. unfold min3. now rewrite E.
Qed.

Lemma Qlt_bool_wd (a b b' : Q) : b == b' -> Qlt_bool a b = Qlt_bool a b'.
Proof.
  intro E. unfold Qlt_bool. now rewrite E.
Qed.

Lemma revision_slices_wd (max brk tpt : Q) (batch : list StudySession) :
  forall rem rem', rem == rem' ->
    revision_slices max brk tpt rem batch ->
    revision_slices max brk tpt rem' batch.
Proof.
  induction batch as [ | s batch IH]; intros rem rem' E H; simpl in *; auto.
  destruct H as (H1 & H2 & H3 & H4 & H5).
  repeat split.
  - lra.
  - rewrite H2. now apply min3_wd.
  - exact H3.
  - rewrite H4.
    rewrite (Qlt_bool_wd _ (rem - duration_hours s) (rem' - duration_hours s))
      by lra.
    reflexivity.
  - apply (IH (rem - duration_hours s - break_after s)); [ lra | exact H5 ].
Qed.

Lemma revision_slices_load (max brk tpt : Q) (batch : list StudySession) :
  forall rem, batch <> [] -> revision_slices max brk tpt rem batch ->
    day_load batch <= rem.
Proof.
  induction batch as [ | s batch IH]; intros rem Hne H; [ contradiction | ].
  destruct H as (H1 & H2 & H3 & H4 & H5).
  destruct batch as [ | s2 batch].
  - simpl. rewrite H2. apply min3_le_2.
  - assert (Hl : day_load (s2 :: batch)
                 <= rem - duration_hours s - break_after s).
    { apply IH; [ discriminate | exact H5 ]. }
    change (day_load (s :: s2 :: batch))
      with (duration_hours s + break_after s + day_load (s2 :: batch)).
    lra.
Qed.

Lemma revision_slices_bounds (max brk tpt : Q) (batch : list StudySession) :
  forall rem, revision_slices max brk tpt rem batch ->
    Forall (fun s => 1 # 10 <= duration_hours s /\ duration_hours s <= max
                     /\ duration_hours s <= tpt) batch.
Proof.
  induction batch as [ | s batch IH]; intros rem H; constructor.
  - destruct H as (H1 & H2 & H3 & H4 & H5).
    pose proof (min3_le_1 max rem tpt). pose proof (min3_le_3 max rem tpt).
    repeat split; lra.
  - destruct H as (_ & _ & _ & _ & H5). apply (IH _ H5).
Qed.

(** When no slice can reach six minutes the loop only skips. *)
Lemma revision_loop_all_skipped (today : date) (name : string) (d : date)
    (max brk tpt : Q) (n : nat) :
  Qmin max tpt < 1 # 10 ->
  forall rest st st',
    revision_loop today name d max brk tpt n rest st = Ok st' -> st' = st.
Proof.
  intros Hsmall. induction rest as [ | topic rest IH]; intros st st' H;
    simpl in H.
  - congruence.
  - destruct ((topics_revised st <? n)%nat && Qlt_bool (1 # 10) (remaining_time st));
      [ | congruence ].
    assert (Hs : Qlt_bool (min3 max (remaining_time st) tpt) (1 # 10) = true).
    { apply Qlt_bool_true. unfold min3.
      destruct (Qmin_cases max tpt) as [[Ha Ea] | [Ha Ea]].
      - pose proof (min3_le_1 max (remaining_time st) tpt). unfold min3 in *. lra.
      - pose proof (min3_le_3 max (remaining_time st) tpt). unfold min3 in *. lra. }
    rewrite Hs in H. now apply IH.
Qed.

Lemma revision_loop_outcome (today : date) (name : string) (d : date)
    (max brk tpt : Q) (n : nat) :
  forall rest st st',
    revision_loop today name d max brk tpt n rest st = Ok st' ->
    exists batch, revision_batch name d max brk tpt n rest st st' batch.
Proof.
  induction rest as [ | topic rest IH]; intros st st' H; simpl in H.
  - injection H as <-. exists []. constructor; simpl; auto; try lra.
    + now rewrite app_nil_r.
  - destruct ((topics_revised st <? n)%nat) eqn:Hq; simpl in H.
    2:{ injection H as <-. exists []. constructor; simpl; auto; try lra.
        - now rewrite app_nil_r.
        - right; left. apply Nat.ltb_ge in Hq. exact Hq. }
    destruct (Qlt_bool (1 # 10) (remaining_time st)) eqn:Hr.
    2:{ injection H as <-. exists []. constructor; simpl; auto; try lra.
        - now rewrite app_nil_r.
        - right; right; left. now apply Qlt_bool_false. }
    apply Nat.ltb_lt in Hq. apply Qlt_bool_true in Hr.
    destruct (Qlt_bool (min3 max (remaining_time st) tpt) (1 # 10)) eqn:Hs.
    + (* every slice is under six minutes *)
      assert (Hsmall : Qmin max tpt < 1 # 10).
      { apply Qlt_bool_true in Hs. unfold min3 in Hs.
        destruct (Qmin_cases (Qmin max (remaining_time st)) tpt) as [[Ha Ea] | [Ha Ea]];
          destruct (Qmin_cases max (remaining_time st)) as [[Hb Eb] | [Hb Eb]];
          destruct (Qmin_cases max tpt) as [[Hc Ec] | [Hc Ec]]; lra. }
      apply (revision_loop_all_skipped _ _ _ _ _ _ _ Hsmall) in H. subst st'.
      exists []. constructor; simpl; auto; try lra.
      * now rewrite app_nil_r.
    + apply Qlt_bool_false in Hs.
      bind_inv H. bind_inv H.
      destruct (IH _ _ H) as [batch' B]. destruct B.
      set (dur := min3 max (remaining_time st) tpt) in *.
      set (gap := if Qlt_bool (1 # 10) (remaining_time st - dur) then brk else 0)
        in *.
      set (session := {| session_subject := name;
                         session_topic := revision_label (t_name topic);
                         session_date := d;
                         start_time := current_session_time st;
                         end_time := datetime_time a;
                         duration_hours := dur;
                         session_type := revision;
                         break_after := gap |}) in *.
      assert (Ha0 : rl_sessions a0 = rl_sessions st ++ [session]
                    /\ topics_revised a0 = S (topics_revised st)
                    /\ remaining_time a0 == remaining_time st - dur - gap
                    /\ hours_used a0 == hours_used st + dur + gap).
      { unfold gap. destruct (Qlt_bool (1 # 10) (remaining_time st - dur)).
        - bind_inv E0. injection E0 as <-. simpl. repeat split; lra.
        - injection E0 as <-. simpl. repeat split; lra. }
      destruct Ha0 as (Es & Et & Er & Eu).
      exists (session :: batch'). constructor.
      * rewrite rb_sessions0, Es, <- app_assoc. reflexivity.
      * rewrite rb_revised0, Et. simpl. lia.
      * intros _. apply rb_quota0. lia.
      * rewrite rb_used0. simpl. fold (clock_used batch'). lra.
      * rewrite rb_remaining0. simpl. fold (clock_used batch'). lra.
      * simpl. repeat split; try lra; try reflexivity.
        apply (revision_slices_wd _ _ _ _ (remaining_time a0)); [ lra | ].
        exact rb_slices0.
      * constructor; [ repeat split | exact rb_kind0 ].
      * simpl. f_equal. exact rb_labels0.
      * destruct rb_stop0 as [Hl | [Hn | [Hrem | [Hnil Hsm]]]].
        -- left. simpl. lia.
        -- right; left. exact Hn.
        -- right; right; left. exact Hrem.
        -- pose proof (min3_le_1 max (remaining_time st) tpt).
           pose proof (min3_le_3 max (remaining_time st) tpt).
           fold dur in H0, H1.
           destruct (Qmin_cases max tpt) as [[Hc Ec] | [Hc Ec]]; lra.
Qed.

Lemma total_topics_le (subject : SubjectData) :
  (total_topics subject <= List.length (topics subject))%nat.
Proof.
  unfold total_topics. apply filter_length_le.
Qed.

Lemma add_revision_session_outcome (today : date) (subject : SubjectData)
    (d : date) (t0 : time) (avail max brk : Q) (ds : list StudySession)
    (subject' : SubjectData) (ds' : list StudySession) (used : Q) (t1 : time) :
  _add_revision_session today subject d t0 avail max brk ds
    = Ok (subject', ds', used, t1) ->
  revision_outcome subject d avail max brk ds subject' ds' used.
Proof.
  unfold _add_revision_session. intro H.
  destruct (revision_completed subject) eqn:Hrc; simpl in H.
  { injection H as <- <- <- <-. constructor. auto. }
  destruct (subject_completed subject) eqn:Hsc; simpl in H.
  { injection H as <- <- <- <-. constructor. auto. }
  destruct (Nat.min (total_topics subject) 5 =? 0)%nat eqn:Hz.
  { injection H as <- <- <- <-. constructor. right; right.
    apply Nat.eqb_eq in Hz. lia. }
  apply Nat.eqb_neq in Hz.
  bind_inv H. bind_inv H. injection H as <- <- <- <-.
  unfold float_div in E. destruct (Qeq_bool _ 0); [ discriminate | ].
  injection E as <-.
  destruct (revision_loop_outcome _ _ _ _ _ _ _ _ _ _ E0) as [batch B].
  destruct B; simpl in *.
  rewrite rb_revised0, rb_sessions0. simpl.
  assert (Hlen : (List.length batch <= Nat.min (total_topics subject) 5)%nat).
  { rewrite rb_revised0 in rb_quota0. simpl in rb_quota0. apply rb_quota0. lia. }
  apply RevisionBatch; auto.
  - lia.
  - lra.
  - rewrite rb_revised0 in rb_stop0. simpl in rb_stop0.
    pose proof (total_topics_le subject).
    destruct rb_stop0 as [Hl | [Hn | [Hrem | Hsk]]].
    + left. lia.
    + left. lia.
    + right; left. lra.
    + right; right. exact Hsk.
Qed.

(** ** The call sites of the two allocators *)

Lemma date_plus_days_Ok (d n r : Z) :
  date_plus_days d n = Ok r ->
  r = (d + n)%Z /\ (MINORDINAL <= r <= MAXORDINAL)%Z.
Proof.
  unfold date_plus_days. destruct (MAX_DELTA_DAYS <? Z.abs n)%Z; [ discriminate | ].
  destruct ((MINORDINAL <=? d + n)%Z && (d + n <=? MAXORDINAL)%Z) eqn:E;
    [ | discriminate ].
  intro H. injection H as <-. apply andb_true_iff in E. destruct E as [E1 E2].
  apply Z.leb_le in E1, E2. auto.
Qed.

Section Steps.

Variable today : date.
Variable preferences : StudyPreferences.
Variable current_date : date.

Lemma revise_outcome (i : nat) (subject : SubjectData) (budget : Q)
    (st st' : DayState) :
  revise today preferences current_date i subject budget st = Ok st' ->
  exists subject1 used,
    revision_outcome subject current_date budget
      (session_duration preferences) (break_duration preferences)
      (day_sessions st) subject1 (day_sessions st') used
    /\ subject_data st'
       = update_nth i (set_revision_completed subject1 true) (subject_data st)
    /\ hours_left st' = hours_left st - used
    /\ high_importance_coverage st' = high_importance_coverage st
    /\ revision_log st' = i :: revision_log st.
Proof.
  unfold revise. intro H. bind_inv H.
  destruct a as [[[subject1 sessions1] used] t1].
  injection H as <-. simpl.
  exists subject1, used. repeat split.
  eapply add_revision_session_outcome. exact E.
Qed.

Lemma study_outcome (i : nat) (subject : SubjectData) (budget : Q)
    (st st' : DayState) :
  study today preferences current_date i subject budget st = Ok st' ->
  exists subject1 used,
    regular_outcome subject current_date (current_time st) budget
      (session_duration preferences) (break_duration preferences)
      (day_sessions st) subject1 (day_sessions st') used
    /\ subject_data st' = update_nth i subject1 (subject_data st)
    /\ hours_left st' = hours_left st - used
    /\ high_importance_coverage st' = high_importance_coverage st
    /\ revision_log st' = revision_log st.
Proof.
  unfold study. intro H. bind_inv H.
  destruct a as [[[subject1 sessions1] used] t1].
  injection H as <-. simpl.
  exists subject1, used. repeat split.
  eapply add_regular_session_outcome. exact E.
Qed.

End Steps.

(** ** Lifting an invariant through the passes and the day loop *)

Section PassInvariant.

Variable today : date.
Variable preferences : StudyPreferences.
Variable current_date : date.
Variable I : DayState -> Prop.

Hypothesis I_revise :
  forall i subject e budget st st',
    I st -> nth_error (subject_data st) i = Some subject ->
    s_exam_date subject = Some e ->
    date_minus_days e (revision_days_before preferences) = Ok current_date ->
    revision_completed subject = false ->
    1 # 2 <= budget -> budget <= hours_left st ->
    revise today preferences current_date i subject budget st = Ok st' ->
    I st'.

Hypothesis I_study :
  forall i subject budget st st',
    I st -> nth_error (subject_data st) i = Some subject ->
    1 # 2 <= budget -> budget <= hours_left st ->
    study today preferences current_date i subject budget st = Ok st' ->
    I st'.

Hypothesis I_cover : forall name st, I st -> I (mark_covered name st).

Lemma for_subjects_inv
    (body : nat -> SubjectData -> DayState -> result DayState) :
  body_keeps I body ->
  forall l st st',
    I st -> for_subjects body l st = Ok st' -> I st'.
Proof.
  intros Hbody. induction l as [ | i l IH]; intros st st' Hst H; simpl in H.
  - congruence.
  - destruct (Qlt_bool (hours_left st) (1 # 2)) eqn:Hb; [ congruence | ].
    apply Qlt_bool_false in Hb.
    destruct (nth_error (subject_data st) i) as [subject | ] eqn:Hn;
      [ | discriminate ].
    bind_inv H. apply (IH a st'); [ | exact H ].
    apply (Hbody i subject st a); assumption.
Qed.

Lemma needs_revision_today_true (subject : SubjectData) (e revision_day : date) :
  date_minus_days e (revision_days_before preferences) = Ok revision_day ->
  needs_revision_today current_date subject revision_day = true ->
  date_minus_days e (revision_days_before preferences) = Ok current_date
  /\ revision_completed subject = false.
Proof.
  unfold needs_revision_today. intros E H.
  apply andb_true_iff in H. destruct H as [H1 H2].
  apply Z.eqb_eq in H1. apply negb_true_iff in H2. subst. auto.
Qed.

Lemma urgent_body_keeps : body_keeps I (urgent_body today preferences current_date).
Proof.
  intros i subject st st' Hst Hn Hh H. unfold urgent_body in H.
  destruct (s_exam_date subject) as [e | ] eqn:He; [ | discriminate ].
  bind_inv H. bind_inv H. injection H as <-.
  assert (Hb : 1 # 2 <= Qmin 2 (hours_left st) /\ Qmin 2 (hours_left st) <= hours_left st).
  { destruct (Qmin_cases 2 (hours_left st)) as [[Ha Ea] | [Ha Ea]]; split; lra. }
  destruct Hb as [Hb1 Hb2].
  assert (Ha0 : I a0).
  { destruct (needs_revision_today current_date subject a) eqn:Hr.
    - destruct (needs_revision_today_true _ _ _ E Hr) as [Hd Hrc].
      eapply I_revise; eauto.
    - eapply I_study; eauto. }
  destruct (s_importance subject); auto.
Qed.

Lemma high_body_keeps : body_keeps I (high_body today preferences current_date).
Proof.
  intros i subject st st' Hst Hn Hh H. unfold high_body in H.
  assert (Hb : 1 # 2 <= Qmin 1 (hours_left st) /\ Qmin 1 (hours_left st) <= hours_left st).
  { destruct (Qmin_cases 1 (hours_left st)) as [[Ha Ea] | [Ha Ea]]; split; lra. }
  destruct Hb as [Hb1 Hb2].
  assert (Hreg : forall st1,
             regular_high today preferences current_date i subject
               (Qmin 1 (hours_left st)) st = Ok st1 -> I st1).
  { intros st1 H1. unfold regular_high in H1. bind_inv H1.
    injection H1 as <-. apply I_cover. eapply I_study; eauto. }
  destruct (s_exam_date subject) as [e | ] eqn:He; [ | auto ].
  bind_inv H.
  destruct (needs_revision_today current_date subject a) eqn:Hr; [ | auto ].
  destruct (needs_revision_today_true _ _ _ E Hr) as [Hd Hrc].
  eapply I_revise; eauto.
Qed.

Lemma tier_body_keeps : body_keeps I (tier_body today preferences current_date).
Proof.
  intros i subject st st' Hst Hn Hh H. unfold tier_body in H.
  assert (Hle : hours_left st <= hours_left st) by lra.
  destruct (s_exam_date subject) as [e | ] eqn:He.
  - bind_inv H.
    destruct (needs_revision_today current_date subject a) eqn:Hr.
    + destruct (needs_revision_today_true _ _ _ E Hr) as [Hd Hrc].
      eapply I_revise; eauto.
    + eapply I_study; eauto.
  - eapply I_study; eauto.
Qed.

Lemma run_passes_inv (st0 st : DayState) :
  I st0 -> run_passes today preferences current_date st0 = Ok st -> I st.
Proof.
  intros H0 H. unfold run_passes in H.
  bind_inv H. bind_inv H. bind_inv H.
  pose proof (for_subjects_inv _ urgent_body_keeps _ _ _ H0 E) as H1.
  pose proof (for_subjects_inv _ high_body_keeps _ _ _ H1 E0) as H2.
  pose proof (for_subjects_inv _ tier_body_keeps _ _ _ H2 E1) as H3.
  exact (for_subjects_inv _ tier_body_keeps _ _ _ H3 H).
Qed.

End PassInvariant.

Section PlanInvariant.

Variable today : date.
Variable preferences : StudyPreferences.
Variable J : Plan -> Prop.
Variable I : Plan -> date -> DayState -> Prop.

Hypothesis J_start :
  forall p d, J p ->
    I p d (start_of_day preferences d (plan_subject_data p) (plan_revision_log p)).

Hypothesis I_passes :
  forall p d st0 st, J p -> I p d st0 ->
    run_passes today preferences d st0 = Ok st -> I p d st.

Hypothesis J_finish :
  forall p d st, J p -> I p d st -> J (end_of_day d (d + 1)%Z p st).

Lemma day_loop_inv :
  forall n d p p', J p -> day_loop today preferences n d p = Ok p' -> J p'.
Proof.
  induction n as [ | n IH]; intros d p p' Hp H; simpl in H.
  - congruence.
  - destruct (is_break_day preferences d).
    + bind_inv H. eapply IH; eauto.
    + bind_inv H. bind_inv H.
      apply date_plus_days_Ok in E0. destruct E0 as [-> _].
      eapply IH; [ | exact H ].
      apply J_finish; [ exact Hp | ].
      eapply I_passes; eauto.
Qed.

End PlanInvariant.

(** ** The two outcomes in the form the invariants use *)

Lemma revision_outcome_batch (subject : SubjectData) (d : date)
    (avail max brk : Q) (ds : list StudySession)
    (subject1 : SubjectData) (ds' : list StudySession) (used : Q) :
  revision_outcome subject d avail max brk ds subject1 ds' used ->
  exists batch tpt,
    ds' = ds ++ batch
    /\ used == clock_used batch
    /\ revision_slices max brk tpt avail batch
    /\ Forall (revision_session_of (s_name subject) d) batch
    /\ (List.length batch <= 5)%nat
    /\ map session_topic batch
       = revision_labels (firstn (List.length batch) (topics subject))
    /\ (subject1 = subject \/ subject1 = set_revision_completed subject true).
Proof.
  intro H. destruct H as [Hidle | batch used Hrc Hsc n tpt Hn Hlen Hu Hsl Hk Hlab Hstop].
  - exists [], 0. rewrite app_nil_r. simpl. repeat split; auto; try lra; lia.
  - exists batch, tpt. repeat split; auto.
    + unfold n in Hlen. lia.
    + destruct (Nat.min 3 (total_topics subject) <=? List.length batch)%nat; auto.
Qed.

Lemma regular_outcome_cases (subject : SubjectData) (d : date) (t0 : time)
    (avail max brk : Q) (ds : list StudySession)
    (subject1 : SubjectData) (ds' : list StudySession) (used : Q) :
  regular_outcome subject d t0 avail max brk ds subject1 ds' used ->
  (ds' = ds /\ used = 0
   /\ (subject1 = subject
       \/ exists idx,
            subject1
            = set_subject_completed (set_current_topic_index subject idx) true))
  \/ (exists idx idx' topic s,
        nth_error (topics subject) idx = Some topic
        /\ topic_done topic = false
        /\ regular_session subject d avail max topic s
        /\ ds' = ds ++ [s]
        /\ used == duration_hours s + break_after s
        /\ subject1
           = set_current_topic_index
               (set_topics subject
                  (update_nth idx (worked_topic topic (duration_hours s))
                     (topics subject))) idx').
Proof.
  intro H. destruct H as [Hc | idx Hc Hle Hlen Hdone
                             | idx topic t_end used Hc Hle Hn Hnd dur gap Hu].
  - left. auto.
  - left. repeat split; auto. right. now exists idx.
  - right.
    exists idx, (if completed (worked_topic topic dur) then S idx else idx), topic.
    eexists. split; [ exact Hn | ]. split; [ exact Hnd | ].
    split; [ | split; [ reflexivity | split; [ exact Hu | reflexivity ] ] ].
    constructor; reflexivity.
Qed.

(** ** Every session satisfies a property the allocators establish *)

Lemma all_sessions_app (a b : list StudyDay) :
  all_sessions (a ++ b) = all_sessions a ++ all_sessions b.
Proof.
  unfold all_sessions. apply flat_map_app.
Qed.

Lemma end_of_day_days (d next : date) (p : Plan) (st : DayState) :
  plan_days (end_of_day d next p st)
  = match day_sessions st with
    | [] => plan_days p
    | _ :: _ => plan_days p ++ [{| day_date := d; sessions := day_sessions st |}]
    end.
Proof.
  unfold end_of_day. destruct (check_completed next (subject_data st)).
  reflexivity.
Qed.

Lemma end_of_day_all_sessions (d next : date) (p : Plan) (st : DayState) :
  all_sessions (plan_days (end_of_day d next p st))
  = all_sessions (plan_days p) ++ day_sessions st.
Proof.
  rewrite end_of_day_days. destruct (day_sessions st) as [ | s l].
  - now rewrite app_nil_r.
  - rewrite all_sessions_app. simpl. now rewrite app_nil_r.
Qed.

Lemma topic_not_done (t : TopicData) :
  topic_done t = false -> 1 # 100 < remaining_hours t /\ completed t = false.
Proof.
  unfold topic_done. intro H. apply orb_false_iff in H. destruct H as [H1 H2].
  apply Qle_bool_false in H1. auto.
Qed.

Section Durations.

Variable today : date.
Variable preferences : StudyPreferences.

Let I (st : DayState) : Prop := Forall (duration_ok preferences) (day_sessions st).
Let J (p : Plan) : Prop :=
  Forall (duration_ok preferences) (all_sessions (plan_days p)).

Lemma durations_revise (d : date) (i : nat) (subject : SubjectData)
    (budget : Q) (st st' : DayState) :
  I st -> revise today preferences d i subject budget st = Ok st' -> I st'.
Proof.
  unfold I. intros Hst H.
  destruct (revise_outcome _ _ _ _ _ _ _ _ H) as (s1 & used & Hout & _).
  destruct (revision_outcome_batch _ _ _ _ _ _ _ _ _ Hout)
    as (batch & tpt & -> & _ & Hsl & _).
  apply Forall_app. split; [ exact Hst | ].
  apply revision_slices_bounds in Hsl.
  eapply Forall_impl; [ | exact Hsl ].
  intros s (Ha & Hb & Hc). split; [ exact Hb | intros _; lra ].
Qed.

Lemma durations_study (d : date) (i : nat) (subject : SubjectData)
    (budget : Q) (st st' : DayState) :
  I st -> 1 # 2 <= budget ->
  study today preferences d i subject budget st = Ok st' -> I st'.
Proof.
  unfold I. intros Hst Hb H.
  destruct (study_outcome _ _ _ _ _ _ _ _ H) as (s1 & used & Hout & _).
  destruct (regular_outcome_cases _ _ _ _ _ _ _ _ _ _ Hout)
    as [(-> & _) | (idx & idx' & topic & s & Hn & Hnd & Hs & -> & _)];
    [ exact Hst | ].
  apply Forall_app. split; [ exact Hst | ].
  constructor; [ | constructor ].
  destruct (topic_not_done _ Hnd) as [Hrem _]. destruct Hs.
  split; rewrite rs_duration0.
  - apply min3_le_1.
  - intro Hpos. apply min3_pos; lra.
Qed.

Lemma durations_day_loop (n : nat) (d : date) (p p' : Plan) :
  J p -> day_loop today preferences n d p = Ok p' -> J p'.
Proof.
  apply (day_loop_inv today preferences J (fun _ _ => I)).
  - intros. constructor.
  - intros p0 d0 st0 st _ H0 H.
    eapply (run_passes_inv today preferences d0 I); eauto.
    + intros. eapply durations_revise; eauto.
    + intros. eapply durations_study; eauto.
  - intros p0 d0 st Hp Hst. unfold J.
    rewrite end_of_day_all_sessions. apply Forall_app. auto.
Qed.

End Durations.

(** ** The day's budget *)

Section Budget.

Variable today : date.
Variable preferences : StudyPreferences.

Let I (d : date) (st : DayState) : Prop :=
  clock_used (day_sessions st) == day_budget preferences d - hours_left st
  /\ (day_sessions st <> [] ->
      day_load (day_sessions st) <= day_budget preferences d).

Let J (p : Plan) : Prop :=
  forall day, In day (plan_days p) ->
    day_load (sessions day) <= day_budget preferences (day_date day).

Lemma budget_revise (d : date) (i : nat) (subject : SubjectData)
    (budget : Q) (st st' : DayState) :
  I d st -> budget <= hours_left st ->
  revise today preferences d i subject budget st = Ok st' -> I d st'.
Proof.
  unfold I. intros [Hc Hl] Hb H.
  destruct (revise_outcome _ _ _ _ _ _ _ _ H)
    as (s1 & used & Hout & _ & Hh & _).
  destruct (revision_outcome_batch _ _ _ _ _ _ _ _ _ Hout)
    as (batch & tpt & Hds & Hu & Hsl & _).
  rewrite Hds, Hh. split.
  - rewrite clock_used_app. lra.
  - intros Hne. destruct batch as [ | s batch].
    + rewrite app_nil_r in *. apply Hl. exact Hne.
    + rewrite day_load_app by discriminate.
      assert (day_load (s :: batch) <= budget).
      { eapply revision_slices_load; [ discriminate | exact Hsl ]. }
      lra.
Qed.

Lemma budget_study (d : date) (i : nat) (subject : SubjectData)
    (budget : Q) (st st' : DayState) :
  I d st -> budget <= hours_left st ->
  study today preferences d i subject budget st = Ok st' -> I d st'.
Proof.
  unfold I. intros [Hc Hl] Hb H.
  destruct (study_outcome _ _ _ _ _ _ _ _ H)
    as (s1 & used & Hout & _ & Hh & _).
  destruct (regular_outcome_cases _ _ _ _ _ _ _ _ _ _ Hout)
    as [(Hds & Hu & _) | (idx & idx' & topic & s & Hn & Hnd & Hs & Hds & Hu & _)];
    rewrite Hds, Hh.
  - subst used. split; [ lra | exact Hl ].
  - split.
    + rewrite clock_used_app. simpl. lra.
    + intros _. rewrite day_load_snoc. destruct Hs.
      pose proof (min3_le_2 (session_duration preferences) budget
                    (remaining_hours topic)).
      rewrite rs_duration0. lra.
Qed.

Lemma budget_day_loop (n : nat) (d : date) (p p' : Plan) :
  J p -> day_loop today preferences n d p = Ok p' -> J p'.
Proof.
  apply (day_loop_inv today preferences J (fun _ => I)).
  - intros p0 d0 _. unfold I, start_of_day. simpl. split; [ lra | congruence ].
  - intros p0 d0 st0 st _ H0 H.
    eapply (run_passes_inv today preferences d0 (I d0)); eauto.
    + intros. eapply budget_revise; eauto.
    + intros. eapply budget_study; eauto.
  - intros p0 d0 st Hp [_ Hl]. unfold J. rewrite end_of_day_days.
    destruct (day_sessions st) as [ | s l] eqn:Es; [ exact Hp | ].
    intros day Hin. apply in_app_or in Hin. destruct Hin as [Hin | [<- | []]].
    + now apply Hp.
    + simpl. apply Hl. discriminate.
Qed.

End Budget.

(** ** From the response back to the day loop *)

Lemma generate_study_plan_Ok (today : date) (req : StudyPlanRequest)
    (resp : StudyPlanResponse) :
  generate_study_plan today req = Ok resp ->
  exists p available,
    available_study_hours (start_date req) (end_date req) (preferences req)
      = Ok available
    /\ schedule today (subjects req) (start_date req) (end_date req)
         (preferences req) = Ok p
    /\ days resp = plan_days p
    /\ unallocated_topics resp = plan_unallocated p
    /\ total_hours_needed resp = total_study_hours_needed (subjects req)
    /\ available_hours resp = available
    /\ insufficient_time resp
       = Qlt_bool available (total_study_hours_needed (subjects req)).
Proof.
  unfold generate_study_plan, _generate_rule_based_schedule. intro H.
  apply bind_Ok in H. destruct H as [available [Ea H]].
  apply bind_Ok in H. destruct H as [[ds un] [Es H]].
  apply bind_Ok in Es. destruct Es as [p [Ep Es]].
  injection Es as <- <-. injection H as <-. simpl.
  exists p, available. repeat split; auto.
Qed.

(** ** Invariants of one subject's dict *)

Lemma Forall2_update_nth {A B : Type} (R : A -> B -> Prop) (i : nat) (y : B)
    (l0 : list A) (l : list B) :
  Forall2 R l0 l ->
  (forall a b, nth_error l0 i = Some a -> nth_error l i = Some b -> R a y) ->
  Forall2 R l0 (update_nth i y l).
Proof.
  intro H. revert i. induction H as [ | a b l0 l Hab H IH]; intros [ | i] Hy;
    simpl; constructor; auto.
  apply (Hy a b); reflexivity.
Qed.

Lemma Forall2_nth_error_r {A B : Type} (R : A -> B -> Prop) (l0 : list A)
    (l : list B) (i : nat) (b : B) :
  Forall2 R l0 l -> nth_error l i = Some b ->
  exists a, nth_error l0 i = Some a /\ R a b.
Proof.
  intro H. revert i. induction H as [ | a0 b0 l0 l Hab H IH]; intros [ | i] Hn;
    simpl in *; try discriminate.
  - injection Hn as <-. eauto.
  - eauto.
Qed.

Lemma check_completed_fst (d : date) (sd : list SubjectData) :
  fst (check_completed d sd) = map (fun s => fst (check_subject d s)) sd.
Proof.
  induction sd as [ | s sd IH]; simpl; [ reflexivity | ].
  destruct (check_subject d s) as [s' un].
  destruct (check_completed d sd) as [sd' un']. simpl in *. now rewrite IH.
Qed.

Lemma end_of_day_subject_data (d next : date) (p : Plan) (st : DayState) :
  plan_subject_data (end_of_day d next p st)
  = map (fun s => fst (check_subject next s)) (subject_data st).
Proof.
  unfold end_of_day. rewrite <- check_completed_fst.
  destruct (check_completed next (subject_data st)). reflexivity.
Qed.

Lemma end_of_day_revision_log (d next : date) (p : Plan) (st : DayState) :
  plan_revision_log (end_of_day d next p st) = revision_log st.
Proof.
  unfold end_of_day. destruct (check_completed next (subject_data st)).
  reflexivity.
Qed.

Lemma check_subject_cases (d : date) (s : SubjectData) :
  fst (check_subject d s) = s
  \/ fst (check_subject d s) = set_subject_completed s true.
Proof.
  unfold check_subject. destruct (subject_completed s); [ auto | ].
  destruct (should_complete s d); auto.
Qed.

Section SubjectInvariant.

Variable today : date.
Variable preferences : StudyPreferences.
Variable R : SubjectData -> SubjectData -> Prop.

Hypothesis R_regular :
  forall a subject d t0 avail max brk ds subject1 ds' used,
    R a subject ->
    regular_outcome subject d t0 avail max brk ds subject1 ds' used ->
    R a subject1.

Hypothesis R_revision_flag :
  forall a subject, R a subject -> R a (set_revision_completed subject true).

Hypothesis R_completed_flag :
  forall a subject, R a subject -> R a (set_subject_completed subject true).

Lemma subjects_revise (sd0 : list SubjectData) (d : date) (i : nat)
    (subject : SubjectData) (budget : Q) (st st' : DayState) :
  Forall2 R sd0 (subject_data st) ->
  nth_error (subject_data st) i = Some subject ->
  revise today preferences d i subject budget st = Ok st' ->
  Forall2 R sd0 (subject_data st').
Proof.
  intros HF Hn H.
  destruct (revise_outcome _ _ _ _ _ _ _ _ H) as (s1 & used & Hout & -> & _).
  destruct (revision_outcome_batch _ _ _ _ _ _ _ _ _ Hout)
    as (batch & tpt & _ & _ & _ & _ & _ & _ & Hs1).
  apply Forall2_update_nth; [ exact HF | ].
  intros a b Ha Hb. rewrite Hn in Hb. injection Hb as <-.
  destruct (Forall2_nth_error_r _ _ _ _ _ HF Hn) as (a' & Ha' & HR).
  rewrite Ha in Ha'. injection Ha' as <-.
  destruct Hs1 as [-> | ->]; simpl; auto.
Qed.

Lemma subjects_study (sd0 : list SubjectData) (d : date) (i : nat)
    (subject : SubjectData) (budget : Q) (st st' : DayState) :
  Forall2 R sd0 (subject_data st) ->
  nth_error (subject_data st) i = Some subject ->
  study today preferences d i subject budget st = Ok st' ->
  Forall2 R sd0 (subject_data st').
Proof.
  intros HF Hn H.
  destruct (study_outcome _ _ _ _ _ _ _ _ H) as (s1 & used & Hout & -> & _).
  apply Forall2_update_nth; [ exact HF | ].
  intros a b Ha Hb. rewrite Hn in Hb. injection Hb as <-.
  destruct (Forall2_nth_error_r _ _ _ _ _ HF Hn) as (a' & Ha' & HR).
  rewrite Ha in Ha'. injection Ha' as <-.
  eapply R_regular; eauto.
Qed.

Lemma subjects_run_passes (sd0 : list SubjectData) (d : date)
    (st0 st : DayState) :
  Forall2 R sd0 (subject_data st0) ->
  run_passes today preferences d st0 = Ok st ->
  Forall2 R sd0 (subject_data st).
Proof.
  apply (run_passes_inv today preferences d
           (fun st => Forall2 R sd0 (subject_data st))).
  - intros. eapply subjects_revise; eauto.
  - intros. eapply subjects_study; eauto.
  - intros name st1 H. exact H.
Qed.

Lemma subjects_check (sd0 sd : list SubjectData) (d : date) :
  Forall2 R sd0 sd ->
  Forall2 R sd0 (map (fun s => fst (check_subject d s)) sd).
Proof.
  induction 1 as [ | a b l0 l Hab H IH]; simpl; constructor; auto.
  destruct (check_subject_cases d b) as [-> | ->]; auto.
Qed.

Lemma subjects_day_loop (sd0 : list SubjectData) (n : nat) (d : date)
    (p p' : Plan) :
  Forall2 R sd0 (plan_subject_data p) ->
  day_loop today preferences n d p = Ok p' ->
  Forall2 R sd0 (plan_subject_data p').
Proof.
  apply (day_loop_inv today preferences
           (fun p => Forall2 R sd0 (plan_subject_data p))
           (fun _ _ st => Forall2 R sd0 (subject_data st))).
  - intros p0 d0 H. exact H.
  - intros p0 d0 st0 st _ H0 H. eapply subjects_run_passes; eauto.
  - intros p0 d0 st _ H. rewrite end_of_day_subject_data.
    now apply subjects_check.
Qed.

End SubjectInvariant.

(** ** What never changes in a subject's dict *)

Lemma same_key_regular (a subject : SubjectData) (d : date) (t0 : time)
    (avail max brk : Q) (ds : list StudySession) (subject1 : SubjectData)
    (ds' : list StudySession) (used : Q) :
  same_key a subject ->
  regular_outcome subject d t0 avail max brk ds subject1 ds' used ->
  same_key a subject1.
Proof.
  unfold same_key. intros Ha H. rewrite Ha.
  destruct (regular_outcome_cases _ _ _ _ _ _ _ _ _ _ H)
    as [(_ & _ & [-> | [idx ->]])
       | (idx & idx' & topic & s & Hn & _ & _ & _ & _ & ->)];
    try reflexivity.
  unfold subject_key. simpl.
  rewrite (map_update_nth_same topic_key idx _ topic); auto.
Qed.

Lemma same_key_Forall2_refl (sd : list SubjectData) : Forall2 same_key sd sd.
Proof.
  induction sd; constructor; auto. reflexivity.
Qed.

Lemma same_key_day_loop (today : date) (preferences : StudyPreferences)
    (sd0 : list SubjectData) (n : nat) (d : date) (p p' : Plan) :
  Forall2 same_key sd0 (plan_subject_data p) ->
  day_loop today preferences n d p = Ok p' ->
  Forall2 same_key sd0 (plan_subject_data p').
Proof.
  apply (subjects_day_loop today preferences same_key).
  - apply same_key_regular.
  - intros a s H. exact H.
  - intros a s H. exact H.
Qed.

Lemma same_key_revise (today : date) (preferences : StudyPreferences)
    (sd0 : list SubjectData) (d : date) (i : nat) (subject : SubjectData)
    (budget : Q) (st st' : DayState) :
  Forall2 same_key sd0 (subject_data st) ->
  nth_error (subject_data st) i = Some subject ->
  revise today preferences d i subject budget st = Ok st' ->
  Forall2 same_key sd0 (subject_data st').
Proof.
  apply subjects_revise. intros a s H. exact H.
Qed.

Lemma same_key_study (today : date) (preferences : StudyPreferences)
    (sd0 : list SubjectData) (d : date) (i : nat) (subject : SubjectData)
    (budget : Q) (st st' : DayState) :
  Forall2 same_key sd0 (subject_data st) ->
  nth_error (subject_data st) i = Some subject ->
  study today preferences d i subject budget st = Ok st' ->
  Forall2 same_key sd0 (subject_data st').
Proof.
  apply subjects_study. apply same_key_regular.
Qed.

Lemma same_key_check (sd0 sd : list SubjectData) (d : date) :
  Forall2 same_key sd0 sd ->
  Forall2 same_key sd0 (map (fun s => fst (check_subject d s)) sd).
Proof.
  apply subjects_check. intros a s H. exact H.
Qed.

(** ** The bookkeeping of a topic *)

Lemma Forall_update_nth {A : Type} (P : A -> Prop) (i : nat) (x : A)
    (l : list A) :
  Forall P l -> P x -> Forall P (update_nth i x l).
Proof.
  intros Hl Hx. rewrite Forall_forall in *. intros y Hy.
  destruct (In_update_nth _ _ _ _ Hy) as [-> | Hin]; auto.
Qed.

Lemma topics_ok_regular (subject : SubjectData) (d : date) (t0 : time)
    (avail max brk : Q) (ds : list StudySession) (subject1 : SubjectData)
    (ds' : list StudySession) (used : Q) :
  topics_ok subject ->
  regular_outcome subject d t0 avail max brk ds subject1 ds' used ->
  topics_ok subject1.
Proof.
  unfold topics_ok. intros Hok H.
  destruct (regular_outcome_cases _ _ _ _ _ _ _ _ _ _ H)
    as [(_ & _ & [-> | [idx ->]])
       | (idx & idx' & topic & s & Hn & _ & Hs & _ & _ & ->)];
    try exact Hok.
  simpl. apply Forall_update_nth; [ exact Hok | ].
  destruct Hs. split; simpl.
  - intro Hc. now apply Qle_bool_iff.
  - intros _. rewrite rs_duration0.
    pose proof (min3_le_3 max avail (remaining_hours topic)). lra.
Qed.

Lemma topics_ok_day_loop (today : date) (preferences : StudyPreferences)
    (n : nat) (d : date) (p p' : Plan) :
  Forall topics_ok (plan_subject_data p) ->
  day_loop today preferences n d p = Ok p' ->
  Forall topics_ok (plan_subject_data p').
Proof.
  intros H0 H.
  assert (HF : Forall2 (fun _ s => topics_ok s) (plan_subject_data p)
                 (plan_subject_data p)).
  { clear H. induction H0; constructor; auto. }
  pose proof (subjects_day_loop today preferences (fun _ s => topics_ok s)
                (fun a s d0 t0 av mx bk ds s1 ds' u Hs Ho =>
                   topics_ok_regular s d0 t0 av mx bk ds s1 ds' u Hs Ho)
                (fun _ s Hs => Hs) (fun _ s Hs => Hs)
                _ _ _ _ _ HF H) as HF'.
  clear - HF'. induction HF'; constructor; auto.
Qed.

Lemma topics_ok_initial (subjects : list Subject) :
  Forall topics_ok (map prepare_subject subjects).
Proof.
  apply Forall_forall. intros s Hs. apply in_map_iff in Hs.
  destruct Hs as (subj & <- & _). unfold topics_ok. simpl.
  apply Forall_forall. intros t Ht. apply in_map_iff in Ht.
  destruct Ht as (topic & <- & _). split; simpl; [ discriminate | auto ].
Qed.

(** ** The completion check on a well-kept dict *)

Lemma topic_done_ok (t : TopicData) :
  topic_ok t -> (topic_done t = true <-> remaining_hours t <= 1 # 100).
Proof.
  intros [Hc _]. unfold topic_done. rewrite orb_true_iff, Qle_bool_iff.
  split; [ intros [H | H]; auto | auto ].
Qed.

Lemma left_over_ok (t : TopicData) :
  topic_ok t -> left_over t = Qlt_bool (1 # 100) (remaining_hours t).
Proof.
  intros [Hc _]. unfold left_over.
  destruct (Qlt_bool (1 # 100) (remaining_hours t)) eqn:E; [ | reflexivity ].
  apply Qlt_bool_true in E. destruct (completed t); [ | reflexivity ].
  specialize (Hc eq_refl). lra.
Qed.

Lemma all_topics_done_ok (s : SubjectData) :
  topics_ok s ->
  (all_topics_done s = true
   <-> Forall (fun t => remaining_hours t <= 1 # 100) (topics s)).
Proof.
  unfold topics_ok, all_topics_done. intro Hok.
  rewrite forallb_forall, Forall_forall. rewrite Forall_forall in Hok.
  split; intros H t Ht.
  - apply topic_done_ok; auto.
  - apply topic_done_ok; auto.
Qed.

Lemma topics_ok_run_passes (today : date) (preferences : StudyPreferences)
    (d : date) (st0 st : DayState) :
  Forall topics_ok (subject_data st0) ->
  run_passes today preferences d st0 = Ok st ->
  Forall topics_ok (subject_data st).
Proof.
  intros H0 H.
  assert (HF : Forall2 (fun _ s => topics_ok s) (subject_data st0)
                 (subject_data st0)).
  { clear H. induction H0; constructor; auto. }
  pose proof (subjects_run_passes today preferences (fun _ s => topics_ok s)
                (fun a s d0 t0 av mx bk ds s1 ds' u Hs Ho =>
                   topics_ok_regular s d0 t0 av mx bk ds s1 ds' u Hs Ho)
                (fun _ s Hs => Hs) _ _ _ _ HF H) as HF'.
  clear - HF'. induction HF'; constructor; auto.
Qed.

(** The allocator's verdict on [revision_completed], before the engine
    overwrites it. *)
Lemma add_revision_session_flag (today : date) (subject : SubjectData)
    (d : date) (t0 : time) (avail max brk : Q) (ds : list StudySession)
    (out : Allocation) :
  _add_revision_session today subject d t0 avail max brk ds = Ok out ->
  revision_completed (res_subject out) = true ->
  revision_completed subject = true
  \/ exists batch,
       res_sessions out = ds ++ batch
       /\ (Nat.min 3 (total_topics subject) <= List.length batch)%nat.
Proof.
  destruct out as [[[s1 ds'] used] t1]. intros H Hflag.
  unfold res_subject, res_sessions in *. simpl in *.
  apply add_revision_session_outcome in H.
  destruct H as [Hidle | batch used Hrc Hsc n tpt Hn Hlen Hu Hsl Hk Hlab Hstop].
  - left. exact Hflag.
  - right. exists batch. split; [ reflexivity | ].
    destruct (Nat.min 3 (total_topics subject) <=? List.length batch)%nat eqn:E.
    + now apply Nat.leb_le.
    + congruence.
Qed.

(** The engine's verdict: after lines 187, 226, 261 and 293 the flag is set. *)
Lemma revise_sets_flag (today : date) (preferences : StudyPreferences)
    (d : date) (i : nat) (subject : SubjectData) (budget : Q)
    (st st' : DayState) :
  nth_error (subject_data st) i = Some subject ->
  revise today preferences d i subject budget st = Ok st' ->
  exists s', nth_error (subject_data st') i = Some s'
             /\ revision_completed s' = true.
Proof.
  intros Hn H.
  destruct (revise_outcome _ _ _ _ _ _ _ _ H) as (s1 & used & _ & -> & _).
  eexists. split.
  - apply nth_error_update_nth_eq. apply nth_error_Some. congruence.
  - reflexivity.
Qed.

Lemma add_revision_session_frame (today : date) (subject : SubjectData)
    (d : date) (t0 : time) (avail max brk : Q) (ds : list StudySession)
    (out : Allocation) :
  _add_revision_session today subject d t0 avail max brk ds = Ok out ->
  res_subject out = subject
  \/ res_subject out = set_revision_completed subject true.
Proof.
  destruct out as [[[s1 ds'] used] t1]. intro H. unfold res_subject. simpl.
  apply add_revision_session_outcome in H.
  destruct (revision_outcome_batch _ _ _ _ _ _ _ _ _ H)
    as (batch & tpt & _ & _ & _ & _ & _ & _ & Hs); exact Hs.
Qed.

(** ** Demand and supply *)

Lemma In_date_range (start_date end_date d : date) :
  In d (date_range start_date end_date) <-> (start_date <= d <= end_date)%Z.
Proof.
  unfold date_range, day_count. rewrite in_map_iff. split.
  - intros (k & <- & Hk). apply in_seq in Hk. lia.
  - intro H. exists (Z.to_nat (d - start_date)). split; [ lia | ].
    apply in_seq. lia.
Qed.

Lemma fold_left_Qsum {A : Type} (f : A -> Q) (l : list A) (a : Q) :
  fold_left (fun acc x => acc + f x) l a == a + Qsum (map f l).
Proof.
  revert a; induction l as [ | x l IH]; intro a; simpl; [ lra | ].
  rewrite IH. lra.
Qed.

Lemma subject_hours_spec (subject : Subject) :
  subject_hours subject
  == revision_factor subject
     * Qsum (map estimated_hours (subject_topics subject)).
Proof.
  unfold subject_hours, revision_factor.
  pose proof (fold_left_Qsum estimated_hours (subject_topics subject) 0) as E.
  destruct (exam_date subject); rewrite E; lra.
Qed.

Lemma Qsum_ext {A : Type} (f g : A -> Q) (l : list A) :
  (forall x, f x == g x) -> Qsum (map f l) == Qsum (map g l).
Proof.
  intro H. induction l as [ | x l IH]; simpl; [ lra | ]. rewrite (H x), IH. lra.
Qed.

Lemma total_study_hours_needed_spec (subjects : list Subject) :
  total_study_hours_needed subjects == demand subjects.
Proof.
  unfold total_study_hours_needed, demand. rewrite fold_left_Qsum.
  rewrite (Qsum_ext _ _ _ subject_hours_spec). lra.
Qed.

Lemma dates_from_succ (d : date) (n : nat) :
  map (fun k => (d + Z.of_nat k)%Z) (seq 0 (S n))
  = d :: map (fun k => (d + 1 + Z.of_nat k)%Z) (seq 0 n).
Proof.
  change (seq 0 (S n)) with (0%nat :: seq 1 n).
  rewrite <- seq_shift, map_cons, map_map.
  change (Z.of_nat 0) with 0%Z. rewrite Z.add_0_r.
  apply (f_equal (cons d)). apply map_ext. intro k. lia.
Qed.

Lemma available_loop_spec (preferences : StudyPreferences) (n : nat) :
  forall d acc r,
    available_loop preferences n d acc = Ok r ->
    r == acc
         + Qsum (map (day_budget preferences)
                   (filter (fun x => negb (is_break_day preferences x))
                      (map (fun k => (d + Z.of_nat k)%Z) (seq 0 n)))).
Proof.
  induction n as [ | n IH]; intros d acc r H.
  - simpl in *. injection H as <-. lra.
  - rewrite dates_from_succ. simpl in H. simpl filter.
    destruct (is_break_day preferences d).
    + bind_inv H. apply date_plus_days_Ok in E. destruct E as [-> _].
      simpl. now apply IH.
    + bind_inv H. apply date_plus_days_Ok in E. destruct E as [-> _].
      simpl. rewrite (IH _ _ _ H). lra.
Qed.

Lemma available_study_hours_spec (start_date end_date : date)
    (preferences : StudyPreferences) (r : Q) :
  available_study_hours start_date end_date preferences = Ok r ->
  r == supply start_date end_date preferences.
Proof.
  unfold available_study_hours, supply, date_range. intro H.
  rewrite (available_loop_spec _ _ _ _ _ H). lra.
Qed.

(** ** Days with no usable budget, and what the allocators can raise *)

Lemma for_subjects_no_budget
    (body : nat -> SubjectData -> DayState -> result DayState)
    (l : list nat) (st : DayState) :
  hours_left st < 1 # 2 -> for_subjects body l st = Ok st.
Proof.
  intro H. destruct l as [ | i l]; simpl; [ reflexivity | ].
  apply Qlt_bool_true in H. now rewrite H.
Qed.

Lemma run_passes_no_budget (today : date) (preferences : StudyPreferences)
    (d : date) (st0 : DayState) :
  hours_left st0 < 1 # 2 -> run_passes today preferences d st0 = Ok st0.
Proof.
  intro H. unfold run_passes.
  rewrite (for_subjects_no_budget _ _ _ H). simpl.
  rewrite (for_subjects_no_budget _ _ _ H). simpl.
  rewrite (for_subjects_no_budget _ _ _ H). simpl.
  apply (for_subjects_no_budget _ _ _ H).
Qed.

Lemma date_plus_one (d : date) :
  (0 <= d < MAXORDINAL)%Z -> date_plus_days d 1 = Ok (d + 1)%Z.
Proof.
  intro H. unfold date_plus_days, MAX_DELTA_DAYS, MINORDINAL, MAXORDINAL in *.
  simpl Z.abs.
  destruct (999999999 <? 1)%Z eqn:E; [ apply Z.ltb_lt in E; lia | ].
  assert (E1 : (1 <=? d + 1)%Z = true) by (apply Z.leb_le; lia).
  assert (E2 : (d + 1 <=? 3652059)%Z = true) by (apply Z.leb_le; lia).
  now rewrite E1, E2.
Qed.

Lemma day_budget_small (preferences : StudyPreferences) (d : date) :
  weekday_hours preferences < 1 # 2 -> weekend_hours preferences < 1 # 2 ->
  day_budget preferences d < 1 # 2.
Proof.
  intros H1 H2. unfold day_budget. destruct (is_weekend d); assumption.
Qed.

Lemma day_loop_no_budget (today : date) (preferences : StudyPreferences) :
  weekday_hours preferences < 1 # 2 -> weekend_hours preferences < 1 # 2 ->
  forall n d p,
    (0 <= d)%Z -> (d + Z.of_nat n <= MAXORDINAL)%Z -> plan_days p = [] ->
    exists p', day_loop today preferences n d p = Ok p' /\ plan_days p' = [].
Proof.
  intros H1 H2. induction n as [ | n IH]; intros d p Hd Hn Hp.
  - exists p. auto.
  - simpl. rewrite date_plus_one by lia. simpl.
    destruct (is_break_day preferences d).
    + apply IH; auto; lia.
    + rewrite run_passes_no_budget
        by (simpl; now apply day_budget_small).
      simpl. apply IH; try lia.
      rewrite end_of_day_days. simpl. exact Hp.
Qed.

Lemma available_loop_total (preferences : StudyPreferences) :
  forall n d acc,
    (0 <= d)%Z -> (d + Z.of_nat n <= MAXORDINAL)%Z ->
    exists r, available_loop preferences n d acc = Ok r.
Proof.
  induction n as [ | n IH]; intros d acc Hd Hn.
  - exists acc. reflexivity.
  - simpl. rewrite date_plus_one by lia. simpl.
    destruct (is_break_day preferences d); apply IH; lia.
Qed.

Lemma datetime_plus_hours_raises (dt : datetime) (h : Q) (e : exn) :
  datetime_plus_hours dt h = Raise e -> e = OverflowError.
Proof.
  unfold datetime_plus_hours, timedelta_hours.
  destruct (MAX_DELTA_DAYS <? _)%Z; simpl; [ congruence | ].
  destruct (_ && _); congruence.
Qed.

Lemma revision_loop_raises (today : date) (name : string) (d : date)
    (max brk tpt : Q) (n : nat) (e : exn) :
  forall rest st,
    revision_loop today name d max brk tpt n rest st = Raise e ->
    e = OverflowError.
Proof.
  induction rest as [ | topic rest IH]; intros st H; simpl in H;
    [ discriminate | ].
  destruct (_ && _); [ | discriminate ].
  destruct (Qlt_bool (min3 max (remaining_time st) tpt) (1 # 10));
    [ now apply (IH st) | ].
  destruct (datetime_plus_hours _ _) as [dt | e1] eqn:E1; simpl in H.
  2:{ injection H as <-. eapply datetime_plus_hours_raises; eauto. }
  destruct (Qlt_bool (1 # 10) _).
  - destruct (datetime_plus_hours dt brk) as [dt2 | e2] eqn:E2; simpl in H.
    + now apply IH in H.
    + injection H as <-. eapply datetime_plus_hours_raises; eauto.
  - simpl in H. now apply IH in H.
Qed.

Lemma inject_nat_nonzero (n : nat) :
  n <> 0%nat -> Qeq_bool (inject_Z (Z.of_nat n)) 0 = false.
Proof.
  intro H. destruct (Qeq_bool _ 0) eqn:E; [ | reflexivity ].
  apply Qeq_bool_iff in E. unfold Qeq, inject_Z in E. simpl in E. lia.
Qed.

Lemma add_revision_session_raises (today : date) (subject : SubjectData)
    (d : date) (t0 : time) (avail max brk : Q) (ds : list StudySession)
    (e : exn) :
  _add_revision_session today subject d t0 avail max brk ds = Raise e ->
  e = OverflowError.
Proof.
  unfold _add_revision_session.
  destruct (_ || _); [ discriminate | ].
  destruct (Nat.min (total_topics subject) 5 =? 0)%nat eqn:Hz; [ discriminate | ].
  apply Nat.eqb_neq in Hz. unfold float_div.
  rewrite (inject_nat_nonzero _ Hz). simpl.
  destruct (revision_loop _ _ _ _ _ _ _ _ _) as [st | e1] eqn:E1; simpl.
  - discriminate.
  - intro H. injection H as <-. eapply revision_loop_raises; eauto.
Qed.

(** ** Names as identifiers *)

Lemma NoDup_map_nth_error {A B : Type} (f : A -> B) (l : list A) (i j : nat)
    (a b : A) :
  NoDup (map f l) -> nth_error l i = Some a -> nth_error l j = Some b ->
  f a = f b -> i = j.
Proof.
  intros Hnd Hi Hj Hf.
  rewrite NoDup_nth_error in Hnd. apply Hnd.
  - rewrite length_map. apply nth_error_Some. congruence.
  - rewrite !nth_error_map, Hi, Hj. simpl. now rewrite Hf.
Qed.

Lemma NoDup_map_In {A B : Type} (f : A -> B) (l : list A) (a b : A) :
  NoDup (map f l) -> In a l -> In b l -> f a = f b -> a = b.
Proof.
  intros Hnd Ha Hb Hf.
  apply In_nth_error in Ha, Hb. destruct Ha as [i Hi]. destruct Hb as [j Hj].
  assert (i = j) by (eapply NoDup_map_nth_error; eauto).
  subst. congruence.
Qed.

Lemma same_key_map {B : Type} (g : SubjectData -> B) (sd0 sd : list SubjectData) :
  (forall a b, same_key a b -> g a = g b) ->
  Forall2 same_key sd0 sd -> map g sd = map g sd0.
Proof.
  intros Hg H. induction H as [ | a b l0 l Hab H IH]; simpl; [ reflexivity | ].
  now rewrite IH, (Hg a b Hab).
Qed.

Lemma same_key_name (a b : SubjectData) : same_key a b -> s_name a = s_name b.
Proof. unfold same_key, subject_key. congruence. Qed.

Lemma same_key_exam (a b : SubjectData) :
  same_key a b -> s_exam_date a = s_exam_date b.
Proof. unfold same_key, subject_key. congruence. Qed.

Lemma same_key_topic_keys (a b : SubjectData) :
  same_key a b -> map topic_key (topics a) = map topic_key (topics b).
Proof. unfold same_key, subject_key. congruence. Qed.

Lemma same_key_topic_names (a b : SubjectData) :
  same_key a b -> map t_name (topics a) = map t_name (topics b).
Proof.
  intro H. apply same_key_topic_keys in H.
  apply (f_equal (map fst)) in H. rewrite !map_map in H. exact H.
Qed.

Lemma regular_outcome_revision_flag (subject : SubjectData) (d : date)
    (t0 : time) (avail max brk : Q) (ds : list StudySession)
    (subject1 : SubjectData) (ds' : list StudySession) (used : Q) :
  regular_outcome subject d t0 avail max brk ds subject1 ds' used ->
  revision_completed subject1 = revision_completed subject.
Proof.
  intro H.
  destruct (regular_outcome_cases _ _ _ _ _ _ _ _ _ _ H)
    as [(_ & _ & [-> | [idx ->]])
       | (idx & idx' & topic & s & _ & _ & _ & _ & _ & ->)];
    reflexivity.
Qed.

Lemma check_subject_revision_flag (d : date) (s : SubjectData) :
  revision_completed (fst (check_subject d s)) = revision_completed s.
Proof.
  destruct (check_subject_cases d s) as [-> | ->]; reflexivity.
Qed.

Lemma check_subject_topics (d : date) (s : SubjectData) :
  topics (fst (check_subject d s)) = topics s.
Proof.
  destruct (check_subject_cases d s) as [-> | ->]; reflexivity.
Qed.

Lemma check_subject_name (d : date) (s : SubjectData) :
  s_name (fst (check_subject d s)) = s_name s.
Proof.
  destruct (check_subject_cases d s) as [-> | ->]; reflexivity.
Qed.

Lemma nth_error_map_Some {A B : Type} (f : A -> B) (l : list A) (i : nat)
    (b : B) :
  nth_error (map f l) i = Some b ->
  exists a, nth_error l i = Some a /\ b = f a.
Proof.
  rewrite nth_error_map. destruct (nth_error l i) as [a | ]; simpl;
    [ | discriminate ].
  intro H. injection H as <-. eauto.
Qed.

(** ** Revision sessions and their dates *)

Section RevisionDates.

Variable today : date.
Variable preferences : StudyPreferences.
Variable sd0 : list SubjectData.

Let P (d : date) (s : StudySession) : Prop :=
  session_date s = d /\ revision_dated sd0 (revision_days_before preferences) s.

Let I (d : date) (st : DayState) : Prop :=
  Forall2 same_key sd0 (subject_data st) /\ Forall (P d) (day_sessions st).

Let J (p : Plan) : Prop :=
  Forall2 same_key sd0 (plan_subject_data p)
  /\ forall day, In day (plan_days p) -> Forall (P (day_date day)) (sessions day).

Lemma dates_revise (d : date) (i : nat) (subject : SubjectData) (e : date)
    (budget : Q) (st st' : DayState) :
  I d st -> nth_error (subject_data st) i = Some subject ->
  s_exam_date subject = Some e ->
  date_minus_days e (revision_days_before preferences) = Ok d ->
  revise today preferences d i subject budget st = Ok st' -> I d st'.
Proof.
  unfold I. intros [Hk Hs] Hn He Hd H. split.
  - eapply same_key_revise; eauto.
  - destruct (revise_outcome _ _ _ _ _ _ _ _ H) as (s1 & used & Hout & _).
    destruct (revision_outcome_batch _ _ _ _ _ _ _ _ _ Hout)
      as (batch & tpt & -> & _ & _ & Hkind & _).
    apply Forall_app. split; [ exact Hs | ].
    eapply Forall_impl; [ | exact Hkind ].
    intros s (Hsub & Hdate & Htype). split; [ exact Hdate | ].
    intros _.
    destruct (Forall2_nth_error_r _ _ _ _ _ Hk Hn) as (a & Ha & Hab).
    exists a, e. split; [ eapply nth_error_In; eauto | ].
    split; [ rewrite Hsub; now apply same_key_name | ].
    split; [ rewrite (same_key_exam _ _ Hab); exact He | ].
    rewrite Hdate. unfold date_minus_days in Hd.
    apply date_plus_days_Ok in Hd. lia.
Qed.

Lemma dates_study (d : date) (i : nat) (subject : SubjectData)
    (budget : Q) (st st' : DayState) :
  I d st -> nth_error (subject_data st) i = Some subject ->
  study today preferences d i subject budget st = Ok st' -> I d st'.
Proof.
  unfold I. intros [Hk Hs] Hn H. split.
  - eapply same_key_study; eauto.
  - destruct (study_outcome _ _ _ _ _ _ _ _ H) as (s1 & used & Hout & _).
    destruct (regular_outcome_cases _ _ _ _ _ _ _ _ _ _ Hout)
      as [(-> & _) | (idx & idx' & topic & s & _ & _ & Hrs & -> & _)];
      [ exact Hs | ].
    apply Forall_app. split; [ exact Hs | ].
    constructor; [ | constructor ]. destruct Hrs.
    split; [ exact rs_date0 | ]. intro Ht. congruence.
Qed.

Lemma dates_day_loop (n : nat) (d : date) (p p' : Plan) :
  J p -> day_loop today preferences n d p = Ok p' -> J p'.
Proof.
  apply (day_loop_inv today preferences J (fun _ => I)).
  - intros p0 d0 [Hk _]. split; [ exact Hk | constructor ].
  - intros p0 d0 st0 st _ H0 H.
    eapply (run_passes_inv today preferences d0 (I d0)); eauto.
    + intros. eapply dates_revise; eauto.
    + intros. eapply dates_study; eauto.
  - intros p0 d0 st [Hk Hd] [Hk' Hs]. split.
    + rewrite end_of_day_subject_data. now apply same_key_check.
    + rewrite end_of_day_days.
      destruct (day_sessions st) as [ | s l] eqn:Es; [ exact Hd | ].
      intros day Hin. apply in_app_or in Hin.
      destruct Hin as [Hin | [<- | []]]; [ now apply Hd | exact Hs ].
Qed.

End RevisionDates.

(** ** The log of revision calls *)

Section RevisionLog.

Variable today : date.
Variable preferences : StudyPreferences.

Let I (st : DayState) : Prop := log_ok (subject_data st) (revision_log st).
Let J (p : Plan) : Prop := log_ok (plan_subject_data p) (plan_revision_log p).

Lemma log_revise (d : date) (i : nat) (subject : SubjectData)
    (budget : Q) (st st' : DayState) :
  I st -> nth_error (subject_data st) i = Some subject ->
  revision_completed subject = false ->
  revise today preferences d i subject budget st = Ok st' -> I st'.
Proof.
  unfold I, log_ok. intros [Hnd Hlog] Hn Hrc H.
  destruct (revise_outcome _ _ _ _ _ _ _ _ H)
    as (s1 & used & _ & -> & _ & _ & ->).
  assert (Hlt : (i < List.length (subject_data st))%nat)
    by (apply nth_error_Some; congruence).
  split.
  - constructor; [ | exact Hnd ]. intro Hin.
    destruct (Hlog i Hin) as (s & Hs & Hflag). congruence.
  - intros j [<- | Hj].
    + eexists. split; [ now apply nth_error_update_nth_eq | reflexivity ].
    + destruct (Nat.eq_dec i j) as [<- | Hne].
      * eexists. split; [ now apply nth_error_update_nth_eq | reflexivity ].
      * rewrite nth_error_update_nth_neq by exact Hne. now apply Hlog.
Qed.

Lemma log_study (d : date) (i : nat) (subject : SubjectData)
    (budget : Q) (st st' : DayState) :
  I st -> nth_error (subject_data st) i = Some subject ->
  study today preferences d i subject budget st = Ok st' -> I st'.
Proof.
  unfold I, log_ok. intros [Hnd Hlog] Hn H.
  destruct (study_outcome _ _ _ _ _ _ _ _ H)
    as (s1 & used & Hout & -> & _ & _ & ->).
  assert (Hlt : (i < List.length (subject_data st))%nat)
    by (apply nth_error_Some; congruence).
  split; [ exact Hnd | ].
  intros j Hj. destruct (Hlog j Hj) as (s & Hs & Hflag).
  destruct (Nat.eq_dec i j) as [<- | Hne].
  - exists s1. split; [ now apply nth_error_update_nth_eq | ].
    rewrite (regular_outcome_revision_flag _ _ _ _ _ _ _ _ _ _ Hout).
    congruence.
  - rewrite nth_error_update_nth_neq by exact Hne. eauto.
Qed.

Lemma log_day_loop (n : nat) (d : date) (p p' : Plan) :
  J p -> day_loop today preferences n d p = Ok p' -> J p'.
Proof.
  apply (day_loop_inv today preferences J (fun _ _ => I)).
  - intros p0 d0 H. exact H.
  - intros p0 d0 st0 st _ H0 H.
    eapply (run_passes_inv today preferences d0 I); eauto.
    + intros. eapply log_revise; eauto.
    + intros. eapply log_study; eauto.
  - intros p0 d0 st _ [Hnd Hlog]. unfold J, log_ok.
    rewrite end_of_day_subject_data, end_of_day_revision_log.
    split; [ exact Hnd | ].
    intros i Hi. destruct (Hlog i Hi) as (s & Hs & Hflag).
    exists (fst (check_subject (d0 + 1)%Z s)). split.
    + rewrite nth_error_map, Hs. reflexivity.
    + now rewrite check_subject_revision_flag.
Qed.

End RevisionLog.

(** ** The revision sessions of a subject form one batch *)

Lemma revision_sessions_of_app (name : string) (a b : list StudySession) :
  revision_sessions_of name (a ++ b)
  = revision_sessions_of name a ++ revision_sessions_of name b.
Proof.
  apply filter_app.
Qed.

Lemma revision_sessions_of_own_batch (name : string) (d : date)
    (batch : list StudySession) :
  Forall (revision_session_of name d) batch ->
  revision_sessions_of name batch = batch.
Proof.
  induction 1 as [ | s batch (Hs & _ & Ht) H IH]; [ reflexivity | ].
  unfold revision_sessions_of in *. simpl. unfold is_revision_of at 1.
  rewrite Ht, Hs, String.eqb_refl. simpl. now rewrite IH.
Qed.

Lemma revision_sessions_of_other_batch (name name' : string) (d : date)
    (batch : list StudySession) :
  name <> name' ->
  Forall (revision_session_of name d) batch ->
  revision_sessions_of name' batch = [].
Proof.
  intro Hne. induction 1 as [ | s batch (Hs & _ & Ht) H IH]; [ reflexivity | ].
  unfold revision_sessions_of in *. simpl. unfold is_revision_of at 1.
  rewrite Hs. apply String.eqb_neq in Hne. rewrite Hne, andb_false_r.
  exact IH.
Qed.

Lemma revision_sessions_of_regular (name : string) (s : StudySession) :
  session_type s = regular -> revision_sessions_of name [s] = [].
Proof.
  intro H. unfold revision_sessions_of, is_revision_of. simpl. now rewrite H.
Qed.

Lemma revision_labels_names (ts ts' : list TopicData) (k : nat) :
  map t_name ts = map t_name ts' ->
  revision_labels (firstn k ts) = revision_labels (firstn k ts').
Proof.
  intro H. unfold revision_labels.
  rewrite <- !firstn_map.
  rewrite <- (map_map t_name revision_label ts).
  rewrite <- (map_map t_name revision_label ts'). now rewrite H.
Qed.

Section RevisionBatches.

Variable today : date.
Variable preferences : StudyPreferences.
Variable sd0 : list SubjectData.
Hypothesis names_unique : NoDup (map s_name sd0).

Let I (p : Plan) (st : DayState) : Prop :=
  Forall2 same_key sd0 (subject_data st)
  /\ batches_ok sd0 (subject_data st)
       (all_sessions (plan_days p) ++ day_sessions st).

Let J (p : Plan) : Prop :=
  Forall2 same_key sd0 (plan_subject_data p)
  /\ batches_ok sd0 (plan_subject_data p) (all_sessions (plan_days p)).

Lemma batches_revise (p : Plan) (d : date) (i : nat) (subject : SubjectData)
    (budget : Q) (st st' : DayState) :
  I p st -> nth_error (subject_data st) i = Some subject ->
  revision_completed subject = false ->
  revise today preferences d i subject budget st = Ok st' -> I p st'.
Proof.
  unfold I. intros [Hk Hb] Hn Hrc H.
  split; [ eapply same_key_revise; eauto | ].
  destruct (revise_outcome _ _ _ _ _ _ _ _ H) as (s1 & used & Hout & -> & _).
  destruct (revision_outcome_batch _ _ _ _ _ _ _ _ _ Hout)
    as (batch & tpt & -> & _ & _ & Hkind & Hlen & Hlab & _).
  destruct (Forall2_nth_error_r _ _ _ _ _ Hk Hn) as (ai & Hai & Hkey).
  intros j a s' Ha Hs'. rewrite app_assoc, revision_sessions_of_app.
  destruct (nth_error_update_nth _ _ _ _ _ Hs') as [[<- ->] | [Hne Hs]].
  - rewrite Hai in Ha. injection Ha as <-.
    destruct (Hb i ai subject Hai Hn) as [Hnone _].
    rewrite (Hnone Hrc). simpl.
    rewrite (same_key_name _ _ Hkey).
    rewrite (revision_sessions_of_own_batch _ _ _ Hkind).
    split; [ discriminate | ].
    exists (List.length batch). split; [ exact Hlen | ].
    rewrite Hlab. apply revision_labels_names.
    symmetry. now apply same_key_topic_names.
  - assert (Hname : s_name subject <> s_name a).
    { intro E. apply Hne.
      eapply (NoDup_map_nth_error s_name sd0); eauto.
      rewrite (same_key_name _ _ Hkey). exact E. }
    rewrite (revision_sessions_of_other_batch _ _ _ _ Hname Hkind).
    rewrite app_nil_r. now apply (Hb j a s').
Qed.

Lemma batches_study (p : Plan) (d : date) (i : nat) (subject : SubjectData)
    (budget : Q) (st st' : DayState) :
  I p st -> nth_error (subject_data st) i = Some subject ->
  study today preferences d i subject budget st = Ok st' -> I p st'.
Proof.
  unfold I. intros [Hk Hb] Hn H.
  split; [ eapply same_key_study; eauto | ].
  destruct (study_outcome _ _ _ _ _ _ _ _ H) as (s1 & used & Hout & -> & _).
  pose proof (regular_outcome_revision_flag _ _ _ _ _ _ _ _ _ _ Hout) as Hflag.
  assert (Hall : forall name,
             revision_sessions_of name
               (all_sessions (plan_days p) ++ day_sessions st')
             = revision_sessions_of name
                 (all_sessions (plan_days p) ++ day_sessions st)).
  { intro name.
    destruct (regular_outcome_cases _ _ _ _ _ _ _ _ _ _ Hout)
      as [(-> & _) | (idx & idx' & topic & s & _ & _ & Hrs & -> & _)];
      [ reflexivity | ].
    rewrite app_assoc, revision_sessions_of_app. destruct Hrs.
    rewrite (revision_sessions_of_regular _ _ rs_type0). apply app_nil_r. }
  intros j a s' Ha Hs'. rewrite Hall.
  destruct (nth_error_update_nth _ _ _ _ _ Hs') as [[<- ->] | [Hne Hs]].
  - destruct (Hb i a subject Ha Hn) as [Hnone Hlab].
    split; [ | exact Hlab ]. rewrite Hflag. exact Hnone.
  - now apply (Hb j a s').
Qed.

Lemma batches_day_loop (n : nat) (d : date) (p p' : Plan) :
  J p -> day_loop today preferences n d p = Ok p' -> J p'.
Proof.
  apply (day_loop_inv today preferences J (fun p _ => I p)).
  - intros p0 d0 [Hk Hb]. split; [ exact Hk | ]. simpl.
    now rewrite app_nil_r.
  - intros p0 d0 st0 st _ H0 H.
    eapply (run_passes_inv today preferences d0 (I p0)); eauto.
    + intros. eapply batches_revise; eauto.
    + intros. eapply batches_study; eauto.
  - intros p0 d0 st _ [Hk Hb]. unfold J.
    rewrite end_of_day_subject_data, end_of_day_all_sessions.
    split; [ now apply same_key_check | ].
    intros j a s' Ha Hs'.
    apply nth_error_map_Some in Hs'. destruct Hs' as (s & Hs & ->).
    rewrite check_subject_revision_flag. now apply (Hb j a s).
Qed.

End RevisionBatches.

(** ** The ledger of regular hours *)

Lemma Qsum_app (a b : list Q) : Qsum (a ++ b) == Qsum a + Qsum b.
Proof.
  induction a as [ | x a IH]; simpl; [ lra | ]. rewrite IH. lra.
Qed.

Lemma regular_hours_app (name tname : string) (a b : list StudySession) :
  regular_hours name tname (a ++ b)
  == regular_hours name tname a + regular_hours name tname b.
Proof.
  unfold regular_hours. rewrite filter_app, map_app. apply Qsum_app.
Qed.

Lemma regular_hours_revision_batch (name tname name' : string) (d : date)
    (batch : list StudySession) :
  Forall (revision_session_of name' d) batch ->
  regular_hours name tname batch == 0.
Proof.
  unfold regular_hours.
  induction 1 as [ | s batch (_ & _ & Ht) H IH]; simpl; [ lra | ].
  unfold is_regular_for at 1. rewrite Ht. simpl. exact IH.
Qed.

Section Ledger.

Variable today : date.
Variable preferences : StudyPreferences.
Variable sd0 : list SubjectData.
Hypothesis names_unique : NoDup (map s_name sd0).
Hypothesis topic_names_unique :
  forall a, In a sd0 -> NoDup (map t_name (topics a)).

Let I (p : Plan) (st : DayState) : Prop :=
  Forall2 same_key sd0 (subject_data st)
  /\ ledger_ok (subject_data st) (all_sessions (plan_days p) ++ day_sessions st).

Let J (p : Plan) : Prop :=
  Forall2 same_key sd0 (plan_subject_data p)
  /\ ledger_ok (plan_subject_data p) (all_sessions (plan_days p)).

Lemma ledger_revise (p : Plan) (d : date) (i : nat) (subject : SubjectData)
    (budget : Q) (st st' : DayState) :
  I p st -> nth_error (subject_data st) i = Some subject ->
  revise today preferences d i subject budget st = Ok st' -> I p st'.
Proof.
  unfold I. intros [Hk Hl] Hn H.
  split; [ eapply same_key_revise; eauto | ].
  destruct (revise_outcome _ _ _ _ _ _ _ _ H) as (s1 & used & Hout & -> & _).
  destruct (revision_outcome_batch _ _ _ _ _ _ _ _ _ Hout)
    as (batch & tpt & -> & _ & _ & Hkind & _ & _ & Hs1).
  intros j s' k t Hs' Ht.
  rewrite app_assoc, regular_hours_app.
  rewrite (regular_hours_revision_batch _ _ _ _ _ Hkind).
  destruct (nth_error_update_nth _ _ _ _ _ Hs') as [[<- ->] | [Hne Hs]].
  - assert (E : s_name (set_revision_completed s1 true) = s_name subject
                /\ topics (set_revision_completed s1 true) = topics subject).
    { destruct Hs1 as [-> | ->]; auto. }
    destruct E as [E1 E2]. rewrite E1. rewrite E2 in Ht.
    rewrite (Hl i subject k t Hn Ht). lra.
  - rewrite (Hl j s' k t Hs Ht). lra.
Qed.

Lemma ledger_study (p : Plan) (d : date) (i : nat) (subject : SubjectData)
    (budget : Q) (st st' : DayState) :
  I p st -> nth_error (subject_data st) i = Some subject ->
  study today preferences d i subject budget st = Ok st' -> I p st'.
Proof.
  unfold I. intros [Hk Hl] Hn H.
  split; [ eapply same_key_study; eauto | ].
  destruct (study_outcome _ _ _ _ _ _ _ _ H) as (s1 & used & Hout & -> & _).
  destruct (Forall2_nth_error_r _ _ _ _ _ Hk Hn) as (ai & Hai & Hkey).
  assert (Hnames : NoDup (map s_name (subject_data st))).
  { rewrite (same_key_map s_name _ _ same_key_name Hk). exact names_unique. }
  assert (Htopics : NoDup (map t_name (topics subject))).
  { rewrite <- (same_key_topic_names _ _ Hkey).
    apply topic_names_unique. eapply nth_error_In; eauto. }
  destruct (regular_outcome_cases _ _ _ _ _ _ _ _ _ _ Hout)
    as [(-> & _ & Hs1) | (idx & idx' & topic & s & Hti & _ & Hrs & -> & _ & ->)].
  - intros j s' k t Hs' Ht.
    destruct (nth_error_update_nth _ _ _ _ _ Hs') as [[<- ->] | [Hne Hs]].
    + assert (E : s_name s1 = s_name subject /\ topics s1 = topics subject).
      { destruct Hs1 as [-> | [idx ->]]; auto. }
      destruct E as [E1 E2]. rewrite E1. rewrite E2 in Ht.
      now apply (Hl i subject k t).
    + now apply (Hl j s' k t).
  - destruct Hrs. intros j s' k t Hs' Ht.
    rewrite app_assoc, regular_hours_app.
    destruct (nth_error_update_nth _ _ _ _ _ Hs') as [[<- ->] | [Hne Hs]].
    + simpl in Ht. simpl s_name.
      destruct (nth_error_update_nth _ _ _ _ _ Ht) as [[<- ->] | [Hnk Htk]].
      * simpl. rewrite (Hl i subject idx topic Hn Hti).
        unfold regular_hours. simpl. unfold is_regular_for.
        rewrite rs_type0, rs_subject0, rs_topic0, !String.eqb_refl. simpl.
        lra.
      * rewrite (Hl i subject k t Hn Htk).
        assert (Hne : t_name topic <> t_name t).
        { intro E. apply Hnk.
          eapply (NoDup_map_nth_error t_name (topics subject)); eauto. }
        unfold regular_hours. simpl. unfold is_regular_for.
        rewrite rs_topic0. apply String.eqb_neq in Hne.
        rewrite Hne, andb_false_r. simpl. lra.
    + rewrite (Hl j s' k t Hs Ht).
      assert (Hname : s_name subject <> s_name s').
      { intro E. apply Hne.
        eapply (NoDup_map_nth_error s_name (subject_data st)); eauto. }
      unfold regular_hours. simpl. unfold is_regular_for.
      rewrite rs_subject0. apply String.eqb_neq in Hname.
      rewrite Hname, andb_false_r. simpl. lra.
Qed.

Lemma ledger_day_loop (n : nat) (d : date) (p p' : Plan) :
  J p -> day_loop today preferences n d p = Ok p' -> J p'.
Proof.
  apply (day_loop_inv today preferences J (fun p _ => I p)).
  - intros p0 d0 [Hk Hl]. split; [ exact Hk | ]. simpl.
    now rewrite app_nil_r.
  - intros p0 d0 st0 st _ H0 H.
    eapply (run_passes_inv today preferences d0 (I p0)); eauto.
    + intros. eapply ledger_revise; eauto.
    + intros. eapply ledger_study; eauto.
  - intros p0 d0 st _ [Hk Hl]. unfold J.
    rewrite end_of_day_subject_data, end_of_day_all_sessions.
    split; [ now apply same_key_check | ].
    intros j s' k t Hs' Ht.
    apply nth_error_map_Some in Hs'. destruct Hs' as (s & Hs & ->).
    rewrite check_subject_name. rewrite check_subject_topics in Ht.
    now apply (Hl j s k t).
Qed.

End Ledger.

(** ** The initial plan *)

Lemma Forall2_nth_error_l {A B : Type} (R : A -> B -> Prop) (l0 : list A)
    (l : list B) (i : nat) (a : A) :
  Forall2 R l0 l -> nth_error l0 i = Some a ->
  exists b, nth_error l i = Some b /\ R a b.
Proof.
  intro H. revert i. induction H as [ | a0 b0 l0 l Hab H IH]; intros [ | i] Hn;
    simpl in *; try discriminate.
  - injection Hn as <-. eauto.
  - eauto.
Qed.

Lemma map_eq_nth_error {A B C : Type} (f : A -> C) (g : B -> C) (l : list A)
    (l' : list B) (j : nat) (x : A) :
  map f l = map g l' -> nth_error l j = Some x ->
  exists y, nth_error l' j = Some y /\ f x = g y.
Proof.
  intros H Hx.
  assert (E : nth_error (map g l') j = Some (f x)).
  { rewrite <- H, nth_error_map, Hx. reflexivity. }
  apply nth_error_map_Some in E. destruct E as (y & Hy & E). eauto.
Qed.

Lemma prepared_names (subjects : list Subject) :
  map s_name (map prepare_subject subjects) = map subject_name subjects.
Proof.
  rewrite map_map. reflexivity.
Qed.

Lemma prepared_topic_names (subject : Subject) :
  map t_name (topics (prepare_subject subject))
  = map topic_name (subject_topics subject).
Proof.
  simpl. rewrite map_map. reflexivity.
Qed.

Lemma prepared_revision_labels (subject : Subject) (k : nat) :
  revision_labels (firstn k (topics (prepare_subject subject)))
  = map (fun t => revision_label (topic_name t))
      (firstn k (subject_topics subject)).
Proof.
  unfold revision_labels. simpl. rewrite <- firstn_map, map_map.
  rewrite firstn_map. reflexivity.
Qed.

Lemma batches_ok_initial (sd0 : list SubjectData) : batches_ok sd0 sd0 [].
Proof.
  intros i a s _ _. split; [ reflexivity | ]. exists 0%nat. split; [ lia | ].
  reflexivity.
Qed.

Lemma ledger_ok_initial (subjects : list Subject) :
  ledger_ok (map prepare_subject subjects) [].
Proof.
  intros i s j t Hs Ht.
  apply nth_error_map_Some in Hs. destruct Hs as (subject & _ & ->).
  simpl in Ht. apply nth_error_map_Some in Ht. destruct Ht as (topic & _ & ->).
  unfold regular_hours. simpl. lra.
Qed.

Lemma log_ok_initial (sd : list SubjectData) : log_ok sd [].
Proof.
  split; [ constructor | intros i [] ].
Qed.

(** ** The breaks recorded in the sessions are the gaps on the clock *)

Lemma clock_chained_app (t : time) (a b : list StudySession) :
  clock_chained t a -> clock_chained (clock_after t a) b ->
  clock_chained t (a ++ b).
Proof.
  revert t; induction a as [ | s a IH]; intros t Ha Hb; simpl in *; auto.
  destruct Ha as [Hs Ha]. split; auto.
Qed.

Lemma clock_after_app (t : time) (a b : list StudySession) :
  clock_after t (a ++ b) = clock_after (clock_after t a) b.
Proof.
  revert t; induction a as [ | s a IH]; intro t; simpl; auto.
Qed.

Lemma datetime_plus_hours_Ok (dt : datetime) (h : Q) (r : datetime) :
  datetime_plus_hours dt h = Ok r -> r = (dt + gap_us h)%Z.
Proof.
  unfold datetime_plus_hours, timedelta_hours. fold (gap_us h).
  destruct (MAX_DELTA_DAYS <? _)%Z; simpl; [ discriminate | ].
  destruct (_ && _); [ | discriminate ]. congruence.
Qed.

Lemma clock_past_no_break (dt : datetime) (s : StudySession) :
  end_time s = datetime_time dt -> break_after s = 0 ->
  clock_past s = datetime_time dt.
Proof.
  intros He Hb. unfold clock_past, datetime_time in *. rewrite He, Hb.
  change (gap_us 0) with 0%Z. rewrite Z.add_0_r. apply Z.mod_mod.
  unfold US_PER_DAY. lia.
Qed.

Lemma clock_past_break (dt : datetime) (s : StudySession) (brk : Q) :
  end_time s = datetime_time dt -> break_after s = brk ->
  clock_past s = datetime_time (dt + gap_us brk)%Z.
Proof.
  intros He Hb. unfold clock_past, datetime_time in *. rewrite He, Hb.
  apply Zplus_mod_idemp_l.
Qed.

Lemma add_regular_session_clock (today : date) (subject : SubjectData)
    (d : date) (t0 : time) (avail max brk : Q) (ds : list StudySession)
    (out : Allocation) :
  _add_regular_session today subject d t0 avail max brk ds = Ok out ->
  (res_sessions out = ds /\ res_time out = t0)
  \/ exists s, res_sessions out = ds ++ [s] /\ start_time s = t0
               /\ res_time out = clock_past s.
Proof.
  unfold _add_regular_session. intro H.
  destruct (subject_completed subject).
  { injection H as <-. left. auto. }
  destruct (advance_cursor _ _) as [idx [topic | ]].
  2:{ injection H as <-. left. auto. }
  bind_inv H. simpl in H.
  destruct (Qlt_bool (1 # 100) _) eqn:Hb.
  - bind_inv H. injection H as <-. right. eexists.
    unfold res_sessions, res_time. simpl.
    split; [ reflexivity | ]. split; [ reflexivity | ].
    apply datetime_plus_hours_Ok in E0. subst a0.
    symmetry. now apply clock_past_break.
  - injection H as <-. right. eexists.
    unfold res_sessions, res_time. simpl.
    split; [ reflexivity | ]. split; [ reflexivity | ].
    symmetry. now apply clock_past_no_break.
Qed.

Lemma revision_loop_clock (today : date) (name : string) (d : date)
    (max brk tpt : Q) (n : nat) :
  forall rest st st',
    revision_loop today name d max brk tpt n rest st = Ok st' ->
    exists batch,
      rl_sessions st' = rl_sessions st ++ batch
      /\ clock_chained (current_session_time st) batch
      /\ current_session_time st'
         = clock_after (current_session_time st) batch.
Proof.
  induction rest as [ | topic rest IH]; intros st st' H; simpl in H.
  - injection H as <-. exists []. rewrite app_nil_r. simpl. auto.
  - destruct (_ && _).
    2:{ injection H as <-. exists []. rewrite app_nil_r. simpl. auto. }
    destruct (Qlt_bool (min3 max (remaining_time st) tpt) (1 # 10));
      [ now apply IH | ].
    bind_inv H. bind_inv H.
    destruct (IH _ _ H) as (batch & Hs & Hc & Ht).
    destruct (Qlt_bool (1 # 10) _) eqn:Hb.
    + bind_inv E0. injection E0 as <-. simpl in *.
      apply datetime_plus_hours_Ok in E1. subst a1.
      eexists (_ :: batch). rewrite Hs, <- app_assoc. simpl.
      split; [ reflexivity | ].
      rewrite (clock_past_break a _ brk) by reflexivity. auto.
    + injection E0 as <-. simpl in *.
      eexists (_ :: batch). rewrite Hs, <- app_assoc. simpl.
      split; [ reflexivity | ].
      rewrite (clock_past_no_break a) by reflexivity. auto.
Qed.

Lemma add_revision_session_clock (today : date) (subject : SubjectData)
    (d : date) (t0 : time) (avail max brk : Q) (ds : list StudySession)
    (out : Allocation) :
  _add_revision_session today subject d t0 avail max brk ds = Ok out ->
  exists batch,
    res_sessions out = ds ++ batch /\ clock_chained t0 batch
    /\ res_time out = clock_after t0 batch.
Proof.
  unfold _add_revision_session. intro H.
  destruct (_ || _).
  { injection H as <-. exists []. rewrite app_nil_r. simpl. auto. }
  destruct (_ =? 0)%nat.
  { injection H as <-. exists []. rewrite app_nil_r. simpl. auto. }
  bind_inv H. bind_inv H. injection H as <-.
  apply revision_loop_clock in E0. exact E0.
Qed.

Section Clock.

Variable today : date.
Variable preferences : StudyPreferences.

Let I (st : DayState) : Prop :=
  clock_chained nine_am (day_sessions st)
  /\ current_time st = clock_after nine_am (day_sessions st).

Let J (p : Plan) : Prop :=
  forall day, In day (plan_days p) -> clock_chained nine_am (sessions day).

Lemma clock_revise (d : date) (i : nat) (subject : SubjectData)
    (budget : Q) (st st' : DayState) :
  I st -> revise today preferences d i subject budget st = Ok st' -> I st'.
Proof.
  unfold I, revise. intros [Hc Ht] H. bind_inv H.
  destruct (add_revision_session_clock _ _ _ _ _ _ _ _ _ E)
    as (batch & Hs & Hb & Hr).
  destruct a as [[[s1 ds'] used] t1].
  unfold res_sessions, res_time in *. simpl in *.
  injection H as <-. simpl. subst ds' t1. rewrite Ht in *. split.
  - now apply clock_chained_app.
  - now rewrite clock_after_app.
Qed.

Lemma clock_study (d : date) (i : nat) (subject : SubjectData)
    (budget : Q) (st st' : DayState) :
  I st -> study today preferences d i subject budget st = Ok st' -> I st'.
Proof.
  unfold I, study. intros [Hc Ht] H. bind_inv H.
  destruct a as [[[s1 ds'] used] t1].
  apply add_regular_session_clock in E.
  unfold res_sessions, res_time in E. simpl in E.
  injection H as <-. simpl.
  destruct E as [[-> ->] | (s & -> & Hs & ->)]; [ auto | ].
  rewrite Ht in Hs. split.
  - apply clock_chained_app; [ exact Hc | ]. simpl. auto.
  - rewrite clock_after_app. reflexivity.
Qed.

Lemma clock_day_loop (n : nat) (d : date) (p p' : Plan) :
  J p -> day_loop today preferences n d p = Ok p' -> J p'.
Proof.
  apply (day_loop_inv today preferences J (fun _ _ => I)).
  - intros p0 d0 _. split; reflexivity.
  - intros p0 d0 st0 st _ H0 H.
    eapply (run_passes_inv today preferences d0 I); eauto.
    + intros. eapply clock_revise; eauto.
    + intros. eapply clock_study; eauto.
  - intros p0 d0 st Hp [Hc _]. unfold J. rewrite end_of_day_days.
    destruct (day_sessions st) as [ | s l] eqn:Es; [ exact Hp | ].
    intros day Hin. apply in_app_or in Hin.
    destruct Hin as [Hin | [<- | []]]; [ now apply Hp | exact Hc ].
Qed.

End Clock.

(** In every day of a response the sessions are chained on the clock from
    09:00 on: the gap between two consecutive sessions is the break recorded
    in the first of them. *)
Lemma response_clock_chained (today : date) (req : StudyPlanRequest)
    (resp : StudyPlanResponse) (day : StudyDay) :
  generate_study_plan today req = Ok resp ->
  In day (days resp) ->
  clock_chained nine_am (sessions day).
Proof.
  intros H Hin.
  destruct (generate_study_plan_Ok _ _ _ H) as (p & av & _ & Hp & Hd & _).
  rewrite Hd in Hin. unfold schedule in Hp.
  eapply (clock_day_loop today (preferences req)); eauto.
  intros d0 [].
Qed.

(** ** The counted day loop is the [while] loop *)

Lemma day_count_guard (start_date end_date : date) :
  (0 < day_count start_date end_date)%nat <-> (start_date <= end_date)%Z.
Proof.
  unfold day_count. lia.
Qed.

Lemma day_count_step (start_date end_date : date) :
  (start_date <= end_date)%Z ->
  day_count start_date end_date = S (day_count (start_date + 1)%Z end_date).
Proof.
  unfold day_count. lia.
Qed.

(** ** The day-advance step *)

Lemma check_completed_snd (d : date) (sd : list SubjectData) :
  snd (check_completed d sd) = flat_map (fun s => snd (check_subject d s)) sd.
Proof.
  induction sd as [ | s sd IH]; simpl; [ reflexivity | ].
  destruct (check_subject d s) as [s' un].
  destruct (check_completed d sd) as [sd' un']. simpl in *. now rewrite IH.
Qed.

Lemma end_of_day_unallocated (d next : date) (p : Plan) (st : DayState) :
  plan_unallocated (end_of_day d next p st)
  = plan_unallocated p
    ++ flat_map (fun s => snd (check_subject next s)) (subject_data st).
Proof.
  unfold end_of_day. rewrite <- check_completed_snd.
  destruct (check_completed next (subject_data st)). reflexivity.
Qed.

(** ** The only exception is [OverflowError] *)

Lemma bind_Raise {A B : Type} (c : result A) (k : A -> result B) (e : exn) :
  bind c k = Raise e ->
  c = Raise e \/ exists a, c = Ok a /\ k a = Raise e.
Proof.
  destruct c as [a | e']; simpl; intro H; [ right; eauto | left; congruence ].
Qed.

Lemma date_plus_days_raises (d n : Z) (e : exn) :
  date_plus_days d n = Raise e -> e = OverflowError.
Proof.
  unfold date_plus_days. destruct (_ <? _)%Z; [ congruence | ].
  destruct (_ && _); congruence.
Qed.

Lemma add_regular_session_raises (today : date) (subject : SubjectData)
    (d : date) (t0 : time) (avail max brk : Q) (ds : list StudySession)
    (e : exn) :
  _add_regular_session today subject d t0 avail max brk ds = Raise e ->
  e = OverflowError.
Proof.
  unfold _add_regular_session.
  destruct (subject_completed subject); [ discriminate | ].
  destruct (advance_cursor _ _) as [idx [topic | ]]; [ | discriminate ].
  intro H. apply bind_Raise in H.
  destruct H as [H | (dt & _ & H)];
    [ eapply datetime_plus_hours_raises; eauto | ].
  simpl in H. destruct (Qlt_bool (1 # 100) _); [ | discriminate ].
  apply bind_Raise in H. destruct H as [H | (dt2 & _ & H)];
    [ eapply datetime_plus_hours_raises; eauto | discriminate ].
Qed.

Lemma revise_raises (today : date) (preferences : StudyPreferences) (d : date)
    (i : nat) (subject : SubjectData) (budget : Q) (st : DayState) (e : exn) :
  revise today preferences d i subject budget st = Raise e -> e = OverflowError.
Proof.
  unfold revise. intro H. apply bind_Raise in H.
  destruct H as [H | ([[[s1 ds] used] t1] & _ & H)];
    [ eapply add_revision_session_raises; eauto | discriminate ].
Qed.

Lemma study_raises (today : date) (preferences : StudyPreferences) (d : date)
    (i : nat) (subject : SubjectData) (budget : Q) (st : DayState) (e : exn) :
  study today preferences d i subject budget st = Raise e -> e = OverflowError.
Proof.
  unfold study. intro H. apply bind_Raise in H.
  destruct H as [H | ([[[s1 ds] used] t1] & _ & H)];
    [ eapply add_regular_session_raises; eauto | discriminate ].
Qed.

Lemma urgent_body_raises (today : date) (preferences : StudyPreferences)
    (d : date) (i : nat) (subject : SubjectData) (st : DayState) (e : exn) :
  s_exam_date subject <> None ->
  urgent_body today preferences d i subject st = Raise e -> e = OverflowError.
Proof.
  unfold urgent_body. intros Hex H.
  destruct (s_exam_date subject) as [ex | ]; [ | contradiction ].
  apply bind_Raise in H. destruct H as [H | (rd & _ & H)];
    [ eapply date_plus_days_raises; eauto | ].
  apply bind_Raise in H. destruct H as [H | (st1 & _ & H)]; [ | discriminate ].
  destruct (needs_revision_today d subject rd);
    [ eapply revise_raises; eauto | eapply study_raises; eauto ].
Qed.

Lemma high_body_raises (today : date) (preferences : StudyPreferences)
    (d : date) (i : nat) (subject : SubjectData) (st : DayState) (e : exn) :
  high_body today preferences d i subject st = Raise e -> e = OverflowError.
Proof.
  unfold high_body, regular_high. intro H.
  assert (Hreg : forall budget,
             (st' <- study today preferences d i subject budget st ;;
              Ok (mark_covered (s_name subject) st')) = Raise e ->
             e = OverflowError).
  { intros budget H1. apply bind_Raise in H1.
    destruct H1 as [H1 | (st1 & _ & H1)];
      [ eapply study_raises; eauto | discriminate ]. }
  destruct (s_exam_date subject) as [ex | ]; [ | eauto ].
  apply bind_Raise in H. destruct H as [H | (rd & _ & H)];
    [ eapply date_plus_days_raises; eauto | ].
  destruct (needs_revision_today d subject rd);
    [ eapply revise_raises; eauto | eauto ].
Qed.

Lemma tier_body_raises (today : date) (preferences : StudyPreferences)
    (d : date) (i : nat) (subject : SubjectData) (st : DayState) (e : exn) :
  tier_body today preferences d i subject st = Raise e -> e = OverflowError.
Proof.
  unfold tier_body. intro H.
  destruct (s_exam_date subject) as [ex | ];
    [ | eapply study_raises; eauto ].
  apply bind_Raise in H. destruct H as [H | (rd & _ & H)];
    [ eapply date_plus_days_raises; eauto | ].
  destruct (needs_revision_today d subject rd);
    [ eapply revise_raises; eauto | eapply study_raises; eauto ].
Qed.

Lemma positions_from_spec (p : SubjectData -> bool) (sd : list SubjectData) :
  forall start i,
    In i (map fst (filter (fun x => p (snd x))
                     (combine (seq start (List.length sd)) sd))) ->
    (start <= i)%nat
    /\ exists s, nth_error sd (i - start) = Some s /\ p s = true.
Proof.
  induction sd as [ | a sd IH]; intros start i H; simpl in H; [ contradiction | ].
  assert (Hrest : In i (map fst (filter (fun x => p (snd x))
                                   (combine (seq (S start) (List.length sd)) sd))) ->
                  (start <= i)%nat
                  /\ exists s, nth_error (a :: sd) (i - start) = Some s
                               /\ p s = true).
  { intro Hin. destruct (IH _ _ Hin) as [Hle (s & Hs & Hp)].
    split; [ lia | ]. exists s. split; [ | exact Hp ].
    replace (i - start)%nat with (S (i - S start)) by lia. exact Hs. }
  destruct (p a) eqn:Hpa; simpl in H; [ | auto ].
  destruct H as [<- | H]; [ | auto ].
  split; [ lia | ]. exists a. rewrite Nat.sub_diag. auto.
Qed.

Lemma positions_where_spec (p : SubjectData -> bool) (sd : list SubjectData)
    (i : nat) :
  In i (positions_where p sd) ->
  exists s, nth_error sd i = Some s /\ p s = true.
Proof.
  unfold positions_where. intro H.
  destruct (positions_from_spec p sd 0 i H) as [_ (s & Hs & Hp)].
  rewrite Nat.sub_0_r in Hs. eauto.
Qed.

Section Raises.

Variable today : date.
Variable preferences : StudyPreferences.
Variable current_date : date.

Lemma for_subjects_raises
    (body : nat -> SubjectData -> DayState -> result DayState)
    (sd0 : list SubjectData) (ok : SubjectData -> Prop) :
  (forall a b, same_key a b -> ok a -> ok b) ->
  body_keeps (fun st => Forall2 same_key sd0 (subject_data st)) body ->
  (forall i subject st e,
     ok subject -> body i subject st = Raise e -> e = OverflowError) ->
  forall l st e,
    (forall i, In i l -> exists a, nth_error sd0 i = Some a /\ ok a) ->
    Forall2 same_key sd0 (subject_data st) ->
    for_subjects body l st = Raise e -> e = OverflowError.
Proof.
  intros Hok Hkeeps Hraise. induction l as [ | i l IH]; intros st e Hl Hk H;
    simpl in H; [ discriminate | ].
  destruct (Qlt_bool (hours_left st) (1 # 2)) eqn:Hb; [ discriminate | ].
  apply Qlt_bool_false in Hb.
  destruct (Hl i (or_introl eq_refl)) as (a & Ha & Hoka).
  destruct (Forall2_nth_error_l _ _ _ _ _ Hk Ha) as (subject & Hs & Hkey).
  rewrite Hs in H. apply bind_Raise in H.
  destruct H as [H | (st1 & Hst1 & H)].
  - eapply Hraise; [ eapply Hok; eauto | exact H ].
  - apply (IH st1 e); [ | | exact H ].
    + intros j Hj. apply Hl. now right.
    + eapply Hkeeps; eauto.
Qed.

Lemma same_key_body_keeps_urgent (sd0 : list SubjectData) :
  body_keeps (fun st => Forall2 same_key sd0 (subject_data st))
    (urgent_body today preferences current_date).
Proof.
  apply urgent_body_keeps.
  - intros. eapply same_key_revise; eauto.
  - intros. eapply same_key_study; eauto.
  - intros name st H. exact H.
Qed.

Lemma same_key_body_keeps_high (sd0 : list SubjectData) :
  body_keeps (fun st => Forall2 same_key sd0 (subject_data st))
    (high_body today preferences current_date).
Proof.
  apply high_body_keeps.
  - intros. eapply same_key_revise; eauto.
  - intros. eapply same_key_study; eauto.
  - intros name st H. exact H.
Qed.

Lemma same_key_body_keeps_tier (sd0 : list SubjectData) :
  body_keeps (fun st => Forall2 same_key sd0 (subject_data st))
    (tier_body today preferences current_date).
Proof.
  apply tier_body_keeps.
  - intros. eapply same_key_revise; eauto.
  - intros. eapply same_key_study; eauto.
Qed.

Lemma pass_raises
    (body : nat -> SubjectData -> DayState -> result DayState)
    (p : SubjectData -> bool) (ok : SubjectData -> Prop) (st : DayState)
    (e : exn) :
  (forall a b, same_key a b -> ok a -> ok b) ->
  (forall s, p s = true -> ok s) ->
  body_keeps (fun st' => Forall2 same_key (subject_data st) (subject_data st'))
    body ->
  (forall i subject st' e',
     ok subject -> body i subject st' = Raise e' -> e' = OverflowError) ->
  for_subjects body (positions_where p (subject_data st)) st = Raise e ->
  e = OverflowError.
Proof.
  intros Hok Hp Hkeeps Hraise H.
  eapply (for_subjects_raises body (subject_data st) ok); eauto.
  - intros i Hi. apply positions_where_spec in Hi.
    destruct Hi as (s & Hs & Hps). eauto.
  - apply same_key_Forall2_refl.
Qed.

Lemma run_passes_raises (st0 : DayState) (e : exn) :
  run_passes today preferences current_date st0 = Raise e ->
  e = OverflowError.
Proof.
  unfold run_passes. intro H.
  assert (Htrue : forall a b : SubjectData, same_key a b -> True -> True)
    by auto.
  apply bind_Raise in H. destruct H as [H | (st1 & _ & H)].
  { eapply (pass_raises _ _ (fun s => s_exam_date s <> None)); eauto.
    - intros a b Hab. rewrite (same_key_exam _ _ Hab). auto.
    - intros s Hs. unfold is_urgent in Hs.
      destruct (s_exam_date s); [ discriminate | discriminate ].
    - apply same_key_body_keeps_urgent.
    - intros. eapply urgent_body_raises; eauto. }
  apply bind_Raise in H. destruct H as [H | (st2 & _ & H)].
  { eapply (pass_raises _ _ (fun _ => True)); eauto.
    - apply same_key_body_keeps_high.
    - intros. eapply high_body_raises; eauto. }
  apply bind_Raise in H. destruct H as [H | (st3 & _ & H)].
  { eapply (pass_raises _ _ (fun _ => True)); eauto.
    - apply same_key_body_keeps_tier.
    - intros. eapply tier_body_raises; eauto. }
  eapply (pass_raises _ _ (fun _ => True)); eauto.
  - apply same_key_body_keeps_tier.
  - intros. eapply tier_body_raises; eauto.
Qed.

End Raises.

Lemma day_loop_raises (today : date) (preferences : StudyPreferences) (e : exn) :
  forall n d p, day_loop today preferences n d p = Raise e -> e = OverflowError.
Proof.
  induction n as [ | n IH]; intros d p H; simpl in H; [ discriminate | ].
  destruct (is_break_day preferences d).
  - apply bind_Raise in H. destruct H as [H | (next & _ & H)];
      [ eapply date_plus_days_raises; eauto | eauto ].
  - apply bind_Raise in H. destruct H as [H | (st & _ & H)];
      [ eapply run_passes_raises; eauto | ].
    apply bind_Raise in H. destruct H as [H | (next & _ & H)];
      [ eapply date_plus_days_raises; eauto | eauto ].
Qed.

Lemma available_loop_raises (preferences : StudyPreferences) (e : exn) :
  forall n d acc,
    available_loop preferences n d acc = Raise e -> e = OverflowError.
Proof.
  induction n as [ | n IH]; intros d acc H; simpl in H; [ discriminate | ].
  destruct (is_break_day preferences d);
    apply bind_Raise in H; destruct H as [H | (next & _ & H)];
    solve [ eapply date_plus_days_raises; eauto | eauto ].
Qed.

(** The engine raises nothing but [OverflowError], from date or clock
    arithmetic leaving its range: the [TypeError] and [IndexError] of the
    model stand for code paths no run reaches, and the division of the
    revision allocator never has a zero divisor. *)
Lemma generate_study_plan_raises (today : date) (req : StudyPlanRequest)
    (e : exn) :
  generate_study_plan today req = Raise e -> e = OverflowError.
Proof.
  unfold generate_study_plan, _generate_rule_based_schedule, schedule,
    available_study_hours.
  intro H. apply bind_Raise in H. destruct H as [H | (av & _ & H)];
    [ eapply available_loop_raises; eauto | ].
  apply bind_Raise in H. destruct H as [H | ([ds un] & _ & H)];
    [ | discriminate ].
  apply bind_Raise in H. destruct H as [H | (p & _ & H)];
    [ eapply day_loop_raises; eauto | discriminate ].
Qed.

(** * Further properties of the engine: the lemmas *)

(** ** An invariant that follows the date of the day loop *)

Section DatedInvariant.

Variable today : date.
Variable preferences : StudyPreferences.
Variable J : date -> Plan -> Prop.
Variable I : Plan -> date -> DayState -> Prop.

Hypothesis J_skip :
  forall p d, J d p -> is_break_day preferences d = true -> J (d + 1)%Z p.

Hypothesis J_start :
  forall p d, J d p -> is_break_day preferences d = false ->
    I p d (start_of_day preferences d (plan_subject_data p) (plan_revision_log p)).

Hypothesis I_passes :
  forall p d st0 st, J d p -> I p d st0 ->
    run_passes today preferences d st0 = Ok st -> I p d st.

Hypothesis J_finish :
  forall p d st, J d p -> is_break_day preferences d = false -> I p d st ->
    J (d + 1)%Z (end_of_day d (d + 1)%Z p st).

Lemma dated_day_loop_inv :
  forall n d p p',
    J d p -> day_loop today preferences n d p = Ok p' ->
    J (d + Z.of_nat n)%Z p'.
Proof.
  induction n as [ | n IH]; intros d p p' Hp H.
  - simpl in H. injection H as <-. now rewrite Z.add_0_r.
  - replace (d + Z.of_nat (S n))%Z with (d + 1 + Z.of_nat n)%Z by lia.
    simpl in H. destruct (is_break_day preferences d) eqn:Hb.
    + bind_inv H. apply date_plus_days_Ok in E. destruct E as [-> _].
      eapply IH; [ | exact H ]. now apply J_skip.
    + bind_inv H. bind_inv H.
      apply date_plus_days_Ok in E0. destruct E0 as [-> _].
      eapply IH; [ | exact H ].
      apply J_finish; [ exact Hp | exact Hb | ].
      eapply I_passes; eauto.
Qed.

End DatedInvariant.

Lemma day_count_end (start_date end_date : date) :
  (start_date <= end_date)%Z ->
  (start_date + Z.of_nat (day_count start_date end_date) = end_date + 1)%Z.
Proof.
  unfold day_count. lia.
Qed.

Lemma day_count_inverted (start_date end_date : date) :
  (end_date < start_date)%Z -> day_count start_date end_date = 0%nat.
Proof.
  unfold day_count. lia.
Qed.

(** ** The days of the plan *)

Lemma StronglySorted_snoc (l : list Z) (x : Z) :
  StronglySorted Z.lt l -> Forall (fun y => (y < x)%Z) l ->
  StronglySorted Z.lt (l ++ [x]).
Proof.
  induction l as [ | y l IH]; intros Hs Hl; simpl.
  - constructor; constructor.
  - apply StronglySorted_inv in Hs. destruct Hs as [Hs Hy].
    inversion Hl as [ | ? ? Hyx Hl' ]; subst.
    constructor; [ now apply IH | ].
    apply Forall_app. split; [ exact Hy | ]. constructor; [ exact Hyx | constructor ].
Qed.

Section Days.

Variable today : date.
Variable preferences : StudyPreferences.
Variable start_date : date.

Let I (d : date) (st : DayState) : Prop :=
  Forall (fun s => session_date s = d) (day_sessions st)
  /\ (day_budget preferences d < 1 # 2 ->
      hours_left st < 1 # 2 /\ day_sessions st = []).

Let J (d : date) (p : Plan) : Prop :=
  (start_date <= d)%Z
  /\ Forall (day_recorded preferences start_date d) (plan_days p)
  /\ StronglySorted Z.lt (map day_date (plan_days p)).

Lemma days_revise (d : date) (i : nat) (subject : SubjectData)
    (budget : Q) (st st' : DayState) :
  I d st -> 1 # 2 <= budget -> budget <= hours_left st ->
  revise today preferences d i subject budget st = Ok st' -> I d st'.
Proof.
  unfold I. intros [Hd Hb] Hb1 Hb2 H.
  destruct (revise_outcome _ _ _ _ _ _ _ _ H) as (s1 & used & Hout & _).
  destruct (revision_outcome_batch _ _ _ _ _ _ _ _ _ Hout)
    as (batch & tpt & -> & _ & _ & Hk & _).
  split.
  - apply Forall_app. split; [ exact Hd | ].
    eapply Forall_impl; [ | exact Hk ]. intros s (_ & Hs & _). exact Hs.
  - intro Hsmall. destruct (Hb Hsmall) as [Hh _]. lra.
Qed.

Lemma days_study (d : date) (i : nat) (subject : SubjectData)
    (budget : Q) (st st' : DayState) :
  I d st -> 1 # 2 <= budget -> budget <= hours_left st ->
  study today preferences d i subject budget st = Ok st' -> I d st'.
Proof.
  unfold I. intros [Hd Hb] Hb1 Hb2 H.
  destruct (study_outcome _ _ _ _ _ _ _ _ H) as (s1 & used & Hout & _).
  split.
  - destruct (regular_outcome_cases _ _ _ _ _ _ _ _ _ _ Hout)
      as [(-> & _) | (idx & idx' & topic & s & _ & _ & Hs & -> & _)];
      [ exact Hd | ].
    apply Forall_app. split; [ exact Hd | ].
    constructor; [ | constructor ]. destruct Hs. assumption.
  - intro Hsmall. destruct (Hb Hsmall) as [Hh _]. lra.
Qed.

Lemma days_day_loop (n : nat) (d : date) (p p' : Plan) :
  J d p -> day_loop today preferences n d p = Ok p' ->
  J (d + Z.of_nat n)%Z p'.
Proof.
  apply (dated_day_loop_inv today preferences J (fun _ => I)).
  - intros p0 d0 (Hs & Hd & Hsorted) Hb. split; [ lia | ]. split; [ | exact Hsorted ].
    eapply Forall_impl; [ | exact Hd ].
    intros day (H1 & H2). split; [ lia | exact H2 ].
  - intros p0 d0 _ _. unfold I, start_of_day. simpl.
    split; [ constructor | ]. auto.
  - intros p0 d0 st0 st _ H0 H.
    eapply (run_passes_inv today preferences d0 (I d0)); eauto.
    + intros. eapply days_revise; eauto.
    + intros. eapply days_study; eauto.
  - intros p0 d0 st (Hs & Hd & Hsorted) Hb [Hdate Hbud]. unfold J.
    rewrite end_of_day_days.
    assert (Hold : Forall (day_recorded preferences start_date (d0 + 1)%Z)
                     (plan_days p0)).
    { eapply Forall_impl; [ | exact Hd ].
      intros day (H1 & H2). split; [ lia | exact H2 ]. }
    split; [ lia | ].
    destruct (day_sessions st) as [ | s l] eqn:Es; [ auto | ]. split.
    + apply Forall_app. split; [ exact Hold | ].
      constructor; [ | constructor ]. unfold day_recorded. simpl.
      split; [ lia | ]. split; [ exact Hb | ].
      split; [ | split; [ discriminate | exact Hdate ] ].
      destruct (Qlt_le_dec (day_budget preferences d0) (1 # 2)) as [Hlt | Hle];
        [ | exact Hle ].
      destruct (Hbud Hlt) as [_ Hnil]. discriminate.
    + rewrite map_app. simpl. apply StronglySorted_snoc; [ exact Hsorted | ].
      apply Forall_map. eapply Forall_impl; [ | exact Hd ].
      intros day (H1 & _). lia.
Qed.

End Days.

(** ** How long a session lasts *)

Lemma revision_outcome_lengths (subject : SubjectData) (d : date)
    (avail max brk : Q) (ds : list StudySession)
    (subject1 : SubjectData) (ds' : list StudySession) (used : Q) :
  revision_outcome subject d avail max brk ds subject1 ds' used ->
  exists batch,
    ds' = ds ++ batch
    /\ Forall (fun s => session_type s = revision
                        /\ 1 # 10 <= duration_hours s
                        /\ duration_hours s <= 1 # 2) batch.
Proof.
  intro H. destruct H as [Hidle | batch used Hrc Hsc n tpt Hn Hlen Hu Hsl Hk Hlab Hstop].
  - exists []. rewrite app_nil_r. split; [ reflexivity | constructor ].
  - exists batch. split; [ reflexivity | ].
    apply revision_slices_bounds in Hsl.
    rewrite Forall_forall in *. intros s Hs.
    destruct (Hsl s Hs) as (H1 & _ & H3). destruct (Hk s Hs) as (_ & _ & Ht).
    split; [ exact Ht | ]. split; [ exact H1 | ].
    assert (tpt <= 1 # 2) by (unfold tpt; apply Q.le_min_l). lra.
Qed.

Section Lengths.

Variable today : date.
Variable preferences : StudyPreferences.

Let I (st : DayState) : Prop :=
  Forall (session_length_ok preferences) (day_sessions st).
Let J (p : Plan) : Prop :=
  Forall (session_length_ok preferences) (all_sessions (plan_days p)).

Lemma lengths_revise (d : date) (i : nat) (subject : SubjectData)
    (budget : Q) (st st' : DayState) :
  I st -> revise today preferences d i subject budget st = Ok st' -> I st'.
Proof.
  unfold I. intros Hst H.
  destruct (revise_outcome _ _ _ _ _ _ _ _ H) as (s1 & used & Hout & _).
  destruct (revision_outcome_lengths _ _ _ _ _ _ _ _ _ Hout) as (batch & -> & Hb).
  apply Forall_app. split; [ exact Hst | ].
  eapply Forall_impl; [ | exact Hb ].
  intros s (Ht & H1 & H2). split; [ auto | ]. intro Hr. congruence.
Qed.

Lemma lengths_study (d : date) (i : nat) (subject : SubjectData)
    (budget : Q) (st st' : DayState) :
  I st -> 1 # 2 <= budget ->
  study today preferences d i subject budget st = Ok st' -> I st'.
Proof.
  unfold I. intros Hst Hb H.
  destruct (study_outcome _ _ _ _ _ _ _ _ H) as (s1 & used & Hout & _).
  destruct (regular_outcome_cases _ _ _ _ _ _ _ _ _ _ Hout)
    as [(-> & _) | (idx & idx' & topic & s & Hn & Hnd & Hs & -> & _)];
    [ exact Hst | ].
  apply Forall_app. split; [ exact Hst | ].
  constructor; [ | constructor ].
  destruct (topic_not_done _ Hnd) as [Hrem _]. destruct Hs.
  split; [ intro Hr; congruence | ].
  intros _ Hmax. rewrite rs_duration0.
  unfold min3.
  destruct (Qmin_cases (Qmin (session_duration preferences) budget)
              (remaining_hours topic)) as [[H0 E] | [H0 E]];
    destruct (Qmin_cases (session_duration preferences) budget)
      as [[H1 E1] | [H1 E1]]; lra.
Qed.

Lemma lengths_day_loop (n : nat) (d : date) (p p' : Plan) :
  J p -> day_loop today preferences n d p = Ok p' -> J p'.
Proof.
  apply (day_loop_inv today preferences J (fun _ _ => I)).
  - intros. constructor.
  - intros p0 d0 st0 st _ H0 H.
    eapply (run_passes_inv today preferences d0 I); eauto.
    + intros. eapply lengths_revise; eauto.
    + intros. eapply lengths_study; eauto.
  - intros p0 d0 st Hp Hst. unfold J.
    rewrite end_of_day_all_sessions. apply Forall_app. auto.
Qed.

End Lengths.

(** ** A plan that ends on the last day of the calendar *)

Lemma date_plus_one_overflows :
  date_plus_days MAXORDINAL 1 = Raise OverflowError.
Proof.
  reflexivity.
Qed.

Lemma available_loop_last_day (preferences : StudyPreferences) :
  forall n d acc,
    (0 < n)%nat -> (MINORDINAL <= d)%Z ->
    (d + Z.of_nat n = MAXORDINAL + 1)%Z ->
    available_loop preferences n d acc = Raise OverflowError.
Proof.
  induction n as [ | n IH]; intros d acc Hn Hd Hlast; [ lia | ].
  simpl. destruct (Z.eq_dec d MAXORDINAL) as [-> | Hne].
  - rewrite date_plus_one_overflows. destruct (is_break_day _ _); reflexivity.
  - assert (Hlt : (0 <= d < MAXORDINAL)%Z) by (unfold MINORDINAL in Hd; lia).
    rewrite (date_plus_one d Hlt). simpl.
    destruct (is_break_day preferences d); apply IH; lia.
Qed.

(** ** Requests on which no date and no clock overflows *)

Lemma round_half_even_bounds (q : Q) (N : Z) :
  0 <= q -> q <= inject_Z N -> (0 <= round_half_even q <= N)%Z.
Proof.
  destruct q as [n d]. unfold Qle, inject_Z, round_half_even.
  cbn [Qnum Qden]. intros H0 HN.
  pose proof (Z.div_mod n (Z.pos d) ltac:(lia)) as Hdm.
  pose proof (Z.mod_pos_bound n (Z.pos d) ltac:(lia)) as Hr.
  assert (Hfl : (0 <= n / Z.pos d)%Z) by (apply Z.div_pos; lia).
  set (D := Z.pos d) in *. assert (HD : (0 < D)%Z) by lia. clearbody D.
  set (fl := (n / D)%Z) in *. set (r := (n mod D)%Z) in *. clearbody fl r.
  assert (Hle : (fl <= N)%Z) by nia.
  assert (Hlt : (0 < r -> fl + 1 <= N)%Z) by nia.
  destruct (Z.compare_spec (2 * r) D) as [E | E | E].
  - destruct (Z.even fl); lia.
  - lia.
  - lia.
Qed.

Lemma gap_us_bounds (h : Q) :
  0 <= h -> h <= 24 -> (0 <= gap_us h <= US_PER_DAY)%Z.
Proof.
  intros H0 H24. unfold gap_us. apply round_half_even_bounds.
  - unfold US_PER_HOUR, inject_Z. nra.
  - unfold US_PER_HOUR, US_PER_DAY, inject_Z. nra.
Qed.

Lemma datetime_plus_hours_total (dt : datetime) (h : Q) :
  0 <= h -> h <= 24 ->
  (MINORDINAL * US_PER_DAY <= dt)%Z ->
  (dt + US_PER_DAY < (MAXORDINAL + 1) * US_PER_DAY)%Z ->
  exists r, datetime_plus_hours dt h = Ok r /\ (dt <= r <= dt + US_PER_DAY)%Z.
Proof.
  intros H0 H24 Hlo Hhi. pose proof (gap_us_bounds h H0 H24) as Hg.
  unfold datetime_plus_hours, timedelta_hours. fold (gap_us h).
  assert (Hq : (0 <= gap_us h / US_PER_DAY <= 1)%Z).
  { split.
    - apply Z.div_pos; [ lia | unfold US_PER_DAY; lia ].
    - apply Z.div_le_upper_bound; unfold US_PER_DAY in *; lia. }
  assert (E1 : (MAX_DELTA_DAYS <? Z.abs (gap_us h / US_PER_DAY))%Z = false).
  { apply Z.ltb_ge. unfold MAX_DELTA_DAYS. lia. }
  rewrite E1. cbn [bind].
  assert (E2 : ((MINORDINAL * US_PER_DAY <=? dt + gap_us h)
                && (dt + gap_us h <? (MAXORDINAL + 1) * US_PER_DAY))%Z = true).
  { apply andb_true_iff. split; [ apply Z.leb_le | apply Z.ltb_lt ]; lia. }
  rewrite E2. eexists. split; [ reflexivity | lia ].
Qed.

Lemma datetime_time_range (dt : datetime) :
  (0 <= datetime_time dt < US_PER_DAY)%Z.
Proof.
  unfold datetime_time. apply Z.mod_pos_bound. unfold US_PER_DAY. lia.
Qed.

Lemma clock_past_range (s : StudySession) : (0 <= clock_past s < US_PER_DAY)%Z.
Proof.
  unfold clock_past. apply Z.mod_pos_bound. unfold US_PER_DAY. lia.
Qed.

Lemma clock_after_range (l : list StudySession) :
  forall t, (0 <= t < US_PER_DAY)%Z -> (0 <= clock_after t l < US_PER_DAY)%Z.
Proof.
  induction l as [ | s l IH]; intros t Ht; simpl; [ exact Ht | ].
  apply IH. apply clock_past_range.
Qed.

Lemma date_minus_days_total (e n : Z) :
  (MINORDINAL <= e <= MAXORDINAL)%Z -> (MINORDINAL <= e - n <= MAXORDINAL)%Z ->
  date_minus_days e n = Ok (e - n)%Z.
Proof.
  intros He Hn. unfold date_minus_days, date_plus_days.
  assert (E1 : (MAX_DELTA_DAYS <? Z.abs (- n))%Z = false).
  { apply Z.ltb_ge. unfold MAX_DELTA_DAYS, MINORDINAL, MAXORDINAL in *. lia. }
  rewrite E1.
  assert (E2 : ((MINORDINAL <=? e + - n) && (e + - n <=? MAXORDINAL))%Z = true).
  { apply andb_true_iff. split; apply Z.leb_le; lia. }
  rewrite E2. f_equal.
Qed.

Lemma regular_outcome_used (subject : SubjectData) (d : date) (t0 : time)
    (avail max brk : Q) (ds : list StudySession)
    (subject1 : SubjectData) (ds' : list StudySession) (used : Q) :
  0 <= max -> 0 <= avail -> 0 <= brk ->
  regular_outcome subject d t0 avail max brk ds subject1 ds' used ->
  0 <= used.
Proof.
  intros Hmax Havail Hbrk H.
  destruct H as [Hc | idx Hc Hle Hlen Hdone
                    | idx topic t_end used Hc Hle Hn Hnd dur gap Hu].
  - lra.
  - lra.
  - destruct (topic_not_done _ Hnd) as [Hrem _].
    assert (0 <= dur) by (unfold dur; apply min3_glb; lra).
    assert (0 <= gap) by (unfold gap; destruct (Qlt_bool _ _); lra).
    lra.
Qed.

Lemma revision_slices_clock (max brk tpt : Q) (batch : list StudySession) :
  0 <= brk ->
  forall rem, revision_slices max brk tpt rem batch -> 0 <= clock_used batch.
Proof.
  intro Hbrk. induction batch as [ | s batch IH]; intros rem H; simpl.
  - lra.
  - destruct H as (H1 & H2 & H3 & H4 & H5).
    pose proof (IH _ H5) as Hrest. fold (clock_used batch).
    assert (0 <= break_after s).
    { rewrite H4. destruct (Qlt_bool _ _); lra. }
    lra.
Qed.

Lemma revision_outcome_used (subject : SubjectData) (d : date)
    (avail max brk : Q) (ds : list StudySession)
    (subject1 : SubjectData) (ds' : list StudySession) (used : Q) :
  0 <= brk ->
  revision_outcome subject d avail max brk ds subject1 ds' used ->
  0 <= used.
Proof.
  intros Hbrk H.
  destruct (revision_outcome_batch _ _ _ _ _ _ _ _ _ H)
    as (batch & tpt & _ & Hu & Hsl & _).
  pose proof (revision_slices_clock _ _ _ _ Hbrk _ Hsl). lra.
Qed.

Section Servable.

Variable today : date.
Variable preferences : StudyPreferences.

Hypothesis today_range : (MINORDINAL <= today <= MAXORDINAL - 2)%Z.
Hypothesis session_nonneg : 0 <= session_duration preferences.
Hypothesis break_range : 0 <= break_duration preferences <= 24.

Lemma clock_room (t : time) :
  (0 <= t < US_PER_DAY)%Z ->
  (MINORDINAL * US_PER_DAY <= datetime_combine today t)%Z
  /\ (datetime_combine today t + 2 * US_PER_DAY
      < (MAXORDINAL + 1) * US_PER_DAY)%Z.
Proof.
  unfold datetime_combine, MINORDINAL, MAXORDINAL, US_PER_DAY in *. lia.
Qed.

Lemma add_regular_session_total (subject : SubjectData) (d : date) (t0 : time)
    (avail : Q) (ds : list StudySession) :
  (0 <= t0 < US_PER_DAY)%Z -> 1 # 2 <= avail -> avail <= 24 ->
  exists out,
    _add_regular_session today subject d t0 avail
      (session_duration preferences) (break_duration preferences) ds = Ok out.
Proof.
  intros Ht Ha1 Ha2. unfold _add_regular_session.
  destruct (subject_completed subject); [ eauto | ].
  destruct (advance_cursor _ _) as [idx r] eqn:Hadv.
  destruct (advance_cursor_spec (topics subject) _ _ _ _ eq_refl Hadv)
    as [_ [_ Hr]].
  destruct r as [topic | ]; [ | eauto ].
  destruct Hr as [_ Hnd]. destruct (topic_not_done _ Hnd) as [Hrem _].
  destruct (clock_room t0 Ht) as [Hlo Hhi].
  set (dur := min3 (session_duration preferences) avail (remaining_hours topic)).
  assert (Hd0 : 0 <= dur) by (apply min3_glb; lra).
  assert (Hd1 : dur <= 24).
  { pose proof (min3_le_2 (session_duration preferences) avail
                  (remaining_hours topic)). fold dur in H. lra. }
  destruct (datetime_plus_hours_total (datetime_combine today t0) dur Hd0 Hd1 Hlo)
    as (r & -> & Hr); [ lia | ].
  simpl. destruct (Qlt_bool (1 # 100) (avail - dur)); [ | eauto ].
  destruct (datetime_plus_hours_total r (break_duration preferences))
    as (r2 & -> & _); try tauto; try lia.
  simpl. eauto.
Qed.

Lemma revision_loop_total (name : string) (d : date) (tpt : Q) (n : nat) :
  forall rest st,
    (0 <= current_session_time st < US_PER_DAY)%Z ->
    remaining_time st <= 24 ->
    exists st',
      revision_loop today name d (session_duration preferences)
        (break_duration preferences) tpt n rest st = Ok st'.
Proof.
  induction rest as [ | topic rest IH]; intros st Ht Hrem; simpl; [ eauto | ].
  destruct ((topics_revised st <? n)%nat && Qlt_bool (1 # 10) (remaining_time st));
    [ | eauto ].
  set (dur := min3 (session_duration preferences) (remaining_time st) tpt).
  destruct (Qlt_bool dur (1 # 10)) eqn:Hskip; [ now apply IH | ].
  apply Qlt_bool_false in Hskip.
  assert (Hd1 : dur <= remaining_time st) by apply min3_le_2.
  destruct (clock_room _ Ht) as [Hlo Hhi].
  destruct (datetime_plus_hours_total
              (datetime_combine today (current_session_time st)) dur)
    as (r & -> & Hr); try lra; try lia.
  simpl. destruct (Qlt_bool (1 # 10) (remaining_time st - dur)).
  - destruct (datetime_plus_hours_total r (break_duration preferences))
      as (r2 & -> & _); try tauto; try lia.
    simpl. apply IH; simpl; [ apply datetime_time_range | lra ].
  - simpl. apply IH; simpl; [ apply datetime_time_range | lra ].
Qed.

Lemma add_revision_session_total (subject : SubjectData) (d : date) (t0 : time)
    (avail : Q) (ds : list StudySession) :
  (0 <= t0 < US_PER_DAY)%Z -> avail <= 24 ->
  exists out,
    _add_revision_session today subject d t0 avail
      (session_duration preferences) (break_duration preferences) ds = Ok out.
Proof.
  intros Ht Ha. unfold _add_revision_session.
  destruct (_ || _); [ eauto | ].
  destruct (Nat.min (total_topics subject) 5 =? 0)%nat eqn:Hz; [ eauto | ].
  apply Nat.eqb_neq in Hz. unfold float_div.
  rewrite (inject_nat_nonzero _ Hz). simpl.
  match goal with
  | |- context [revision_loop ?a ?b ?c ?e ?f ?g ?h ?i ?j] =>
      destruct (revision_loop_total b c g h i j) as (st' & ->)
  end; simpl; eauto.
Qed.

Variable sd0 : list SubjectData.

Hypothesis exams_ok :
  forall a e, In a sd0 -> s_exam_date a = Some e ->
    (MINORDINAL <= e <= MAXORDINAL)%Z
    /\ (MINORDINAL <= e - revision_days_before preferences <= MAXORDINAL)%Z.

Let fits : DayState -> Prop := fits sd0.

Variable current_date : date.

Lemma fits_revise (i : nat) (subject : SubjectData) (budget : Q)
    (st st' : DayState) :
  fits st -> nth_error (subject_data st) i = Some subject ->
  revise today preferences current_date i subject budget st = Ok st' ->
  fits st'.
Proof.
  intros (Ht & Hh & Hk) Hn H. split; [ | split ].
  - unfold revise in H. bind_inv H.
    destruct (add_revision_session_clock _ _ _ _ _ _ _ _ _ E)
      as (batch & _ & _ & Hr).
    destruct a as [[[s1 ds'] used] t1]. unfold res_time in Hr. simpl in Hr.
    injection H as <-. simpl. rewrite Hr. now apply clock_after_range.
  - destruct (revise_outcome _ _ _ _ _ _ _ _ H)
      as (s1 & used & Hout & _ & -> & _).
    pose proof (revision_outcome_used _ _ _ _ _ _ _ _ _
                  (proj1 break_range) Hout). lra.
  - eapply same_key_revise; eauto.
Qed.

Lemma fits_study (i : nat) (subject : SubjectData) (budget : Q)
    (st st' : DayState) :
  fits st -> nth_error (subject_data st) i = Some subject -> 0 <= budget ->
  study today preferences current_date i subject budget st = Ok st' ->
  fits st'.
Proof.
  intros (Ht & Hh & Hk) Hn Hb H. split; [ | split ].
  - unfold study in H. bind_inv H.
    apply add_regular_session_clock in E.
    destruct a as [[[s1 ds'] used] t1]. unfold res_sessions, res_time in E.
    simpl in E. injection H as <-. simpl.
    destruct E as [[_ ->] | (s & _ & _ & ->)];
      [ exact Ht | apply clock_past_range ].
  - destruct (study_outcome _ _ _ _ _ _ _ _ H)
      as (s1 & used & Hout & _ & -> & _).
    pose proof (regular_outcome_used _ _ _ _ _ _ _ _ _ _
                  session_nonneg Hb (proj1 break_range) Hout). lra.
  - eapply same_key_study; eauto.
Qed.

Lemma fits_body_keeps
    (body : nat -> SubjectData -> DayState -> result DayState) :
  body = urgent_body today preferences current_date
  \/ body = high_body today preferences current_date
  \/ body = tier_body today preferences current_date ->
  body_keeps fits body.
Proof.
  assert (Hrev : forall i subject e budget st st',
             fits st -> nth_error (subject_data st) i = Some subject ->
             s_exam_date subject = Some e ->
             date_minus_days e (revision_days_before preferences)
               = Ok current_date ->
             revision_completed subject = false ->
             1 # 2 <= budget -> budget <= hours_left st ->
             revise today preferences current_date i subject budget st = Ok st' ->
             fits st').
  { intros. eapply fits_revise; eauto. }
  assert (Hst : forall i subject budget st st',
             fits st -> nth_error (subject_data st) i = Some subject ->
             1 # 2 <= budget -> budget <= hours_left st ->
             study today preferences current_date i subject budget st = Ok st' ->
             fits st').
  { intros i subject budget st st' Hf Hn Hb1 Hb2 H.
    apply (fits_study i subject budget st st' Hf Hn); [ lra | exact H ]. }
  assert (Hcov : forall name st, fits st -> fits (mark_covered name st))
    by (intros name st H; exact H).
  intros [-> | [-> | ->]].
  - now apply urgent_body_keeps.
  - now apply high_body_keeps.
  - now apply tier_body_keeps.
Qed.

Lemma revise_total (i : nat) (subject : SubjectData) (budget : Q)
    (st : DayState) :
  fits st -> budget <= hours_left st ->
  exists st', revise today preferences current_date i subject budget st = Ok st'.
Proof.
  intros (Ht & Hh & _) Hb. unfold revise.
  destruct (add_revision_session_total subject current_date (current_time st)
              budget (day_sessions st) Ht) as ([[[s1 ds'] used] t1] & ->);
    [ lra | ].
  simpl. eauto.
Qed.

Lemma study_total (i : nat) (subject : SubjectData) (budget : Q)
    (st : DayState) :
  fits st -> 1 # 2 <= budget -> budget <= hours_left st ->
  exists st', study today preferences current_date i subject budget st = Ok st'.
Proof.
  intros (Ht & Hh & _) Hb1 Hb2. unfold study.
  destruct (add_regular_session_total subject current_date (current_time st)
              budget (day_sessions st) Ht Hb1) as ([[[s1 ds'] used] t1] & ->);
    [ lra | ].
  simpl. eauto.
Qed.

Lemma revision_day_total (i : nat) (subject : SubjectData) (e : date)
    (st : DayState) :
  fits st -> nth_error (subject_data st) i = Some subject ->
  s_exam_date subject = Some e ->
  date_minus_days e (revision_days_before preferences)
  = Ok (e - revision_days_before preferences)%Z.
Proof.
  intros (_ & _ & Hk) Hn He.
  destruct (Forall2_nth_error_r _ _ _ _ _ Hk Hn) as (a & Ha & Hkey).
  apply nth_error_In in Ha. rewrite <- (same_key_exam _ _ Hkey) in He.
  destruct (exams_ok a e Ha He). now apply date_minus_days_total.
Qed.

Lemma Qmin_budget (c h : Q) :
  1 # 2 <= c -> 1 # 2 <= h -> 1 # 2 <= Qmin c h /\ Qmin c h <= h.
Proof.
  intros Hc Hh. destruct (Qmin_cases c h) as [[Ha Ea] | [Ha Ea]]; split; lra.
Qed.

Lemma urgent_body_total (i : nat) (subject : SubjectData) (st : DayState) :
  fits st -> nth_error (subject_data st) i = Some subject ->
  s_exam_date subject <> None -> 1 # 2 <= hours_left st ->
  exists st', urgent_body today preferences current_date i subject st = Ok st'.
Proof.
  intros Hf Hn Hex Hh. unfold urgent_body.
  destruct (s_exam_date subject) as [e | ] eqn:He; [ | contradiction ].
  rewrite (revision_day_total i subject e st Hf Hn He). simpl.
  destruct (Qmin_budget 2 (hours_left st)) as [Hb1 Hb2]; [ lra | exact Hh | ].
  destruct (needs_revision_today _ _ _).
  - destruct (revise_total i subject (Qmin 2 (hours_left st)) st Hf Hb2)
      as (st' & ->). simpl. eauto.
  - destruct (study_total i subject (Qmin 2 (hours_left st)) st Hf Hb1 Hb2)
      as (st' & ->). simpl. eauto.
Qed.

Lemma high_body_total (i : nat) (subject : SubjectData) (st : DayState) :
  fits st -> nth_error (subject_data st) i = Some subject ->
  1 # 2 <= hours_left st ->
  exists st', high_body today preferences current_date i subject st = Ok st'.
Proof.
  intros Hf Hn Hh. unfold high_body, regular_high.
  destruct (Qmin_budget 1 (hours_left st)) as [Hb1 Hb2]; [ lra | exact Hh | ].
  assert (Hreg : exists st',
             (st1 <- study today preferences current_date i subject
                       (Qmin 1 (hours_left st)) st ;;
              Ok (mark_covered (s_name subject) st1)) = Ok st').
  { destruct (study_total i subject (Qmin 1 (hours_left st)) st Hf Hb1 Hb2)
      as (st' & ->). simpl. eauto. }
  destruct (s_exam_date subject) as [e | ] eqn:He; [ | exact Hreg ].
  rewrite (revision_day_total i subject e st Hf Hn He). simpl.
  destruct (needs_revision_today _ _ _); [ | exact Hreg ].
  now apply revise_total.
Qed.

Lemma tier_body_total (i : nat) (subject : SubjectData) (st : DayState) :
  fits st -> nth_error (subject_data st) i = Some subject ->
  1 # 2 <= hours_left st ->
  exists st', tier_body today preferences current_date i subject st = Ok st'.
Proof.
  intros Hf Hn Hh. unfold tier_body.
  assert (Hle : hours_left st <= hours_left st) by lra.
  destruct (s_exam_date subject) as [e | ] eqn:He;
    [ | now apply study_total ].
  rewrite (revision_day_total i subject e st Hf Hn He). simpl.
  destruct (needs_revision_today _ _ _);
    [ now apply revise_total | now apply study_total ].
Qed.

Lemma for_subjects_total
    (body : nat -> SubjectData -> DayState -> result DayState)
    (ok : SubjectData -> Prop) :
  (forall a b, same_key a b -> ok a -> ok b) ->
  body_keeps fits body ->
  (forall i subject st,
     fits st -> nth_error (subject_data st) i = Some subject -> ok subject ->
     1 # 2 <= hours_left st -> exists st', body i subject st = Ok st') ->
  forall l st,
    (forall i, In i l -> exists a, nth_error sd0 i = Some a /\ ok a) ->
    fits st ->
    exists st', for_subjects body l st = Ok st' /\ fits st'.
Proof.
  intros Hok Hkeeps Htotal. induction l as [ | i l IH]; intros st Hl Hf; simpl.
  - eauto.
  - destruct (Qlt_bool (hours_left st) (1 # 2)) eqn:Hb; [ eauto | ].
    apply Qlt_bool_false in Hb.
    destruct (Hl i (or_introl eq_refl)) as (a & Ha & Hoka).
    destruct Hf as (Ht & Hh & Hk).
    destruct (Forall2_nth_error_l _ _ _ _ _ Hk Ha) as (subject & Hs & Hkey).
    rewrite Hs.
    assert (Hf : fits st) by (split; [ | split ]; assumption).
    destruct (Htotal i subject st Hf Hs (Hok _ _ Hkey Hoka) Hb) as (st1 & E).
    rewrite E. simpl. apply IH.
    + intros j Hj. apply Hl. now right.
    + eapply Hkeeps; eauto.
Qed.

Lemma pass_total
    (body : nat -> SubjectData -> DayState -> result DayState)
    (p : SubjectData -> bool) (ok : SubjectData -> Prop) (st : DayState) :
  (forall a b, same_key a b -> ok a -> ok b) ->
  (forall a b, same_key a b -> ok b -> ok a) ->
  (forall s, p s = true -> ok s) ->
  body_keeps fits body ->
  (forall i subject st',
     fits st' -> nth_error (subject_data st') i = Some subject -> ok subject ->
     1 # 2 <= hours_left st' -> exists st'', body i subject st' = Ok st'') ->
  fits st ->
  exists st',
    for_subjects body (positions_where p (subject_data st)) st = Ok st'
    /\ fits st'.
Proof.
  intros Hok Hok' Hp Hkeeps Htotal Hf.
  apply (for_subjects_total body ok); auto.
  intros i Hi. apply positions_where_spec in Hi. destruct Hi as (s & Hs & Hps).
  destruct Hf as (_ & _ & Hk).
  destruct (Forall2_nth_error_r _ _ _ _ _ Hk Hs) as (a & Ha & Hkey).
  exists a. split; [ exact Ha | ]. eapply Hok'; eauto.
Qed.

Lemma run_passes_total (st0 : DayState) :
  fits st0 ->
  exists st, run_passes today preferences current_date st0 = Ok st /\ fits st.
Proof.
  intro H0. unfold run_passes.
  destruct (pass_total (urgent_body today preferences current_date)
              (is_urgent current_date) (fun s => s_exam_date s <> None) st0)
    as (st1 & -> & H1); auto.
  { intros a b Hab. now rewrite (same_key_exam _ _ Hab). }
  { intros a b Hab. now rewrite (same_key_exam _ _ Hab). }
  { intros s Hs. unfold is_urgent in Hs.
    destruct (s_exam_date s); discriminate. }
  { apply fits_body_keeps. auto. }
  { intros. eapply urgent_body_total; eauto. }
  simpl.
  destruct (pass_total (high_body today preferences current_date)
              (is_high_uncovered (high_importance_coverage st1))
              (fun _ => True) st1)
    as (st2 & -> & H2); auto.
  { apply fits_body_keeps. auto. }
  { intros. eapply high_body_total; eauto. }
  simpl.
  destruct (pass_total (tier_body today preferences current_date)
              (has_importance Medium) (fun _ => True) st2)
    as (st3 & -> & H3); auto.
  { apply fits_body_keeps. auto. }
  { intros. eapply tier_body_total; eauto. }
  simpl.
  apply (pass_total (tier_body today preferences current_date)
           (has_importance Low) (fun _ => True) st3); auto.
  { apply fits_body_keeps. auto. }
  { intros. eapply tier_body_total; eauto. }
Qed.

End Servable.

Lemma day_loop_total (today : date) (preferences : StudyPreferences)
    (sd0 : list SubjectData) :
  (MINORDINAL <= today <= MAXORDINAL - 2)%Z ->
  0 <= session_duration preferences ->
  0 <= break_duration preferences <= 24 ->
  weekday_hours preferences <= 24 -> weekend_hours preferences <= 24 ->
  (forall a e, In a sd0 -> s_exam_date a = Some e ->
     (MINORDINAL <= e <= MAXORDINAL)%Z
     /\ (MINORDINAL <= e - revision_days_before preferences <= MAXORDINAL)%Z) ->
  forall n d p,
    (0 <= d)%Z -> (d + Z.of_nat n <= MAXORDINAL)%Z ->
    Forall2 same_key sd0 (plan_subject_data p) ->
    exists p', day_loop today preferences n d p = Ok p'.
Proof.
  intros Htoday Hsess Hbrk Hwd Hwe Hexams.
  induction n as [ | n IH]; intros d p Hd Hn Hk; simpl; [ eauto | ].
  rewrite date_plus_one by lia. simpl.
  destruct (is_break_day preferences d); [ apply IH; auto; lia | ].
  destruct (run_passes_total today preferences Htoday Hsess Hbrk sd0 Hexams d
              (start_of_day preferences d (plan_subject_data p)
                 (plan_revision_log p)))
    as (st & -> & (_ & _ & Hk')).
  { split; [ | split ]; simpl.
    - unfold nine_am, US_PER_HOUR, US_PER_DAY. lia.
    - unfold day_budget. destruct (is_weekend d); assumption.
    - exact Hk. }
  simpl. apply IH; try lia.
  rewrite end_of_day_subject_data. now apply same_key_check.
Qed.

Lemma servable_total (today : date) (req : StudyPlanRequest) :
  servable today req ->
  exists resp, generate_study_plan today req = Ok resp.
Proof.
  intros [Htoday Hstart Hend Hwd Hwe Hsess Hbrk Hexams].
  unfold generate_study_plan, _generate_rule_based_schedule, schedule,
    available_study_hours.
  assert (Hn : (start_date req
                + Z.of_nat (day_count (start_date req) (end_date req))
                <= MAXORDINAL)%Z).
  { unfold day_count, MINORDINAL in *. lia. }
  destruct (available_loop_total (preferences req)
              (day_count (start_date req) (end_date req)) (start_date req) 0)
    as (av & ->); [ unfold MINORDINAL in *; lia | exact Hn | ].
  simpl.
  destruct (day_loop_total today (preferences req)
              (map prepare_subject (subjects req)) Htoday Hsess Hbrk Hwd Hwe)
    with (n := day_count (start_date req) (end_date req))
         (d := start_date req) (p := initial_plan (subjects req))
    as (p & ->).
  - intros a e Ha He. apply in_map_iff in Ha. destruct Ha as (subject & <- & Hin).
    simpl in He. eauto.
  - unfold MINORDINAL in *. lia.
  - exact Hn.
  - apply same_key_Forall2_refl.
  - simpl. eauto.
Qed.

(** ** The totals of the response *)

Lemma generate_study_plan_totals (today : date) (req : StudyPlanRequest)
    (resp : StudyPlanResponse) :
  generate_study_plan today req = Ok resp ->
  total_study_hours resp
  = fold_left (fun acc s => acc + duration_hours s) (all_sessions (days resp)) 0
  /\ subjects_distribution resp
     = fold_left (fun dist s =>
                    distribution_add (session_subject s) (duration_hours s) dist)
                 (all_sessions (days resp)) [].
Proof.
  unfold generate_study_plan. intro H.
  apply bind_Ok in H. destruct H as [available [_ H]].
  apply bind_Ok in H. destruct H as [[ds un] [_ H]].
  injection H as <-. simpl. auto.
Qed.

Lemma hours_of_snoc (name : string) (l : list StudySession) (s : StudySession) :
  hours_of name (l ++ [s])
  == hours_of name l
     + (if String.eqb (session_subject s) name then duration_hours s else 0).
Proof.
  unfold hours_of. rewrite filter_app, map_app, Qsum_app. simpl.
  destruct (String.eqb (session_subject s) name); simpl; lra.
Qed.

Lemma hours_of_absent (name : string) (l : list StudySession) :
  (forall s, In s l -> session_subject s <> name) -> hours_of name l == 0.
Proof.
  unfold hours_of. induction l as [ | s l IH]; intro H; simpl; [ lra | ].
  destruct (String.eqb (session_subject s) name) eqn:E.
  - apply String.eqb_eq in E. exfalso. apply (H s); [ now left | exact E ].
  - apply IH. intros s' Hs'. apply H. now right.
Qed.

Lemma distribution_add_keys (name : string) (h : Q) (dist : list (string * Q)) :
  forall k, In k (map fst (distribution_add name h dist))
            <-> In k (map fst dist) \/ k = name.
Proof.
  induction dist as [ | [k0 v0] dist IH]; intro k; simpl.
  - intuition.
  - destruct (String.eqb k0 name) eqn:E; simpl.
    + apply String.eqb_eq in E. subst. intuition.
    + rewrite IH. intuition.
Qed.

Lemma distribution_add_NoDup (name : string) (h : Q) (dist : list (string * Q)) :
  NoDup (map fst dist) -> NoDup (map fst (distribution_add name h dist)).
Proof.
  induction dist as [ | [k0 v0] dist IH]; intro H; simpl.
  - constructor; [ intros [] | constructor ].
  - inversion H as [ | ? ? Hnotin Hrest ]; subst.
    destruct (String.eqb k0 name) eqn:E; simpl.
    + constructor; assumption.
    + constructor; [ | now apply IH ].
      intro Hin. apply distribution_add_keys in Hin.
      destruct Hin as [Hin | ->]; [ contradiction | ].
      rewrite String.eqb_refl in E. discriminate.
Qed.

Lemma distribution_add_values (name : string) (h : Q)
    (dist : list (string * Q)) :
  NoDup (map fst dist) ->
  forall k v, In (k, v) (distribution_add name h dist) ->
    (k <> name /\ In (k, v) dist)
    \/ (k = name /\ exists v0, v == v0 + h
                               /\ (In (name, v0) dist
                                   \/ (v0 = 0 /\ ~ In name (map fst dist)))).
Proof.
  induction dist as [ | [k0 v0] dist IH]; intros Hnd k v H; simpl in H.
  - destruct H as [H | []]. injection H as <- <-. right.
    split; [ reflexivity | ]. exists 0. split; [ lra | ]. right. auto.
  - inversion Hnd as [ | ? ? Hnotin Hrest ]; subst.
    destruct (String.eqb k0 name) eqn:E.
    + apply String.eqb_eq in E. subst k0. destruct H as [H | H].
      * injection H as <- <-. right. split; [ reflexivity | ].
        exists v0. split; [ lra | ]. left. now left.
      * left. split; [ | now right ].
        intros ->. apply Hnotin. apply in_map_iff. exists (name, v). auto.
    + destruct H as [H | H].
      * injection H as <- <-. left. split; [ | now left ].
        intros ->. rewrite String.eqb_refl in E. discriminate.
      * destruct (IH Hrest k v H) as [[Hne Hin] | [-> (v1 & Hv & Hsrc)]].
        -- left. split; [ exact Hne | now right ].
        -- right. split; [ reflexivity | ]. exists v1. split; [ exact Hv | ].
           destruct Hsrc as [Hin | [-> Hnot]]; [ left; now right | ].
           right. split; [ reflexivity | ]. simpl. intros [Heq | Hin].
           ++ subst k0. rewrite String.eqb_refl in E. discriminate.
           ++ contradiction.
Qed.

Lemma distribution_add_sum (name : string) (h : Q) (dist : list (string * Q)) :
  Qsum (map snd (distribution_add name h dist)) == Qsum (map snd dist) + h.
Proof.
  induction dist as [ | [k0 v0] dist IH]; simpl; [ lra | ].
  destruct (String.eqb k0 name); simpl; [ lra | ]. rewrite IH. lra.
Qed.

Lemma distribution_of_step (l : list StudySession) (dist : list (string * Q))
    (s : StudySession) :
  distribution_of l dist ->
  distribution_of (l ++ [s])
    (distribution_add (session_subject s) (duration_hours s) dist).
Proof.
  intros (Hnd & Hkeys & Hvals & Hsum). split; [ | split; [ | split ] ].
  - now apply distribution_add_NoDup.
  - intro name. rewrite distribution_add_keys, Hkeys. split.
    + intros [(s0 & Hin & Hn) | ->].
      * exists s0. split; [ apply in_or_app; now left | exact Hn ].
      * exists s. split; [ apply in_or_app; right; now left | reflexivity ].
    + intros (s0 & Hin & Hn). apply in_app_or in Hin.
      destruct Hin as [Hin | [<- | []]]; [ left; eauto | right; now symmetry ].
  - intros name h Hin. rewrite hours_of_snoc.
    destruct (distribution_add_values _ _ _ Hnd _ _ Hin)
      as [[Hne Hold] | [-> (v0 & Hv & Hsrc)]].
    + assert (E : String.eqb (session_subject s) name = false).
      { apply String.eqb_neq. congruence. }
      rewrite E. rewrite (Hvals _ _ Hold). lra.
    + rewrite String.eqb_refl. rewrite Hv.
      destruct Hsrc as [Hold | [-> Hnot]].
      * rewrite (Hvals _ _ Hold). lra.
      * rewrite hours_of_absent; [ lra | ].
        intros s0 Hs0 Hn. apply Hnot. apply Hkeys. eauto.
  - rewrite distribution_add_sum, map_app, Qsum_app, Hsum. simpl. lra.
Qed.

Lemma distribution_of_fold (rest : list StudySession) :
  forall l dist,
    distribution_of l dist ->
    distribution_of (l ++ rest)
      (fold_left (fun dist s =>
                    distribution_add (session_subject s) (duration_hours s) dist)
                 rest dist).
Proof.
  induction rest as [ | s rest IH]; intros l dist H; simpl.
  - now rewrite app_nil_r.
  - replace (l ++ s :: rest) with ((l ++ [s]) ++ rest)
      by (rewrite <- app_assoc; reflexivity).
    apply IH. now apply distribution_of_step.
Qed.

Lemma distribution_of_nil : distribution_of [] [].
Proof.
  split; [ constructor | ]. split; [ | split ].
  - intro name. simpl. split; [ intros [] | intros (s & [] & _) ].
  - intros name h [].
  - simpl. lra.
Qed.

(** ** The anchor of the clock arithmetic *)

Lemma datetime_time_combine (today : date) (t us : Z) :
  datetime_time (datetime_combine today t + us)%Z
  = ((t + us) mod US_PER_DAY)%Z.
Proof.
  unfold datetime_time, datetime_combine.
  replace (today * US_PER_DAY + t + us)%Z
    with (t + us + today * US_PER_DAY)%Z by lia.
  apply Z_mod_plus_full.
Qed.

(** The clock a call leaves, without the anchor. *)
Lemma datetime_plus_hours_time (today : date) (t : time) (h : Q)
    (r : datetime) :
  datetime_plus_hours (datetime_combine today t) h = Ok r ->
  datetime_time r = ((t + gap_us h) mod US_PER_DAY)%Z
  /\ forall h' r',
       datetime_plus_hours r h' = Ok r' ->
       datetime_time r' = ((t + (gap_us h + gap_us h')) mod US_PER_DAY)%Z.
Proof.
  intro H. apply datetime_plus_hours_Ok in H. subst r. split.
  - apply datetime_time_combine.
  - intros h' r' H'. apply datetime_plus_hours_Ok in H'. subst r'.
    rewrite <- Z.add_assoc. apply datetime_time_combine.
Qed.

Lemma add_regular_session_anchor (today1 today2 : date) (subject : SubjectData)
    (d : date) (t0 : time) (avail max brk : Q) (ds : list StudySession)
    (out1 out2 : Allocation) :
  _add_regular_session today1 subject d t0 avail max brk ds = Ok out1 ->
  _add_regular_session today2 subject d t0 avail max brk ds = Ok out2 ->
  out1 = out2.
Proof.
  unfold _add_regular_session.
  destruct (subject_completed subject); [ congruence | ].
  destruct (advance_cursor _ _) as [idx [topic | ]]; [ | congruence ].
  intros H1 H2. bind_inv H1. bind_inv H2.
  destruct (datetime_plus_hours_time _ _ _ _ E) as [Ha Ha'].
  destruct (datetime_plus_hours_time _ _ _ _ E0) as [Hb Hb'].
  simpl in H1, H2. rewrite Ha in H1. rewrite Hb in H2.
  destruct (Qlt_bool (1 # 100) _).
  - bind_inv H1. bind_inv H2.
    rewrite (Ha' _ _ E1) in H1. rewrite (Hb' _ _ E2) in H2. congruence.
  - congruence.
Qed.

Lemma revision_loop_anchor (today1 today2 : date) (name : string) (d : date)
    (max brk tpt : Q) (n : nat) :
  forall rest st st1 st2,
    revision_loop today1 name d max brk tpt n rest st = Ok st1 ->
    revision_loop today2 name d max brk tpt n rest st = Ok st2 ->
    st1 = st2.
Proof.
  induction rest as [ | topic rest IH]; intros st st1 st2 H1 H2;
    simpl in H1, H2; [ congruence | ].
  destruct (_ && _); [ | congruence ].
  destruct (Qlt_bool (min3 max (remaining_time st) tpt) (1 # 10));
    [ eapply IH; eauto | ].
  bind_inv H1. bind_inv H2.
  destruct (datetime_plus_hours_time _ _ _ _ E) as [Ha Ha'].
  destruct (datetime_plus_hours_time _ _ _ _ E0) as [Hb Hb'].
  rewrite Ha in H1. rewrite Hb in H2.
  destruct (Qlt_bool (1 # 10) _).
  - bind_inv H1. bind_inv H2. bind_inv E1. bind_inv E2.
    rewrite (Ha' _ _ E3) in E1. rewrite (Hb' _ _ E4) in E2.
    injection E1 as <-. injection E2 as <-. eapply IH; eauto.
  - bind_inv H1. bind_inv H2.
    injection E1 as <-. injection E2 as <-. eapply IH; eauto.
Qed.

Lemma add_revision_session_anchor (today1 today2 : date) (subject : SubjectData)
    (d : date) (t0 : time) (avail max brk : Q) (ds : list StudySession)
    (out1 out2 : Allocation) :
  _add_revision_session today1 subject d t0 avail max brk ds = Ok out1 ->
  _add_revision_session today2 subject d t0 avail max brk ds = Ok out2 ->
  out1 = out2.
Proof.
  unfold _add_revision_session.
  destruct (_ || _); [ congruence | ].
  destruct (_ =? 0)%nat; [ congruence | ].
  intros H1 H2. bind_inv H1. bind_inv H2.
  assert (a0 = a) by congruence. subst a0.
  bind_inv H1. bind_inv H2.
  rewrite (revision_loop_anchor _ _ _ _ _ _ _ _ _ _ _ _ E1 E2) in H1.
  congruence.
Qed.

Section Anchor.

Variables today1 today2 : date.
Variable preferences : StudyPreferences.
Variable current_date : date.

Lemma revise_anchor (budget : Q) (i : nat) (subject : SubjectData)
    (st st1 st2 : DayState) :
  revise today1 preferences current_date i subject budget st = Ok st1 ->
  revise today2 preferences current_date i subject budget st = Ok st2 ->
  st1 = st2.
Proof.
  intros H1 H2. unfold revise in *.
  bind_inv H1. bind_inv H2.
  rewrite (add_revision_session_anchor _ _ _ _ _ _ _ _ _ _ _ E E0) in H1.
  congruence.
Qed.

Lemma study_anchor (budget : Q) (i : nat) (subject : SubjectData)
    (st st1 st2 : DayState) :
  study today1 preferences current_date i subject budget st = Ok st1 ->
  study today2 preferences current_date i subject budget st = Ok st2 ->
  st1 = st2.
Proof.
  intros H1 H2. unfold study in *.
  bind_inv H1. bind_inv H2.
  rewrite (add_regular_session_anchor _ _ _ _ _ _ _ _ _ _ _ E E0) in H1.
  congruence.
Qed.

Lemma urgent_body_anchor :
  same_body (urgent_body today1 preferences current_date)
            (urgent_body today2 preferences current_date).
Proof.
  intros i subject st st1 st2 H1 H2. unfold urgent_body in *.
  destruct (s_exam_date subject) as [e | ]; [ | discriminate ].
  bind_inv H1. bind_inv H2. assert (a0 = a) by congruence. subst a0.
  bind_inv H1. bind_inv H2.
  assert (Ea : a1 = a0); [ | subst a1; congruence ].
  destruct (needs_revision_today current_date subject a).
  - symmetry. eapply revise_anchor; eauto.
  - symmetry. eapply study_anchor; eauto.
Qed.

Lemma high_body_anchor :
  same_body (high_body today1 preferences current_date)
            (high_body today2 preferences current_date).
Proof.
  intros i subject st st1 st2 H1 H2. unfold high_body, regular_high in *.
  assert (Hreg : forall budget,
             (st' <- study today1 preferences current_date i subject budget st ;;
              Ok (mark_covered (s_name subject) st')) = Ok st1 ->
             (st' <- study today2 preferences current_date i subject budget st ;;
              Ok (mark_covered (s_name subject) st')) = Ok st2 ->
             st1 = st2).
  { intros budget R1 R2. bind_inv R1. bind_inv R2.
    assert (a0 = a) by (symmetry; eapply study_anchor; eauto). congruence. }
  destruct (s_exam_date subject) as [e | ]; [ | eauto ].
  bind_inv H1. bind_inv H2. assert (a0 = a) by congruence. subst a0.
  destruct (needs_revision_today current_date subject a); [ | eauto ].
  eapply revise_anchor; eauto.
Qed.

Lemma tier_body_anchor :
  same_body (tier_body today1 preferences current_date)
            (tier_body today2 preferences current_date).
Proof.
  intros i subject st st1 st2 H1 H2. unfold tier_body in *.
  destruct (s_exam_date subject) as [e | ];
    [ | eapply study_anchor; eauto ].
  bind_inv H1. bind_inv H2. assert (a0 = a) by congruence. subst a0.
  destruct (needs_revision_today current_date subject a).
  - eapply revise_anchor; eauto.
  - eapply study_anchor; eauto.
Qed.

Lemma for_subjects_anchor
    (body1 body2 : nat -> SubjectData -> DayState -> result DayState) :
  same_body body1 body2 ->
  forall l st st1 st2,
    for_subjects body1 l st = Ok st1 -> for_subjects body2 l st = Ok st2 ->
    st1 = st2.
Proof.
  intro Hbody. induction l as [ | i l IH]; intros st st1 st2 H1 H2;
    simpl in H1, H2; [ congruence | ].
  destruct (Qlt_bool (hours_left st) (1 # 2)); [ congruence | ].
  destruct (nth_error (subject_data st) i) as [subject | ]; [ | discriminate ].
  bind_inv H1. bind_inv H2.
  assert (a0 = a) by (symmetry; eapply Hbody; eauto). subst a0.
  eapply IH; eauto.
Qed.

Lemma run_passes_anchor (st0 st1 st2 : DayState) :
  run_passes today1 preferences current_date st0 = Ok st1 ->
  run_passes today2 preferences current_date st0 = Ok st2 ->
  st1 = st2.
Proof.
  unfold run_passes. intros H1 H2.
  bind_inv H1. bind_inv H2.
  assert (a0 = a) by (symmetry; eapply (for_subjects_anchor _ _ urgent_body_anchor); eauto).
  subst a0. bind_inv H1. bind_inv H2.
  assert (a1 = a0) by (symmetry; eapply (for_subjects_anchor _ _ high_body_anchor); eauto).
  subst a1. bind_inv H1. bind_inv H2.
  assert (a2 = a1) by (symmetry; eapply (for_subjects_anchor _ _ tier_body_anchor); eauto).
  subst a2.
  eapply (for_subjects_anchor _ _ tier_body_anchor); eauto.
Qed.

End Anchor.

Lemma day_loop_anchor (today1 today2 : date) (preferences : StudyPreferences) :
  forall n d p p1 p2,
    day_loop today1 preferences n d p = Ok p1 ->
    day_loop today2 preferences n d p = Ok p2 ->
    p1 = p2.
Proof.
  induction n as [ | n IH]; intros d p p1 p2 H1 H2; simpl in H1, H2;
    [ congruence | ].
  destruct (is_break_day preferences d).
  - bind_inv H1. bind_inv H2. assert (a0 = a) by congruence. subst a0.
    eapply IH; eauto.
  - bind_inv H1. bind_inv H2.
    assert (a0 = a) by (symmetry; eapply run_passes_anchor; eauto). subst a0.
    bind_inv H1. bind_inv H2. assert (a1 = a0) by congruence. subst a1.
    eapply IH; eauto.
Qed.

(** ** Inputs the engine never reads *)

Lemma prepare_erased (subjects : list Subject) :
  map prepare_subject (map erase_subject subjects)
  = map prepare_subject subjects.
Proof.
  rewrite map_map. apply map_ext. intro subject.
  unfold prepare_subject, erase_subject. simpl. f_equal.
  rewrite map_map. apply map_ext. reflexivity.
Qed.

Lemma subject_hours_erased (subject : Subject) :
  subject_hours (erase_subject subject) = subject_hours subject.
Proof.
  unfold subject_hours, erase_subject. simpl.
  assert (E : forall ts acc,
             fold_left (fun acc topic => acc + estimated_hours topic)
               (map erase_topic ts) acc
             = fold_left (fun acc topic => acc + estimated_hours topic) ts acc).
  { induction ts as [ | t ts IH]; intro acc; simpl; [ reflexivity | apply IH ]. }
  now rewrite E.
Qed.

Lemma total_study_hours_needed_erased (subjects : list Subject) :
  total_study_hours_needed (map erase_subject subjects)
  = total_study_hours_needed subjects.
Proof.
  unfold total_study_hours_needed. generalize 0.
  induction subjects as [ | s l IH]; intro acc; simpl; [ reflexivity | ].
  rewrite subject_hours_erased. apply IH.
Qed.

Lemma available_loop_erased (preferences : StudyPreferences) :
  forall n d acc,
    available_loop (erase_preferences preferences) n d acc
    = available_loop preferences n d acc.
Proof.
  induction n as [ | n IH]; intros d acc; simpl; [ reflexivity | ].
  change (is_break_day (erase_preferences preferences) d)
    with (is_break_day preferences d).
  change (day_budget (erase_preferences preferences) d)
    with (day_budget preferences d).
  destruct (is_break_day preferences d);
    destruct (date_plus_days d 1); simpl; auto.
Qed.

Lemma day_loop_erased (today : date) (preferences : StudyPreferences) :
  forall n d p,
    day_loop today (erase_preferences preferences) n d p
    = day_loop today preferences n d p.
Proof.
  induction n as [ | n IH]; intros d p; simpl; [ reflexivity | ].
  change (is_break_day (erase_preferences preferences) d)
    with (is_break_day preferences d).
  destruct (is_break_day preferences d).
  - destruct (date_plus_days d 1); simpl; auto.
  - change (run_passes today (erase_preferences preferences) d
              (start_of_day (erase_preferences preferences) d
                 (plan_subject_data p) (plan_revision_log p)))
      with (run_passes today preferences d
              (start_of_day preferences d
                 (plan_subject_data p) (plan_revision_log p))).
    destruct (run_passes _ _ _ _); simpl; [ | reflexivity ].
    destruct (date_plus_days d 1); simpl; auto.
Qed.

(** ** The times of the sessions *)

Lemma add_regular_session_timed (today : date) (subject : SubjectData)
    (d : date) (t0 : time) (avail max brk : Q) (ds : list StudySession)
    (out : Allocation) :
  _add_regular_session today subject d t0 avail max brk ds = Ok out ->
  res_sessions out = ds
  \/ exists s, res_sessions out = ds ++ [s] /\ ends_on_time s
               /\ (break_after s = 0 \/ break_after s = brk).
Proof.
  unfold _add_regular_session. intro H.
  destruct (subject_completed subject).
  { injection H as <-. left. reflexivity. }
  destruct (advance_cursor _ _) as [idx [topic | ]].
  2:{ injection H as <-. left. reflexivity. }
  bind_inv H. destruct (datetime_plus_hours_time _ _ _ _ E) as [Ha _].
  simpl in H. right.
  destruct (Qlt_bool (1 # 100) _) eqn:Hb.
  - bind_inv H. injection H as <-. eexists.
    unfold res_sessions. simpl. split; [ reflexivity | ].
    split; [ exact Ha | now right ].
  - injection H as <-. eexists.
    unfold res_sessions. simpl. split; [ reflexivity | ].
    split; [ exact Ha | now left ].
Qed.

Lemma revision_loop_timed (today : date) (name : string) (d : date)
    (max brk tpt : Q) (n : nat) :
  forall rest st st',
    revision_loop today name d max brk tpt n rest st = Ok st' ->
    exists batch,
      rl_sessions st' = rl_sessions st ++ batch
      /\ Forall (fun s => ends_on_time s
                          /\ (break_after s = 0 \/ break_after s = brk)) batch.
Proof.
  induction rest as [ | topic rest IH]; intros st st' H; simpl in H.
  - injection H as <-. exists []. rewrite app_nil_r. auto.
  - destruct (_ && _).
    2:{ injection H as <-. exists []. rewrite app_nil_r. auto. }
    destruct (Qlt_bool (min3 max (remaining_time st) tpt) (1 # 10));
      [ now apply IH | ].
    bind_inv H. bind_inv H.
    destruct (datetime_plus_hours_time _ _ _ _ E) as [Ha _].
    destruct (IH _ _ H) as (batch & Hs & Hb).
    destruct (Qlt_bool (1 # 10) _) eqn:Hbr.
    + bind_inv E0. injection E0 as <-. simpl in *.
      eexists (_ :: batch). rewrite Hs, <- app_assoc. simpl.
      split; [ reflexivity | ]. constructor; [ | exact Hb ].
      split; [ exact Ha | now right ].
    + injection E0 as <-. simpl in *.
      eexists (_ :: batch). rewrite Hs, <- app_assoc. simpl.
      split; [ reflexivity | ]. constructor; [ | exact Hb ].
      split; [ exact Ha | now left ].
Qed.

Lemma add_revision_session_timed (today : date) (subject : SubjectData)
    (d : date) (t0 : time) (avail max brk : Q) (ds : list StudySession)
    (out : Allocation) :
  _add_revision_session today subject d t0 avail max brk ds = Ok out ->
  exists batch,
    res_sessions out = ds ++ batch
    /\ Forall (fun s => ends_on_time s
                        /\ (break_after s = 0 \/ break_after s = brk)) batch.
Proof.
  unfold _add_revision_session. intro H.
  destruct (_ || _).
  { injection H as <-. exists []. rewrite app_nil_r. auto. }
  destruct (_ =? 0)%nat.
  { injection H as <-. exists []. rewrite app_nil_r. auto. }
  bind_inv H. bind_inv H. injection H as <-.
  apply revision_loop_timed in E0. exact E0.
Qed.

Section Times.

Variable today : date.
Variable preferences : StudyPreferences.

Let I (st : DayState) : Prop := Forall (timed preferences) (day_sessions st).
Let J (p : Plan) : Prop :=
  Forall (timed preferences) (all_sessions (plan_days p)).

Lemma times_revise (d : date) (i : nat) (subject : SubjectData)
    (budget : Q) (st st' : DayState) :
  I st -> revise today preferences d i subject budget st = Ok st' -> I st'.
Proof.
  unfold I, revise. intros Hst H. bind_inv H.
  destruct (add_revision_session_timed _ _ _ _ _ _ _ _ _ E) as (batch & Hs & Hb).
  destruct a as [[[s1 ds'] used] t1]. unfold res_sessions in Hs. simpl in Hs.
  injection H as <-. simpl. subst ds'. apply Forall_app. auto.
Qed.

Lemma times_study (d : date) (i : nat) (subject : SubjectData)
    (budget : Q) (st st' : DayState) :
  I st -> study today preferences d i subject budget st = Ok st' -> I st'.
Proof.
  unfold I, study. intros Hst H. bind_inv H.
  apply add_regular_session_timed in E.
  destruct a as [[[s1 ds'] used] t1]. unfold res_sessions in E. simpl in E.
  injection H as <-. simpl.
  destruct E as [-> | (s & -> & Hs)]; [ exact Hst | ].
  apply Forall_app. split; [ exact Hst | ]. constructor; [ exact Hs | constructor ].
Qed.

Lemma times_day_loop (n : nat) (d : date) (p p' : Plan) :
  J p -> day_loop today preferences n d p = Ok p' -> J p'.
Proof.
  apply (day_loop_inv today preferences J (fun _ _ => I)).
  - intros. constructor.
  - intros p0 d0 st0 st _ H0 H.
    eapply (run_passes_inv today preferences d0 I); eauto.
    + intros. eapply times_revise; eauto.
    + intros. eapply times_study; eauto.
  - intros p0 d0 st Hp Hst. unfold J.
    rewrite end_of_day_all_sessions. apply Forall_app. auto.
Qed.

End Times.

Lemma end_time_range (s : StudySession) :
  ends_on_time s -> (0 <= end_time s < US_PER_DAY)%Z.
Proof.
  unfold ends_on_time. intros ->. apply Z.mod_pos_bound.
  unfold US_PER_DAY. lia.
Qed.

Lemma clock_chained_follow_on (preferences : StudyPreferences)
    (l : list StudySession) :
  Forall (timed preferences) l ->
  forall t, clock_chained t l -> follow_on (break_duration preferences) l.
Proof.
  induction l as [ | s l IH]; intros HF t Hc; [ exact I | ].
  inversion HF as [ | ? ? [He Hb] HF' ]; subst.
  destruct Hc as [_ Hc]. destruct l as [ | s' l]; [ exact I | ].
  split; [ | eapply IH; eauto ].
  destruct Hc as [Hs' _]. rewrite Hs'. unfold clock_past.
  destruct Hb as [-> | ->]; [ left | now right ].
  change (gap_us 0) with 0%Z. rewrite Z.add_0_r.
  apply Z.mod_small. now apply end_time_range.
Qed.

(** ** The topics reported unallocated *)

Lemma topic_done_not_left_over (t : TopicData) :
  topic_done t = true -> left_over t = false.
Proof.
  unfold topic_done, left_over, Qlt_bool. intro H.
  destruct (Qle_bool (remaining_hours t) (1 # 100)); simpl in *;
    [ reflexivity | ].
  now rewrite H.
Qed.

Lemma all_done_nothing_left (s : SubjectData) :
  all_topics_done s = true -> filter left_over (topics s) = [].
Proof.
  unfold all_topics_done. induction (topics s) as [ | t ts IH]; simpl;
    [ reflexivity | ].
  intro H. apply andb_true_iff in H. destruct H as [Ht Hts].
  rewrite (topic_done_not_left_over t Ht). now apply IH.
Qed.

(** What the completion check records for a subject. *)
Lemma check_subject_reports (d : date) (s : SubjectData) (u : Unallocated) :
  In u (snd (check_subject d s)) ->
  subject_completed s = false
  /\ fst (check_subject d s) = set_subject_completed s true
  /\ (exists e, s_exam_date s = Some e /\ (e < d)%Z)
  /\ exists t, In t (topics s) /\ left_over t = true
               /\ u = unallocated_entry s t.
Proof.
  unfold check_subject.
  destruct (subject_completed s); [ intros [] | ].
  destruct (should_complete s d) eqn:Hsc; [ | intros [] ].
  simpl. intro Hin. apply in_map_iff in Hin.
  destruct Hin as (t & <- & Hf).
  pose proof Hf as Ht. apply filter_In in Ht. destruct Ht as [Ht Hl].
  split; [ reflexivity | ]. split; [ reflexivity | ].
  split; [ | eauto ].
  unfold should_complete in Hsc. apply orb_true_iff in Hsc.
  destruct Hsc as [Hp | Hd].
  - unfold exam_passed in Hp. destruct (s_exam_date s) as [e | ];
      [ | discriminate ].
    exists e. split; [ reflexivity | now apply Z.ltb_lt ].
  - apply andb_true_iff in Hd. destruct Hd as [Hd _].
    rewrite (all_done_nothing_left s Hd) in Hf. destruct Hf.
Qed.

Lemma same_key_topic_In (a b : SubjectData) (t : TopicData) :
  same_key a b -> In t (topics b) ->
  exists t0, In t0 (topics a) /\ topic_key t0 = topic_key t.
Proof.
  intros Hk Ht. apply (in_map topic_key) in Ht.
  rewrite <- (same_key_topic_keys _ _ Hk) in Ht.
  apply in_map_iff in Ht. destruct Ht as (t0 & E & Ht0). eauto.
Qed.

Lemma Forall2_In_r {A B : Type} (R : A -> B -> Prop) (l0 : list A)
    (l : list B) (b : B) :
  Forall2 R l0 l -> In b l -> exists a, In a l0 /\ R a b.
Proof.
  induction 1 as [ | a0 b0 l0 l Hab H IH]; intros Hin; [ destruct Hin | ].
  destruct Hin as [<- | Hin].
  - exists a0. split; [ now left | exact Hab ].
  - destruct (IH Hin) as (a & Ha & HR). exists a. split; [ now right | exact HR ].
Qed.

Section Reported.

Variable today : date.
Variable preferences : StudyPreferences.
Variable sd0 : list SubjectData.

Let J (d : date) (p : Plan) : Prop :=
  Forall2 same_key sd0 (plan_subject_data p)
  /\ Forall (reported sd0 d) (plan_unallocated p).

Lemma reported_later (d d' : date) (u : Unallocated) :
  (d <= d')%Z -> reported sd0 d u -> reported sd0 d' u.
Proof.
  intros Hle (a & t & e & Ha & Ht & Hs & Hn & He & Hlt).
  exists a, t, e. repeat split; auto. lia.
Qed.

Lemma reported_day_loop (n : nat) (d : date) (p p' : Plan) :
  J d p -> day_loop today preferences n d p = Ok p' ->
  J (d + Z.of_nat n)%Z p'.
Proof.
  apply (dated_day_loop_inv today preferences J
           (fun _ _ st => Forall2 same_key sd0 (subject_data st))).
  - intros p0 d0 [Hk Hu] _. split; [ exact Hk | ].
    eapply Forall_impl; [ | exact Hu ]. intro u. apply reported_later. lia.
  - intros p0 d0 [Hk _] _. exact Hk.
  - intros p0 d0 st0 st _ H0 H.
    eapply (subjects_run_passes today preferences same_key); eauto;
      try apply same_key_regular; try (intros a s Hs; exact Hs).
  - intros p0 d0 st [_ Hu] _ Hk. unfold J.
    rewrite end_of_day_subject_data, end_of_day_unallocated.
    split; [ now apply same_key_check | ].
    apply Forall_app. split.
    + eapply Forall_impl; [ | exact Hu ]. intro u. apply reported_later. lia.
    + apply Forall_forall. intros u Hin. apply in_flat_map in Hin.
      destruct Hin as (s & Hs & Hin).
      destruct (check_subject_reports _ _ _ Hin)
        as (_ & _ & (e & He & Hlt) & (t & Ht & _ & ->)).
      destruct (Forall2_In_r _ _ _ _ Hk Hs) as (a & Ha & Hkey).
      destruct (same_key_topic_In _ _ _ Hkey Ht) as (t0 & Ht0 & Ekey).
      unfold topic_key in Ekey. injection Ekey as En _.
      exists a, t0, e. simpl. repeat split; auto.
      * symmetry. now apply same_key_name.
      * now rewrite (same_key_exam _ _ Hkey).
Qed.

End Reported.

(** ** The hours reported unallocated *)



Section Entries.

Variable today : date.
Variable preferences : StudyPreferences.

Let I (p : Plan) (st : DayState) : Prop :=
  Forall (entry_of (subject_data st)) (plan_unallocated p).

Let J (p : Plan) : Prop :=
  Forall (entry_of (plan_subject_data p)) (plan_unallocated p).




End Entries.

(** ** Sessions and exam dates *)

(** A call to the regular allocator leaves the name and the exam date, does
    not reopen a completed subject, and emits a session only for a subject
    that is not completed. *)
Lemma regular_outcome_active (subject : SubjectData) (d : date) (t0 : time)
    (avail max brk : Q) (ds : list StudySession)
    (subject1 : SubjectData) (ds' : list StudySession) (used : Q) :
  regular_outcome subject d t0 avail max brk ds subject1 ds' used ->
  s_exam_date subject1 = s_exam_date subject
  /\ s_name subject1 = s_name subject
  /\ (subject_completed subject1 = false -> subject_completed subject = false)
  /\ (ds' = ds
      \/ (subject_completed subject = false
          /\ exists s, ds' = ds ++ [s]
                       /\ session_subject s = s_name subject
                       /\ session_date s = d)).
Proof.
  intro H.
  destruct H as [Hc | idx Hc _ _ _ | idx topic t_end used Hc _ _ _ dur gap _];
    simpl.
  - auto.
  - split; [ reflexivity | ]. split; [ reflexivity | ].
    split; [ discriminate | now left ].
  - split; [ reflexivity | ]. split; [ reflexivity | ].
    split; [ auto | ]. right. split; [ exact Hc | ].
    eexists. split; [ reflexivity | ]. auto.
Qed.

Lemma revision_outcome_active (subject : SubjectData) (d : date)
    (avail max brk : Q) (ds : list StudySession)
    (subject1 : SubjectData) (ds' : list StudySession) (used : Q) :
  revision_outcome subject d avail max brk ds subject1 ds' used ->
  (subject1 = subject \/ subject1 = set_revision_completed subject true)
  /\ (ds' = ds
      \/ (subject_completed subject = false
          /\ exists batch,
               ds' = ds ++ batch
               /\ Forall (revision_session_of (s_name subject) d) batch)).
Proof.
  intro H.
  destruct H as [Hidle | batch used Hrc Hsc n tpt Hn Hlen Hu Hsl Hk Hlab Hstop].
  - auto.
  - split.
    + destruct (Nat.min 3 (total_topics subject) <=? List.length batch)%nat; auto.
    + right. split; [ exact Hsc | ]. exists batch. auto.
Qed.

Lemma check_subject_open (d : date) (s : SubjectData) :
  subject_completed (fst (check_subject d s)) = false ->
  fst (check_subject d s) = s /\ subject_completed s = false
  /\ exam_passed s d = false.
Proof.
  unfold check_subject. destruct (subject_completed s) eqn:Hc; simpl;
    [ congruence | ].
  destruct (should_complete s d) eqn:Hsc; simpl; [ discriminate | ].
  intros _. unfold should_complete in Hsc. apply orb_false_iff in Hsc.
  destruct Hsc as [Hp _]. auto.
Qed.

Section InTime.

Variable today : date.
Variable preferences : StudyPreferences.
Variable start_date : date.
Variable sd0 : list SubjectData.

Let I (d : date) (st : DayState) : Prop :=
  Forall2 same_key sd0 (subject_data st)
  /\ exams_open preferences start_date d (subject_data st)
  /\ Forall (in_time preferences start_date sd0) (day_sessions st).

Let J (d : date) (p : Plan) : Prop :=
  Forall2 same_key sd0 (plan_subject_data p)
  /\ exams_open preferences start_date d (plan_subject_data p)
  /\ Forall (in_time preferences start_date sd0) (all_sessions (plan_days p)).

(** The sessions a call emits for [subject], which is not completed. *)
Lemma in_time_emitted (d : date) (i : nat) (subject : SubjectData)
    (sd : list SubjectData) (s : StudySession) :
  Forall2 same_key sd0 sd -> exams_open preferences start_date d sd ->
  nth_error sd i = Some subject -> subject_completed subject = false ->
  session_subject s = s_name subject -> session_date s = d ->
  in_time preferences start_date sd0 s.
Proof.
  intros Hk Ho Hn Hc Hs Hd.
  destruct (Forall2_nth_error_r _ _ _ _ _ Hk Hn) as (a & Ha & Hkey).
  exists a. split; [ eapply nth_error_In; eauto | ].
  split; [ rewrite Hs; apply (same_key_name _ _ Hkey) | ].
  intros e He. rewrite Hd. rewrite (same_key_exam _ _ Hkey) in He.
  apply (Ho subject e); auto. eapply nth_error_In; eauto.
Qed.

Lemma exams_open_update (d : date) (i : nat) (subject subject1 : SubjectData)
    (sd : list SubjectData) :
  exams_open preferences start_date d sd ->
  nth_error sd i = Some subject ->
  s_exam_date subject1 = s_exam_date subject ->
  (subject_completed subject1 = false -> subject_completed subject = false) ->
  exams_open preferences start_date d (update_nth i subject1 sd).
Proof.
  intros Ho Hn He Hc s e Hin Hsc Hse.
  destruct (In_update_nth _ _ _ _ Hin) as [-> | Hold].
  - apply (Ho subject e); auto; [ eapply nth_error_In; eauto | congruence ].
  - now apply (Ho s e).
Qed.

Lemma in_time_revise (d : date) (i : nat) (subject : SubjectData)
    (budget : Q) (st st' : DayState) :
  I d st -> nth_error (subject_data st) i = Some subject ->
  revise today preferences d i subject budget st = Ok st' -> I d st'.
Proof.
  unfold I. intros (Hk & Ho & Hs) Hn H.
  split; [ eapply same_key_revise; eauto | ].
  destruct (revise_outcome _ _ _ _ _ _ _ _ H) as (s1 & used & Hout & -> & _).
  destruct (revision_outcome_active _ _ _ _ _ _ _ _ _ Hout) as [Hs1 Hds].
  split.
  - apply exams_open_update with (subject := subject); auto.
    + destruct Hs1 as [-> | ->]; reflexivity.
    + destruct Hs1 as [-> | ->]; auto.
  - destruct Hds as [-> | (Hc & batch & -> & Hb)]; [ exact Hs | ].
    apply Forall_app. split; [ exact Hs | ].
    rewrite Forall_forall in *. intros s Hin.
    destruct (Hb s Hin) as (Hsub & Hdate & _).
    eapply in_time_emitted; eauto.
Qed.

Lemma in_time_study (d : date) (i : nat) (subject : SubjectData)
    (budget : Q) (st st' : DayState) :
  I d st -> nth_error (subject_data st) i = Some subject ->
  study today preferences d i subject budget st = Ok st' -> I d st'.
Proof.
  unfold I. intros (Hk & Ho & Hs) Hn H.
  split; [ eapply same_key_study; eauto | ].
  destruct (study_outcome _ _ _ _ _ _ _ _ H) as (s1 & used & Hout & -> & _).
  destruct (regular_outcome_active _ _ _ _ _ _ _ _ _ _ Hout)
    as (He & _ & Hc & Hds).
  split.
  - now apply exams_open_update with (subject := subject).
  - destruct Hds as [-> | (Hsc & s & -> & Hsub & Hdate)]; [ exact Hs | ].
    apply Forall_app. split; [ exact Hs | ].
    constructor; [ | constructor ]. eapply in_time_emitted; eauto.
Qed.

Lemma in_time_day_loop (n : nat) (d : date) (p p' : Plan) :
  J d p -> day_loop today preferences n d p = Ok p' ->
  J (d + Z.of_nat n)%Z p'.
Proof.
  apply (dated_day_loop_inv today preferences J (fun _ => I)).
  - intros p0 d0 (Hk & Ho & Hs) Hb. split; [ exact Hk | ].
    split; [ | exact Hs ].
    intros s e Hin Hc He d1 Hd1 Hb1.
    destruct (Z.eq_dec d1 d0) as [-> | Hne]; [ congruence | ].
    apply (Ho s e Hin Hc He d1); [ lia | exact Hb1 ].
  - intros p0 d0 (Hk & Ho & _) _. split; [ exact Hk | ].
    split; [ exact Ho | constructor ].
  - intros p0 d0 st0 st _ H0 H.
    eapply (run_passes_inv today preferences d0 (I d0)); eauto.
    + intros. eapply in_time_revise; eauto.
    + intros. eapply in_time_study; eauto.
  - intros p0 d0 st (_ & _ & Hall) _ (Hk & Ho & Hs). unfold J.
    rewrite end_of_day_subject_data, end_of_day_all_sessions.
    split; [ now apply same_key_check | ].
    split; [ | apply Forall_app; auto ].
    intros s' e Hin Hc He d1 Hd1 Hb1.
    apply in_map_iff in Hin. destruct Hin as (s & <- & Hin).
    destruct (check_subject_open _ _ Hc) as (Efst & Hsc & Hp).
    rewrite Efst in He.
    destruct (Z.eq_dec d1 d0) as [-> | Hne].
    + unfold exam_passed in Hp. rewrite He in Hp. apply Z.ltb_ge in Hp. lia.
    + apply (Ho s e Hin Hsc He d1); [ lia | exact Hb1 ].
Qed.

End InTime.

(** ** The order of the topics *)

(** The regular allocator keeps the topics before the cursor finished, and
    the session it emits is on a topic all of whose predecessors are
    finished. *)
Lemma add_regular_session_order (today : date) (subject : SubjectData)
    (d : date) (t0 : time) (avail max brk : Q) (ds : list StudySession)
    (out : Allocation) :
  _add_regular_session today subject d t0 avail max brk ds = Ok out ->
  cursor_ok subject ->
  cursor_ok (res_subject out)
  /\ (res_sessions out = ds
      \/ exists idx topic s,
           res_sessions out = ds ++ [s]
           /\ nth_error (topics subject) idx = Some topic
           /\ session_topic s = t_name topic
           /\ session_subject s = s_name subject
           /\ forall k t, (k < idx)%nat ->
                          nth_error (topics subject) k = Some t ->
                          topic_done t = true).
Proof.
  unfold _add_regular_session. intros H Hcur.
  destruct (subject_completed subject).
  { injection H as <-. split; [ exact Hcur | now left ]. }
  destruct (advance_cursor _ _) as [idx r] eqn:Hadv.
  destruct (advance_cursor_spec (topics subject) _ _ _ _ eq_refl Hadv)
    as [Hle [Hdone Hr]].
  assert (Hbefore : forall k t, (k < idx)%nat ->
                      nth_error (topics subject) k = Some t ->
                      topic_done t = true).
  { intros k t Hk Ht.
    destruct (Nat.lt_ge_cases k (current_topic_index subject)) as [Hlt | Hge].
    - now apply (Hcur k t).
    - apply (Hdone k t); [ lia | exact Ht ]. }
  destruct r as [topic | ].
  2:{ injection H as <-. split; [ | now left ].
      unfold res_subject. simpl. intros k t Hk Ht. now apply (Hbefore k t). }
  destruct Hr as [Hn Hnd]. bind_inv H. simpl in H.
  assert (Hcursor : forall t1,
             cursor_ok
               (set_current_topic_index
                  (set_topics subject
                     (update_nth idx
                        (if Qle_bool (remaining_hours topic
                                      - min3 max avail (remaining_hours topic))
                              (1 # 100)
                         then set_completed t1 true else t1)
                        (topics subject)))
                  (if Qle_bool (remaining_hours topic
                                - min3 max avail (remaining_hours topic))
                        (1 # 100)
                   then S idx else idx))).
  { intros t1 k t Hk Ht. simpl in Hk, Ht.
    destruct (nth_error_update_nth _ _ _ _ _ Ht) as [[<- ->] | [Hne Hold]].
    - destruct (Qle_bool _ (1 # 100)); [ | lia ].
      unfold topic_done. simpl. apply orb_true_r.
    - apply (Hbefore k t); [ | exact Hold ].
      destruct (Qle_bool _ (1 # 100)); lia. }
  destruct (Qlt_bool (1 # 100) _).
  - bind_inv H. injection H as <-. unfold res_subject, res_sessions. simpl.
    split; [ apply Hcursor | ]. right.
    eexists idx, topic, _. split; [ reflexivity | ]. simpl. auto.
  - injection H as <-. unfold res_subject, res_sessions. simpl.
    split; [ apply Hcursor | ]. right.
    eexists idx, topic, _. split; [ reflexivity | ]. simpl. auto.
Qed.

Lemma app_snoc_cases {A : Type} (l pre post : list A) (s x : A) :
  l ++ [s] = pre ++ x :: post ->
  (post = [] /\ pre = l /\ x = s)
  \/ exists post', post = post' ++ [s] /\ l = pre ++ x :: post'.
Proof.
  intro H. destruct post as [ | y post] using rev_ind.
  - left. apply app_inj_tail in H. destruct H as [-> ->]. auto.
  - right. exists post. clear IHpost.
    change (pre ++ x :: post ++ [y]) with (pre ++ (x :: post) ++ [y]) in H.
    rewrite app_assoc in H. apply app_inj_tail in H. destruct H as [-> ->]. auto.
Qed.

Lemma in_order_snoc (sd0 : list SubjectData) (l : list StudySession)
    (s : StudySession) :
  in_order sd0 l ->
  (session_type s = regular ->
   forall a j t k t',
     In a sd0 -> s_name a = session_subject s ->
     nth_error (topics a) j = Some t -> t_name t = session_topic s ->
     (k < j)%nat -> nth_error (topics a) k = Some t' ->
     hours_needed t' - regular_hours (s_name a) (t_name t') l <= 1 # 100) ->
  in_order sd0 (l ++ [s]).
Proof.
  intros Hold Hnew pre x post a j t k t' E Hx Ha Hn Hj Ht Hk Hk'.
  destruct (app_snoc_cases _ _ _ _ _ E) as [(_ & -> & ->) | (post' & _ & ->)].
  - now apply (Hnew Hx a j t k t').
  - now apply (Hold pre x post' a j t k t').
Qed.

Lemma in_order_revision (sd0 : list SubjectData) (batch : list StudySession) :
  Forall (fun s => session_type s = revision) batch ->
  forall l, in_order sd0 l -> in_order sd0 (l ++ batch).
Proof.
  induction 1 as [ | s batch Hs _ IH]; intros l Hl.
  - now rewrite app_nil_r.
  - change (l ++ s :: batch) with (l ++ [s] ++ batch). rewrite app_assoc.
    apply IH. apply in_order_snoc; [ exact Hl | ].
    intro Hr. congruence.
Qed.

Section Order.

Variable today : date.
Variable preferences : StudyPreferences.
Variable sd0 : list SubjectData.
Hypothesis names_unique : NoDup (map s_name sd0).
Hypothesis topic_names_unique :
  forall a, In a sd0 -> NoDup (map t_name (topics a)).

Let I (p : Plan) (st : DayState) : Prop :=
  (Forall2 same_key sd0 (subject_data st)
   /\ ledger_ok (subject_data st)
        (all_sessions (plan_days p) ++ day_sessions st))
  /\ Forall topics_ok (subject_data st)
  /\ Forall cursor_ok (subject_data st)
  /\ in_order sd0 (all_sessions (plan_days p) ++ day_sessions st).

Let J (p : Plan) : Prop :=
  (Forall2 same_key sd0 (plan_subject_data p)
   /\ ledger_ok (plan_subject_data p) (all_sessions (plan_days p)))
  /\ Forall topics_ok (plan_subject_data p)
  /\ Forall cursor_ok (plan_subject_data p)
  /\ in_order sd0 (all_sessions (plan_days p)).

Lemma order_revise (p : Plan) (d : date) (i : nat) (subject : SubjectData)
    (budget : Q) (st st' : DayState) :
  I p st -> nth_error (subject_data st) i = Some subject ->
  revise today preferences d i subject budget st = Ok st' -> I p st'.
Proof.
  unfold I. intros (Hl & Hok & Hcur & Hord) Hn H.
  split; [ eapply ledger_revise; eauto | ].
  destruct (revise_outcome _ _ _ _ _ _ _ _ H) as (s1 & used & Hout & -> & _).
  destruct (revision_outcome_batch _ _ _ _ _ _ _ _ _ Hout)
    as (batch & tpt & -> & _ & _ & Hkind & _ & _ & Hs1).
  assert (Hin : In subject (subject_data st)) by (eapply nth_error_In; eauto).
  rewrite Forall_forall in Hok, Hcur.
  split; [ | split ].
  - apply Forall_update_nth; [ now apply Forall_forall | ].
    specialize (Hok subject Hin). destruct Hs1 as [-> | ->]; exact Hok.
  - apply Forall_update_nth; [ now apply Forall_forall | ].
    specialize (Hcur subject Hin). destruct Hs1 as [-> | ->]; exact Hcur.
  - rewrite app_assoc. apply in_order_revision; [ | exact Hord ].
    eapply Forall_impl; [ | exact Hkind ]. intros s (_ & _ & Ht). exact Ht.
Qed.

Lemma order_study (p : Plan) (d : date) (i : nat) (subject : SubjectData)
    (budget : Q) (st st' : DayState) :
  I p st -> nth_error (subject_data st) i = Some subject ->
  study today preferences d i subject budget st = Ok st' -> I p st'.
Proof.
  unfold I. intros (Hl & Hok & Hcur & Hord) Hn H.
  split; [ eapply ledger_study; eauto | ].
  destruct Hl as [Hk Hl].
  assert (Hin : In subject (subject_data st)) by (eapply nth_error_In; eauto).
  rewrite Forall_forall in Hok, Hcur.
  pose proof (Hok subject Hin) as Hoks. pose proof (Hcur subject Hin) as Hcurs.
  unfold study in H. apply bind_Ok in H.
  destruct H as ([[[s1 ds'] used] t1] & E & H). injection H as <-. simpl.
  pose proof (add_regular_session_outcome _ _ _ _ _ _ _ _ _ _ _ _ E) as Hout.
  destruct (add_regular_session_order _ _ _ _ _ _ _ _ _ E Hcurs)
    as [Hcur1 Hsess].
  unfold res_subject, res_sessions in Hcur1, Hsess. simpl in Hcur1, Hsess.
  split; [ | split ].
  - apply Forall_update_nth; [ now apply Forall_forall | ].
    eapply topics_ok_regular; eauto.
  - apply Forall_update_nth; [ now apply Forall_forall | exact Hcur1 ].
  - destruct Hsess as [-> | (idx & topic & s & -> & Hti & Hst & Hss & Hbefore)];
      [ exact Hord | ].
    rewrite app_assoc. apply in_order_snoc; [ exact Hord | ].
    intros _ a j t k t' Ha Hna Hj Hnt Hkj Hk'.
    destruct (Forall2_nth_error_r _ _ _ _ _ Hk Hn) as (ai & Hai & Hkey).
    assert (a = ai).
    { apply (NoDup_map_In s_name sd0); auto.
      - eapply nth_error_In; eauto.
      - rewrite Hna, Hss. symmetry. apply (same_key_name _ _ Hkey). }
    subst ai.
    destruct (map_eq_nth_error topic_key topic_key _ _ _ _
                (same_key_topic_keys _ _ Hkey) Hj) as (tj & Htj & Ekj).
    destruct (map_eq_nth_error topic_key topic_key _ _ _ _
                (same_key_topic_keys _ _ Hkey) Hk') as (tk & Htk & Ekk).
    unfold topic_key in Ekj, Ekk. injection Ekj as Enj _.
    injection Ekk as Enk Ehk.
    assert (Htopics : NoDup (map t_name (topics subject))).
    { rewrite <- (same_key_topic_names _ _ Hkey). now apply topic_names_unique. }
    assert (j = idx).
    { eapply (NoDup_map_nth_error t_name (topics subject)); eauto. congruence. }
    subst j.
    pose proof (Hbefore k tk Hkj Htk) as Hdone.
    unfold topics_ok in Hoks. rewrite Forall_forall in Hoks.
    apply (topic_done_ok tk (Hoks tk (nth_error_In _ _ Htk))) in Hdone.
    pose proof (Hl i subject k tk Hn Htk) as Hledger.
    rewrite (same_key_name _ _ Hkey), Enk, Ehk, Hledger. lra.
Qed.

Lemma order_day_loop (n : nat) (d : date) (p p' : Plan) :
  J p -> day_loop today preferences n d p = Ok p' -> J p'.
Proof.
  apply (day_loop_inv today preferences J (fun p _ => I p)).
  - intros p0 d0 (Hl & Hok & Hcur & Hord). unfold I. simpl.
    rewrite app_nil_r. auto.
  - intros p0 d0 st0 st _ H0 H.
    eapply (run_passes_inv today preferences d0 (I p0)); eauto.
    + intros. eapply order_revise; eauto.
    + intros. eapply order_study; eauto.
  - intros p0 d0 st _ ((Hk & Hl) & Hok & Hcur & Hord). unfold J.
    rewrite end_of_day_subject_data, end_of_day_all_sessions.
    split; [ split | split; [ | split ] ].
    + now apply same_key_check.
    + intros j s' k t Hs' Ht.
      apply nth_error_map_Some in Hs'. destruct Hs' as (s & Hs & ->).
      rewrite check_subject_name. rewrite check_subject_topics in Ht.
      now apply (Hl j s k t).
    + apply Forall_map. eapply Forall_impl; [ | exact Hok ].
      intros s Hs. destruct (check_subject_cases (d0 + 1)%Z s) as [-> | ->];
        exact Hs.
    + apply Forall_map. eapply Forall_impl; [ | exact Hcur ].
      intros s Hs. destruct (check_subject_cases (d0 + 1)%Z s) as [-> | ->];
        exact Hs.
    + exact Hord.
Qed.

End Order.

(** ** A pass over subjects picked by a test on what never changes *)

Lemma for_subjects_inv_ok (I : DayState -> Prop)
    (body : nat -> SubjectData -> DayState -> result DayState)
    (sd0 : list SubjectData) (ok : SubjectData -> Prop) :
  (forall st, I st -> Forall2 same_key sd0 (subject_data st)) ->
  (forall a b, same_key a b -> ok a -> ok b) ->
  (forall i subject st st',
     I st -> nth_error (subject_data st) i = Some subject -> ok subject ->
     1 # 2 <= hours_left st -> body i subject st = Ok st' -> I st') ->
  forall l st st',
    (forall i, In i l -> exists a, nth_error sd0 i = Some a /\ ok a) ->
    I st -> for_subjects body l st = Ok st' -> I st'.
Proof.
  intros Hkey Hok Hbody. induction l as [ | i l IH]; intros st st' Hl Hst H;
    simpl in H.
  - congruence.
  - destruct (Qlt_bool (hours_left st) (1 # 2)) eqn:Hb; [ congruence | ].
    apply Qlt_bool_false in Hb.
    destruct (Hl i (or_introl eq_refl)) as (a & Ha & Hoka).
    destruct (Forall2_nth_error_l _ _ _ _ _ (Hkey st Hst) Ha)
      as (subject & Hs & Hk).
    rewrite Hs in H. bind_inv H.
    apply (IH a0 st'); [ | | exact H ].
    + intros j Hj. apply Hl. now right.
    + apply (Hbody i subject st a0); auto. eapply Hok; eauto.
Qed.

Lemma pass_inv_ok (I : DayState -> Prop)
    (body : nat -> SubjectData -> DayState -> result DayState)
    (sd0 : list SubjectData) (p : SubjectData -> bool)
    (ok : SubjectData -> Prop) (st st' : DayState) :
  (forall st, I st -> Forall2 same_key sd0 (subject_data st)) ->
  (forall a b, same_key a b -> ok a -> ok b) ->
  (forall a b, same_key a b -> ok b -> ok a) ->
  (forall s, p s = true -> ok s) ->
  (forall i subject st st',
     I st -> nth_error (subject_data st) i = Some subject -> ok subject ->
     1 # 2 <= hours_left st -> body i subject st = Ok st' -> I st') ->
  I st ->
  for_subjects body (positions_where p (subject_data st)) st = Ok st' ->
  I st'.
Proof.
  intros Hkey Hok Hok' Hp Hbody Hst H.
  eapply (for_subjects_inv_ok I body sd0 ok); eauto.
  intros i Hi. apply positions_where_spec in Hi. destruct Hi as (s & Hs & Hps).
  destruct (Forall2_nth_error_r _ _ _ _ _ (Hkey st Hst) Hs) as (a & Ha & Hk).
  exists a. split; [ exact Ha | ]. eapply Hok'; eauto.
Qed.

(** ** The hours offered to a High subject *)

Lemma same_key_importance (a b : SubjectData) :
  same_key a b -> s_importance a = s_importance b.
Proof. unfold same_key, subject_key. congruence. Qed.

Lemma exam_near_key (d : date) (a b : SubjectData) :
  same_key a b -> exam_near d a -> exam_near d b.
Proof.
  intros Hk (e & He & H). exists e. rewrite <- (same_key_exam _ _ Hk). auto.
Qed.

Lemma is_urgent_near (d : date) (s : SubjectData) :
  is_urgent d s = true -> exam_near d s.
Proof.
  unfold is_urgent, exam_near. destruct (s_exam_date s) as [e | ];
    [ | discriminate ].
  intro H. apply andb_true_iff in H. destruct H as [H H2].
  apply andb_true_iff in H. destruct H as [_ H1].
  apply Z.ltb_lt in H1. apply Z.leb_le in H2. eauto.
Qed.

Section HighCaps.

Variable today : date.
Variable preferences : StudyPreferences.
Variable sd0 : list SubjectData.
Hypothesis names_unique : NoDup (map s_name sd0).

Let I (st : DayState) : Prop :=
  Forall2 same_key sd0 (subject_data st)
  /\ Forall (high_capped sd0) (day_sessions st).

Let J (p : Plan) : Prop :=
  Forall2 same_key sd0 (plan_subject_data p)
  /\ Forall (high_capped sd0) (all_sessions (plan_days p)).

Lemma caps_revise (d : date) (i : nat) (subject : SubjectData)
    (budget : Q) (st st' : DayState) :
  I st -> nth_error (subject_data st) i = Some subject ->
  revise today preferences d i subject budget st = Ok st' -> I st'.
Proof.
  unfold I. intros [Hk Hs] Hn H.
  split; [ eapply same_key_revise; eauto | ].
  destruct (revise_outcome _ _ _ _ _ _ _ _ H) as (s1 & used & Hout & _).
  destruct (revision_outcome_batch _ _ _ _ _ _ _ _ _ Hout)
    as (batch & tpt & -> & _ & _ & Hkind & _).
  apply Forall_app. split; [ exact Hs | ].
  eapply Forall_impl; [ | exact Hkind ].
  intros s (_ & _ & Ht) Hr. congruence.
Qed.

(** A regular call with [budget] hours on offer, capped for a High subject. *)
Lemma caps_study (d : date) (i : nat) (subject : SubjectData)
    (budget : Q) (st st' : DayState) :
  I st -> nth_error (subject_data st) i = Some subject ->
  (s_importance subject = High ->
   budget <= 2 /\ (~ exam_near d subject -> budget <= 1)) ->
  study today preferences d i subject budget st = Ok st' -> I st'.
Proof.
  unfold I. intros [Hk Hs] Hn Hcap H.
  split; [ eapply same_key_study; eauto | ].
  destruct (study_outcome _ _ _ _ _ _ _ _ H) as (s1 & used & Hout & _).
  destruct (regular_outcome_cases _ _ _ _ _ _ _ _ _ _ Hout)
    as [(-> & _) | (idx & idx' & topic & s & _ & _ & Hrs & -> & _)];
    [ exact Hs | ].
  apply Forall_app. split; [ exact Hs | ].
  constructor; [ | constructor ].
  destruct Hrs. intros _ a Ha Hna Himp.
  destruct (Forall2_nth_error_r _ _ _ _ _ Hk Hn) as (ai & Hai & Hkey).
  assert (a = ai).
  { apply (NoDup_map_In s_name sd0); auto.
    - eapply nth_error_In; eauto.
    - rewrite Hna, rs_subject0. symmetry. apply (same_key_name _ _ Hkey). }
  subst ai. rewrite (same_key_importance _ _ Hkey) in Himp.
  destruct (Hcap Himp) as [H2 H1].
  pose proof (min3_le_2 (session_duration preferences) budget
                (remaining_hours topic)) as Hle.
  rewrite rs_duration0, rs_date0. split; [ lra | ].
  intro Hfar. assert (budget <= 1); [ | lra ].
  apply H1. intro Hnear. apply Hfar. eapply exam_near_key; [ | exact Hnear ].
  unfold same_key in *. congruence.
Qed.

Lemma caps_urgent (d : date) (i : nat) (subject : SubjectData)
    (st st' : DayState) :
  I st -> nth_error (subject_data st) i = Some subject ->
  exam_near d subject ->
  urgent_body today preferences d i subject st = Ok st' -> I st'.
Proof.
  intros Hst Hn Hnear H. unfold urgent_body in H.
  destruct (s_exam_date subject) as [e | ] eqn:He; [ | discriminate ].
  bind_inv H. bind_inv H. injection H as <-.
  assert (Ha0 : I a0).
  { destruct (needs_revision_today d subject a).
    - eapply caps_revise; eauto.
    - eapply caps_study; eauto. intros _. split; [ apply Q.le_min_l | ].
      intro Hfar. contradiction. }
  destruct (s_importance subject); exact Ha0.
Qed.

Lemma caps_high (d : date) (i : nat) (subject : SubjectData)
    (st st' : DayState) :
  I st -> nth_error (subject_data st) i = Some subject ->
  high_body today preferences d i subject st = Ok st' -> I st'.
Proof.
  intros Hst Hn H. unfold high_body, regular_high in H.
  assert (Hreg : forall st1,
             (st2 <- study today preferences d i subject
                       (Qmin 1 (hours_left st)) st ;;
              Ok (mark_covered (s_name subject) st2)) = Ok st1 -> I st1).
  { intros st1 H1. bind_inv H1. injection H1 as <-.
    assert (Ha : I a).
    { eapply caps_study; eauto. intros _.
      pose proof (Q.le_min_l 1 (hours_left st)). split; [ lra | auto ]. }
    exact Ha. }
  destruct (s_exam_date subject) as [e | ]; [ | auto ].
  bind_inv H. destruct (needs_revision_today d subject a); [ | auto ].
  eapply caps_revise; eauto.
Qed.

Lemma caps_tier (d : date) (i : nat) (subject : SubjectData)
    (st st' : DayState) :
  I st -> nth_error (subject_data st) i = Some subject ->
  s_importance subject <> High ->
  tier_body today preferences d i subject st = Ok st' -> I st'.
Proof.
  intros Hst Hn Himp H. unfold tier_body in H.
  assert (Hreg : forall st1,
             study today preferences d i subject (hours_left st) st = Ok st1 ->
             I st1).
  { intros st1 H1. eapply caps_study; eauto. intro. contradiction. }
  destruct (s_exam_date subject) as [e | ]; [ | auto ].
  bind_inv H. destruct (needs_revision_today d subject a); [ | auto ].
  eapply caps_revise; eauto.
Qed.

Lemma has_importance_not_high (imp : Importance) (s : SubjectData) :
  imp <> High -> has_importance imp s = true -> s_importance s <> High.
Proof.
  unfold has_importance. intros Hi H. apply andb_true_iff in H.
  destruct H as [H _]. intro E. rewrite E in H.
  destruct imp; try discriminate. now apply Hi.
Qed.

Lemma caps_run_passes (d : date) (st0 st : DayState) :
  I st0 -> run_passes today preferences d st0 = Ok st -> I st.
Proof.
  intros H0 H. unfold run_passes in H.
  assert (Hkey : forall st1, I st1 -> Forall2 same_key sd0 (subject_data st1))
    by (intros st1 [Hk _]; exact Hk).
  bind_inv H. bind_inv H. bind_inv H.
  assert (H1 : I a).
  { eapply (pass_inv_ok I _ sd0 (is_urgent d) (exam_near d)); eauto.
    - intros x y Hxy. now apply exam_near_key.
    - intros x y Hxy. apply exam_near_key. unfold same_key in *. congruence.
    - apply is_urgent_near.
    - intros. eapply caps_urgent; eauto. }
  assert (H2 : I a0).
  { eapply (pass_inv_ok I _ sd0 _ (fun _ => True)); eauto.
    intros. eapply caps_high; eauto. }
  assert (Htier : forall imp sta stb,
             imp <> High -> I sta ->
             for_subjects (tier_body today preferences d)
               (positions_where (has_importance imp) (subject_data sta)) sta
             = Ok stb -> I stb).
  { intros imp sta stb Himp Hsta Hpass.
    eapply (pass_inv_ok I _ sd0 (has_importance imp)
              (fun s => s_importance s <> High)); eauto.
    - intros x y Hxy. now rewrite (same_key_importance _ _ Hxy).
    - intros x y Hxy. now rewrite (same_key_importance _ _ Hxy).
    - intros s0. now apply has_importance_not_high.
    - intros. eapply caps_tier; eauto. }
  assert (H3 : I a1) by (eapply (Htier Medium); eauto; discriminate).
  eapply (Htier Low); eauto. discriminate.
Qed.

Lemma caps_day_loop (n : nat) (d : date) (p p' : Plan) :
  J p -> day_loop today preferences n d p = Ok p' -> J p'.
Proof.
  apply (day_loop_inv today preferences J (fun _ _ => I)).
  - intros p0 d0 [Hk _]. split; [ exact Hk | constructor ].
  - intros p0 d0 st0 st _ H0 H. eapply caps_run_passes; eauto.
  - intros p0 d0 st [_ Hall] [Hk Hs]. unfold J.
    rewrite end_of_day_subject_data, end_of_day_all_sessions.
    split; [ now apply same_key_check | apply Forall_app; auto ].
Qed.

End HighCaps.

(** ** The budget left when a session starts *)

Lemma app_eq_cases {A : Type} (b pre post : list A) (s : A) :
  forall l,
    l ++ b = pre ++ s :: post ->
    (exists post', l = pre ++ s :: post' /\ post = post' ++ b)
    \/ (exists bpre, pre = l ++ bpre /\ b = bpre ++ s :: post).
Proof.
  revert pre. intros pre l. revert pre.
  induction l as [ | x l IH]; intros pre H; simpl in H.
  - right. exists pre. auto.
  - destruct pre as [ | y pre]; simpl in H.
    + injection H as -> H. left. exists l. auto.
    + injection H as -> H. destruct (IH pre H) as [(post' & -> & ->) | (bpre & -> & ->)].
      * left. exists post'. auto.
      * right. exists bpre. auto.
Qed.

Lemma revision_slices_prefix (max brk tpt : Q) (s : StudySession)
    (bpost : list StudySession) :
  forall bpre rem,
    revision_slices max brk tpt rem (bpre ++ s :: bpost) ->
    1 # 10 < rem - clock_used bpre.
Proof.
  induction bpre as [ | x bpre IH]; intros rem H; simpl in *.
  - destruct H as (H1 & _). lra.
  - destruct H as (_ & _ & _ & _ & H5). apply IH in H5.
    fold (clock_used bpre). lra.
Qed.

Section Starts.

Variable today : date.
Variable preferences : StudyPreferences.

Let I (d : date) (st : DayState) : Prop :=
  (clock_used (day_sessions st) == day_budget preferences d - hours_left st
   /\ (day_sessions st <> [] ->
       day_load (day_sessions st) <= day_budget preferences d))
  /\ starts_ok (day_budget preferences d) (day_sessions st).

Let J (p : Plan) : Prop :=
  forall day, In day (plan_days p) ->
    starts_ok (day_budget preferences (day_date day)) (sessions day).

Lemma starts_revise (d : date) (i : nat) (subject : SubjectData)
    (budget : Q) (st st' : DayState) :
  I d st -> budget <= hours_left st ->
  revise today preferences d i subject budget st = Ok st' -> I d st'.
Proof.
  unfold I. intros [Hb Hs] Hle H.
  split; [ eapply budget_revise; eauto | ].
  destruct Hb as [Hc _].
  destruct (revise_outcome _ _ _ _ _ _ _ _ H) as (s1 & used & Hout & _).
  destruct (revision_outcome_batch _ _ _ _ _ _ _ _ _ Hout)
    as (batch & tpt & -> & _ & Hsl & Hkind & _).
  intros pre s post E.
  destruct (app_eq_cases _ _ _ _ _ E) as [(post' & E' & _) | (bpre & -> & ->)].
  - now apply (Hs pre s post').
  - apply revision_slices_prefix in Hsl.
    rewrite clock_used_app. split; [ lra | ].
    intro Hr. rewrite Forall_forall in Hkind.
    destruct (Hkind s) as (_ & _ & Ht);
      [ apply in_or_app; right; now left | congruence ].
Qed.

Lemma starts_study (d : date) (i : nat) (subject : SubjectData)
    (budget : Q) (st st' : DayState) :
  I d st -> 1 # 2 <= budget -> budget <= hours_left st ->
  study today preferences d i subject budget st = Ok st' -> I d st'.
Proof.
  unfold I. intros [Hb Hs] Hb1 Hb2 H.
  split; [ eapply budget_study; eauto | ].
  destruct Hb as [Hc _].
  destruct (study_outcome _ _ _ _ _ _ _ _ H) as (s1 & used & Hout & _).
  destruct (regular_outcome_cases _ _ _ _ _ _ _ _ _ _ Hout)
    as [(-> & _) | (idx & idx' & topic & s & _ & _ & _ & -> & _)];
    [ exact Hs | ].
  intros pre x post E.
  destruct (app_snoc_cases _ _ _ _ _ E) as [(_ & -> & ->) | (post' & _ & E')].
  - split; [ lra | intros _; lra ].
  - now apply (Hs pre x post').
Qed.

Lemma starts_day_loop (n : nat) (d : date) (p p' : Plan) :
  J p -> day_loop today preferences n d p = Ok p' -> J p'.
Proof.
  apply (day_loop_inv today preferences J (fun _ => I)).
  - intros p0 d0 _. unfold I, start_of_day. simpl.
    split; [ split; [ lra | congruence ] | ].
    intros pre s post E. destruct pre; discriminate.
  - intros p0 d0 st0 st _ H0 H.
    eapply (run_passes_inv today preferences d0 (I d0)); eauto.
    + intros. eapply starts_revise; eauto.
    + intros. eapply starts_study; eauto.
  - intros p0 d0 st Hp [_ Hs]. unfold J. rewrite end_of_day_days.
    destruct (day_sessions st) as [ | s l] eqn:Es; [ exact Hp | ].
    intros day Hin. apply in_app_or in Hin.
    destruct Hin as [Hin | [<- | []]]; [ now apply Hp | exact Hs ].
Qed.

End Starts.

(** ** The loop bodies, as one call to an allocator *)

(** Every loop body calls one allocator, with half an hour or more on offer
    and no more than the hours left, and leaves the state the call gives,
    up to the coverage of the High subjects. *)
Lemma body_cases (today : date) (preferences : StudyPreferences) (d : date)
    (body : nat -> SubjectData -> DayState -> result DayState)
    (i : nat) (subject : SubjectData) (st st' : DayState) :
  body = urgent_body today preferences d
  \/ body = high_body today preferences d
  \/ body = tier_body today preferences d ->
  1 # 2 <= hours_left st ->
  body i subject st = Ok st' ->
  exists budget st1,
    1 # 2 <= budget /\ budget <= hours_left st
    /\ ((revision_completed subject = false
         /\ revise today preferences d i subject budget st = Ok st1)
        \/ study today preferences d i subject budget st = Ok st1)
    /\ (st' = st1 \/ st' = mark_covered (s_name subject) st1).
Proof.
  intros Hbody Hh H.
  assert (Hrev : forall e a,
             date_minus_days e (revision_days_before preferences) = Ok a ->
             needs_revision_today d subject a = true ->
             revision_completed subject = false).
  { intros e a E Hr. unfold needs_revision_today in Hr.
    apply andb_true_iff in Hr. destruct Hr as [_ Hr].
    now apply negb_true_iff in Hr. }
  destruct Hbody as [-> | [-> | ->]].
  - unfold urgent_body in H.
    destruct (s_exam_date subject) as [e | ]; [ | discriminate ].
    bind_inv H. bind_inv H. injection H as <-.
    destruct (Qmin_budget 2 (hours_left st)) as [Hb1 Hb2]; [ lra | exact Hh | ].
    exists (Qmin 2 (hours_left st)), a0. split; [ exact Hb1 | ].
    split; [ exact Hb2 | ]. split.
    + destruct (needs_revision_today d subject a) eqn:Hr; [ left | right; exact E0 ].
      split; [ eapply Hrev; eauto | exact E0 ].
    + destruct (s_importance subject); auto.
  - unfold high_body, regular_high in H.
    destruct (Qmin_budget 1 (hours_left st)) as [Hb1 Hb2]; [ lra | exact Hh | ].
    assert (Hreg : (st2 <- study today preferences d i subject
                             (Qmin 1 (hours_left st)) st ;;
                    Ok (mark_covered (s_name subject) st2)) = Ok st' ->
                   exists budget st1,
                     1 # 2 <= budget /\ budget <= hours_left st
                     /\ ((revision_completed subject = false
                          /\ revise today preferences d i subject budget st
                             = Ok st1)
                         \/ study today preferences d i subject budget st
                            = Ok st1)
                     /\ (st' = st1 \/ st' = mark_covered (s_name subject) st1)).
    { intro H1. bind_inv H1. injection H1 as <-.
      exists (Qmin 1 (hours_left st)), a. auto. }
    destruct (s_exam_date subject) as [e | ]; [ | auto ].
    bind_inv H.
    destruct (needs_revision_today d subject a) eqn:Hr; [ | auto ].
    exists (Qmin 1 (hours_left st)), st'. split; [ exact Hb1 | ].
    split; [ exact Hb2 | ]. split; [ left | now left ].
    split; [ eapply Hrev; eauto | exact H ].
  - unfold tier_body in H.
    assert (Hle : hours_left st <= hours_left st) by lra.
    destruct (s_exam_date subject) as [e | ].
    + bind_inv H. exists (hours_left st), st'.
      split; [ exact Hh | ]. split; [ exact Hle | ]. split; [ | now left ].
      destruct (needs_revision_today d subject a) eqn:Hr; [ left | now right ].
      split; [ eapply Hrev; eauto | exact H ].
    + exists (hours_left st), st'. auto.
Qed.

(** An invariant of a pass that follows the subjects still to come. *)
Lemma for_subjects_inv_list (I : list nat -> DayState -> Prop)
    (body : nat -> SubjectData -> DayState -> result DayState) :
  (forall i l subject st st',
     I (i :: l) st -> nth_error (subject_data st) i = Some subject ->
     1 # 2 <= hours_left st -> body i subject st = Ok st' -> I l st') ->
  forall l st st',
    I l st -> for_subjects body l st = Ok st' ->
    exists l', I l' st' /\ (l' = [] \/ hours_left st' < 1 # 2).
Proof.
  intro Hbody. induction l as [ | i l IH]; intros st st' Hst H; simpl in H.
  - injection H as <-. exists []. auto.
  - destruct (Qlt_bool (hours_left st) (1 # 2)) eqn:Hb.
    + injection H as <-. exists (i :: l). split; [ exact Hst | right ].
      now apply Qlt_bool_true.
    + apply Qlt_bool_false in Hb.
      destruct (nth_error (subject_data st) i) as [subject | ] eqn:Hn;
        [ | discriminate ].
      bind_inv H. apply (IH a st'); [ | exact H ].
      eapply Hbody; eauto.
Qed.

Lemma positions_from_complete (p : SubjectData -> bool) (sd : list SubjectData) :
  forall start i s,
    nth_error sd i = Some s -> p s = true ->
    In (start + i)%nat
       (map fst (filter (fun x => p (snd x))
                   (combine (seq start (List.length sd)) sd))).
Proof.
  induction sd as [ | a sd IH]; intros start i s Hn Hp; [ destruct i; discriminate | ].
  simpl. destruct i as [ | i]; simpl in Hn.
  - injection Hn as ->. rewrite Hp. simpl. left. lia.
  - pose proof (IH (S start) i s Hn Hp) as Hin.
    replace (S start + i)%nat with (start + S i)%nat in Hin by lia.
    destruct (p a); simpl; auto.
Qed.

Lemma positions_where_complete (p : SubjectData -> bool)
    (sd : list SubjectData) (i : nat) (s : SubjectData) :
  nth_error sd i = Some s -> p s = true -> In i (positions_where p sd).
Proof.
  intros Hn Hp. unfold positions_where.
  exact (positions_from_complete p sd 0 i s Hn Hp).
Qed.

(** ** Days left empty *)

Lemma moves_on_refl (s : SubjectData) : moves_on s s.
Proof.
  split; [ reflexivity | split; auto ].
Qed.

Lemma moves_on_trans (a b c : SubjectData) :
  moves_on a b -> moves_on b c -> moves_on a c.
Proof.
  intros (K1 & C1 & F1) (K2 & C2 & F2). split; [ | split; auto ].
  unfold same_key in *. congruence.
Qed.

Lemma Forall2_moves_on_refl (sd : list SubjectData) : Forall2 moves_on sd sd.
Proof.
  induction sd; constructor; auto. apply moves_on_refl.
Qed.

Lemma Forall2_moves_on_trans (a b c : list SubjectData) :
  Forall2 moves_on a b -> Forall2 moves_on b c -> Forall2 moves_on a c.
Proof.
  intro H. revert c. induction H as [ | x y a b Hxy H IH]; intros c Hc;
    inversion Hc; subst; constructor.
  - eapply moves_on_trans; eauto.
  - now apply IH.
Qed.

Lemma moves_on_update (i : nat) (s1 : SubjectData) (subject : SubjectData)
    (sd : list SubjectData) :
  nth_error sd i = Some subject -> moves_on subject s1 ->
  Forall2 moves_on sd (update_nth i s1 sd).
Proof.
  intros Hn Hm. apply Forall2_update_nth; [ apply Forall2_moves_on_refl | ].
  intros a b Ha _. congruence.
Qed.

Lemma moves_on_flag (s : SubjectData) (b : bool) :
  moves_on s (set_revision_completed s b).
Proof.
  split; [ reflexivity | split; auto ].
Qed.

Lemma moves_on_check (d : date) (s : SubjectData) :
  moves_on s (fst (check_subject d s)).
Proof.
  destruct (check_subject_cases d s) as [-> | ->]; [ apply moves_on_refl | ].
  split; [ reflexivity | split; [ auto | ] ].
  intros _. now left.
Qed.

Lemma no_topic_left (s : SubjectData) :
  total_topics s = 0%nat -> all_topics_done s = true.
Proof.
  unfold total_topics, all_topics_done. intro H.
  apply forallb_forall. intros t Ht. unfold topic_done.
  destruct (completed t) eqn:Hc; [ apply orb_true_r | ].
  assert (Hin : In t (filter (fun t => negb (completed t)) (topics s))).
  { apply filter_In. split; [ exact Ht | now rewrite Hc ]. }
  destruct (filter (fun t => negb (completed t)) (topics s));
    [ destruct Hin | discriminate ].
Qed.

(** A call to the regular allocator that leaves no session charges nothing
    and leaves the subject completed. *)
Lemma regular_outcome_quiet (subject : SubjectData) (d : date) (t0 : time)
    (avail max brk : Q) (ds : list StudySession) (subject1 : SubjectData)
    (ds' : list StudySession) (used : Q) :
  regular_outcome subject d t0 avail max brk ds subject1 ds' used ->
  moves_on subject subject1
  /\ (exists batch, ds' = ds ++ batch)
  /\ (ds' = [] -> used = 0 /\ subject_completed subject1 = true).
Proof.
  intro H.
  assert (Hk : same_key subject subject1)
    by (eapply same_key_regular; [ reflexivity | exact H ]).
  destruct H as [Hc | idx Hc Hle Hlen Hdone
                   | idx topic t_end used Hc Hle Hn Hnd dur gap Hu].
  - split; [ apply moves_on_refl | ]. split; [ exists []; now rewrite app_nil_r | ].
    auto.
  - split; [ split; [ exact Hk | split; [ auto | intros _; now left ] ] | ].
    split; [ exists []; now rewrite app_nil_r | ]. auto.
  - split; [ split; [ exact Hk | split ] | split ].
    + congruence.
    + intros [Hf | Hf]; [ congruence | ].
      unfold all_topics_done in Hf. rewrite forallb_forall in Hf.
      rewrite (Hf topic (nth_error_In _ _ Hn)) in Hnd. discriminate.
    + eexists. reflexivity.
    + intro E. destruct ds; discriminate.
Qed.

(** A call to the revision allocator with half an hour or more on offer and
    a session length of six minutes or more leaves no session only when the
    subject is completed or has no topic left. *)
Lemma revision_outcome_quiet (subject : SubjectData) (d : date)
    (avail max brk : Q) (ds : list StudySession) (subject1 : SubjectData)
    (ds' : list StudySession) (used : Q) :
  1 # 10 <= max -> 1 # 2 <= avail -> revision_completed subject = false ->
  revision_outcome subject d avail max brk ds subject1 ds' used ->
  moves_on subject (set_revision_completed subject1 true)
  /\ (exists batch, ds' = ds ++ batch)
  /\ (ds' = [] ->
      used == 0 /\ finished (set_revision_completed subject1 true)).
Proof.
  intros Hmax Havail Hrc H.
  destruct H as [Hidle | batch used Hrc' Hsc n tpt Hn Hlen Hu Hsl Hk Hlab Hstop].
  - split; [ apply moves_on_flag | ].
    split; [ exists []; now rewrite app_nil_r | ].
    intros _. split; [ reflexivity | ].
    destruct Hidle as [Hi | [Hi | Hi]]; [ congruence | now left | right ].
    exact (no_topic_left subject Hi).
  - split; [ | split ].
    + destruct (Nat.min 3 (total_topics subject) <=? List.length batch)%nat;
        (split; [ reflexivity | split; intro Hf; exact Hf ]).
    + now exists batch.
    + intro E. apply app_eq_nil in E. destruct E as [_ ->].
      simpl in Hu. exfalso.
      destruct Hstop as [Hs | [Hs | [_ Hs]]].
      * simpl in Hs. lia.
      * lra.
      * assert (Hc : 0 < inject_Z (Z.of_nat n) /\ inject_Z (Z.of_nat n) <= 5).
        { split.
          - replace 0 with (inject_Z 0) by reflexivity. rewrite <- Zlt_Qlt. lia.
          - replace 5 with (inject_Z 5) by reflexivity. rewrite <- Zle_Qle.
            unfold n. lia. }
        destruct Hc as [Hc0 Hc5].
        assert (Hdiv : 1 # 10 <= avail / inject_Z (Z.of_nat n)).
        { apply Qle_shift_div_l; [ exact Hc0 | lra ]. }
        unfold tpt in Hs.
        destruct (Qmin_cases (1 # 2) (avail / inject_Z (Z.of_nat n)))
          as [[Ha Ea] | [Ha Ea]];
          destruct (Qmin_cases max
                      (Qmin (1 # 2) (avail / inject_Z (Z.of_nat n))))
            as [[Hb Eb] | [Hb Eb]]; lra.
Qed.

Section Quiet.

Variable today : date.
Variable preferences : StudyPreferences.
Variable d : date.
Hypothesis session_long : 1 # 10 <= session_duration preferences.

Lemma quiet_study (i : nat) (subject : SubjectData) (budget : Q)
    (st st' : DayState) :
  nth_error (subject_data st) i = Some subject ->
  Forall cursor_ok (subject_data st) ->
  study today preferences d i subject budget st = Ok st' ->
  Forall cursor_ok (subject_data st')
  /\ Forall2 moves_on (subject_data st) (subject_data st')
  /\ high_importance_coverage st' = high_importance_coverage st
  /\ (day_sessions st' = [] ->
      day_sessions st = [] /\ hours_left st' == hours_left st
      /\ finished_at i (subject_data st')).
Proof.
  intros Hn Hcur H.
  destruct (study_outcome _ _ _ _ _ _ _ _ H)
    as (s1 & used & Hout & Hsd & Hh & Hcov & _).
  destruct (regular_outcome_quiet _ _ _ _ _ _ _ _ _ _ Hout)
    as (Hm & (batch & Hb) & Hq).
  assert (Hcur1 : cursor_ok s1).
  { unfold study in H. apply bind_Ok in H.
    destruct H as ([[[s2 ds'] used2] t1] & E & H). injection H as <-.
    simpl in Hsd.
    rewrite Forall_forall in Hcur.
    destruct (add_regular_session_order _ _ _ _ _ _ _ _ _ E
                (Hcur subject (nth_error_In _ _ Hn))) as [Hc _].
    unfold res_subject in Hc. simpl in Hc.
    assert (Hlen : (i < List.length (subject_data st))%nat)
      by (apply nth_error_Some; congruence).
    assert (E1 : nth_error (update_nth i s1 (subject_data st)) i = Some s1)
      by (now apply nth_error_update_nth_eq).
    assert (E2 : nth_error (update_nth i s2 (subject_data st)) i = Some s2)
      by (now apply nth_error_update_nth_eq).
    rewrite <- Hsd in E1. rewrite E2 in E1. injection E1 as <-. exact Hc. }
  rewrite Hsd. split; [ now apply Forall_update_nth | ].
  split; [ eapply moves_on_update; eauto | ].
  split; [ exact Hcov | ].
  intro E. rewrite E in Hb. symmetry in Hb. apply app_eq_nil in Hb.
  destruct Hb as [Hds _]. rewrite E in Hq.
  destruct (Hq eq_refl) as [-> Hc].
  split; [ exact Hds | ]. split; [ rewrite Hh; lra | ].
  exists s1. split; [ | now left ].
  apply nth_error_update_nth_eq. apply nth_error_Some. congruence.
Qed.

Lemma quiet_revise (i : nat) (subject : SubjectData) (budget : Q)
    (st st' : DayState) :
  nth_error (subject_data st) i = Some subject ->
  Forall cursor_ok (subject_data st) ->
  1 # 2 <= budget -> revision_completed subject = false ->
  revise today preferences d i subject budget st = Ok st' ->
  Forall cursor_ok (subject_data st')
  /\ Forall2 moves_on (subject_data st) (subject_data st')
  /\ high_importance_coverage st' = high_importance_coverage st
  /\ (day_sessions st' = [] ->
      day_sessions st = [] /\ hours_left st' == hours_left st
      /\ finished_at i (subject_data st')).
Proof.
  intros Hn Hcur Hb Hrc H.
  destruct (revise_outcome _ _ _ _ _ _ _ _ H)
    as (s1 & used & Hout & Hsd & Hh & Hcov & _).
  destruct (revision_outcome_quiet _ _ _ _ _ _ _ _ _ session_long Hb Hrc Hout)
    as (Hm & (batch & Hbatch) & Hq).
  assert (Hcur1 : cursor_ok (set_revision_completed s1 true)).
  { rewrite Forall_forall in Hcur.
    pose proof (Hcur subject (nth_error_In _ _ Hn)) as Hc.
    destruct (revision_outcome_batch _ _ _ _ _ _ _ _ _ Hout)
      as (_ & _ & _ & _ & _ & _ & _ & _ & [-> | ->]); exact Hc. }
  rewrite Hsd. split; [ now apply Forall_update_nth | ].
  split; [ eapply moves_on_update; eauto | ].
  split; [ exact Hcov | ].
  intro E. rewrite E in Hbatch. symmetry in Hbatch. apply app_eq_nil in Hbatch.
  destruct Hbatch as [Hds _].
  destruct (Hq E) as [Hu Hf].
  split; [ exact Hds | ]. split; [ rewrite Hh; lra | ].
  exists (set_revision_completed s1 true). split; [ | exact Hf ].
  apply nth_error_update_nth_eq. apply nth_error_Some. congruence.
Qed.

Lemma quiet_call (i : nat) (subject : SubjectData) (budget : Q)
    (st st' : DayState) :
  nth_error (subject_data st) i = Some subject ->
  Forall cursor_ok (subject_data st) ->
  1 # 2 <= budget ->
  (revision_completed subject = false
   /\ revise today preferences d i subject budget st = Ok st')
  \/ study today preferences d i subject budget st = Ok st' ->
  Forall cursor_ok (subject_data st')
  /\ Forall2 moves_on (subject_data st) (subject_data st')
  /\ high_importance_coverage st' = high_importance_coverage st
  /\ (day_sessions st' = [] ->
      day_sessions st = [] /\ hours_left st' == hours_left st
      /\ finished_at i (subject_data st')).
Proof.
  intros Hn Hcur Hb [[Hrc H] | H].
  - eapply quiet_revise; eauto.
  - eapply quiet_study; eauto.
Qed.

Lemma finished_at_later (i : nat) (sd sd' : list SubjectData) :
  Forall2 moves_on sd sd' -> finished_at i sd -> finished_at i sd'.
Proof.
  intros Hm (s & Hs & Hf).
  destruct (Forall2_nth_error_l _ _ _ _ _ Hm Hs) as (s' & Hs' & _ & _ & Hf').
  exists s'. auto.
Qed.

Section Pass.

Variable budget0 : Q.
Variable st_in : DayState.
Variable l0 : list nat.
Variable i0 : nat.
Variable known : Prop.
Variable body : nat -> SubjectData -> DayState -> result DayState.

Hypothesis body_of_a_pass :
  body = urgent_body today preferences d
  \/ body = high_body today preferences d
  \/ body = tier_body today preferences d.

(** What a pass keeps while it works through the positions [l0], with [l]
    still to come: the names it marks as covered are those of subjects it
    handled, and as long as no session is emitted the budget is untouched
    and the subjects it handled are finished. *)
Let quiet_inv (l : list nat) (st : DayState) : Prop :=
  Forall cursor_ok (subject_data st)
  /\ Forall2 moves_on (subject_data st_in) (subject_data st)
  /\ incl l l0
  /\ (forall n, In n (high_importance_coverage st) ->
        In n (high_importance_coverage st_in)
        \/ exists i a, In i l0 /\ nth_error (subject_data st_in) i = Some a
                       /\ s_name a = n)
  /\ (day_sessions st = [] ->
      hours_left st == budget0
      /\ (known \/ (In i0 l0 /\ ~ In i0 l) ->
          finished_at i0 (subject_data st))).

Lemma quiet_body (i : nat) (l : list nat) (subject : SubjectData)
    (st st' : DayState) :
  quiet_inv (i :: l) st -> nth_error (subject_data st) i = Some subject ->
  1 # 2 <= hours_left st -> body i subject st = Ok st' -> quiet_inv l st'.
Proof.
  intros (Hcur & Hm & Hincl & Hcov & Hq) Hn Hh H.
  destruct (body_cases today preferences d body i subject st st'
              body_of_a_pass Hh H)
    as (budget & st1 & Hb1 & Hb2 & Hcall & Hst').
  destruct (quiet_call i subject budget st st1 Hn Hcur Hb1 Hcall)
    as (Hcur1 & Hm1 & Hcov1 & Hq1).
  assert (Hsd : subject_data st' = subject_data st1)
    by (destruct Hst' as [-> | ->]; reflexivity).
  assert (Hhl : hours_left st' = hours_left st1)
    by (destruct Hst' as [-> | ->]; reflexivity).
  assert (Hds : day_sessions st' = day_sessions st1)
    by (destruct Hst' as [-> | ->]; reflexivity).
  unfold quiet_inv. rewrite Hsd, Hhl, Hds.
  split; [ exact Hcur1 | ].
  split; [ eapply Forall2_moves_on_trans; eauto | ].
  split; [ intros j Hj; apply Hincl; now right | ].
  split.
  - intros n Hin.
    assert (Hcases : n = s_name subject \/ In n (high_importance_coverage st)).
    { destruct Hst' as [-> | ->]; simpl in Hin.
      - right. now rewrite <- Hcov1.
      - destruct Hin as [<- | Hin]; [ now left | right; now rewrite <- Hcov1 ]. }
    destruct Hcases as [-> | Hold]; [ right | now apply Hcov ].
    destruct (Forall2_nth_error_r _ _ _ _ _ Hm Hn) as (a & Ha & Hk & _).
    exists i, a. split; [ apply Hincl; now left | ].
    split; [ exact Ha | apply (same_key_name _ _ Hk) ].
  - intro E. destruct (Hq1 E) as (E0 & Hh1 & Hfin).
    destruct (Hq E0) as [Hh0 Hknown].
    split; [ rewrite Hh1; exact Hh0 | ].
    intros [Hk | [Hin Hnot]].
    + eapply finished_at_later; [ exact Hm1 | ]. auto.
    + destruct (Nat.eq_dec i0 i) as [-> | Hne]; [ exact Hfin | ].
      eapply finished_at_later; [ exact Hm1 | ].
      apply Hknown. right. split; [ exact Hin | ].
      intros [Hi | Hi]; [ now apply Hne | now apply Hnot ].
Qed.

Lemma quiet_pass (st' : DayState) :
  Forall cursor_ok (subject_data st_in) ->
  1 # 2 <= budget0 ->
  (day_sessions st_in = [] ->
   hours_left st_in == budget0
   /\ (known -> finished_at i0 (subject_data st_in))) ->
  for_subjects body l0 st_in = Ok st' ->
  Forall cursor_ok (subject_data st')
  /\ Forall2 moves_on (subject_data st_in) (subject_data st')
  /\ (forall n, In n (high_importance_coverage st') ->
        In n (high_importance_coverage st_in)
        \/ exists i a, In i l0 /\ nth_error (subject_data st_in) i = Some a
                       /\ s_name a = n)
  /\ (day_sessions st' = [] ->
      hours_left st' == budget0
      /\ (known \/ In i0 l0 -> finished_at i0 (subject_data st'))).
Proof.
  intros Hcur Hb Hq H.
  assert (Hstart : quiet_inv l0 st_in).
  { split; [ exact Hcur | ]. split; [ apply Forall2_moves_on_refl | ].
    split; [ apply incl_refl | ]. split; [ auto | ].
    intro E. destruct (Hq E) as [Hh Hk]. split; [ exact Hh | ].
    intros [Hkn | [Hin Hnot]]; [ auto | contradiction ]. }
  destruct (for_subjects_inv_list quiet_inv body quiet_body l0 st_in st'
              Hstart H) as (l' & (Hcur' & Hm' & _ & Hcov' & Hq') & Hl').
  split; [ exact Hcur' | ]. split; [ exact Hm' | ]. split; [ exact Hcov' | ].
  intro E. destruct (Hq' E) as [Hh Hk]. split; [ exact Hh | ].
  intros [Hkn | Hin]; apply Hk; [ now left | right ].
  split; [ exact Hin | ].
  destruct Hl' as [-> | Hl']; [ intros [] | lra ].
Qed.

End Pass.

Lemma still_open (i : nat) (sd sd' : list SubjectData) (s' : SubjectData) :
  Forall2 moves_on sd sd' -> nth_error sd' i = Some s' ->
  subject_completed s' = false ->
  exists s, nth_error sd i = Some s /\ same_key s s'
            /\ subject_completed s = false.
Proof.
  intros Hm Hs Hc.
  destruct (Forall2_nth_error_r _ _ _ _ _ Hm Hs) as (s & Hn & Hk & Hcc & _).
  exists s. split; [ exact Hn | ]. split; [ exact Hk | ].
  destruct (subject_completed s); [ | reflexivity ].
  rewrite (Hcc eq_refl) in Hc. discriminate.
Qed.

(** A day with half an hour or more that ends without a session leaves every
    subject finished. *)
Lemma quiet_run_passes (sd : list SubjectData) (log : list nat)
    (st : DayState) :
  NoDup (map s_name sd) -> Forall cursor_ok sd ->
  1 # 2 <= day_budget preferences d ->
  run_passes today preferences d (start_of_day preferences d sd log) = Ok st ->
  Forall cursor_ok (subject_data st)
  /\ Forall2 moves_on sd (subject_data st)
  /\ (day_sessions st = [] -> Forall finished (subject_data st)).
Proof.
  intros Hnd Hcur Hb H. unfold run_passes in H.
  apply bind_Ok in H. destruct H as (st1 & E1 & H).
  apply bind_Ok in H. destruct H as (st2 & E2 & H).
  apply bind_Ok in H. destruct H as (st3 & E3 & E4).
  set (st0 := start_of_day preferences d sd log) in *.
  set (l1 := positions_where (is_urgent d) (subject_data st0)) in *.
  set (l2 := positions_where
               (is_high_uncovered (high_importance_coverage st1))
               (subject_data st1)) in *.
  set (l3 := positions_where (has_importance Medium) (subject_data st2)) in *.
  set (l4 := positions_where (has_importance Low) (subject_data st3)) in *.
  set (B := day_budget preferences d) in *.
  assert (Hall : forall i0,
             Forall cursor_ok (subject_data st)
             /\ Forall2 moves_on (subject_data st0) (subject_data st1)
             /\ Forall2 moves_on (subject_data st1) (subject_data st2)
             /\ Forall2 moves_on (subject_data st2) (subject_data st3)
             /\ Forall2 moves_on (subject_data st3) (subject_data st)
             /\ (forall n, In n (high_importance_coverage st1) ->
                   exists i a, In i l1 /\ nth_error sd i = Some a
                               /\ s_name a = n)
             /\ (day_sessions st = [] ->
                 ((In i0 l1 \/ In i0 l2) \/ In i0 l3) \/ In i0 l4 ->
                 finished_at i0 (subject_data st))).
  { intro i0.
    destruct (quiet_pass B st0 l1 i0 False _ (or_introl eq_refl) st1)
      as (Hc1 & Hm1 & Hcov1 & Hq1); auto.
    { intros _. split; [ reflexivity | intros [] ]. }
    destruct (quiet_pass B st1 l2 i0 (In i0 l1) _
                (or_intror (or_introl eq_refl)) st2)
      as (Hc2 & Hm2 & _ & Hq2); auto.
    { intro E. destruct (Hq1 E) as [Hh Hk]. auto. }
    destruct (quiet_pass B st2 l3 i0 (In i0 l1 \/ In i0 l2) _
                (or_intror (or_intror eq_refl)) st3)
      as (Hc3 & Hm3 & _ & Hq3); auto.
    destruct (quiet_pass B st3 l4 i0 ((In i0 l1 \/ In i0 l2) \/ In i0 l3) _
                (or_intror (or_intror eq_refl)) st)
      as (Hc4 & Hm4 & _ & Hq4); auto.
    split; [ exact Hc4 | ]. split; [ exact Hm1 | ]. split; [ exact Hm2 | ].
    split; [ exact Hm3 | ]. split; [ exact Hm4 | ]. split.
    - intros n Hn. destruct (Hcov1 n Hn) as [[] | Hex]. exact Hex.
    - intros E. now destruct (Hq4 E). }
  destruct (Hall 0%nat) as (Hc & Hm1 & Hm2 & Hm3 & Hm4 & Hcov & _).
  split; [ exact Hc | ].
  split.
  { change sd with (subject_data st0) at 1.
    eapply Forall2_moves_on_trans; [ exact Hm1 | ].
    eapply Forall2_moves_on_trans; [ exact Hm2 | ].
    eapply Forall2_moves_on_trans; [ exact Hm3 | exact Hm4 ]. }
  intro E. apply Forall_forall. intros s Hin.
  apply In_nth_error in Hin. destruct Hin as [i0 Hs].
  destruct (Hall i0) as (_ & _ & _ & _ & _ & _ & Hq).
  specialize (Hq E).
  destruct (subject_completed s) eqn:Hsc; [ now left | ].
  assert (Hfin : finished_at i0 (subject_data st) -> finished s).
  { intros (s' & Hs' & Hf). congruence. }
  apply Hfin, Hq.
  destruct (still_open _ _ _ _ Hm4 Hs Hsc) as (s3 & Hs3 & Hk3 & Hsc3).
  destruct (still_open _ _ _ _ Hm3 Hs3 Hsc3) as (s2 & Hs2 & Hk2 & Hsc2).
  destruct (still_open _ _ _ _ Hm2 Hs2 Hsc2) as (s1 & Hs1 & Hk1 & Hsc1).
  destruct (still_open _ _ _ _ Hm1 Hs1 Hsc1) as (s0 & Hs0 & Hk0 & Hsc0).
  destruct (s_importance s3) eqn:Himp.
  - assert (Himp1 : s_importance s1 = High).
    { rewrite (same_key_importance _ _ Hk1), (same_key_importance _ _ Hk2).
      exact Himp. }
    destruct (covered (s_name s1) (high_importance_coverage st1)) eqn:Hcv.
    + left. left. left.
      unfold covered in Hcv. apply existsb_exists in Hcv.
      destruct Hcv as (n & Hn & En). apply String.eqb_eq in En. subst n.
      destruct (Hcov _ Hn) as (i & a & Hi & Ha & Hna).
      assert (i = i0).
      { eapply (NoDup_map_nth_error s_name sd); eauto.
        rewrite Hna. symmetry. apply (same_key_name _ _ Hk0). }
      subst i. exact Hi.
    + left. left. right.
      apply (positions_where_complete _ _ _ s1); [ exact Hs1 | ].
      unfold is_high_uncovered. now rewrite Himp1, Hsc1, Hcv.
  - left. right.
    apply (positions_where_complete _ _ _ s2); [ exact Hs2 | ].
    unfold has_importance.
    now rewrite (same_key_importance _ _ Hk2), Himp, Hsc2.
  - right.
    apply (positions_where_complete _ _ _ s3); [ exact Hs3 | ].
    unfold has_importance. now rewrite Himp, Hsc3.
Qed.

End Quiet.

Lemma finished_later (sd sd' : list SubjectData) :
  Forall2 moves_on sd sd' -> Forall finished sd -> Forall finished sd'.
Proof.
  intro H. induction H as [ | a b sd sd' Hab H IH]; intro Hf;
    [ constructor | ].
  inversion Hf; subst. constructor; [ | now apply IH ].
  destruct Hab as (_ & _ & Hfin). auto.
Qed.

Lemma moves_on_names (sd sd' : list SubjectData) :
  Forall2 moves_on sd sd' -> map s_name sd' = map s_name sd.
Proof.
  intro H. induction H as [ | a b sd sd' Hab H IH]; simpl; [ reflexivity | ].
  destruct Hab as (Hk & _). now rewrite IH, (same_key_name _ _ Hk).
Qed.

Lemma moves_on_check_all (d : date) (sd : list SubjectData) :
  Forall2 moves_on sd (map (fun s => fst (check_subject d s)) sd).
Proof.
  induction sd; simpl; constructor; auto. apply moves_on_check.
Qed.

Lemma cursor_ok_check_all (d : date) (sd : list SubjectData) :
  Forall cursor_ok sd ->
  Forall cursor_ok (map (fun s => fst (check_subject d s)) sd).
Proof.
  intro H. apply Forall_forall. intros s' Hin. apply in_map_iff in Hin.
  destruct Hin as (s & <- & Hs). rewrite Forall_forall in H.
  destruct (check_subject_cases d s) as [-> | ->]; exact (H s Hs).
Qed.

Section IdleDays.

Variable today : date.
Variable preferences : StudyPreferences.
Variable start : date.
Hypothesis session_long : 1 # 10 <= session_duration preferences.

Let J (d : date) (p : Plan) : Prop :=
  NoDup (map s_name (plan_subject_data p))
  /\ Forall cursor_ok (plan_subject_data p)
  /\ (idle_before preferences start d (plan_days p) ->
      Forall finished (plan_subject_data p)).

Lemma idle_day (d : date) (p : Plan) (st : DayState) :
  J d p -> is_break_day preferences d = false ->
  run_passes today preferences d
    (start_of_day preferences d (plan_subject_data p) (plan_revision_log p))
  = Ok st ->
  J (d + 1)%Z (end_of_day d (d + 1)%Z p st).
Proof.
  intros (Hnd & Hcur & Hidle) Hbreak H.
  assert (Hst : Forall cursor_ok (subject_data st)
                /\ Forall2 moves_on (plan_subject_data p) (subject_data st)
                /\ (1 # 2 <= day_budget preferences d ->
                    day_sessions st = [] ->
                    Forall finished (subject_data st))).
  { destruct (Qlt_le_dec (day_budget preferences d) (1 # 2)) as [Hlt | Hle].
    - rewrite run_passes_no_budget in H by exact Hlt.
      injection H as <-. simpl.
      split; [ exact Hcur | ]. split; [ apply Forall2_moves_on_refl | ]. lra.
    - destruct (quiet_run_passes today preferences d session_long _ _ _
                  Hnd Hcur Hle H) as (Hc & Hm & Hq).
      auto. }
  destruct Hst as (Hc & Hm & Hq).
  unfold J. rewrite end_of_day_subject_data, end_of_day_days.
  split; [ | split ].
  - rewrite (moves_on_names _ _ (moves_on_check_all _ _)).
    now rewrite (moves_on_names _ _ Hm).
  - now apply cursor_ok_check_all.
  - intros (d0 & Hrange & Hb0 & Hbudget & Hnot).
    apply (finished_later _ _ (moves_on_check_all _ _)).
    destruct (Z.eq_dec d0 d) as [-> | Hne].
    + apply Hq; [ exact Hbudget | ].
      destruct (day_sessions st) as [ | s l]; [ reflexivity | ].
      exfalso. apply Hnot. rewrite map_app. apply in_or_app. right.
      simpl. now left.
    + apply (finished_later _ _ Hm). apply Hidle.
      exists d0. split; [ lia | ]. split; [ exact Hb0 | ].
      split; [ exact Hbudget | ].
      intro Hin. apply Hnot.
      destruct (day_sessions st); [ exact Hin | ].
      rewrite map_app. apply in_or_app. now left.
Qed.

Lemma idle_day_loop :
  forall n d p p',
    J d p -> day_loop today preferences n d p = Ok p' ->
    J (d + Z.of_nat n)%Z p'.
Proof.
  induction n as [ | n IH]; intros d p p' Hp H.
  - simpl in H. injection H as <-. now rewrite Z.add_0_r.
  - replace (d + Z.of_nat (S n))%Z with (d + 1 + Z.of_nat n)%Z by lia.
    simpl in H. destruct (is_break_day preferences d) eqn:Hb.
    + bind_inv H. apply date_plus_days_Ok in E. destruct E as [-> _].
      eapply IH; [ | exact H ].
      destruct Hp as (Hnd & Hcur & Hidle).
      split; [ exact Hnd | ]. split; [ exact Hcur | ].
      intros (d0 & Hrange & Hb0 & Hbudget & Hnot). apply Hidle.
      exists d0. split; [ | auto ].
      assert (d0 <> d) by congruence. lia.
    + bind_inv H. bind_inv H.
      apply date_plus_days_Ok in E0. destruct E0 as [-> _].
      eapply IH; [ | exact H ].
      now apply idle_day.
Qed.

End IdleDays.

(** ** What becomes of the topics of a completed subject *)

Lemma not_left_over_done (t : TopicData) :
  left_over t = false -> topic_done t = true.
Proof.
  unfold left_over, topic_done. intro H. apply andb_false_iff in H.
  destruct H as [H | H].
  - apply Qlt_bool_false in H. apply orb_true_iff. left.
    now apply Qle_bool_iff.
  - apply negb_false_iff in H. rewrite H. apply orb_true_r.
Qed.

Lemma accounted_update (i : nat) (x subject : SubjectData)
    (sd : list SubjectData) (un : list Unallocated) :
  accounted sd un ->
  (subject_completed x = true ->
   forall t, In t (topics x) ->
             topic_done t = true \/ In (unallocated_entry x t) un) ->
  accounted (update_nth i x sd) un.
Proof.
  intros Hacc Hx s t Hs Hc Ht.
  destruct (In_update_nth _ _ _ _ Hs) as [-> | Hin]; [ now apply Hx | ].
  now apply Hacc.
Qed.

Lemma cursor_ok_revise (today : date) (preferences : StudyPreferences)
    (d : date) (i : nat) (subject : SubjectData) (budget : Q)
    (st st' : DayState) :
  Forall cursor_ok (subject_data st) ->
  nth_error (subject_data st) i = Some subject ->
  revise today preferences d i subject budget st = Ok st' ->
  Forall cursor_ok (subject_data st').
Proof.
  intros Hcur Hn H.
  destruct (revise_outcome _ _ _ _ _ _ _ _ H) as (s1 & used & Hout & -> & _).
  destruct (revision_outcome_batch _ _ _ _ _ _ _ _ _ Hout)
    as (_ & _ & _ & _ & _ & _ & _ & _ & Hs1).
  apply Forall_update_nth; [ exact Hcur | ].
  rewrite Forall_forall in Hcur.
  pose proof (Hcur subject (nth_error_In _ _ Hn)) as Hc.
  destruct Hs1 as [-> | ->]; exact Hc.
Qed.

Section Accounted.

Variable today : date.
Variable preferences : StudyPreferences.

Let I (p : Plan) (st : DayState) : Prop :=
  Forall cursor_ok (subject_data st)
  /\ accounted (subject_data st) (plan_unallocated p).

Let J (p : Plan) : Prop :=
  Forall cursor_ok (plan_subject_data p)
  /\ accounted (plan_subject_data p) (plan_unallocated p).

Lemma accounted_revise (p : Plan) (d : date) (i : nat) (subject : SubjectData)
    (budget : Q) (st st' : DayState) :
  I p st -> nth_error (subject_data st) i = Some subject ->
  revise today preferences d i subject budget st = Ok st' -> I p st'.
Proof.
  intros [Hcur Hacc] Hn H.
  split; [ eapply cursor_ok_revise; eauto | ].
  destruct (revise_outcome _ _ _ _ _ _ _ _ H) as (s1 & used & Hout & -> & _).
  destruct (revision_outcome_batch _ _ _ _ _ _ _ _ _ Hout)
    as (_ & _ & _ & _ & _ & _ & _ & _ & Hs1).
  apply (accounted_update i _ subject); [ exact Hacc | ].
  intros Hc t Ht.
  destruct Hs1 as [-> | ->];
    exact (Hacc subject t (nth_error_In _ _ Hn) Hc Ht).
Qed.

Lemma accounted_study (p : Plan) (d : date) (i : nat) (subject : SubjectData)
    (budget : Q) (st st' : DayState) :
  I p st -> nth_error (subject_data st) i = Some subject ->
  study today preferences d i subject budget st = Ok st' -> I p st'.
Proof.
  intros [Hcur Hacc] Hn H.
  destruct (quiet_study today preferences d i subject budget st st' Hn Hcur H)
    as (Hcur' & _).
  split; [ exact Hcur' | ].
  destruct (study_outcome _ _ _ _ _ _ _ _ H) as (s1 & used & Hout & -> & _).
  apply (accounted_update i _ subject); [ exact Hacc | ].
  intros Hc t Ht.
  rewrite Forall_forall in Hcur.
  pose proof (Hcur subject (nth_error_In _ _ Hn)) as Hcs.
  destruct Hout as [Hsc | idx Hsc Hle Hlen Hdone
                      | idx topic t_end used Hsc Hle Hnt Hnd dur gap Hu].
  - now apply (Hacc subject t (nth_error_In _ _ Hn)).
  - left. simpl in Ht. apply In_nth_error in Ht. destruct Ht as [k Hk].
    destruct (Nat.lt_ge_cases k (current_topic_index subject)) as [Hlt | Hge].
    + exact (Hcs k t Hlt Hk).
    + exact (Hdone k t Hge Hk).
  - simpl in Hc. congruence.
Qed.

Lemma accounted_day_loop (n : nat) (d : date) (p p' : Plan) :
  J p -> day_loop today preferences n d p = Ok p' -> J p'.
Proof.
  apply (day_loop_inv today preferences J (fun p _ => I p)).
  - intros p0 d0 H. exact H.
  - intros p0 d0 st0 st _ H0 H.
    eapply (run_passes_inv today preferences d0 (I p0)); eauto.
    + intros. eapply accounted_revise; eauto.
    + intros. eapply accounted_study; eauto.
  - intros p0 d0 st _ [Hcur Hacc]. unfold J.
    rewrite end_of_day_subject_data, end_of_day_unallocated.
    split; [ now apply cursor_ok_check_all | ].
    intros s' t Hs' Hc Ht. apply in_map_iff in Hs'.
    destruct Hs' as (s & <- & Hs).
    rewrite check_subject_topics in Ht.
    assert (Hentry : unallocated_entry (fst (check_subject (d0 + 1)%Z s)) t
                     = unallocated_entry s t).
    { unfold unallocated_entry. now rewrite check_subject_name. }
    rewrite Hentry.
    destruct (subject_completed s) eqn:Hsc.
    + destruct (Hacc s t Hs Hsc Ht) as [Hd | Hin]; [ now left | right ].
      apply in_or_app. now left.
    + destruct (left_over t) eqn:Hl;
        [ right | left; now apply not_left_over_done ].
      apply in_or_app. right. apply in_flat_map. exists s.
      split; [ exact Hs | ].
      unfold check_subject in Hc |- *. rewrite Hsc in Hc |- *.
      destruct (should_complete s (d0 + 1)%Z); simpl in Hc; [ | congruence ].
      simpl. apply in_map. apply filter_In. auto.
Qed.

End Accounted.

Lemma cursor_ok_initial (subjects : list Subject) :
  Forall cursor_ok (map prepare_subject subjects).
Proof.
  apply Forall_forall. intros a Ha. apply in_map_iff in Ha.
  destruct Ha as (subj & <- & _). intros k t Hk. simpl in Hk. lia.
Qed.

(** ** The regular sessions of a subject in a day *)

Lemma positions_from_NoDup (p : SubjectData -> bool) (sd : list SubjectData) :
  forall start,
    NoDup (map fst (filter (fun x => p (snd x))
                      (combine (seq start (List.length sd)) sd))).
Proof.
  induction sd as [ | a sd IH]; intro start; simpl; [ constructor | ].
  destruct (p a); simpl; [ | apply IH ].
  constructor; [ | apply IH ].
  intro Hin. destruct (positions_from_spec p sd (S start) start Hin) as [Hle _].
  lia.
Qed.

Lemma positions_where_NoDup (p : SubjectData -> bool) (sd : list SubjectData) :
  NoDup (positions_where p sd).
Proof.
  unfold positions_where. apply positions_from_NoDup.
Qed.

Lemma regular_count_app (name : string) (a b : list StudySession) :
  regular_count name (a ++ b)
  = (regular_count name a + regular_count name b)%nat.
Proof.
  unfold regular_count. now rewrite filter_app, length_app.
Qed.

Lemma regular_count_revision_batch (name name' : string) (d : date)
    (batch : list StudySession) :
  Forall (revision_session_of name' d) batch -> regular_count name batch = 0%nat.
Proof.
  unfold regular_count. induction 1 as [ | s batch (_ & _ & Ht) H IH];
    simpl; [ reflexivity | ].
  unfold is_regular_of at 1. rewrite Ht. simpl. exact IH.
Qed.

Lemma regular_count_other (name : string) (s : StudySession) :
  session_subject s <> name -> regular_count name [s] = 0%nat.
Proof.
  intro Hne. unfold regular_count. simpl. unfold is_regular_of.
  apply String.eqb_neq in Hne. rewrite Hne, andb_false_r. reflexivity.
Qed.

Lemma regular_count_one (name : string) (s : StudySession) :
  (regular_count name [s] <= 1)%nat.
Proof.
  unfold regular_count. simpl. destruct (is_regular_of name s); simpl; lia.
Qed.

Lemma urgent_body_marks (today : date) (preferences : StudyPreferences)
    (d : date) (i : nat) (subject : SubjectData) (st st' : DayState) :
  urgent_body today preferences d i subject st = Ok st' ->
  s_importance subject = High ->
  In (s_name subject) (high_importance_coverage st').
Proof.
  unfold urgent_body. intros H Himp.
  destruct (s_exam_date subject) as [e | ]; [ | discriminate ].
  bind_inv H. bind_inv H. injection H as <-. rewrite Himp. simpl. now left.
Qed.

Section Counting.

Variable today : date.
Variable preferences : StudyPreferences.
Variable d : date.
Variable name : string.

(** A call emits at most one regular session, under the name of the subject
    it is made for, and leaves the coverage as it is. *)
Lemma count_call (i : nat) (subject : SubjectData) (budget : Q)
    (st st' : DayState) :
  revise today preferences d i subject budget st = Ok st'
  \/ study today preferences d i subject budget st = Ok st' ->
  (regular_count name (day_sessions st')
   <= regular_count name (day_sessions st) + 1)%nat
  /\ (s_name subject <> name ->
      regular_count name (day_sessions st')
      = regular_count name (day_sessions st))
  /\ high_importance_coverage st' = high_importance_coverage st.
Proof.
  intros [H | H].
  - destruct (revise_outcome _ _ _ _ _ _ _ _ H)
      as (s1 & used & Hout & _ & _ & Hcov & _).
    destruct (revision_outcome_batch _ _ _ _ _ _ _ _ _ Hout)
      as (batch & tpt & -> & _ & _ & Hkind & _).
    rewrite regular_count_app, (regular_count_revision_batch _ _ _ _ Hkind).
    split; [ lia | ]. split; [ intros _; lia | exact Hcov ].
  - destruct (study_outcome _ _ _ _ _ _ _ _ H)
      as (s1 & used & Hout & _ & _ & Hcov & _).
    destruct (regular_outcome_cases _ _ _ _ _ _ _ _ _ _ Hout)
      as [(-> & _) | (idx & idx' & topic & s & _ & _ & Hs & -> & _)].
    + split; [ lia | ]. split; [ reflexivity | exact Hcov ].
    + rewrite regular_count_app.
      pose proof (regular_count_one name s) as Hone.
      split; [ lia | ]. split; [ | exact Hcov ].
      intro Hne. rewrite regular_count_other; [ lia | ].
      now rewrite (rs_subject _ _ _ _ _ _ Hs).
Qed.

Section Pass.

Variable sd0 : list SubjectData.
Hypothesis names_unique : NoDup (map s_name sd0).
Variable i0 : nat.
Variable a0 : SubjectData.
Hypothesis a0_at_i0 : nth_error sd0 i0 = Some a0.
Hypothesis a0_name : s_name a0 = name.
Variable st_in : DayState.
Variable l0 : list nat.
Variable marks : Prop.
Variable body : nat -> SubjectData -> DayState -> result DayState.

Hypothesis body_of_a_pass :
  body = urgent_body today preferences d
  \/ body = high_body today preferences d
  \/ body = tier_body today preferences d.

Hypothesis body_marks :
  marks ->
  forall i subject st st',
    body i subject st = Ok st' -> s_importance subject = High ->
    In (s_name subject) (high_importance_coverage st').

Let count_in : nat := regular_count name (day_sessions st_in).

(** What a pass over the positions [l0], with [l] still to come, keeps of
    the regular sessions under [name]: none is added before the position of
    the subject is reached, and at most one then. *)
Let count_inv (l : list nat) (st : DayState) : Prop :=
  Forall2 same_key sd0 (subject_data st)
  /\ NoDup l /\ incl l l0
  /\ (regular_count name (day_sessions st) <= count_in + 1)%nat
  /\ (In i0 l \/ ~ In i0 l0 ->
      regular_count name (day_sessions st) = count_in)
  /\ (marks -> s_importance a0 = High ->
      regular_count name (day_sessions st) = count_in
      \/ In name (high_importance_coverage st)).

Lemma count_body (i : nat) (l : list nat) (subject : SubjectData)
    (st st' : DayState) :
  count_inv (i :: l) st -> nth_error (subject_data st) i = Some subject ->
  1 # 2 <= hours_left st -> body i subject st = Ok st' -> count_inv l st'.
Proof.
  intros (Hk & Hnd & Hincl & Hle & Heq & Hmark) Hn Hh H.
  destruct (body_cases today preferences d body i subject st st'
              body_of_a_pass Hh H)
    as (budget & st1 & Hb1 & Hb2 & Hcall & Hst').
  assert (Hcall' : revise today preferences d i subject budget st = Ok st1
                   \/ study today preferences d i subject budget st = Ok st1)
    by (destruct Hcall as [[_ Hc] | Hc]; auto).
  destruct (count_call i subject budget st st1 Hcall') as (Hc1 & Hc2 & Hcov).
  assert (Hk1 : Forall2 same_key sd0 (subject_data st1)).
  { destruct Hcall' as [Hc | Hc].
    - eapply same_key_revise; eauto.
    - eapply same_key_study; eauto. }
  assert (Hsd : subject_data st' = subject_data st1)
    by (destruct Hst' as [-> | ->]; reflexivity).
  assert (Hds : day_sessions st' = day_sessions st1)
    by (destruct Hst' as [-> | ->]; reflexivity).
  assert (Hgrow : forall n, In n (high_importance_coverage st) ->
                            In n (high_importance_coverage st')).
  { intros n Hin. rewrite <- Hcov in Hin.
    destruct Hst' as [-> | ->]; simpl; auto. }
  destruct (Forall2_nth_error_r _ _ _ _ _ Hk Hn) as (a & Ha & Hka).
  apply NoDup_cons_iff in Hnd. destruct Hnd as [Hnotin Hnd'].
  unfold count_inv. rewrite Hsd, Hds.
  split; [ exact Hk1 | ]. split; [ exact Hnd' | ].
  split; [ intros j Hj; apply Hincl; now right | ].
  destruct (Nat.eq_dec i i0) as [-> | Hne].
  - assert (E0 : regular_count name (day_sessions st) = count_in)
      by (apply Heq; left; now left).
    split; [ lia | ]. split.
    + intros [Hin | Hnot]; [ contradiction | ].
      exfalso. apply Hnot, Hincl. now left.
    + intros Hm Himp. right.
      assert (a = a0) by congruence. subst a.
      rewrite <- a0_name, (same_key_name _ _ Hka).
      apply (body_marks Hm i0 subject st st' H).
      now rewrite <- (same_key_importance _ _ Hka).
  - assert (Hother : s_name subject <> name).
    { intro E. apply Hne.
      eapply (NoDup_map_nth_error s_name sd0); eauto.
      rewrite (same_key_name _ _ Hka), E. now symmetry. }
    rewrite (Hc2 Hother).
    split; [ exact Hle | ]. split.
    + intros [Hin | Hnot]; apply Heq; [ left; now right | now right ].
    + intros Hm Himp. destruct (Hmark Hm Himp) as [E | Hin]; auto.
Qed.

Lemma count_pass (st' : DayState) :
  Forall2 same_key sd0 (subject_data st_in) -> NoDup l0 ->
  for_subjects body l0 st_in = Ok st' ->
  Forall2 same_key sd0 (subject_data st')
  /\ (regular_count name (day_sessions st') <= count_in + 1)%nat
  /\ (~ In i0 l0 -> regular_count name (day_sessions st') = count_in)
  /\ (marks -> s_importance a0 = High ->
      regular_count name (day_sessions st') = count_in
      \/ In name (high_importance_coverage st')).
Proof.
  intros Hk Hnd H.
  assert (Hstart : count_inv l0 st_in).
  { split; [ exact Hk | ]. split; [ exact Hnd | ].
    split; [ apply incl_refl | ]. split; [ unfold count_in; lia | ].
    split; [ reflexivity | ]. intros _ _. now left. }
  destruct (for_subjects_inv_list count_inv body count_body l0 st_in st'
              Hstart H) as (l' & (Hk' & _ & _ & Hle & Heq & Hmark) & _).
  split; [ exact Hk' | ]. split; [ exact Hle | ].
  split; [ | exact Hmark ].
  intro Hnot. apply Heq. now right.
Qed.

End Pass.

End Counting.

Lemma importance_at (sd0 sd : list SubjectData) (i : nat)
    (a s : SubjectData) :
  Forall2 same_key sd0 sd -> nth_error sd0 i = Some a ->
  nth_error sd i = Some s ->
  s_importance s = s_importance a /\ s_name s = s_name a.
Proof.
  intros Hk Ha Hs.
  destruct (Forall2_nth_error_r _ _ _ _ _ Hk Hs) as (a' & Ha' & Hka).
  assert (a' = a) by congruence. subst a'.
  split; symmetry;
    [ apply (same_key_importance _ _ Hka) | apply (same_key_name _ _ Hka) ].
Qed.

(** A day holds at most two regular sessions of a subject, and at most one
    of a subject of High importance. *)
Lemma count_run_passes (today : date) (preferences : StudyPreferences)
    (d : date) (sd0 sd : list SubjectData) (log : list nat) (st : DayState)
    (i0 : nat) (a0 : SubjectData) :
  NoDup (map s_name sd0) -> Forall2 same_key sd0 sd ->
  nth_error sd0 i0 = Some a0 ->
  run_passes today preferences d (start_of_day preferences d sd log) = Ok st ->
  Forall2 same_key sd0 (subject_data st)
  /\ (regular_count (s_name a0) (day_sessions st) <= 2)%nat
  /\ (s_importance a0 = High ->
      (regular_count (s_name a0) (day_sessions st) <= 1)%nat).
Proof.
  intros Hnd Hk Ha H. unfold run_passes in H.
  apply bind_Ok in H. destruct H as (st1 & E1 & H).
  apply bind_Ok in H. destruct H as (st2 & E2 & H).
  apply bind_Ok in H. destruct H as (st3 & E3 & E4).
  set (st0 := start_of_day preferences d sd log) in *.
  destruct (count_pass today preferences d (s_name a0) sd0 Hnd i0 a0 Ha
              eq_refl st0 _ True _ (or_introl eq_refl)
              (fun _ i subject s s' => urgent_body_marks _ _ _ i subject s s')
              st1 Hk (positions_where_NoDup _ _) E1)
    as (Hk1 & Hle1 & _ & Hmark1).
  destruct (count_pass today preferences d (s_name a0) sd0 Hnd i0 a0 Ha
              eq_refl st1 _ False _ (or_intror (or_introl eq_refl))
              (fun F => False_ind _ F)
              st2 Hk1 (positions_where_NoDup _ _) E2)
    as (Hk2 & Hle2 & Heq2 & _).
  destruct (count_pass today preferences d (s_name a0) sd0 Hnd i0 a0 Ha
              eq_refl st2 _ False _ (or_intror (or_intror eq_refl))
              (fun F => False_ind _ F)
              st3 Hk2 (positions_where_NoDup _ _) E3)
    as (Hk3 & Hle3 & Heq3 & _).
  destruct (count_pass today preferences d (s_name a0) sd0 Hnd i0 a0 Ha
              eq_refl st3 _ False _ (or_intror (or_intror eq_refl))
              (fun F => False_ind _ F)
              st Hk3 (positions_where_NoDup _ _) E4)
    as (Hk4 & Hle4 & Heq4 & _).
  change (regular_count (s_name a0) (day_sessions st0)) with 0%nat
    in Hle1, Hmark1.
  split; [ exact Hk4 | ].
  assert (Hnot : forall imp sd',
             Forall2 same_key sd0 sd' -> s_importance a0 <> imp ->
             ~ In i0 (positions_where (has_importance imp) sd')).
  { intros imp sd' Hk' Hne Hin.
    destruct (positions_where_spec _ _ _ Hin) as (s & Hs & Hp).
    destruct (importance_at _ _ _ _ _ Hk' Ha Hs) as [Himp _].
    unfold has_importance in Hp. rewrite Himp in Hp.
    destruct (s_importance a0), imp; simpl in Hp;
      try discriminate; now apply Hne. }
  assert (Hnot2 : s_importance a0 <> High
                  \/ In (s_name a0) (high_importance_coverage st1) ->
                  ~ In i0 (positions_where
                             (is_high_uncovered (high_importance_coverage st1))
                             (subject_data st1))).
  { intros Hc Hin.
    destruct (positions_where_spec _ _ _ Hin) as (s & Hs & Hp).
    destruct (importance_at _ _ _ _ _ Hk1 Ha Hs) as [Himp Hname].
    unfold is_high_uncovered in Hp. rewrite Himp, Hname in Hp.
    apply andb_true_iff in Hp. destruct Hp as [Hp Hcv].
    apply andb_true_iff in Hp. destruct Hp as [Hp _].
    destruct Hc as [Hne | Hcov].
    - destruct (s_importance a0); simpl in Hp; try discriminate.
      now apply Hne.
    - apply negb_true_iff in Hcv.
      assert (Hex : covered (s_name a0) (high_importance_coverage st1) = true).
      { apply existsb_exists. exists (s_name a0).
        split; [ exact Hcov | apply String.eqb_refl ]. }
      congruence. }
  destruct (s_importance a0) eqn:Himp.
  - assert (E3' : ~ In i0 (positions_where (has_importance Medium)
                             (subject_data st2)))
      by (apply Hnot; [ exact Hk2 | discriminate ]).
    assert (E4' : ~ In i0 (positions_where (has_importance Low)
                             (subject_data st3)))
      by (apply Hnot; [ exact Hk3 | discriminate ]).
    apply Heq3 in E3'. apply Heq4 in E4'.
    assert (Hone : (regular_count (s_name a0) (day_sessions st2) <= 1)%nat).
    { destruct (Hmark1 I eq_refl) as [E | Hcov].
      - lia.
      - rewrite (Heq2 (Hnot2 (or_intror Hcov))). lia. }
    split; [ lia | intros _; lia ].
  - assert (E2' : s_importance a0 <> High) by (rewrite Himp; discriminate).
    assert (E4' : ~ In i0 (positions_where (has_importance Low)
                             (subject_data st3)))
      by (apply Hnot; [ exact Hk3 | discriminate ]).
    apply Heq4 in E4'.
    rewrite Himp in E2'. pose proof (Heq2 (Hnot2 (or_introl E2'))) as E2''.
    split; [ lia | discriminate ].
  - assert (E2' : s_importance a0 <> High) by (rewrite Himp; discriminate).
    assert (E3' : ~ In i0 (positions_where (has_importance Medium)
                             (subject_data st2)))
      by (apply Hnot; [ exact Hk2 | discriminate ]).
    apply Heq3 in E3'.
    rewrite Himp in E2'. pose proof (Heq2 (Hnot2 (or_introl E2'))) as E2''.
    split; [ lia | discriminate ].
Qed.

(** An invariant of the plan that each day, run from its first state,
    re-establishes. *)
Lemma day_loop_days (today : date) (preferences : StudyPreferences)
    (J : Plan -> Prop) :
  (forall p d st,
     J p -> is_break_day preferences d = false ->
     run_passes today preferences d
       (start_of_day preferences d (plan_subject_data p)
          (plan_revision_log p)) = Ok st ->
     J (end_of_day d (d + 1)%Z p st)) ->
  forall n d p p', J p -> day_loop today preferences n d p = Ok p' -> J p'.
Proof.
  intro Hday. induction n as [ | n IH]; intros d p p' Hp H; simpl in H.
  - congruence.
  - destruct (is_break_day preferences d) eqn:Hb.
    + bind_inv H. eapply IH; eauto.
    + bind_inv H. bind_inv H.
      apply date_plus_days_Ok in E0. destruct E0 as [-> _].
      eapply IH; [ | exact H ]. now apply Hday.
Qed.

Lemma counts_day_loop (today : date) (preferences : StudyPreferences)
    (sd0 : list SubjectData) (n : nat) (d : date) (p p' : Plan) :
  NoDup (map s_name sd0) ->
  Forall2 same_key sd0 (plan_subject_data p)
  /\ Forall (fun day =>
               forall i0 a0,
                 nth_error sd0 i0 = Some a0 ->
                 (regular_count (s_name a0) (sessions day) <= 2)%nat
                 /\ (s_importance a0 = High ->
                     (regular_count (s_name a0) (sessions day) <= 1)%nat))
            (plan_days p) ->
  day_loop today preferences n d p = Ok p' ->
  Forall2 same_key sd0 (plan_subject_data p')
  /\ Forall (fun day =>
               forall i0 a0,
                 nth_error sd0 i0 = Some a0 ->
                 (regular_count (s_name a0) (sessions day) <= 2)%nat
                 /\ (s_importance a0 = High ->
                     (regular_count (s_name a0) (sessions day) <= 1)%nat))
            (plan_days p').
Proof.
  intro Hnd. revert n d p p'.
  apply (day_loop_days today preferences
           (fun p =>
              Forall2 same_key sd0 (plan_subject_data p)
              /\ Forall (fun day =>
                           forall i0 a0,
                             nth_error sd0 i0 = Some a0 ->
                             (regular_count (s_name a0) (sessions day) <= 2)%nat
                             /\ (s_importance a0 = High ->
                                 (regular_count (s_name a0) (sessions day)
                                  <= 1)%nat))
                        (plan_days p))).
  intros p d st [Hk Hdays] _ H.
  rewrite end_of_day_subject_data, end_of_day_days.
  assert (Hst : forall i0 a0,
             nth_error sd0 i0 = Some a0 ->
             Forall2 same_key sd0 (subject_data st)
             /\ (regular_count (s_name a0) (day_sessions st) <= 2)%nat
             /\ (s_importance a0 = High ->
                 (regular_count (s_name a0) (day_sessions st) <= 1)%nat)).
  { intros i0 a0 Ha. eapply count_run_passes; eauto. }
  split.
  - apply same_key_check.
    eapply (subjects_run_passes today preferences same_key);
      [ apply same_key_regular | intros a s Hs; exact Hs | | exact H ].
    exact Hk.
  - destruct (day_sessions st) as [ | s l] eqn:Eds; [ exact Hdays | ].
    apply Forall_app. split; [ exact Hdays | ].
    constructor; [ | constructor ]. simpl.
    intros i0 a0 Ha. destruct (Hst i0 a0 Ha) as (_ & H2 & H1). auto.
Qed.

(** ** Statements up to rounding *)

Lemma Qabs_zero_le (x y : Q) : x == 0 -> 0 <= y -> Qabs x <= y.
Proof.
  intros E Hy. apply Qabs_Qle_condition. lra.
Qed.

Lemma Qabs_close (x y e : Q) : x == y -> 0 <= e -> Qabs (x - y) <= e.
Proof.
  intros E He. apply Qabs_zero_le; lra.
Qed.

Lemma Qsum_nonneg {A : Type} (f : A -> Q) (l : list A) :
  (forall x, In x l -> 0 <= f x) -> 0 <= Qsum (map f l).
Proof.
  induction l as [ | a l IH]; intro H; simpl; [ lra | ].
  pose proof (H a (or_introl eq_refl)).
  assert (0 <= Qsum (map f l)) by (apply IH; intros x Hx; apply H; now right).
  lra.
Qed.

(** The slices of the model are slices up to the tolerance. *)
Lemma revision_slices_close (max brk tpt : Q) (batch : list StudySession) :
  tpt <= 1 # 2 ->
  forall rem,
    revision_slices max brk tpt rem batch ->
    revision_slices_within max brk tpt rem batch.
Proof.
  intro Htpt. unfold tolerance.
  induction batch as [ | s batch IH]; intros rem H; simpl in *; auto.
  destruct H as (H1 & H2 & H3 & H4 & H5). unfold tolerance.
  pose proof (min3_le_1 max rem tpt) as Hm1.
  pose proof (min3_le_3 max rem tpt) as Hm3.
  split; [ lra | ].
  split; [ apply Qabs_close; [ exact H2 | lra ] | ].
  split; [ exact H3 | ].
  split; [ lra | ]. split; [ lra | ].
  destruct (Qlt_bool (1 # 10) (rem - duration_hours s)) eqn:Hb.
  - apply Qlt_bool_true in Hb.
    split; [ now right | ]. split; [ intros _; exact H4 | ].
    split; [ intro Hlt; lra | now apply IH ].
  - apply Qlt_bool_false in Hb.
    split; [ now left | ]. split; [ intro Hlt; lra | ].
    split; [ intros _; exact H4 | now apply IH ].
Qed.

Lemma gross_demand_nonneg (subjects : list Subject) : 0 <= gross_demand subjects.
Proof.
  unfold gross_demand. apply Qsum_nonneg. intros subject _.
  assert (H : 0 <= Qsum (map (fun topic => Qabs (estimated_hours topic))
                           (subject_topics subject))).
  { apply Qsum_nonneg. intros topic _. apply Qabs_nonneg. }
  unfold revision_factor. destruct (exam_date subject); nra.
Qed.

Lemma gross_supply_nonneg (start_date end_date : date)
    (preferences : StudyPreferences) :
  0 <= gross_supply start_date end_date preferences.
Proof.
  unfold gross_supply. apply Qsum_nonneg. intros d _. apply Qabs_nonneg.
Qed.



(** * The claims *)

Lemma In_all_sessions (ds : list StudyDay) (day : StudyDay) (s : StudySession) :
  In day ds -> In s (sessions day) -> In s (all_sessions ds).
Proof.
  intros Hd Hs. unfold all_sessions. apply in_flat_map. now exists day.
Qed.

Lemma is_weekend_spec (d : date) :
  is_weekend d = true <-> weekday d = 5%Z \/ weekday d = 6%Z.
Proof.
  unfold is_weekend, weekday. rewrite Z.leb_le.
  pose proof (Z.mod_pos_bound (d + 6) 7 eq_refl). lia.
Qed.

(** The break the allocator charges after the last session of a day is not
    between two sessions; counted in, the day can overrun its budget. *)
Lemma trailing_break_overruns :
  generate_study_plan today0 req_long_break = Ok resp_long_break
  /\ map (fun day => Qred (day_load (sessions day))) (days resp_long_break)
     = [3 # 4]
  /\ map (fun day => Qred (clock_used (sessions day))) (days resp_long_break)
     = [5 # 4]
  /\ map (fun day => day_budget (preferences req_long_break) (day_date day))
       (days resp_long_break) = [1].
Proof.
  repeat split; vm_compute; reflexivity.
Qed.

(** C1.  The claim fails of the engine, and the engine is at odds with
    itself.  In the scenario of the specification (Math, topics A of 3h and B
    of 2h, exam ten days after the start, High, two hours on weekdays) the
    two topics are finished on the Friday, and the completion check of that
    day keeps the subject open, its revision being pending (the guard of
    lines 321-324).  On the Saturday the pass over the High subjects hands
    the subject to the regular allocator, whose cursor runs past the last
    topic: lines 400-402 mark the subject completed during the passes, with
    no session, the exam not passed and [revision_completed] false.  A
    completed subject is handed to no allocator any more, so the plan holds
    no revision session, although the revision day, day 8, is in the range
    and is not a break day. *)
Theorem C1_completed_mid_day :
  day_loop today0 (preferences req_math) 5 monday
    (initial_plan (subjects req_math)) = Ok math_after_friday
  /\ map subject_completed (plan_subject_data math_after_friday) = [false]
  /\ map all_topics_done (plan_subject_data math_after_friday) = [true]
  /\ run_passes today0 (preferences req_math) (monday + 5)%Z
       (start_of_day (preferences req_math) (monday + 5)%Z
          (plan_subject_data math_after_friday)
          (plan_revision_log math_after_friday))
     = Ok math_saturday
  /\ day_sessions math_saturday = []
  /\ map subject_completed (subject_data math_saturday) = [true]
  /\ map revision_completed (subject_data math_saturday) = [false]
  /\ map needs_revision (subject_data math_saturday) = [true]
  /\ map (fun s => exam_passed s (monday + 6)%Z) (subject_data math_saturday)
     = [false]
  /\ generate_study_plan today0 req_math = Ok resp_math
  /\ filter (fun s => SessionType_eqb (session_type s) revision)
       (all_sessions (days resp_math)) = []
  /\ map (fun subject =>
            match exam_date subject with
            | Some e => (e - revision_days_before (preferences req_math))%Z
            | None => 0%Z
            end) (subjects req_math) = [(monday + 8)%Z]
  /\ (start_date req_math <= monday + 8 <= end_date req_math)%Z
  /\ is_break_day (preferences req_math) (monday + 8)%Z = false.
Proof.
  repeat split; vm_compute; try reflexivity; discriminate.
Qed.

(** C2.  The claim holds of the allocator alone ([add_revision_session_flag])
    and fails of the engine, which sets [revision_completed] right after
    every call ([revise_sets_flag]).  Here the subject has four eligible
    topics and the day half an hour: the allocator revises two topics, fewer
    than [min(3, 4)], and leaves the flag false; after the urgent pass the
    flag is true. *)
Theorem C2_flag_set_after_short_revision :
  _add_revision_session today0 (prepare_subject physics) monday nine_am
    (1 # 2) (3 # 2) (1 # 4) [] = Ok physics_allocated
  /\ total_topics (prepare_subject physics) = 4%nat
  /\ List.length (res_sessions physics_allocated) = 2%nat
  /\ revision_completed (res_subject physics_allocated) = false
  /\ run_passes today0 prefs_half_hour monday
       (start_of_day prefs_half_hour monday [prepare_subject physics] [])
     = Ok physics_day
  /\ map session_type (day_sessions physics_day) = [revision; revision]
  /\ map revision_completed (subject_data physics_day) = [true].
Proof.
  repeat split; vm_compute; reflexivity.
Qed.

(** C3.  For every input and every emitted StudyDay, the day's session
    durations plus the breaks inserted between them ([day_load]; the breaks
    are the gaps between consecutive sessions on the clock, see
    [response_clock_chained]) stay within the day's hour budget
    ([weekend_hours] on Saturday and Sunday, [weekday_hours] otherwise); with
    exact arithmetic the bound holds without the 0.01h tolerance, hence also
    with it. *)
Theorem C3_day_within_budget (today : date) (req : StudyPlanRequest)
    (resp : StudyPlanResponse) (day : StudyDay) :
  generate_study_plan today req = Ok resp ->
  In day (days resp) ->
  day_load (sessions day) <= day_budget (preferences req) (day_date day)
  /\ day_load (sessions day)
     <= day_budget (preferences req) (day_date day) + (1 # 100).
Proof.
  intros H Hin.
  destruct (generate_study_plan_Ok _ _ _ H) as (p & av & _ & Hs & Hd & _).
  rewrite Hd in Hin. unfold schedule in Hs.
  assert (Hb : day_load (sessions day)
               <= day_budget (preferences req) (day_date day)).
  { eapply (budget_day_loop today (preferences req)); eauto.
    intros d0 []. }
  split; [ exact Hb | lra ].
Qed.

(** A Friday and a weekend of two sessions a day: the Friday fills its two
    hours (1h, a break of 0.25h, 0.75h); each weekend day holds 1h, the
    break and 1h of its three hours, the break charged after the second
    session not being between two sessions. *)
Lemma C3_day_within_budget_witness :
  generate_study_plan today0 req_weekend = Ok resp_weekend
  /\ map (fun day => weekday (day_date day)) (days resp_weekend)
     = [4; 5; 6]%Z
  /\ map (fun day => Qred (day_budget (preferences req_weekend) (day_date day)))
       (days resp_weekend) = [2; 3; 3]
  /\ map (fun day => map (fun s => Qred (duration_hours s)) (sessions day))
       (days resp_weekend) = [[1; 3 # 4]; [1; 1]; [1; 1]]
  /\ map (fun day => Qred (day_load (sessions day))) (days resp_weekend)
     = [2; 9 # 4; 9 # 4]
  /\ Forall (fun day =>
               day_load (sessions day)
               <= day_budget (preferences req_weekend) (day_date day)
               /\ day_load (sessions day)
                  <= day_budget (preferences req_weekend) (day_date day)
                     + (1 # 100))
            (days resp_weekend).
Proof.
  split; [ vm_compute; reflexivity | ].
  split; [ vm_compute; reflexivity | ].
  split; [ vm_compute; reflexivity | ].
  split; [ vm_compute; reflexivity | ].
  split; [ vm_compute; reflexivity | ].
  apply Forall_forall. intros day Hin.
  apply (C3_day_within_budget today0 req_weekend resp_weekend day).
  - vm_compute. reflexivity.
  - exact Hin.
Defined.

(** C4.  In a request whose subject names are distinct, every revision
    session carrying the name of a subject with an exam date sits on the day
    [exam_date - revision_days_before]; the revision sessions of that subject
    over the whole plan are a single batch, one session for each of its first
    [k] topics in list order with [k <= 5]; and no subject is handed twice to
    the revision allocator ([plan_revision_log] lists the calls). *)
Theorem C4_revision_once_on_revision_day (today : date) (req : StudyPlanRequest)
    (resp : StudyPlanResponse) (subject : Subject) (e : date) :
  generate_study_plan today req = Ok resp ->
  NoDup (map subject_name (subjects req)) ->
  In subject (subjects req) ->
  exam_date subject = Some e ->
  (forall day s,
     In day (days resp) -> In s (sessions day) ->
     session_type s = revision ->
     session_subject s = subject_name subject ->
     day_date day = (e - revision_days_before (preferences req))%Z
     /\ session_date s = (e - revision_days_before (preferences req))%Z)
  /\ (exists k,
        (k <= 5)%nat
        /\ map session_topic
             (revision_sessions_of (subject_name subject)
                (all_sessions (days resp)))
           = map (fun t => revision_label (topic_name t))
               (firstn k (subject_topics subject)))
  /\ (exists p,
        schedule today (subjects req) (start_date req) (end_date req)
          (preferences req) = Ok p
        /\ days resp = plan_days p
        /\ NoDup (plan_revision_log p)).
Proof.
  intros H Hnd Hin He.
  destruct (generate_study_plan_Ok _ _ _ H) as (p & av & _ & Hp & Hd & _).
  rewrite Hd. unfold schedule in Hp.
  set (sd0 := map prepare_subject (subjects req)).
  assert (Hnames : NoDup (map s_name sd0))
    by (unfold sd0; rewrite prepared_names; exact Hnd).
  split; [ | split ].
  - (* the dates *)
    assert (HJ : forall day, In day (plan_days p) ->
                 Forall (fun s =>
                           session_date s = day_date day
                           /\ revision_dated sd0
                                (revision_days_before (preferences req)) s)
                        (sessions day)).
    { eapply (dates_day_loop today (preferences req) sd0); [ | exact Hp ].
      split; [ apply same_key_Forall2_refl | intros day [] ]. }
    intros day s Hday Hs Ht Hname.
    specialize (HJ day Hday). rewrite Forall_forall in HJ.
    destruct (HJ s Hs) as [Hdate Hrev].
    destruct (Hrev Ht) as (a & e' & Ha & Han & Hae & Hse).
    unfold sd0 in Ha. apply in_map_iff in Ha. destruct Ha as (subj' & <- & Hin').
    simpl in Han, Hae.
    assert (subj' = subject).
    { apply (NoDup_map_In subject_name (subjects req)); auto. congruence. }
    subst subj'. rewrite He in Hae. injection Hae as <-.
    split; [ rewrite <- Hdate; exact Hse | exact Hse ].
  - (* one batch *)
    assert (HJ : Forall2 same_key sd0 (plan_subject_data p)
                 /\ batches_ok sd0 (plan_subject_data p)
                      (all_sessions (plan_days p))).
    { eapply (batches_day_loop today (preferences req) sd0 Hnames);
        [ | exact Hp ].
      split; [ apply same_key_Forall2_refl | apply batches_ok_initial ]. }
    destruct HJ as [Hk Hb].
    apply In_nth_error in Hin. destruct Hin as [i Hi].
    assert (Ha : nth_error sd0 i = Some (prepare_subject subject)).
    { unfold sd0. rewrite nth_error_map, Hi. reflexivity. }
    destruct (Forall2_nth_error_l _ _ _ _ _ Hk Ha) as (s & Hs & _).
    destruct (Hb i _ s Ha Hs) as [_ (k & Hk5 & Hlab)].
    exists k. split; [ exact Hk5 | ].
    rewrite <- prepared_revision_labels. exact Hlab.
  - (* the log *)
    exists p. split; [ exact Hp | ]. split; [ reflexivity | ].
    assert (HJ : log_ok (plan_subject_data p) (plan_revision_log p)).
    { eapply (log_day_loop today (preferences req)); [ | exact Hp ].
      apply log_ok_initial. }
    exact (proj1 HJ).
Qed.

(** Physics, revised on the first day of the range, two days before its
    exam. *)
Lemma C4_revision_once_on_revision_day_witness :
  generate_study_plan today0 req_physics_revised = Ok resp_physics_revised
  /\ NoDup (map subject_name (subjects req_physics_revised))
  /\ In physics (subjects req_physics_revised)
  /\ exam_date physics = Some (monday + 2)%Z
  /\ map session_topic
       (revision_sessions_of "Physics"
          (all_sessions (days resp_physics_revised)))
     = ["Revision: Waves"; "Revision: Optics"; "Revision: Heat"]%string
  /\ Forall (fun s => session_date s = monday)
       (revision_sessions_of "Physics"
          (all_sessions (days resp_physics_revised))).
Proof.
  assert (H : generate_study_plan today0 req_physics_revised
              = Ok resp_physics_revised) by (vm_compute; reflexivity).
  assert (Hnd : NoDup (map subject_name (subjects req_physics_revised))).
  { repeat constructor. intros []. }
  assert (Hin : In physics (subjects req_physics_revised))
    by (left; reflexivity).
  split; [ exact H | ]. split; [ exact Hnd | ]. split; [ exact Hin | ].
  split; [ reflexivity | ].
  destruct (C4_revision_once_on_revision_day today0 req_physics_revised
              resp_physics_revised physics (monday + 2)%Z H Hnd Hin eq_refl)
    as (Hdates & _ & _).
  split; [ reflexivity | ].
  apply Forall_forall. intros s Hs.
  unfold revision_sessions_of in Hs. apply filter_In in Hs.
  destruct Hs as [Hs Hf]. unfold all_sessions in Hs.
  apply in_flat_map in Hs. destruct Hs as (day & Hday & Hs).
  unfold is_revision_of in Hf. apply andb_true_iff in Hf.
  destruct Hf as [Ht Hn]. apply String.eqb_eq in Hn.
  destruct (Hdates day s Hday Hs) as [_ Hd].
  - destruct (session_type s); [ discriminate | reflexivity ].
  - exact Hn.
  - exact Hd.
Defined.

(** C5 as stated fails: with [session_duration = 0] the regular allocator
    emits a session of length zero. *)
Lemma C5_zero_length_session :
  generate_study_plan today0 req_zero_length = Ok resp_zero_length
  /\ exists day s,
       In day (days resp_zero_length) /\ In s (sessions day)
       /\ duration_hours s == 0 /\ ~ 0 < duration_hours s.
Proof.
  split; [ vm_compute; reflexivity | ].
  eexists. eexists. split; [ left; reflexivity | ].
  split; [ left; reflexivity | ].
  split; [ reflexivity | ]. vm_compute. discriminate.
Qed.

(** C5, amended.  For every input, every session of the response has
    [duration_hours] at most [preferences.session_duration], and strictly
    greater than 0 whenever [preferences.session_duration] is. *)
Theorem C5_session_duration_bounds (today : date) (req : StudyPlanRequest)
    (resp : StudyPlanResponse) (day : StudyDay) (s : StudySession) :
  generate_study_plan today req = Ok resp ->
  In day (days resp) -> In s (sessions day) ->
  duration_hours s <= session_duration (preferences req)
  /\ (0 < session_duration (preferences req) -> 0 < duration_hours s).
Proof.
  intros H Hd Hs.
  destruct (generate_study_plan_Ok _ _ _ H) as (p & av & _ & Hp & Hdays & _).
  rewrite Hdays in Hd. unfold schedule in Hp.
  assert (HF : Forall (duration_ok (preferences req))
                 (all_sessions (plan_days p))).
  { eapply durations_day_loop; [ | exact Hp ]. constructor. }
  rewrite Forall_forall in HF. apply HF.
  eapply In_all_sessions; eauto.
Qed.

(** The scenario of the specification, session by session. *)
Lemma C5_session_duration_bounds_witness :
  generate_study_plan today0 req_math = Ok resp_math
  /\ Forall (fun s =>
               duration_hours s <= session_duration (preferences req_math)
               /\ (0 < session_duration (preferences req_math)
                   -> 0 < duration_hours s))
            (flat_map sessions (days resp_math)).
Proof.
  split.
  - vm_compute. reflexivity.
  - apply Forall_forall. intros s Hin.
    apply in_flat_map in Hin. destruct Hin as [day [Hd Hs]].
    apply (C5_session_duration_bounds today0 req_math resp_math day s).
    + vm_compute. reflexivity.
    + exact Hd.
    + exact Hs.
Defined.

(** C6.  In a request as the data model has it (the name of a subject
    and, within a subject, the name of a topic are identifiers; a topic's
    [estimated_hours] is not negative) the hours of the regular sessions
    emitted for a topic never exceed its [estimated_hours], within 0.01h; and
    the engine's bookkeeping never goes negative: at the end of the plan no
    topic estimated at no less than zero hours has negative
    [remaining_hours].  A session names its topic by subject name and topic
    name, so the sessions emitted for a topic are those carrying the two
    names. *)
Theorem C6_regular_hours_within_estimate (today : date)
    (req : StudyPlanRequest) (resp : StudyPlanResponse)
    (subject : Subject) (topic : Topic) :
  generate_study_plan today req = Ok resp ->
  NoDup (map subject_name (subjects req)) ->
  (forall subj, In subj (subjects req) ->
                NoDup (map topic_name (subject_topics subj))) ->
  In subject (subjects req) ->
  In topic (subject_topics subject) ->
  0 <= estimated_hours topic ->
  regular_hours (subject_name subject) (topic_name topic)
    (all_sessions (days resp)) <= estimated_hours topic + (1 # 100)
  /\ (exists p,
        schedule today (subjects req) (start_date req) (end_date req)
          (preferences req) = Ok p
        /\ days resp = plan_days p
        /\ forall s t, In s (plan_subject_data p) -> In t (topics s) ->
                       0 <= hours_needed t -> 0 <= remaining_hours t).
Proof.
  intros H Hnd Htnd Hin Htin Hest.
  destruct (generate_study_plan_Ok _ _ _ H) as (p & av & _ & Hp & Hd & _).
  rewrite Hd. unfold schedule in Hp.
  set (sd0 := map prepare_subject (subjects req)).
  assert (Hnames : NoDup (map s_name sd0))
    by (unfold sd0; rewrite prepared_names; exact Hnd).
  assert (Htnames : forall a, In a sd0 -> NoDup (map t_name (topics a))).
  { intros a Ha. unfold sd0 in Ha. apply in_map_iff in Ha.
    destruct Ha as (subj & <- & Hsubj). rewrite prepared_topic_names. auto. }
  assert (HJ : Forall2 same_key sd0 (plan_subject_data p)
               /\ ledger_ok (plan_subject_data p) (all_sessions (plan_days p))).
  { eapply (ledger_day_loop today (preferences req) sd0 Hnames Htnames);
      [ | exact Hp ].
    split; [ apply same_key_Forall2_refl | apply ledger_ok_initial ]. }
  destruct HJ as [Hk Hl].
  assert (Hok : Forall topics_ok (plan_subject_data p)).
  { eapply (topics_ok_day_loop today (preferences req)); [ | exact Hp ].
    apply topics_ok_initial. }
  assert (Hbound : regular_hours (subject_name subject) (topic_name topic)
                     (all_sessions (plan_days p)) <= estimated_hours topic).
  { apply In_nth_error in Hin. destruct Hin as [i Hi].
    apply In_nth_error in Htin. destruct Htin as [j Hj].
    assert (Ha : nth_error sd0 i = Some (prepare_subject subject)).
    { unfold sd0. rewrite nth_error_map, Hi. reflexivity. }
    destruct (Forall2_nth_error_l _ _ _ _ _ Hk Ha) as (s & Hs & Hkey).
    assert (Hpt : nth_error (topics (prepare_subject subject)) j
                  = Some (prepare_topic topic)).
    { simpl. rewrite nth_error_map, Hj. reflexivity. }
    destruct (map_eq_nth_error topic_key topic_key _ _ _ _
                (same_key_topic_keys _ _ Hkey) Hpt) as (t & Ht & Hkt).
    unfold topic_key in Hkt. simpl in Hkt. injection Hkt as Hn Hh.
    pose proof (Hl i s j t Hs Ht) as Hledger.
    rewrite <- (same_key_name _ _ Hkey), <- Hn in Hledger. simpl in Hledger.
    rewrite Forall_forall in Hok.
    pose proof (Hok s (nth_error_In _ _ Hs)) as Hts.
    unfold topics_ok in Hts. rewrite Forall_forall in Hts.
    destruct (Hts t (nth_error_In _ _ Ht)) as [_ Hnn].
    rewrite <- Hh in Hnn. specialize (Hnn Hest).
    rewrite Hledger, <- Hh. lra. }
  split; [ lra | ].
  exists p. split; [ exact Hp | ]. split; [ reflexivity | ].
  intros s t Hs Ht. rewrite Forall_forall in Hok.
  pose proof (Hok s Hs) as Hts. unfold topics_ok in Hts.
  rewrite Forall_forall in Hts. destruct (Hts t Ht) as [_ Hnn]. exact Hnn.
Qed.

(** Topic A of the scenario of the specification gets its three hours. *)
Lemma C6_regular_hours_within_estimate_witness :
  generate_study_plan today0 req_math = Ok resp_math
  /\ regular_hours "Math" "A" (all_sessions (days resp_math)) == 3
  /\ regular_hours "Math" "A" (all_sessions (days resp_math)) <= 3 + (1 # 100).
Proof.
  assert (H : generate_study_plan today0 req_math = Ok resp_math)
    by (vm_compute; reflexivity).
  split; [ exact H | ]. split; [ vm_compute; reflexivity | ].
  apply (C6_regular_hours_within_estimate today0 req_math resp_math
           (mk_subject "Math" [mk_topic "A" 3; mk_topic "B" 2]
              (Some (monday + 10)%Z) High) (mk_topic "A" 3) H).
  - repeat constructor. intros [].
  - intros subj [<- | []]. repeat constructor; simpl; intuition discriminate.
  - left. reflexivity.
  - left. reflexivity.
  - discriminate.
Defined.

(** C7.  On a call that gets past its guards, the revision allocator takes
    the subject's topics from the head of the list, completed or not: it emits
    one revision session for each of the first [k] topics, where [k] is at
    most 5 and at most the quota [topics_to_revise]; each session lasts
    [min(session_duration, remaining budget, time_per_topic)] with
    [time_per_topic = min(0.5, budget / topics_to_revise)], and six minutes
    or more; and the batch stops at the quota, or when no more than 0.1h of
    budget is left, or without any session when no slice can reach 0.1h.
    Every comparison of hours with a threshold is stated up to 0.01h
    ([revision_slices_within]), the engine computing on floating-point
    hours. *)
Theorem C7_revision_batch (today : date) (subject : SubjectData)
    (d : date) (t0 : time) (avail max brk : Q) (ds : list StudySession)
    (out : Allocation) :
  revision_completed subject = false ->
  subject_completed subject = false ->
  _add_revision_session today subject d t0 avail max brk ds = Ok out ->
  let topics_to_revise := Nat.min (total_topics subject) 5 in
  let time_per_topic :=
    Qmin (1 # 2) (avail / inject_Z (Z.of_nat topics_to_revise)) in
  exists batch,
    res_sessions out = ds ++ batch
    /\ (List.length batch <= 5)%nat
    /\ (List.length batch <= topics_to_revise)%nat
    /\ map session_topic batch
       = revision_labels (firstn (List.length batch) (topics subject))
    /\ Forall (revision_session_of (s_name subject) d) batch
    /\ revision_slices_within max brk time_per_topic avail batch
    /\ Qabs (res_used out - clock_used batch) <= tolerance
    /\ (List.length batch = topics_to_revise
        \/ avail - clock_used batch <= (1 # 10) + tolerance
        \/ (batch = [] /\ Qmin max time_per_topic < (1 # 10) + tolerance)).
Proof.
  destruct out as [[[s1 ds'] used] t1]. intros Hrc Hsc H.
  unfold res_sessions, res_used, tolerance. simpl.
  apply add_revision_session_outcome in H.
  destruct H as [Hidle | batch used Hrc' Hsc' n tpt Hn Hlen Hu Hsl Hk Hlab Hstop].
  - destruct Hidle as [Hi | [Hi | Hi]]; try congruence.
    exists []. rewrite app_nil_r, Hi. simpl.
    split; [ reflexivity | ]. split; [ lia | ]. split; [ lia | ].
    split; [ reflexivity | ]. split; [ constructor | ].
    split; [ exact I | ].
    split; [ vm_compute; discriminate | now left ].
  - exists batch.
    split; [ reflexivity | ]. split; [ unfold n in Hlen; lia | ].
    split; [ exact Hlen | ]. split; [ exact Hlab | ].
    split; [ exact Hk | ].
    split; [ apply revision_slices_close; [ apply Q.le_min_l | exact Hsl ] | ].
    split; [ apply Qabs_close; [ exact Hu | lra ] | ].
    destruct Hstop as [Hs | [Hs | [Hs1 Hs2]]].
    + now left.
    + right. left. lra.
    + right. right. split; [ exact Hs1 | ].
      eapply Qlt_trans; [ exact Hs2 | reflexivity ].
Qed.

(** Two topics to revise out of three, with two hours on offer: the
    allocator revises the first two of the list, the first of which is
    completed, half an hour each with a break of a quarter of an hour
    after each. *)
Lemma C7_revision_batch_witness :
  _add_revision_session today0 sd_chemistry monday nine_am 2 (3 # 2) (1 # 4) []
    = Ok chemistry_revised
  /\ map completed (topics sd_chemistry) = [true; false; false]
  /\ exists batch,
       res_sessions chemistry_revised = batch
       /\ map session_topic batch = ["Revision: Atoms"; "Revision: Bonds"]%string
       /\ map (fun s => Qred (duration_hours s)) batch = [1 # 2; 1 # 2]
       /\ revision_slices_within (3 # 2) (1 # 4) (1 # 2) 2 batch.
Proof.
  assert (H : _add_revision_session today0 sd_chemistry monday nine_am 2
                (3 # 2) (1 # 4) [] = Ok chemistry_revised)
    by (vm_compute; reflexivity).
  split; [ exact H | ]. split; [ reflexivity | ].
  destruct (C7_revision_batch today0 sd_chemistry monday nine_am 2 (3 # 2)
              (1 # 4) [] chemistry_revised eq_refl eq_refl H)
    as (batch & Hs & _ & _ & Hl & _ & Hsl & _).
  exists batch. simpl in Hs. subst batch.
  split; [ reflexivity | ]. split; [ reflexivity | ].
  split; [ reflexivity | ]. exact Hsl.
Defined.

(** C8 as stated fails: a negative [session_duration] is a negative hour
    value, and with it the engine schedules a day holding a session of
    negative length, so that the total is not zero. *)
Lemma C8_negative_session_length :
  session_duration (preferences req_negative_length) < 0
  /\ generate_study_plan today0 req_negative_length = Ok resp_negative_length
  /\ List.length (days resp_negative_length) = 1%nat
  /\ total_study_hours resp_negative_length == - (1)
  /\ ~ total_study_hours resp_negative_length == 0.
Proof.
  split; [ reflexivity | ]. split; [ vm_compute; reflexivity | ].
  split; [ reflexivity | ]. split; [ vm_compute; reflexivity | ].
  vm_compute. discriminate.
Qed.

(** C8, amended.  When [end_date] is strictly before [start_date], or when
    both daily budgets are under the half-hour threshold (negative ones in
    particular) on a range of valid dates that ends before the last date of
    the calendar, the engine returns a response with no scheduled day and zero
    total study hours, and does not raise; an inverted range yields zero
    available hours; and the revision allocator never raises
    [ZeroDivisionError], its division being guarded against a zero topic
    count. *)
Theorem C8_degenerate_requests (today : date) (req : StudyPlanRequest) :
  (end_date req < start_date req)%Z
  \/ (weekday_hours (preferences req) < 1 # 2
      /\ weekend_hours (preferences req) < 1 # 2
      /\ (MINORDINAL <= start_date req)%Z
      /\ (end_date req < MAXORDINAL)%Z) ->
  (exists resp,
     generate_study_plan today req = Ok resp
     /\ days resp = []
     /\ total_study_hours resp == 0
     /\ ((end_date req < start_date req)%Z -> available_hours resp == 0))
  /\ (forall subject d t0 avail max brk ds,
        _add_revision_session today subject d t0 avail max brk ds
        <> Raise ZeroDivisionError).
Proof.
  intro H. split.
  - assert (Hs : exists p av,
               available_study_hours (start_date req) (end_date req)
                 (preferences req) = Ok av
               /\ schedule today (subjects req) (start_date req)
                    (end_date req) (preferences req) = Ok p
               /\ plan_days p = []
               /\ ((end_date req < start_date req)%Z -> av == 0)).
    { unfold available_study_hours, schedule, day_count.
      destruct (Z.lt_ge_cases (end_date req) (start_date req)) as [Hinv | Hle].
      2: destruct H as [Hinv | (Hwd & Hwe & Hlo & Hhi)]; [ lia | ].
      - replace (Z.to_nat (end_date req - start_date req + 1)) with 0%nat
          by lia.
        exists (initial_plan (subjects req)), 0. simpl.
        repeat split; auto; intros; lra.
      - unfold MINORDINAL in Hlo.
        destruct (day_loop_no_budget today (preferences req) Hwd Hwe
                    (Z.to_nat (end_date req - start_date req + 1))
                    (start_date req) (initial_plan (subjects req)))
          as (p & Hp & Hd); [ lia | lia | reflexivity | ].
        destruct (available_loop_total (preferences req)
                    (Z.to_nat (end_date req - start_date req + 1))
                    (start_date req) 0) as (av & Hav); [ lia | lia | ].
        exists p, av. repeat split; auto; intros; lia. }
    destruct Hs as (p & av & Hav & Hp & Hd & Hz).
    unfold generate_study_plan, _generate_rule_based_schedule.
    rewrite Hav, Hp. simpl. eexists. split; [ reflexivity | ]. simpl.
    rewrite Hd. simpl. repeat split; auto; lra.
  - intros subject d t0 avail max brk ds E.
    apply add_revision_session_raises in E. discriminate.
Qed.

(** A week of negative daily budgets. *)
Lemma C8_degenerate_requests_witness :
  (weekday_hours (preferences req_negative_budget) < 1 # 2
   /\ weekend_hours (preferences req_negative_budget) < 1 # 2
   /\ (MINORDINAL <= start_date req_negative_budget)%Z
   /\ (end_date req_negative_budget < MAXORDINAL)%Z)
  /\ exists resp,
       generate_study_plan today0 req_negative_budget = Ok resp
       /\ days resp = [] /\ total_study_hours resp == 0.
Proof.
  assert (H : weekday_hours (preferences req_negative_budget) < 1 # 2
              /\ weekend_hours (preferences req_negative_budget) < 1 # 2
              /\ (MINORDINAL <= start_date req_negative_budget)%Z
              /\ (end_date req_negative_budget < MAXORDINAL)%Z).
  { repeat split; try reflexivity. discriminate. }
  split; [ exact H | ].
  destruct (C8_degenerate_requests today0 req_negative_budget (or_intror H))
    as ((resp & Hr & Hd & Ht & _) & _).
  exists resp. auto.
Defined.

(** C9.  [insufficient_time] is true exactly when the [available_hours] of
    the response is strictly less than its [total_hours_needed] (line 63
    compares the two totals the response carries).  [total_hours_needed] is
    the sum over the subjects of the subject's topic hours, times 1.5 exactly
    for the subjects with an exam date, and [available_hours] is the sum of
    the day budgets over the dates of the inclusive range that are not break
    days: both up to rounding, the engine adding floating-point hours; the
    error allowed is a millionth of the hours added up. *)
Theorem C9_demand_and_advisory (today : date) (req : StudyPlanRequest)
    (resp : StudyPlanResponse) :
  generate_study_plan today req = Ok resp ->
  (insufficient_time resp = true
   <-> available_hours resp < total_hours_needed resp)
  /\ Qabs (total_hours_needed resp - demand (subjects req))
     <= rounding * gross_demand (subjects req)
  /\ Qabs (available_hours resp
           - supply (start_date req) (end_date req) (preferences req))
     <= rounding
        * gross_supply (start_date req) (end_date req) (preferences req).
Proof.
  intro H.
  destruct (generate_study_plan_Ok _ _ _ H)
    as (p & av & Hav & _ & _ & _ & Hn & Ha & Hi).
  apply available_study_hours_spec in Hav.
  pose proof (total_study_hours_needed_spec (subjects req)) as Hd.
  pose proof (gross_demand_nonneg (subjects req)) as Hgd.
  pose proof (gross_supply_nonneg (start_date req) (end_date req)
                (preferences req)) as Hgs.
  rewrite Hn, Ha, Hi. unfold rounding.
  split; [ apply Qlt_bool_true | ].
  split; apply Qabs_close; auto; nra.
Qed.

(** Two subjects over a week with the Wednesday off: 6h of topics with an
    exam and 2h without make 11h; four weekdays of one hour and two weekend
    days of two make 8h, the break day left out; 8 < 11. *)
Lemma C9_demand_and_advisory_witness :
  generate_study_plan today0 req_two_subjects = Ok resp_two_subjects
  /\ demand (subjects req_two_subjects) == 11
  /\ supply (start_date req_two_subjects) (end_date req_two_subjects)
       (preferences req_two_subjects) == 8
  /\ List.length (date_range (start_date req_two_subjects)
                    (end_date req_two_subjects)) = 7%nat
  /\ total_hours_needed resp_two_subjects == 11
  /\ available_hours resp_two_subjects == 8
  /\ insufficient_time resp_two_subjects = true
  /\ available_hours resp_two_subjects < total_hours_needed resp_two_subjects.
Proof.
  assert (H : generate_study_plan today0 req_two_subjects
              = Ok resp_two_subjects) by (vm_compute; reflexivity).
  split; [ exact H | ].
  split; [ vm_compute; reflexivity | ].
  split; [ vm_compute; reflexivity | ].
  split; [ reflexivity | ].
  split; [ vm_compute; reflexivity | ].
  split; [ vm_compute; reflexivity | ].
  split; [ reflexivity | ].
  destruct (C9_demand_and_advisory today0 req_two_subjects resp_two_subjects H)
    as (Hiff & _ & _).
  apply Hiff. reflexivity.
Defined.

(** C10.  A call to the revision allocator leaves every topic's dict
    ([remaining_hours], [completed]), the subject's [current_topic_index] and
    its [subject_completed] flag as they were: the dict it hands back is the
    one it received, up to [revision_completed]. *)
Theorem C10_revision_allocator_frame (today : date) (subject : SubjectData)
    (d : date) (t0 : time) (avail max brk : Q) (ds : list StudySession)
    (out : Allocation) :
  _add_revision_session today subject d t0 avail max brk ds = Ok out ->
  topics (res_subject out) = topics subject
  /\ current_topic_index (res_subject out) = current_topic_index subject
  /\ subject_completed (res_subject out) = subject_completed subject
  /\ (res_subject out = subject
      \/ res_subject out = set_revision_completed subject true).
Proof.
  intro H.
  destruct (add_revision_session_frame _ _ _ _ _ _ _ _ _ H) as [-> | ->];
    simpl; auto.
Qed.

(** A revision call on a dict with the cursor on its second topic. *)
Lemma C10_revision_allocator_frame_witness :
  _add_revision_session today0 sd_chemistry monday nine_am 2 (3 # 2) (1 # 4) []
    = Ok chemistry_revised
  /\ topics (res_subject chemistry_revised) = topics sd_chemistry
  /\ current_topic_index (res_subject chemistry_revised) = 1%nat
  /\ subject_completed (res_subject chemistry_revised) = false.
Proof.
  assert (H : _add_revision_session today0 sd_chemistry monday nine_am 2
                (3 # 2) (1 # 4) [] = Ok chemistry_revised)
    by (vm_compute; reflexivity).
  split; [ exact H | ].
  destruct (C10_revision_allocator_frame _ _ _ _ _ _ _ _ _ H)
    as (Ht & Hi & Hc & _).
  split; [ exact Ht | ]. split; [ exact Hi | exact Hc ].
Defined.

(** * Further properties of the engine *)

(** ** Errors *)

(** X1.  Whatever the request, [generate_study_plan] raises no
    [ZeroDivisionError], no [IndexError] and no [TypeError]: the division of
    the revision allocator is guarded against a zero topic count (lines
    426-427), no list is read out of range (the guards of lines 352 and
    435), and the date arithmetic on [exam_date] is never reached for a
    subject without one (lines 165 and 215).  What the date and clock
    arithmetic raises on values it cannot hold is not ruled out. *)
Theorem no_division_index_or_type_error (today : date)
    (req : StudyPlanRequest) :
  generate_study_plan today req <> Raise ZeroDivisionError
  /\ generate_study_plan today req <> Raise IndexError
  /\ generate_study_plan today req <> Raise TypeError.
Proof.
  repeat split; intro E;
    pose proof (generate_study_plan_raises _ _ _ E); discriminate.
Qed.

(** X2.  A plan whose range is not empty and ends on 9999-12-31 always fails
    with [OverflowError]: both day loops step [current_date] past the last
    day before they test it against [end_date] (lines 48, 60, 143, 308). *)
Theorem last_day_of_calendar_overflows (today : date) (req : StudyPlanRequest) :
  (MINORDINAL <= start_date req)%Z ->
  (start_date req <= end_date req)%Z ->
  end_date req = MAXORDINAL ->
  generate_study_plan today req = Raise OverflowError.
Proof.
  intros Hs Hle He. unfold generate_study_plan, available_study_hours.
  rewrite (available_loop_last_day (preferences req)
             (day_count (start_date req) (end_date req)) (start_date req) 0).
  - reflexivity.
  - apply day_count_guard. exact Hle.
  - exact Hs.
  - rewrite day_count_end by exact Hle. now rewrite He.
Qed.

Lemma last_day_of_calendar_overflows_witness :
  (MINORDINAL <= start_date req_last_day)%Z
  /\ generate_study_plan today0 req_last_day = Raise OverflowError.
Proof.
  split; [ vm_compute; discriminate | ].
  apply (last_day_of_calendar_overflows today0 req_last_day).
  - vm_compute. discriminate.
  - vm_compute. discriminate.
  - reflexivity.
Defined.

(** X3.  The endpoint lets no exception of the controller through: it
    answers with the controller's plan, unchanged, or with an
    [HTTPException] of status 500 whose detail is
    ["Error generating study plan: "] followed by the message of the
    exception the controller raised; and that exception is no
    [ZeroDivisionError], [IndexError] or [TypeError]. *)
Theorem endpoint_answers (str : exn -> string) (today : date)
    (req : StudyPlanRequest) :
  (exists plan,
     generate_study_plan today req = Ok plan
     /\ Api.generate_study_plan str today req = inl plan)
  \/ (exists e,
        generate_study_plan today req = Raise e
        /\ e <> ZeroDivisionError /\ e <> IndexError /\ e <> TypeError
        /\ Api.generate_study_plan str today req
           = inr {| Api.status_code := 500;
                    Api.detail :=
                      ("Error generating study plan: " ++ str e)%string |}).
Proof.
  unfold Api.generate_study_plan.
  destruct (generate_study_plan today req) as [plan | e] eqn:E.
  - left. exists plan. auto.
  - right. exists e. rewrite (generate_study_plan_raises _ _ _ E).
    repeat split; discriminate.
Qed.

(** ** The days of a plan *)

(** X4.  The days of a response come in strictly increasing date order; each
    lies in the inclusive range of the request, is not a break day, has a
    budget of at least half an hour and at least one session, and every
    session carries the date of its day. *)
Theorem days_of_the_plan (today : date) (req : StudyPlanRequest)
    (resp : StudyPlanResponse) :
  generate_study_plan today req = Ok resp ->
  StronglySorted Z.lt (map day_date (days resp))
  /\ forall day, In day (days resp) ->
       (start_date req <= day_date day <= end_date req)%Z
       /\ is_break_day (preferences req) (day_date day) = false
       /\ 1 # 2 <= day_budget (preferences req) (day_date day)
       /\ sessions day <> []
       /\ forall s, In s (sessions day) -> session_date s = day_date day.
Proof.
  intro H.
  destruct (generate_study_plan_Ok _ _ _ H) as (p & av & _ & Hp & Hd & _).
  rewrite Hd. unfold schedule in Hp.
  assert (HJ : (start_date req
                <= start_date req
                   + Z.of_nat (day_count (start_date req) (end_date req)))%Z
               /\ Forall (day_recorded (preferences req) (start_date req)
                            (start_date req
                             + Z.of_nat (day_count (start_date req)
                                           (end_date req)))%Z)
                    (plan_days p)
               /\ StronglySorted Z.lt (map day_date (plan_days p))).
  { eapply (days_day_loop today (preferences req) (start_date req));
      [ | exact Hp ].
    simpl. split; [ lia | ]. split; constructor. }
  destruct HJ as (_ & Hdays & Hsorted).
  split; [ exact Hsorted | ].
  intros day Hin. rewrite Forall_forall in Hdays.
  destruct (Hdays day Hin) as (Hr & Hb & Hbud & Hne & Hdate).
  split; [ unfold day_count in Hr; lia | ].
  split; [ exact Hb | ]. split; [ exact Hbud | ]. split; [ exact Hne | ].
  now apply Forall_forall.
Qed.

(** A week with the Wednesday off and nothing left to do on the Sunday. *)
Lemma days_of_the_plan_witness :
  generate_study_plan today0 req_two_subjects = Ok resp_two_subjects
  /\ map (fun day => (day_date day - monday)%Z) (days resp_two_subjects)
     = [0; 1; 3; 4; 5]%Z
  /\ StronglySorted Z.lt (map day_date (days resp_two_subjects)).
Proof.
  split; [ vm_compute; reflexivity | ].
  split; [ vm_compute; reflexivity | ].
  apply (days_of_the_plan today0 req_two_subjects resp_two_subjects).
  vm_compute. reflexivity.
Defined.

(** ** The length of a session *)

(** X5.  Every revision session of a response lasts at least 0.1h and at
    most 0.5h, and every regular session lasts more than 0.01h whenever
    [preferences.session_duration] does. *)
Theorem session_lengths (today : date) (req : StudyPlanRequest)
    (resp : StudyPlanResponse) (day : StudyDay) (s : StudySession) :
  generate_study_plan today req = Ok resp ->
  In day (days resp) -> In s (sessions day) ->
  (session_type s = revision ->
   1 # 10 <= duration_hours s /\ duration_hours s <= 1 # 2)
  /\ (session_type s = regular ->
      1 # 100 < session_duration (preferences req) ->
      1 # 100 < duration_hours s).
Proof.
  intros H Hd Hs.
  destruct (generate_study_plan_Ok _ _ _ H) as (p & av & _ & Hp & Hdays & _).
  rewrite Hdays in Hd. unfold schedule in Hp.
  assert (HF : Forall (session_length_ok (preferences req))
                 (all_sessions (plan_days p))).
  { eapply lengths_day_loop; [ | exact Hp ]. constructor. }
  rewrite Forall_forall in HF. apply HF.
  eapply In_all_sessions; eauto.
Qed.

Lemma session_lengths_witness :
  generate_study_plan today0 req_two_subjects = Ok resp_two_subjects
  /\ Forall (fun s =>
               session_type s = revision ->
               1 # 10 <= duration_hours s /\ duration_hours s <= 1 # 2)
            (all_sessions (days resp_two_subjects)).
Proof.
  split; [ vm_compute; reflexivity | ].
  apply Forall_forall. intros s Hs.
  apply in_flat_map in Hs. destruct Hs as (day & Hd & Hs).
  apply (session_lengths today0 req_two_subjects resp_two_subjects day s).
  - vm_compute. reflexivity.
  - exact Hd.
  - exact Hs.
Defined.

(** ** Requests that are served *)

(** X6.  On a request whose plan starts on a date and ends before
    9999-12-31, whose exam dates and revision days are dates, whose daily
    budgets and break are at most 24h and whose session length and break are
    not negative, generated on a day at least two days before the end of the
    calendar, the controller returns a plan, and the endpoint answers with
    it. *)
Theorem servable_requests_are_served (today : date) (req : StudyPlanRequest) :
  servable today req ->
  exists resp,
    generate_study_plan today req = Ok resp
    /\ forall str, Api.generate_study_plan str today req = inl resp.
Proof.
  intro H. destruct (servable_total today req H) as (resp & E).
  exists resp. split; [ exact E | ].
  intro str. unfold Api.generate_study_plan. now rewrite E.
Qed.

Lemma servable_requests_are_served_witness :
  servable today0 req_two_subjects
  /\ exists resp,
       generate_study_plan today0 req_two_subjects = Ok resp
       /\ forall str,
            Api.generate_study_plan str today0 req_two_subjects = inl resp.
Proof.
  assert (H : servable today0 req_two_subjects).
  { constructor.
    - vm_compute. split; discriminate.
    - vm_compute. split; discriminate.
    - vm_compute. reflexivity.
    - vm_compute. discriminate.
    - vm_compute. discriminate.
    - vm_compute. discriminate.
    - vm_compute. split; discriminate.
    - intros subject e [<- | [<- | []]] He; simpl in He;
        [ injection He as <- | discriminate ].
      vm_compute. repeat split; discriminate. }
  split; [ exact H | ].
  exact (servable_requests_are_served today0 req_two_subjects H).
Defined.

(** ** What the plan does not depend on *)

(** X7.  The plan does not depend on the day it is generated: two runs of
    the controller on the same request, anchored on two values of
    [datetime.today()], return the same response whenever both return. *)
Theorem plan_independent_of_today (today1 today2 : date)
    (req : StudyPlanRequest) (resp1 resp2 : StudyPlanResponse) :
  generate_study_plan today1 req = Ok resp1 ->
  generate_study_plan today2 req = Ok resp2 ->
  resp1 = resp2.
Proof.
  unfold generate_study_plan, _generate_rule_based_schedule, schedule.
  intros H1 H2.
  apply bind_Ok in H1. destruct H1 as [av1 [Ea1 H1]].
  apply bind_Ok in H2. destruct H2 as [av2 [Ea2 H2]].
  assert (av2 = av1) by congruence. subst av2.
  apply bind_Ok in H1. destruct H1 as [[ds1 un1] [Es1 H1]].
  apply bind_Ok in H2. destruct H2 as [[ds2 un2] [Es2 H2]].
  apply bind_Ok in Es1. destruct Es1 as [p1 [Ep1 Es1]].
  apply bind_Ok in Es2. destruct Es2 as [p2 [Ep2 Es2]].
  assert (p1 = p2) by (eapply day_loop_anchor; eauto). subst p2.
  congruence.
Qed.

(** The scenario of the specification, generated in 2024 and on the first
    day of the calendar. *)
Lemma plan_independent_of_today_witness :
  generate_study_plan today0 req_math = Ok resp_math
  /\ generate_study_plan MINORDINAL req_math
     = Ok (response_of (generate_study_plan MINORDINAL req_math))
  /\ resp_math = response_of (generate_study_plan MINORDINAL req_math).
Proof.
  assert (H1 : generate_study_plan today0 req_math = Ok resp_math)
    by (vm_compute; reflexivity).
  assert (H2 : generate_study_plan MINORDINAL req_math
               = Ok (response_of (generate_study_plan MINORDINAL req_math)))
    by (vm_compute; reflexivity).
  split; [ exact H1 | ]. split; [ exact H2 | ].
  exact (plan_independent_of_today today0 MINORDINAL req_math _ _ H1 H2).
Defined.

(** X8.  The controller never reads [Topic.completed], [Subject.id],
    [Subject.difficulty] and [StudyPreferences.weekly_revision]: the response
    is that of the request with these fields erased.  In particular a topic
    the request flags as completed is scheduled for its full
    [estimated_hours] (line 121 starts every topic as not completed). *)
Theorem unread_inputs (today : date) (req : StudyPlanRequest) :
  generate_study_plan today (erase_request req) = generate_study_plan today req.
Proof.
  unfold generate_study_plan, _generate_rule_based_schedule, schedule,
    available_study_hours, initial_plan, erase_request.
  simpl. rewrite total_study_hours_needed_erased, available_loop_erased.
  rewrite prepare_erased, day_loop_erased. reflexivity.
Qed.

(** The scenario of the specification with both topics flagged completed, an
    id, a difficulty and the weekly revision asked for: the same plan. *)
Lemma unread_inputs_witness :
  generate_study_plan today0 req_math_flagged = Ok resp_math.
Proof.
  rewrite <- (unread_inputs today0 req_math_flagged).
  vm_compute. reflexivity.
Defined.

(** ** The totals *)

(** X9.  [total_study_hours] is the sum of the durations of all the sessions
    of the plan; [subjects_distribution] has one key for each subject name
    that carries a session and no other, each once, its value the sum of the
    durations of the sessions carrying that name; and the values add up to
    [total_study_hours] (sums of exact hours). *)
Theorem totals_of_the_plan (today : date) (req : StudyPlanRequest)
    (resp : StudyPlanResponse) :
  generate_study_plan today req = Ok resp ->
  total_study_hours resp
  == Qsum (map duration_hours (all_sessions (days resp)))
  /\ NoDup (map fst (subjects_distribution resp))
  /\ (forall name,
        In name (map fst (subjects_distribution resp))
        <-> exists s, In s (all_sessions (days resp))
                      /\ session_subject s = name)
  /\ (forall name h,
        In (name, h) (subjects_distribution resp) ->
        h == hours_of name (all_sessions (days resp)))
  /\ Qsum (map snd (subjects_distribution resp)) == total_study_hours resp.
Proof.
  intro H. destruct (generate_study_plan_totals _ _ _ H) as [Ht Hd].
  pose proof (distribution_of_fold (all_sessions (days resp)) [] []
                distribution_of_nil) as Hdist.
  simpl in Hdist. rewrite <- Hd in Hdist.
  destruct Hdist as (Hnd & Hkeys & Hvals & Hsum).
  assert (Etot : total_study_hours resp
                 == Qsum (map duration_hours (all_sessions (days resp)))).
  { rewrite Ht. rewrite fold_left_Qsum. lra. }
  split; [ exact Etot | ]. split; [ exact Hnd | ].
  split; [ exact Hkeys | ]. split; [ exact Hvals | ].
  rewrite Hsum, Etot. reflexivity.
Qed.

Lemma totals_of_the_plan_witness :
  generate_study_plan today0 req_two_subjects = Ok resp_two_subjects
  /\ map fst (subjects_distribution resp_two_subjects)
     = ["Physics"; "History"]%string
  /\ Qsum (map snd (subjects_distribution resp_two_subjects))
     == total_study_hours resp_two_subjects.
Proof.
  split; [ vm_compute; reflexivity | ].
  split; [ vm_compute; reflexivity | ].
  apply (totals_of_the_plan today0 req_two_subjects resp_two_subjects).
  vm_compute. reflexivity.
Defined.

(** ** The times of the sessions *)

(** X10.  In every day of a response the first session starts at 09:00;
    every session ends at its start plus its length, to the microsecond and
    around midnight; and every next session starts when the one before it
    ends, or one [break_duration] later. *)
Theorem session_times (today : date) (req : StudyPlanRequest)
    (resp : StudyPlanResponse) (day : StudyDay) :
  generate_study_plan today req = Ok resp ->
  In day (days resp) ->
  (forall s l, sessions day = s :: l -> start_time s = nine_am)
  /\ Forall ends_on_time (sessions day)
  /\ follow_on (break_duration (preferences req)) (sessions day).
Proof.
  intros H Hin.
  pose proof (response_clock_chained _ _ _ _ H Hin) as Hc.
  destruct (generate_study_plan_Ok _ _ _ H) as (p & av & _ & Hp & Hd & _).
  rewrite Hd in Hin. unfold schedule in Hp.
  assert (HF : Forall (timed (preferences req)) (all_sessions (plan_days p))).
  { eapply times_day_loop; [ | exact Hp ]. constructor. }
  assert (HT : Forall (timed (preferences req)) (sessions day)).
  { rewrite Forall_forall in *. intros s Hs. apply HF.
    eapply In_all_sessions; eauto. }
  split; [ | split ].
  - intros s l E. rewrite E in Hc. destruct Hc as [Hs _]. exact Hs.
  - eapply Forall_impl; [ | exact HT ]. intros s [Hs _]. exact Hs.
  - eapply clock_chained_follow_on; eauto.
Qed.

Lemma session_times_witness :
  generate_study_plan today0 req_math = Ok resp_math
  /\ Forall (fun day => Forall ends_on_time (sessions day)) (days resp_math).
Proof.
  split; [ vm_compute; reflexivity | ].
  apply Forall_forall. intros day Hin.
  apply (session_times today0 req_math resp_math day).
  - vm_compute. reflexivity.
  - exact Hin.
Defined.

(** ** The topics reported unallocated *)

(** X11.  Every entry of [unallocated_topics] names a subject of the request
    that has an exam date, on or before [end_date], and one of its topics:
    only the completion check on a passed exam records entries (lines
    322-333), so what is left of a subject without an exam date, or with an
    exam after the plan, is never reported. *)
Theorem unallocated_topics_have_a_passed_exam (today : date)
    (req : StudyPlanRequest) (resp : StudyPlanResponse) (u : Unallocated) :
  generate_study_plan today req = Ok resp ->
  In u (unallocated_topics resp) ->
  exists subject topic e,
    In subject (subjects req) /\ In topic (subject_topics subject)
    /\ un_subject u = subject_name subject /\ un_topic u = topic_name topic
    /\ exam_date subject = Some e /\ (e <= end_date req)%Z.
Proof.
  intros H Hin.
  destruct (generate_study_plan_Ok _ _ _ H) as (p & av & _ & Hp & _ & Hu & _).
  rewrite Hu in Hin. unfold schedule in Hp.
  destruct (Z_le_gt_dec (start_date req) (end_date req)) as [Hle | Hgt].
  - assert (HJ : Forall2 same_key (map prepare_subject (subjects req))
                   (plan_subject_data p)
                 /\ Forall (reported (map prepare_subject (subjects req))
                              (start_date req
                               + Z.of_nat (day_count (start_date req)
                                             (end_date req)))%Z)
                      (plan_unallocated p)).
    { eapply (reported_day_loop today (preferences req)); [ | exact Hp ].
      split; [ apply same_key_Forall2_refl | constructor ]. }
    destruct HJ as [_ HF]. rewrite Forall_forall in HF.
    destruct (HF u Hin) as (a & t & e & Ha & Ht & Hs & Hn & He & Hlt).
    rewrite day_count_end in Hlt by exact Hle.
    apply in_map_iff in Ha. destruct Ha as (subject & <- & Hsub).
    simpl in Ht. apply in_map_iff in Ht. destruct Ht as (topic & <- & Htop).
    exists subject, topic, e. simpl in *. repeat split; auto. lia.
  - rewrite day_count_inverted in Hp by lia. simpl in Hp.
    injection Hp as <-. destruct Hin.
Qed.

(** Physics, with its exam on the Thursday, is reported; History, without an
    exam, is not. *)
Lemma unallocated_topics_have_a_passed_exam_witness :
  generate_study_plan today0 req_two_subjects = Ok resp_two_subjects
  /\ map un_subject (unallocated_topics resp_two_subjects)
     = ["Physics"; "Physics"]%string
  /\ Forall (fun u =>
               exists subject topic e,
                 In subject (subjects req_two_subjects)
                 /\ In topic (subject_topics subject)
                 /\ un_subject u = subject_name subject
                 /\ un_topic u = topic_name topic
                 /\ exam_date subject = Some e
                 /\ (e <= end_date req_two_subjects)%Z)
            (unallocated_topics resp_two_subjects).
Proof.
  split; [ vm_compute; reflexivity | ].
  split; [ vm_compute; reflexivity | ].
  apply Forall_forall. intros u Hin.
  apply (unallocated_topics_have_a_passed_exam today0 req_two_subjects
           resp_two_subjects u).
  - vm_compute. reflexivity.
  - exact Hin.
Defined.



(** ** Sessions and exam dates *)

(** X13.  Every session carries the name of a subject of the request whose
    exam, if it has one, was still to come on every earlier date of the plan
    that is not a break day: a subject gets no session once a scheduled day
    has ended on or after its exam date.  (The completion check of lines
    310-324 runs at the end of the days that are not break days; a session of
    a subject on its exam day itself is possible, and so is a session after
    the exam when every date of the plan since the exam date was a break day
    or the exam was before the plan.) *)
Theorem sessions_come_before_the_exam (today : date) (req : StudyPlanRequest)
    (resp : StudyPlanResponse) (day : StudyDay) (s : StudySession) :
  generate_study_plan today req = Ok resp ->
  In day (days resp) -> In s (sessions day) ->
  exists subject,
    In subject (subjects req) /\ subject_name subject = session_subject s
    /\ forall e d0,
         exam_date subject = Some e ->
         (start_date req <= d0 < session_date s)%Z ->
         is_break_day (preferences req) d0 = false ->
         (d0 < e)%Z.
Proof.
  intros H Hd Hs.
  destruct (generate_study_plan_Ok _ _ _ H) as (p & av & _ & Hp & Hdays & _).
  rewrite Hdays in Hd. unfold schedule in Hp.
  set (sd0 := map prepare_subject (subjects req)).
  assert (HJ : Forall2 same_key sd0 (plan_subject_data p)
               /\ exams_open (preferences req) (start_date req)
                    (start_date req
                     + Z.of_nat (day_count (start_date req) (end_date req)))%Z
                    (plan_subject_data p)
               /\ Forall (in_time (preferences req) (start_date req) sd0)
                    (all_sessions (plan_days p))).
  { eapply (in_time_day_loop today (preferences req) (start_date req) sd0);
      [ | exact Hp ].
    split; [ apply same_key_Forall2_refl | ]. split; [ | constructor ].
    intros s0 e _ _ _ d0 Hd0. lia. }
  destruct HJ as (_ & _ & HF). rewrite Forall_forall in HF.
  destruct (HF s (In_all_sessions _ _ _ Hd Hs)) as (a & Ha & Hn & Ho).
  unfold sd0 in Ha. apply in_map_iff in Ha. destruct Ha as (subject & <- & Hsub).
  exists subject. split; [ exact Hsub | ]. split; [ exact Hn | ].
  intros e d0 He. apply (Ho e). exact He.
Qed.

(** Physics, with its exam on the Thursday, has its last session that day. *)
Lemma sessions_come_before_the_exam_witness :
  generate_study_plan today0 req_two_subjects = Ok resp_two_subjects
  /\ Forall (fun s =>
               exists subject,
                 In subject (subjects req_two_subjects)
                 /\ subject_name subject = session_subject s
                 /\ forall e d0,
                      exam_date subject = Some e ->
                      (start_date req_two_subjects <= d0 < session_date s)%Z ->
                      is_break_day (preferences req_two_subjects) d0 = false ->
                      (d0 < e)%Z)
            (all_sessions (days resp_two_subjects)).
Proof.
  split; [ vm_compute; reflexivity | ].
  apply Forall_forall. intros s Hs.
  apply in_flat_map in Hs. destruct Hs as (day & Hd & Hs).
  apply (sessions_come_before_the_exam today0 req_two_subjects
           resp_two_subjects day s).
  - vm_compute. reflexivity.
  - exact Hd.
  - exact Hs.
Defined.

(** ** The order of the topics *)

(** X14.  In a request whose subject names are distinct and whose topic
    names are distinct within each subject, the topics of a subject are
    studied in list order: when a regular session on a topic is emitted,
    every earlier topic of the subject has already been given regular
    sessions for its [estimated_hours], up to 0.01h (the cursor of lines
    351-358 and 386-389 only moves past a finished topic). *)
Theorem topics_are_studied_in_order (today : date) (req : StudyPlanRequest)
    (resp : StudyPlanResponse) (subject : Subject) (j k : nat)
    (topic earlier : Topic) (pre post : list StudySession) (s : StudySession) :
  generate_study_plan today req = Ok resp ->
  NoDup (map subject_name (subjects req)) ->
  (forall subj, In subj (subjects req) ->
                NoDup (map topic_name (subject_topics subj))) ->
  In subject (subjects req) ->
  nth_error (subject_topics subject) j = Some topic ->
  nth_error (subject_topics subject) k = Some earlier ->
  (k < j)%nat ->
  all_sessions (days resp) = pre ++ s :: post ->
  session_type s = regular ->
  session_subject s = subject_name subject ->
  session_topic s = topic_name topic ->
  estimated_hours earlier
  - regular_hours (subject_name subject) (topic_name earlier) pre <= 1 # 100.
Proof.
  intros H Hnd Htnd Hin Hj Hk Hkj Hall Htype Hsub Htop.
  destruct (generate_study_plan_Ok _ _ _ H) as (p & av & _ & Hp & Hd & _).
  rewrite Hd in Hall. unfold schedule in Hp.
  set (sd0 := map prepare_subject (subjects req)).
  assert (Hnames : NoDup (map s_name sd0))
    by (unfold sd0; rewrite prepared_names; exact Hnd).
  assert (Htnames : forall a, In a sd0 -> NoDup (map t_name (topics a))).
  { intros a Ha. unfold sd0 in Ha. apply in_map_iff in Ha.
    destruct Ha as (subj & <- & Hsubj). rewrite prepared_topic_names. auto. }
  assert (HJ : (Forall2 same_key sd0 (plan_subject_data p)
                /\ ledger_ok (plan_subject_data p)
                     (all_sessions (plan_days p)))
               /\ Forall topics_ok (plan_subject_data p)
               /\ Forall cursor_ok (plan_subject_data p)
               /\ in_order sd0 (all_sessions (plan_days p))).
  { eapply (order_day_loop today (preferences req) sd0 Hnames Htnames);
      [ | exact Hp ].
    split; [ split; [ apply same_key_Forall2_refl | apply ledger_ok_initial ] | ].
    split; [ apply topics_ok_initial | ]. split.
    - apply Forall_forall. intros a Ha. apply in_map_iff in Ha.
      destruct Ha as (subj & <- & _). intros k0 t0 Hk0. simpl in Hk0. lia.
    - intros pre0 s0 post0 a j0 t k0 t' E. destruct pre0; discriminate. }
  destruct HJ as (_ & _ & _ & Hord).
  apply (Hord pre s post (prepare_subject subject) j (prepare_topic topic)
           k (prepare_topic earlier)); auto.
  - unfold sd0. now apply in_map.
  - simpl. now rewrite nth_error_map, Hj.
  - simpl. now rewrite nth_error_map, Hk.
Qed.

(** History: the session on Greece, the last of the plan, comes after the
    hour estimated for Rome. *)
Lemma topics_are_studied_in_order_witness :
  generate_study_plan today0 req_two_subjects = Ok resp_two_subjects
  /\ map session_topic (skipn 4 (all_sessions (days resp_two_subjects)))
     = ["Rome"; "Greece"]%string
  /\ 1 - regular_hours "History" "Rome"
           (firstn 5 (all_sessions (days resp_two_subjects))) <= 1 # 100.
Proof.
  split; [ vm_compute; reflexivity | ].
  split; [ vm_compute; reflexivity | ].
  apply (topics_are_studied_in_order today0 req_two_subjects
           resp_two_subjects
           (mk_subject "History" [mk_topic "Rome" 1; mk_topic "Greece" 1]
              None Low)
           1 0 (mk_topic "Greece" 1) (mk_topic "Rome" 1)
           (firstn 5 (all_sessions (days resp_two_subjects)))
           (skipn 6 (all_sessions (days resp_two_subjects)))
           (nth 5 (all_sessions (days resp_two_subjects))
              {| session_subject := ""; session_topic := "";
                 session_date := 0%Z; start_time := 0%Z; end_time := 0%Z;
                 duration_hours := 0; session_type := regular;
                 break_after := 0 |})).
  - vm_compute. reflexivity.
  - vm_compute. repeat constructor; simpl; intuition discriminate.
  - intros subj [<- | [<- | []]]; vm_compute;
      repeat constructor; simpl; intuition discriminate.
  - right. left. reflexivity.
  - reflexivity.
  - reflexivity.
  - lia.
  - vm_compute. reflexivity.
  - vm_compute. reflexivity.
  - vm_compute. reflexivity.
  - vm_compute. reflexivity.
Defined.

(** ** The hours offered to a High subject *)

(** X15.  In a request whose subject names are distinct, a regular session of
    a subject of High importance lasts at most 2 hours, and at most 1 hour
    unless the exam of the subject is on the day of the session or on one of
    the four days after it: the urgent pass offers [min(2.0, hours_left)]
    and the pass over the High subjects [min(1.0, hours_left)] (lines 174 and
    212), whatever [session_duration] is. *)
Theorem high_subjects_are_capped (today : date) (req : StudyPlanRequest)
    (resp : StudyPlanResponse) (day : StudyDay) (s : StudySession)
    (subject : Subject) :
  generate_study_plan today req = Ok resp ->
  NoDup (map subject_name (subjects req)) ->
  In day (days resp) -> In s (sessions day) ->
  session_type s = regular ->
  In subject (subjects req) ->
  subject_name subject = session_subject s ->
  importance subject = High ->
  duration_hours s <= 2
  /\ (~ (exists e, exam_date subject = Some e
                   /\ (session_date s <= e < session_date s + 5)%Z) ->
      duration_hours s <= 1).
Proof.
  intros H Hnd Hd Hs Htype Hin Hname Himp.
  destruct (generate_study_plan_Ok _ _ _ H) as (p & av & _ & Hp & Hdays & _).
  rewrite Hdays in Hd. unfold schedule in Hp.
  set (sd0 := map prepare_subject (subjects req)).
  assert (Hnames : NoDup (map s_name sd0))
    by (unfold sd0; rewrite prepared_names; exact Hnd).
  assert (HJ : Forall2 same_key sd0 (plan_subject_data p)
               /\ Forall (high_capped sd0) (all_sessions (plan_days p))).
  { eapply (caps_day_loop today (preferences req) sd0 Hnames); [ | exact Hp ].
    split; [ apply same_key_Forall2_refl | constructor ]. }
  destruct HJ as [_ HF]. rewrite Forall_forall in HF.
  destruct (HF s (In_all_sessions _ _ _ Hd Hs) Htype (prepare_subject subject))
    as [H2 H1]; auto.
  { unfold sd0. now apply in_map. }
  split; [ exact H2 | ].
  intro Hfar. apply H1. intros (e & He & Hlo & Hhi). apply Hfar.
  exists e. simpl in He. split; [ exact He | lia ].
Qed.

(** The scenario of the specification: Math is High, and none of its regular
    sessions is longer than two hours. *)
Lemma high_subjects_are_capped_witness :
  generate_study_plan today0 req_math = Ok resp_math
  /\ Forall (fun s => session_type s = regular -> duration_hours s <= 2)
       (all_sessions (days resp_math)).
Proof.
  split; [ vm_compute; reflexivity | ].
  apply Forall_forall. intros s Hs Htype.
  apply in_flat_map in Hs. destruct Hs as (day & Hd & Hs).
  assert (Hname : Forall (fun s0 => session_subject s0 = "Math"%string)
                    (all_sessions (days resp_math)))
    by (vm_compute; repeat constructor).
  rewrite Forall_forall in Hname.
  apply (high_subjects_are_capped today0 req_math resp_math day s
           (mk_subject "Math" [mk_topic "A" 3; mk_topic "B" 2]
              (Some (monday + 10)%Z) High)).
  - vm_compute. reflexivity.
  - vm_compute. repeat constructor. simpl. intuition.
  - exact Hd.
  - exact Hs.
  - exact Htype.
  - left. reflexivity.
  - simpl. symmetry. apply Hname. eapply In_all_sessions; eauto.
  - reflexivity.
Defined.

(** ** The budget left when a session starts *)

(** X16.  When a session starts, the sessions of the day before it and the
    breaks after them ([clock_used]; the break recorded after a session is
    the gap on the clock that follows it) leave more than 0.1h of the day's
    budget, and at least 0.5h when the session is a regular one, up to
    0.01h (the engine computes on floating-point hours): no pass hands a
    subject to an allocator with less than half an hour left (lines 170,
    208, 246 and 278), and the revision loop stops at 0.1h (line 435). *)
Theorem sessions_start_with_budget_left (today : date)
    (req : StudyPlanRequest) (resp : StudyPlanResponse) (day : StudyDay)
    (pre post : list StudySession) (s : StudySession) :
  generate_study_plan today req = Ok resp ->
  In day (days resp) ->
  sessions day = pre ++ s :: post ->
  clock_used pre + (1 # 10)
  < day_budget (preferences req) (day_date day) + tolerance
  /\ (session_type s = regular ->
      clock_used pre + (1 # 2)
      <= day_budget (preferences req) (day_date day) + tolerance).
Proof.
  intros H Hin E.
  destruct (generate_study_plan_Ok _ _ _ H) as (p & av & _ & Hp & Hd & _).
  rewrite Hd in Hin. unfold schedule in Hp.
  assert (HJ : forall day0, In day0 (plan_days p) ->
                 starts_ok (day_budget (preferences req) (day_date day0))
                   (sessions day0)).
  { eapply (starts_day_loop today (preferences req)); [ | exact Hp ].
    intros day0 []. }
  destruct (HJ day Hin pre s post E) as [H1 H2]. unfold tolerance.
  split; [ lra | ]. intro Ht. specialize (H2 Ht). lra.
Qed.

(** Physics on its revision day, four hours in the day: three revision
    sessions of half an hour with the two breaks between them, then a
    regular session that starts with two hours used; and the two days after
    it. *)
Lemma sessions_start_with_budget_left_witness :
  generate_study_plan today0 req_physics_revised = Ok resp_physics_revised
  /\ map (fun day =>
            map (fun s => (session_type s, Qred (duration_hours s),
                           Qred (break_after s))) (sessions day))
       (days resp_physics_revised)
     = [[(revision, 1 # 2, 1 # 4); (revision, 1 # 2, 1 # 4);
         (revision, 1 # 2, 0); (regular, 1, 1 # 4)];
        [(regular, 1, 1 # 4); (regular, 1, 1 # 4)];
        [(regular, 1, 1 # 4)]]
  /\ Forall (fun day =>
               forall pre s post,
                 sessions day = pre ++ s :: post ->
                 clock_used pre + (1 # 10)
                 < day_budget (preferences req_physics_revised) (day_date day)
                   + tolerance
                 /\ (session_type s = regular ->
                     clock_used pre + (1 # 2)
                     <= day_budget (preferences req_physics_revised)
                          (day_date day) + tolerance))
            (days resp_physics_revised).
Proof.
  split; [ vm_compute; reflexivity | ].
  split; [ vm_compute; reflexivity | ].
  apply Forall_forall. intros day Hin pre s post E.
  apply (sessions_start_with_budget_left today0 req_physics_revised
           resp_physics_revised day pre post s).
  - vm_compute. reflexivity.
  - exact Hin.
  - exact E.
Defined.

(** ** Days left empty *)

(** X17.  In a request whose subject names are distinct, whose topic names
    are distinct within each subject and whose [session_duration] is at
    least 0.1h, a date of the range that is not a break day and has a budget
    of half an hour or more is left without a day in the plan only when
    nothing is left to schedule: every topic of every subject has then
    received regular sessions for its [estimated_hours], up to 0.01h, or is
    reported in [unallocated_topics]. *)
Theorem empty_day_means_nothing_left (today : date) (req : StudyPlanRequest)
    (resp : StudyPlanResponse) (d0 : date) (subject : Subject)
    (topic : Topic) :
  generate_study_plan today req = Ok resp ->
  NoDup (map subject_name (subjects req)) ->
  (forall subj, In subj (subjects req) ->
                NoDup (map topic_name (subject_topics subj))) ->
  1 # 10 <= session_duration (preferences req) ->
  (start_date req <= d0 <= end_date req)%Z ->
  is_break_day (preferences req) d0 = false ->
  1 # 2 <= day_budget (preferences req) d0 ->
  ~ In d0 (map day_date (days resp)) ->
  In subject (subjects req) -> In topic (subject_topics subject) ->
  estimated_hours topic
  - regular_hours (subject_name subject) (topic_name topic)
      (all_sessions (days resp)) <= 1 # 100
  \/ exists u,
       In u (unallocated_topics resp)
       /\ un_subject u = subject_name subject
       /\ un_topic u = topic_name topic.
Proof.
  intros H Hnd Htnd Hlong Hrange Hbreak Hbudget Hnot Hsub Htop.
  destruct (generate_study_plan_Ok _ _ _ H) as (p & av & _ & Hp & Hd & Hu & _).
  rewrite Hd in Hnot |- *. rewrite Hu. unfold schedule in Hp.
  set (sd0 := map prepare_subject (subjects req)).
  assert (Hnames : NoDup (map s_name sd0))
    by (unfold sd0; rewrite prepared_names; exact Hnd).
  assert (Htnames : forall a, In a sd0 -> NoDup (map t_name (topics a))).
  { intros a Ha. unfold sd0 in Ha. apply in_map_iff in Ha.
    destruct Ha as (subj & <- & Hsubj). rewrite prepared_topic_names. auto. }
  assert (HL : Forall2 same_key sd0 (plan_subject_data p)
               /\ ledger_ok (plan_subject_data p) (all_sessions (plan_days p))).
  { eapply (ledger_day_loop today (preferences req) sd0 Hnames Htnames);
      [ | exact Hp ].
    split; [ apply same_key_Forall2_refl | apply ledger_ok_initial ]. }
  destruct HL as [Hk Hl].
  assert (Hok : Forall topics_ok (plan_subject_data p)).
  { eapply topics_ok_day_loop; [ | exact Hp ]. apply topics_ok_initial. }
  assert (HA : Forall cursor_ok (plan_subject_data p)
               /\ accounted (plan_subject_data p) (plan_unallocated p)).
  { eapply (accounted_day_loop today (preferences req)); [ | exact Hp ].
    split; [ apply cursor_ok_initial | ].
    intros s t Hs Hc. simpl in Hs. apply in_map_iff in Hs.
    destruct Hs as (subj & <- & _). discriminate. }
  destruct HA as [_ Hacc].
  assert (HF : Forall finished (plan_subject_data p)).
  { assert (HJ : NoDup (map s_name (plan_subject_data p))
                 /\ Forall cursor_ok (plan_subject_data p)
                 /\ (idle_before (preferences req) (start_date req)
                       (start_date req
                        + Z.of_nat
                            (day_count (start_date req) (end_date req)))%Z
                       (plan_days p) ->
                     Forall finished (plan_subject_data p))).
    { eapply (idle_day_loop today (preferences req) (start_date req) Hlong);
        [ | exact Hp ].
      split; [ exact Hnames | ]. split; [ apply cursor_ok_initial | ].
      intros (x & Hx & _). lia. }
    destruct HJ as (_ & _ & Hidle).
    apply Hidle. exists d0.
    rewrite day_count_end by lia.
    split; [ lia | ]. auto. }
  apply In_nth_error in Hsub. destruct Hsub as [i Hi].
  apply In_nth_error in Htop. destruct Htop as [j Hj].
  assert (Ha : nth_error sd0 i = Some (prepare_subject subject))
    by (unfold sd0; now rewrite nth_error_map, Hi).
  destruct (Forall2_nth_error_l _ _ _ _ _ Hk Ha) as (s & Hs & Hkey).
  assert (Ht0 : nth_error (topics (prepare_subject subject)) j
                = Some (prepare_topic topic))
    by (simpl; now rewrite nth_error_map, Hj).
  destruct (map_eq_nth_error topic_key topic_key _ _ _ _
              (same_key_topic_keys _ _ Hkey) Ht0) as (t & Ht & Hkt).
  unfold topic_key in Hkt. simpl in Hkt. injection Hkt as Hn Hh.
  pose proof (same_key_name _ _ Hkey) as Hname. simpl in Hname.
  assert (Hins : In s (plan_subject_data p)) by (eapply nth_error_In; eauto).
  assert (Hint : In t (topics s)) by (eapply nth_error_In; eauto).
  assert (Hdone : topic_done t = true ->
                  estimated_hours topic
                  - regular_hours (subject_name subject) (topic_name topic)
                      (all_sessions (plan_days p)) <= 1 # 100).
  { intro Hdn. rewrite Forall_forall in Hok.
    pose proof (Hok s Hins) as Hoks. unfold topics_ok in Hoks.
    rewrite Forall_forall in Hoks.
    apply (topic_done_ok t (Hoks t Hint)) in Hdn.
    pose proof (Hl i s j t Hs Ht) as Hledger.
    rewrite <- Hname, <- Hn, <- Hh in Hledger. rewrite Hledger. lra. }
  rewrite Forall_forall in HF.
  destruct (HF s Hins) as [Hc | Hall].
  - destruct (Hacc s t Hins Hc Hint) as [Hdn | Hin]; [ left; auto | right ].
    exists (unallocated_entry s t). split; [ exact Hin | ]. simpl. auto.
  - left. apply Hdone. unfold all_topics_done in Hall.
    rewrite forallb_forall in Hall. auto.
Qed.

(** The Sunday that closes the week of the two subjects is left empty: the
    two topics of History are scheduled in full, those of Physics are
    reported. *)
Lemma empty_day_means_nothing_left_witness :
  generate_study_plan today0 req_two_subjects = Ok resp_two_subjects
  /\ ~ In (monday + 6)%Z (map day_date (days resp_two_subjects))
  /\ (4 - regular_hours "Physics" "Waves"
            (all_sessions (days resp_two_subjects)) <= 1 # 100
      \/ exists u,
           In u (unallocated_topics resp_two_subjects)
           /\ un_subject u = "Physics"%string
           /\ un_topic u = "Waves"%string).
Proof.
  split; [ vm_compute; reflexivity | ].
  split; [ vm_compute; intuition discriminate | ].
  apply (empty_day_means_nothing_left today0 req_two_subjects
           resp_two_subjects (monday + 6)%Z
           (mk_subject "Physics" [mk_topic "Waves" 4; mk_topic "Optics" 2]
              (Some (monday + 3)%Z) High)
           (mk_topic "Waves" 4)).
  - vm_compute. reflexivity.
  - vm_compute. repeat constructor; simpl; intuition discriminate.
  - intros subj [<- | [<- | []]]; vm_compute;
      repeat constructor; simpl; intuition discriminate.
  - vm_compute. discriminate.
  - vm_compute. split; discriminate.
  - vm_compute. reflexivity.
  - vm_compute. discriminate.
  - vm_compute. intuition discriminate.
  - left. reflexivity.
  - left. reflexivity.
Defined.

(** ** The regular sessions of a subject in a day *)

(** X18.  In a request whose subject names are distinct, a day holds at most
    two regular sessions of a subject, and at most one of a subject of High
    importance: the pass over the urgent subjects and the pass of the
    subject's importance each call an allocator once for it, a call emits at
    most one regular session, and a High subject the urgent pass handled is
    in [high_importance_coverage] and left out of the pass over the High
    subjects (lines 197-198 and 201-205). *)
Theorem regular_sessions_per_day (today : date) (req : StudyPlanRequest)
    (resp : StudyPlanResponse) (day : StudyDay) (subject : Subject) :
  generate_study_plan today req = Ok resp ->
  NoDup (map subject_name (subjects req)) ->
  In day (days resp) ->
  In subject (subjects req) ->
  (regular_count (subject_name subject) (sessions day) <= 2)%nat
  /\ (importance subject = High ->
      (regular_count (subject_name subject) (sessions day) <= 1)%nat).
Proof.
  intros H Hnd Hday Hsub.
  destruct (generate_study_plan_Ok _ _ _ H) as (p & av & _ & Hp & Hd & _).
  rewrite Hd in Hday. unfold schedule in Hp.
  set (sd0 := map prepare_subject (subjects req)).
  assert (Hnames : NoDup (map s_name sd0))
    by (unfold sd0; rewrite prepared_names; exact Hnd).
  assert (HJ : Forall2 same_key sd0 (plan_subject_data p)
               /\ Forall (fun day0 =>
                            forall i0 a0,
                              nth_error sd0 i0 = Some a0 ->
                              (regular_count (s_name a0) (sessions day0)
                               <= 2)%nat
                              /\ (s_importance a0 = High ->
                                  (regular_count (s_name a0) (sessions day0)
                                   <= 1)%nat))
                         (plan_days p)).
  { eapply (counts_day_loop today (preferences req) sd0);
      [ exact Hnames | | exact Hp ].
    split; [ apply same_key_Forall2_refl | constructor ]. }
  destruct HJ as [_ HF].
  rewrite Forall_forall in HF.
  apply In_nth_error in Hsub. destruct Hsub as [i Hi].
  apply (HF day Hday i (prepare_subject subject)).
  unfold sd0. now rewrite nth_error_map, Hi.
Qed.

(** Physics, of Medium importance with its exam two days away, is studied
    twice on the Tuesday: once as an urgent subject, once as a Medium one. *)
Lemma regular_sessions_per_day_witness :
  generate_study_plan today0 req_physics_revised = Ok resp_physics_revised
  /\ map (fun day => regular_count "Physics" (sessions day))
       (days resp_physics_revised) = [1; 2; 1]%nat
  /\ Forall (fun day =>
               (regular_count "Physics" (sessions day) <= 2)%nat
               /\ (importance physics = High ->
                   (regular_count "Physics" (sessions day) <= 1)%nat))
            (days resp_physics_revised).
Proof.
  split; [ vm_compute; reflexivity | ].
  split; [ vm_compute; reflexivity | ].
  apply Forall_forall. intros day Hday.
  apply (regular_sessions_per_day today0 req_physics_revised
           resp_physics_revised day physics).
  - vm_compute. reflexivity.
  - vm_compute. repeat constructor; simpl; intuition discriminate.
  - exact Hday.
  - left. reflexivity.
Defined.
